(** * CANopen Process Data Objects (CO_PDO.c): a shallow embedding

    The development follows
    [Forks/Guillermo_ruffino/node_two/components/CANopen/CO_PDO.c]:
    the mapping resolver [CO_PDOfindMap], the mapping configurators
    [CO_RPDOconfigMap] / [CO_TPDOconfigMap], the communication configurators
    [CO_RPDOconfigCom] / [CO_TPDOconfigCom], the Object Dictionary access
    functions [CO_ODF_RPDOcom] / [CO_ODF_TPDOcom], the transmit helper
    [CO_TPDOsend] and the receive processor [CO_RPDO_process].

    C objects are records, passed in and returned (explicit state passing);
    fixed-width integers are [Z] with the wrap-around written at every
    narrowing assignment; byte pointers are (block, offset) pairs into an
    explicit byte memory.  The build modelled is the little-endian one
    ([CO_BIG_ENDIAN] is not defined for the ESP32 target); the feature bits of
    [CO_CONFIG_PDO] are kept as booleans of a configuration record. *)

From Stdlib Require Import ZArith Lia Bool List.
From stdpp Require Import base numbers list.
Import ListNotations.

Local Open Scope Z_scope.

(** ** Fixed-width integers *)

Definition u8 (x : Z) : Z := x mod 2 ^ 8.
Definition u16 (x : Z) : Z := x mod 2 ^ 16.
Definition u32 (x : Z) : Z := x mod 2 ^ 32.

(** C truth value of an integer expression. *)
Definition nonzero (x : Z) : bool := negb (x =? 0).

(** ** Enumerations of the headers *)

(** Modelled from the spec: [CO_SDOserver.h] (the SDO abort codes) is not
    among the sources.  Section 7 of the specification names the codes the PDO
    layer returns; they are kept symbolic, [CO_SDO_AB_NONE] being the value 0
    that the C code tests with [if(ret)]. *)
Inductive CO_SDO_abortCode_t : Set :=
| CO_SDO_AB_NONE
| CO_SDO_AB_UNSUPPORTED_ACCESS
| CO_SDO_AB_READONLY
| CO_SDO_AB_NOT_EXIST
| CO_SDO_AB_NO_MAP
| CO_SDO_AB_MAP_LEN
| CO_SDO_AB_SUB_UNKNOWN
| CO_SDO_AB_INVALID_VALUE
| CO_SDO_AB_DATA_DEV_STATE.

(** Modelled from the spec: [CO_NMT_Heartbeat.h] is not among the sources;
    only the distinction operational / other matters to the PDO layer. *)
Inductive CO_NMT_internalState_t : Set :=
| CO_NMT_INITIALIZING
| CO_NMT_PRE_OPERATIONAL
| CO_NMT_OPERATIONAL
| CO_NMT_STOPPED.

(** Modelled from the spec: [CO_driver.h] is not among the sources; the two
    return values the PDO code names, and any other driver error. *)
Inductive CO_ReturnError_t : Set :=
| CO_ERROR_NO
| CO_ERROR_ILLEGAL_ARGUMENT
| CO_ERROR_other (code : Z).

(** Modelled from the spec: [CO_Emergency.h] is not among the sources; the
    error reporter is the collaborator of section 6,
    report(kind=WrongPDOMapping, class=ProtocolError, context=descriptor). *)
Inductive CO_EM_errorStatusBits_t : Set :=
| CO_EM_NO_ERROR
| CO_EM_PDO_WRONG_MAPPING.

Inductive CO_EM_errorCodes_t : Set :=
| CO_EMC_NO_ERROR
| CO_EMC_PROTOCOL_ERROR.

Definition is_NONE (c : CO_SDO_abortCode_t) : bool :=
  match c with CO_SDO_AB_NONE => true | _ => false end.

Definition is_OPERATIONAL (s : CO_NMT_internalState_t) : bool :=
  match s with CO_NMT_OPERATIONAL => true | _ => false end.

Definition is_ERROR_NO (r : CO_ReturnError_t) : bool :=
  match r with CO_ERROR_NO => true | _ => false end.

(** ** Byte memory *)

(** The storage a PDO byte pointer can reference: the two static scratch
    words of [CO_PDOfindMap], the Object Dictionary variables, and the data
    buffer the SDO server hands to an access function. *)
Inductive block : Set := dummyRX | dummyTX | ODdata | SDObuffer.

Definition block_eqb (a b : block) : bool :=
  match a, b with
  | dummyRX, dummyRX | dummyTX, dummyTX
  | ODdata, ODdata | SDObuffer, SDObuffer => true
  | _, _ => false
  end.

Definition pointer : Set := block * Z.

Definition memory : Type := block -> Z -> Z.

Definition ptr_add (p : pointer) (n : Z) : pointer := (fst p, snd p + n).

Definition ptr_eqb (p q : pointer) : bool :=
  block_eqb (fst p) (fst q) && (snd p =? snd q).

Definition load (m : memory) (p : pointer) : Z := m (fst p) (snd p).

Definition store (m : memory) (p : pointer) (v : Z) : memory :=
  fun b o => if ptr_eqb (b, o) p then u8 v else m b o.

(** Modelled from the spec: [CO_getUint32] / [CO_setUint32] are helpers of
    the absent [CO_driver.h]; section 6 of the specification fixes values as
    little-endian in OD storage. *)
Definition CO_getUint32 (m : memory) (p : pointer) : Z :=
  u8 (load m p)
  + 2 ^ 8 * u8 (load m (ptr_add p 1))
  + 2 ^ 16 * u8 (load m (ptr_add p 2))
  + 2 ^ 24 * u8 (load m (ptr_add p 3)).

Definition CO_setUint32 (m : memory) (p : pointer) (v : Z) : memory :=
  store (store (store (store m p v)
                      (ptr_add p 1) (Z.shiftr v 8))
               (ptr_add p 2) (Z.shiftr v 16))
        (ptr_add p 3) (Z.shiftr v 24).

Definition CO_getUint16 (m : memory) (p : pointer) : Z :=
  u8 (load m p) + 2 ^ 8 * u8 (load m (ptr_add p 1)).

(** ** The collaborators' objects *)

(** The argument block of an Object Dictionary access function
    ([CO_ODF_arg_t]); [object] is passed separately in the model. *)
Record CO_ODF_arg_t : Set := mkODF_arg {
  reading : bool;
  index : Z;
  subIndex : Z;
  attribute : Z;
  pFlags : Z;
  data : pointer;
  dataLength : Z
}.

(** The SDO server object as the PDO layer sees it: the Object Dictionary
    accessors of section 6 of the specification.  [CO_OD_find] yields the
    entry number, 0xFFFF when the index is absent; [ODExtensions] is the
    optional table of application hooks, a hook acting on the byte memory. *)
Record CO_SDO_t : Type := mkSDO {
  CO_OD_find : Z -> Z;
  OD_maxSubIndex : Z -> Z;
  CO_OD_getAttribute : Z -> Z -> Z;
  CO_OD_getLength : Z -> Z -> Z;
  CO_OD_getFlagsPointer : Z -> Z -> Z;
  CO_OD_getDataPointer : Z -> Z -> Z;
  ODExtensions : option (Z -> option (CO_ODF_arg_t -> memory -> memory))
}.

(** The attribute masks [CO_ODA_*] of the absent [CO_SDOserver.h], taken as
    parameters of the development. *)
Record CO_SDO_OD_attributes_t : Set := mkODA {
  CO_ODA_READABLE : Z;
  CO_ODA_WRITEABLE : Z;
  CO_ODA_RPDO_MAPABLE : Z;
  CO_ODA_TPDO_MAPABLE : Z;
  CO_ODA_TPDO_DETECT_COS : Z;
  CO_ODA_MB_VALUE : Z
}.

(** The feature bits of [CO_CONFIG_PDO] that select code in CO_PDO.c. *)
Record CO_CONFIG_PDO_t : Set := mkCONFIG {
  CO_CONFIG_PDO_SYNC_ENABLE : bool;
  CO_CONFIG_TPDO_CALLS_EXTENSION : bool;
  CO_CONFIG_RPDO_CALLS_EXTENSION : bool
}.

(** One emergency report, and the reporter as the list of reports made so
    far (oldest first). *)
Record CO_EM_report : Set := mkReport {
  errorBit : CO_EM_errorStatusBits_t;
  errorCode : CO_EM_errorCodes_t;
  infoCode : Z
}.

Definition CO_EM_t : Set := list CO_EM_report.

Definition CO_errorReport (em : CO_EM_t) (bit : CO_EM_errorStatusBits_t)
    (code : CO_EM_errorCodes_t) (info : Z) : CO_EM_t :=
  em ++ [mkReport bit code info].

Record CO_SYNC_t : Set := mkSYNC {
  CANrxToggle : bool;
  counterOverflowValue : Z;
  counter : Z
}.

(** A CAN transmit buffer: the two members CO_PDO.c touches. *)
Record CO_CANtx_t : Set := mkCANtx {
  tx_data : list Z;
  syncFlag : Z
}.

(** Modelled from the spec: the CAN driver is an external collaborator
    (section 6: registerReceiveSlot, registerTransmitSlot, send).  The module
    keeps the log of the calls made to it; the outcome of a call is given by
    the module's own behaviour, a function of that log and of the arguments. *)
Inductive CANcall : Set :=
| CANrxBufferInit_call (idx ident mask : Z) (rtr : bool)
| CANtxBufferInit_call (idx ident : Z) (rtr : bool) (noOfBytes : Z) (sync : Z)
| CANsend_call (buffer : CO_CANtx_t).

Record CO_CANmodule_t : Type := mkCANmodule {
  CANlog : list CANcall;
  rxBufferInit_outcome : list CANcall -> Z -> Z -> Z -> bool -> CO_ReturnError_t;
  txBufferInit_outcome :
    list CANcall -> Z -> Z -> bool -> Z -> Z -> option CO_CANtx_t;
  send_outcome : list CANcall -> CO_CANtx_t -> CO_ReturnError_t
}.

Definition CAN_logged (dev : CO_CANmodule_t) (c : CANcall) : CO_CANmodule_t :=
  mkCANmodule (CANlog dev ++ [c]) (rxBufferInit_outcome dev)
              (txBufferInit_outcome dev) (send_outcome dev).

Definition CO_CANrxBufferInit (dev : CO_CANmodule_t) (idx ident mask : Z)
    (rtr : bool) : CO_CANmodule_t * CO_ReturnError_t :=
  (CAN_logged dev (CANrxBufferInit_call idx ident mask rtr),
   rxBufferInit_outcome dev (CANlog dev) idx ident mask rtr).

Definition CO_CANtxBufferInit (dev : CO_CANmodule_t) (idx ident : Z)
    (rtr : bool) (noOfBytes sync : Z) : CO_CANmodule_t * option CO_CANtx_t :=
  (CAN_logged dev (CANtxBufferInit_call idx ident rtr noOfBytes sync),
   txBufferInit_outcome dev (CANlog dev) idx ident rtr noOfBytes sync).

Definition CO_CANsend (dev : CO_CANmodule_t) (buffer : CO_CANtx_t)
    : CO_CANmodule_t * CO_ReturnError_t :=
  (CAN_logged dev (CANsend_call buffer), send_outcome dev (CANlog dev) buffer).

(** ** The PDO objects *)

(** The OD-resident mapping parameter block.  [mappedObject k] is the 32-bit
    word read by [*(pMap++)] at step [k], [pMap] starting at
    [&mappedObject1]: words 0..7 are the members [mappedObject1] ..
    [mappedObject8], later words are what follows the block in memory. *)
Record CO_PDOMapPar_t : Type := mkMapPar {
  numberOfMappedObjects : Z;
  mappedObject : nat -> Z
}.

Record CO_RPDOCommPar_t : Set := mkRPDOCommPar {
  COB_IDUsedByRPDO : Z;
  RPDO_transmissionType : Z
}.

Record CO_TPDOCommPar_t : Set := mkTPDOCommPar {
  COB_IDUsedByTPDO : Z;
  TPDO_transmissionType : Z;
  inhibitTime : Z;
  TPDO_eventTimer : Z;
  SYNCStartValue : Z
}.

(** [CO_RPDO_t].  Pointers to the collaborators' objects are modelled by the
    objects themselves; [SYNC] may be the null pointer.  [mapPointer],
    [CANrxNew] and [CANrxData] are the arrays of 8, 2 and 2x8 elements. *)
Module RPDO.
Record CO_RPDO_t : Type := mk {
  em : CO_EM_t;
  SDO : CO_SDO_t;
  SYNC : option CO_SYNC_t;
  RPDOCommPar : CO_RPDOCommPar_t;
  RPDOMapPar : CO_PDOMapPar_t;
  operatingState : CO_NMT_internalState_t;
  nodeId : Z;
  defaultCOB_ID : Z;
  restrictionFlags : Z;
  valid : bool;
  synchronous : bool;
  dataLength : Z;
  mapPointer : list pointer;
  CANrxNew : list bool;
  CANrxData : list (list Z);
  CANdevRx : CO_CANmodule_t;
  CANdevRxIdx : Z
}.

Definition set_em (x : CO_EM_t) (r : CO_RPDO_t) : CO_RPDO_t :=
  mk x (SDO r) (SYNC r) (RPDOCommPar r) (RPDOMapPar r) (operatingState r)
     (nodeId r) (defaultCOB_ID r) (restrictionFlags r) (valid r)
     (synchronous r) (dataLength r) (mapPointer r) (CANrxNew r) (CANrxData r)
     (CANdevRx r) (CANdevRxIdx r).

Definition set_valid (x : bool) (r : CO_RPDO_t) : CO_RPDO_t :=
  mk (em r) (SDO r) (SYNC r) (RPDOCommPar r) (RPDOMapPar r) (operatingState r)
     (nodeId r) (defaultCOB_ID r) (restrictionFlags r) x
     (synchronous r) (dataLength r) (mapPointer r) (CANrxNew r) (CANrxData r)
     (CANdevRx r) (CANdevRxIdx r).

Definition set_synchronous (x : bool) (r : CO_RPDO_t) : CO_RPDO_t :=
  mk (em r) (SDO r) (SYNC r) (RPDOCommPar r) (RPDOMapPar r) (operatingState r)
     (nodeId r) (defaultCOB_ID r) (restrictionFlags r) (valid r)
     x (dataLength r) (mapPointer r) (CANrxNew r) (CANrxData r)
     (CANdevRx r) (CANdevRxIdx r).

Definition set_dataLength (x : Z) (r : CO_RPDO_t) : CO_RPDO_t :=
  mk (em r) (SDO r) (SYNC r) (RPDOCommPar r) (RPDOMapPar r) (operatingState r)
     (nodeId r) (defaultCOB_ID r) (restrictionFlags r) (valid r)
     (synchronous r) x (mapPointer r) (CANrxNew r) (CANrxData r)
     (CANdevRx r) (CANdevRxIdx r).

Definition set_mapPointer (x : list pointer) (r : CO_RPDO_t) : CO_RPDO_t :=
  mk (em r) (SDO r) (SYNC r) (RPDOCommPar r) (RPDOMapPar r) (operatingState r)
     (nodeId r) (defaultCOB_ID r) (restrictionFlags r) (valid r)
     (synchronous r) (dataLength r) x (CANrxNew r) (CANrxData r)
     (CANdevRx r) (CANdevRxIdx r).

Definition set_CANrxNew (x : list bool) (r : CO_RPDO_t) : CO_RPDO_t :=
  mk (em r) (SDO r) (SYNC r) (RPDOCommPar r) (RPDOMapPar r) (operatingState r)
     (nodeId r) (defaultCOB_ID r) (restrictionFlags r) (valid r)
     (synchronous r) (dataLength r) (mapPointer r) x (CANrxData r)
     (CANdevRx r) (CANdevRxIdx r).

Definition set_CANdevRx (x : CO_CANmodule_t) (r : CO_RPDO_t) : CO_RPDO_t :=
  mk (em r) (SDO r) (SYNC r) (RPDOCommPar r) (RPDOMapPar r) (operatingState r)
     (nodeId r) (defaultCOB_ID r) (restrictionFlags r) (valid r)
     (synchronous r) (dataLength r) (mapPointer r) (CANrxNew r) (CANrxData r)
     x (CANdevRxIdx r).
End RPDO.

(** [CO_TPDO_t].  [CANtxBuff] is the pointer returned by
    [CO_CANtxBufferInit], [None] for the null pointer. *)
Module TPDO.
Record CO_TPDO_t : Type := mk {
  em : CO_EM_t;
  SDO : CO_SDO_t;
  SYNC : option CO_SYNC_t;
  TPDOCommPar : CO_TPDOCommPar_t;
  TPDOMapPar : CO_PDOMapPar_t;
  operatingState : CO_NMT_internalState_t;
  nodeId : Z;
  defaultCOB_ID : Z;
  restrictionFlags : Z;
  valid : bool;
  dataLength : Z;
  sendRequest : Z;
  mapPointer : list pointer;
  syncCounter : Z;
  inhibitTimer : Z;
  eventTimer : Z;
  sendIfCOSFlags : Z;
  CANdevTx : CO_CANmodule_t;
  CANtxBuff : option CO_CANtx_t;
  CANdevTxIdx : Z
}.

Definition set_em (x : CO_EM_t) (t : CO_TPDO_t) : CO_TPDO_t :=
  mk x (SDO t) (SYNC t) (TPDOCommPar t) (TPDOMapPar t) (operatingState t)
     (nodeId t) (defaultCOB_ID t) (restrictionFlags t) (valid t)
     (dataLength t) (sendRequest t) (mapPointer t) (syncCounter t)
     (inhibitTimer t) (eventTimer t) (sendIfCOSFlags t) (CANdevTx t)
     (CANtxBuff t) (CANdevTxIdx t).

Definition set_valid (x : bool) (t : CO_TPDO_t) : CO_TPDO_t :=
  mk (em t) (SDO t) (SYNC t) (TPDOCommPar t) (TPDOMapPar t) (operatingState t)
     (nodeId t) (defaultCOB_ID t) (restrictionFlags t) x
     (dataLength t) (sendRequest t) (mapPointer t) (syncCounter t)
     (inhibitTimer t) (eventTimer t) (sendIfCOSFlags t) (CANdevTx t)
     (CANtxBuff t) (CANdevTxIdx t).

Definition set_dataLength (x : Z) (t : CO_TPDO_t) : CO_TPDO_t :=
  mk (em t) (SDO t) (SYNC t) (TPDOCommPar t) (TPDOMapPar t) (operatingState t)
     (nodeId t) (defaultCOB_ID t) (restrictionFlags t) (valid t)
     x (sendRequest t) (mapPointer t) (syncCounter t)
     (inhibitTimer t) (eventTimer t) (sendIfCOSFlags t) (CANdevTx t)
     (CANtxBuff t) (CANdevTxIdx t).

Definition set_sendRequest (x : Z) (t : CO_TPDO_t) : CO_TPDO_t :=
  mk (em t) (SDO t) (SYNC t) (TPDOCommPar t) (TPDOMapPar t) (operatingState t)
     (nodeId t) (defaultCOB_ID t) (restrictionFlags t) (valid t)
     (dataLength t) x (mapPointer t) (syncCounter t)
     (inhibitTimer t) (eventTimer t) (sendIfCOSFlags t) (CANdevTx t)
     (CANtxBuff t) (CANdevTxIdx t).

Definition set_mapPointer (x : list pointer) (t : CO_TPDO_t) : CO_TPDO_t :=
  mk (em t) (SDO t) (SYNC t) (TPDOCommPar t) (TPDOMapPar t) (operatingState t)
     (nodeId t) (defaultCOB_ID t) (restrictionFlags t) (valid t)
     (dataLength t) (sendRequest t) x (syncCounter t)
     (inhibitTimer t) (eventTimer t) (sendIfCOSFlags t) (CANdevTx t)
     (CANtxBuff t) (CANdevTxIdx t).

Definition set_syncCounter (x : Z) (t : CO_TPDO_t) : CO_TPDO_t :=
  mk (em t) (SDO t) (SYNC t) (TPDOCommPar t) (TPDOMapPar t) (operatingState t)
     (nodeId t) (defaultCOB_ID t) (restrictionFlags t) (valid t)
     (dataLength t) (sendRequest t) (mapPointer t) x
     (inhibitTimer t) (eventTimer t) (sendIfCOSFlags t) (CANdevTx t)
     (CANtxBuff t) (CANdevTxIdx t).

Definition set_inhibitTimer (x : Z) (t : CO_TPDO_t) : CO_TPDO_t :=
  mk (em t) (SDO t) (SYNC t) (TPDOCommPar t) (TPDOMapPar t) (operatingState t)
     (nodeId t) (defaultCOB_ID t) (restrictionFlags t) (valid t)
     (dataLength t) (sendRequest t) (mapPointer t) (syncCounter t)
     x (eventTimer t) (sendIfCOSFlags t) (CANdevTx t)
     (CANtxBuff t) (CANdevTxIdx t).

Definition set_eventTimer (x : Z) (t : CO_TPDO_t) : CO_TPDO_t :=
  mk (em t) (SDO t) (SYNC t) (TPDOCommPar t) (TPDOMapPar t) (operatingState t)
     (nodeId t) (defaultCOB_ID t) (restrictionFlags t) (valid t)
     (dataLength t) (sendRequest t) (mapPointer t) (syncCounter t)
     (inhibitTimer t) x (sendIfCOSFlags t) (CANdevTx t)
     (CANtxBuff t) (CANdevTxIdx t).

Definition set_sendIfCOSFlags (x : Z) (t : CO_TPDO_t) : CO_TPDO_t :=
  mk (em t) (SDO t) (SYNC t) (TPDOCommPar t) (TPDOMapPar t) (operatingState t)
     (nodeId t) (defaultCOB_ID t) (restrictionFlags t) (valid t)
     (dataLength t) (sendRequest t) (mapPointer t) (syncCounter t)
     (inhibitTimer t) (eventTimer t) x (CANdevTx t)
     (CANtxBuff t) (CANdevTxIdx t).

Definition set_CANdevTx (x : CO_CANmodule_t) (t : CO_TPDO_t) : CO_TPDO_t :=
  mk (em t) (SDO t) (SYNC t) (TPDOCommPar t) (TPDOMapPar t) (operatingState t)
     (nodeId t) (defaultCOB_ID t) (restrictionFlags t) (valid t)
     (dataLength t) (sendRequest t) (mapPointer t) (syncCounter t)
     (inhibitTimer t) (eventTimer t) (sendIfCOSFlags t) x
     (CANtxBuff t) (CANdevTxIdx t).

Definition set_CANtxBuff (x : option CO_CANtx_t) (t : CO_TPDO_t) : CO_TPDO_t :=
  mk (em t) (SDO t) (SYNC t) (TPDOCommPar t) (TPDOMapPar t) (operatingState t)
     (nodeId t) (defaultCOB_ID t) (restrictionFlags t) (valid t)
     (dataLength t) (sendRequest t) (mapPointer t) (syncCounter t)
     (inhibitTimer t) (eventTimer t) (sendIfCOSFlags t) (CANdevTx t)
     x (CANdevTxIdx t).
End TPDO.

Abbreviation CO_RPDO_t := RPDO.CO_RPDO_t.
Abbreviation CO_TPDO_t := TPDO.CO_TPDO_t.

(** The contents of the four output parameters of [CO_PDOfindMap] when it
    returns. *)
Record CO_PDOfindMap_out : Set := mkOut {
  ppData : pointer;
  pLength : Z;
  pSendIfCOSFlags : Z;
  pIsMultibyteVar : Z
}.

(** Locals that C leaves uninitialised ([uint8_t* pData; uint8_t MBvar;]):
    the functions below never read them before [CO_PDOfindMap] wrote them
    (the little-endian build does not read [MBvar] at all). *)
Definition uninitialised_pData : pointer := (ODdata, 0).
Definition uninitialised_MBvar : Z := 0.

(** [for(i=*pLength-dataLen; i<*pLength; i++) *pSendIfCOSFlags |= 1<<i;]
    with [n] iterations left. *)
Fixpoint sendIfCOSFlags_for (n : nat) (i : Z) (flags : Z) : Z :=
  match n with
  | O => flags
  | S n' => sendIfCOSFlags_for n' (i + 1) (u8 (Z.lor flags (Z.shiftl 1 i)))
  end.

(** [for(j=prevLength; j<length; j++) mapPointer[j] = pData++;]
    with [n] iterations left.  [j] stays below the accumulated length, which
    [CO_PDOfindMap] keeps at 8 or less, so every write falls inside the
    8-element array. *)
Fixpoint mapPointer_for (n : nat) (j : Z) (pData : pointer)
    (mapPointer : list pointer) : list pointer :=
  match n with
  | O => mapPointer
  | S n' =>
      mapPointer_for n' (j + 1) (ptr_add pData 1)
                     (<[Z.to_nat j := pData]> mapPointer)
  end.

Section CO_PDO.

Variable ODA : CO_SDO_OD_attributes_t.
Variable CONFIG : CO_CONFIG_PDO_t.

(** ** CO_PDOfindMap (CO_PDO.c, lines 184-271) *)

Definition dummySize_of (index : Z) : Z :=
  if index <? 2 then 0
  else if (index =? 2) || (index =? 5) then 1
  else if (index =? 3) || (index =? 6) then 2
  else 4.

Definition CO_PDOfindMap (SDO : CO_SDO_t) (map : Z) (R_T : Z)
    (ppData0 : pointer) (pLength0 pSendIfCOSFlags0 pIsMultibyteVar0 : Z)
    : CO_SDO_abortCode_t * CO_PDOfindMap_out :=
  let index := u16 (Z.shiftr map 16) in
  let subIndex := u8 (Z.shiftr map 8) in
  let dataLen := u8 map in
  (* data length must be byte aligned *)
  if nonzero (Z.land dataLen 7) then
    (CO_SDO_AB_NO_MAP,
     mkOut ppData0 pLength0 pSendIfCOSFlags0 pIsMultibyteVar0)
  else
  let dataLen := Z.shiftr dataLen 3 in
  let pLength1 := u8 (pLength0 + dataLen) in
  (* total PDO length can not be more than 8 bytes *)
  if 8 <? pLength1 then
    (CO_SDO_AB_MAP_LEN,
     mkOut ppData0 pLength1 pSendIfCOSFlags0 pIsMultibyteVar0)
  else
  (* is there a reference to dummy entries *)
  if (index <=? 7) && (subIndex =? 0) then
    let dummySize := dummySize_of index in
    if dummySize <? dataLen then
      (CO_SDO_AB_NO_MAP,
       mkOut ppData0 pLength1 pSendIfCOSFlags0 pIsMultibyteVar0)
    else
      (CO_SDO_AB_NONE,
       mkOut (if R_T =? 0 then (dummyRX, 0) else (dummyTX, 0))
             pLength1 pSendIfCOSFlags0 pIsMultibyteVar0)
  else
  (* find object in Object Dictionary *)
  let entryNo := u16 (CO_OD_find SDO index) in
  if (entryNo =? 0xFFFF) || (OD_maxSubIndex SDO entryNo <? subIndex) then
    (CO_SDO_AB_NOT_EXIST,
     mkOut ppData0 pLength1 pSendIfCOSFlags0 pIsMultibyteVar0)
  else
  let attr := u8 (CO_OD_getAttribute SDO entryNo subIndex) in
  if (R_T =? 0)
     && negb (nonzero (Z.land attr (CO_ODA_RPDO_MAPABLE ODA))
              && nonzero (Z.land attr (CO_ODA_WRITEABLE ODA))) then
    (CO_SDO_AB_NO_MAP,
     mkOut ppData0 pLength1 pSendIfCOSFlags0 pIsMultibyteVar0)
  else
  if negb (R_T =? 0)
     && negb (nonzero (Z.land attr (CO_ODA_TPDO_MAPABLE ODA))
              && nonzero (Z.land attr (CO_ODA_READABLE ODA))) then
    (CO_SDO_AB_NO_MAP,
     mkOut ppData0 pLength1 pSendIfCOSFlags0 pIsMultibyteVar0)
  else
  let objectLen := u8 (CO_OD_getLength SDO entryNo subIndex) in
  if objectLen <? dataLen then
    (CO_SDO_AB_NO_MAP,
     mkOut ppData0 pLength1 pSendIfCOSFlags0 pIsMultibyteVar0)
  else
  let MB := if nonzero (Z.land attr (CO_ODA_MB_VALUE ODA)) then 1 else 0 in
  let pData := (ODdata, CO_OD_getDataPointer SDO entryNo subIndex) in
  let flags :=
    if nonzero (Z.land attr (CO_ODA_TPDO_DETECT_COS ODA))
    then sendIfCOSFlags_for (Z.to_nat dataLen) (pLength1 - dataLen)
                            pSendIfCOSFlags0
    else pSendIfCOSFlags0 in
  (CO_SDO_AB_NONE, mkOut pData pLength1 flags MB).

(** ** CO_RPDOconfigMap (lines 287-337) *)

(** The [for(i=noOfMappedObjects; i>0; i--)] loop with [i] iterations left;
    [pMap] counts the descriptors already read, [length] is the local of that
    name.  The result carries the locals [length] and [ret] at loop exit. *)
Fixpoint CO_RPDOconfigMap_for (i : nat) (pMap : nat) (length : Z)
    (RPDO : CO_RPDO_t) : CO_RPDO_t * Z * CO_SDO_abortCode_t :=
  match i with
  | O => (RPDO, length, CO_SDO_AB_NONE)
  | S i' =>
      let dummy := 0 in
      let prevLength := length in
      let map := mappedObject (RPDO.RPDOMapPar RPDO) pMap in
      let '(ret, out) :=
        CO_PDOfindMap (RPDO.SDO RPDO) map 0
                      uninitialised_pData length dummy uninitialised_MBvar in
      if is_NONE ret then
        let length := pLength out in
        let RPDO :=
          RPDO.set_mapPointer
            (mapPointer_for (Z.to_nat (length - prevLength)) prevLength
                            (ppData out) (RPDO.mapPointer RPDO)) RPDO in
        CO_RPDOconfigMap_for i' (S pMap) length RPDO
      else
        (RPDO.set_em (CO_errorReport (RPDO.em RPDO) CO_EM_PDO_WRONG_MAPPING
                                     CO_EMC_PROTOCOL_ERROR map) RPDO,
         0, ret)
  end.

Definition CO_RPDOconfigMap (RPDO : CO_RPDO_t) (noOfMappedObjects : Z)
    : CO_RPDO_t * CO_SDO_abortCode_t :=
  let '(RPDO, length, ret) :=
    CO_RPDOconfigMap_for (Z.to_nat noOfMappedObjects) 0 0 RPDO in
  (RPDO.set_dataLength length RPDO, ret).

(** ** CO_TPDOconfigMap (lines 353-404) *)

Fixpoint CO_TPDOconfigMap_for (i : nat) (pMap : nat) (length : Z)
    (TPDO : CO_TPDO_t) : CO_TPDO_t * Z * CO_SDO_abortCode_t :=
  match i with
  | O => (TPDO, length, CO_SDO_AB_NONE)
  | S i' =>
      let prevLength := length in
      let map := mappedObject (TPDO.TPDOMapPar TPDO) pMap in
      let '(ret, out) :=
        CO_PDOfindMap (TPDO.SDO TPDO) map 1
                      uninitialised_pData length (TPDO.sendIfCOSFlags TPDO)
                      uninitialised_MBvar in
      let TPDO := TPDO.set_sendIfCOSFlags (pSendIfCOSFlags out) TPDO in
      if is_NONE ret then
        let length := pLength out in
        let TPDO :=
          TPDO.set_mapPointer
            (mapPointer_for (Z.to_nat (length - prevLength)) prevLength
                            (ppData out) (TPDO.mapPointer TPDO)) TPDO in
        CO_TPDOconfigMap_for i' (S pMap) length TPDO
      else
        (TPDO.set_em (CO_errorReport (TPDO.em TPDO) CO_EM_PDO_WRONG_MAPPING
                                     CO_EMC_PROTOCOL_ERROR map) TPDO,
         0, ret)
  end.

Definition CO_TPDOconfigMap (TPDO : CO_TPDO_t) (noOfMappedObjects : Z)
    : CO_TPDO_t * CO_SDO_abortCode_t :=
  let TPDO := TPDO.set_sendIfCOSFlags 0 TPDO in
  let '(TPDO, length, ret) :=
    CO_TPDOconfigMap_for (Z.to_nat noOfMappedObjects) 0 0 TPDO in
  (TPDO.set_dataLength length TPDO, ret).

(** ** CO_RPDOconfigCom (lines 84-122) *)

(** [CO_FLAG_CLEAR(RPDO->CANrxNew[0])], and [CANrxNew[1]] when SYNC support
    is compiled in. *)
Definition RPDO_clear_CANrxNew (RPDO : CO_RPDO_t) : CO_RPDO_t :=
  let RPDO :=
    RPDO.set_CANrxNew (<[0%nat := false]> (RPDO.CANrxNew RPDO)) RPDO in
  if CO_CONFIG_PDO_SYNC_ENABLE CONFIG
  then RPDO.set_CANrxNew (<[1%nat := false]> (RPDO.CANrxNew RPDO)) RPDO
  else RPDO.

(** The receive callback [CO_PDO_receive] and the object pointer handed to
    [CO_CANrxBufferInit] are the same at every call and are left out of the
    call log. *)
Definition CO_RPDOconfigCom (RPDO : CO_RPDO_t) (COB_IDUsedByRPDO : Z)
    : CO_RPDO_t :=
  let ID := u16 COB_IDUsedByRPDO in
  let '(ID, RPDO) :=
    (* is RPDO used? *)
    if (Z.land COB_IDUsedByRPDO 0xBFFFF800 =? 0)
       && nonzero (RPDO.dataLength RPDO) && nonzero ID
    then
      (* is used default COB-ID? *)
      let ID := if ID =? RPDO.defaultCOB_ID RPDO
                then u16 (ID + RPDO.nodeId RPDO) else ID in
      let RPDO := RPDO.set_valid true RPDO in
      let RPDO :=
        if CO_CONFIG_PDO_SYNC_ENABLE CONFIG
        then RPDO.set_synchronous
               (RPDO_transmissionType (RPDO.RPDOCommPar RPDO) <=? 240) RPDO
        else RPDO in
      (ID, RPDO)
    else
      (0, RPDO_clear_CANrxNew (RPDO.set_valid false RPDO)) in
  let '(dev, r) :=
    CO_CANrxBufferInit (RPDO.CANdevRx RPDO) (RPDO.CANdevRxIdx RPDO)
                       ID 0x7FF false in
  let RPDO := RPDO.set_CANdevRx dev RPDO in
  if is_ERROR_NO r then RPDO
  else RPDO_clear_CANrxNew (RPDO.set_valid false RPDO).

(** ** CO_TPDOconfigCom (lines 139-166) *)

Definition CO_TPDOconfigCom (TPDO : CO_TPDO_t) (COB_IDUsedByTPDO : Z)
    (syncFlag : Z) : CO_TPDO_t :=
  let ID := u16 COB_IDUsedByTPDO in
  let '(ID, TPDO) :=
    (* is TPDO used? *)
    if (Z.land COB_IDUsedByTPDO 0xBFFFF800 =? 0)
       && nonzero (TPDO.dataLength TPDO) && nonzero ID
    then
      (* is used default COB-ID? *)
      let ID := if ID =? TPDO.defaultCOB_ID TPDO
                then u16 (ID + TPDO.nodeId TPDO) else ID in
      (ID, TPDO.set_valid true TPDO)
    else
      (0, TPDO.set_valid false TPDO) in
  let '(dev, buff) :=
    CO_CANtxBufferInit (TPDO.CANdevTx TPDO) (TPDO.CANdevTxIdx TPDO)
                       ID false (TPDO.dataLength TPDO) syncFlag in
  let TPDO := TPDO.set_CANtxBuff buff (TPDO.set_CANdevTx dev TPDO) in
  match buff with
  | None => TPDO.set_valid false TPDO
  | Some _ => TPDO
  end.

(** ** CO_ODF_RPDOcom (lines 412-484) *)

Definition CO_ODF_RPDOcom (RPDO : CO_RPDO_t) (ODF_arg : CO_ODF_arg_t)
    (m : memory) : CO_SDO_abortCode_t * CO_RPDO_t * memory :=
  (* Reading Object Dictionary variable *)
  if reading ODF_arg then
    if subIndex ODF_arg =? 1 then
      let value := CO_getUint32 m (data ODF_arg) in
      (* if default COB ID is used, write default value here *)
      let value :=
        if (Z.land value 0xFFFF =? RPDO.defaultCOB_ID RPDO)
           && nonzero (RPDO.defaultCOB_ID RPDO)
        then u32 (value + RPDO.nodeId RPDO) else value in
      (* If PDO is not valid, set bit 31 *)
      let value :=
        if negb (RPDO.valid RPDO) then Z.lor value 0x80000000 else value in
      (CO_SDO_AB_NONE, RPDO, CO_setUint32 m (data ODF_arg) value)
    else (CO_SDO_AB_NONE, RPDO, m)
  else
  (* Writing Object Dictionary variable *)
  if nonzero (Z.land (RPDO.restrictionFlags RPDO) 0x04) then
    (CO_SDO_AB_READONLY, RPDO, m)
  else
  if is_OPERATIONAL (RPDO.operatingState RPDO)
     && nonzero (Z.land (RPDO.restrictionFlags RPDO) 0x01) then
    (CO_SDO_AB_DATA_DEV_STATE, RPDO, m)
  else
  if subIndex ODF_arg =? 1 then   (* COB_ID *)
    let value := CO_getUint32 m (data ODF_arg) in
    (* bits 11...29 must be zero *)
    if nonzero (Z.land value 0x3FFF8000) then
      (CO_SDO_AB_INVALID_VALUE, RPDO, m)
    else
    (* if default COB-ID is being written, write defaultCOB_ID without nodeId *)
    let '(value, m) :=
      if Z.land value 0xFFFF
         =? RPDO.defaultCOB_ID RPDO + RPDO.nodeId RPDO
      then
        let value :=
          u32 (Z.land value 0xC0000000 + RPDO.defaultCOB_ID RPDO) in
        (value, CO_setUint32 m (data ODF_arg) value)
      else (value, m) in
    (* if PDO is valid, bits 0..29 can not be changed *)
    if RPDO.valid RPDO
       && nonzero (Z.land (Z.lxor value
                             (COB_IDUsedByRPDO (RPDO.RPDOCommPar RPDO)))
                          0x3FFFFFFF) then
      (CO_SDO_AB_INVALID_VALUE, RPDO, m)
    else
    (* configure RPDO *)
    (CO_SDO_AB_NONE, CO_RPDOconfigCom RPDO value, m)
  else if subIndex ODF_arg =? 2 then   (* Transmission_type *)
    let value := u8 (load m (data ODF_arg)) in
    if CO_CONFIG_PDO_SYNC_ENABLE CONFIG then
      let synchronousPrev := RPDO.synchronous RPDO in
      (* values from 241...253 are not valid *)
      if (241 <=? value) && (value <=? 253) then
        (CO_SDO_AB_INVALID_VALUE, RPDO, m)
      else
      let RPDO := RPDO.set_synchronous (value <=? 240) RPDO in
      (* Remove old message from second buffer. *)
      let RPDO :=
        if negb (Bool.eqb (RPDO.synchronous RPDO) synchronousPrev)
        then RPDO.set_CANrxNew (<[1%nat := false]> (RPDO.CANrxNew RPDO)) RPDO
        else RPDO in
      (CO_SDO_AB_NONE, RPDO, m)
    else
      (* values from 0...253 are not valid *)
      if value <=? 253 then (CO_SDO_AB_INVALID_VALUE, RPDO, m)
      else (CO_SDO_AB_NONE, RPDO, m)
  else (CO_SDO_AB_NONE, RPDO, m).

(** ** CO_ODF_TPDOcom (lines 492-587) *)

(** The function dereferences [TPDO->CANtxBuff] on two paths; the result is
    [None] when that pointer is null there (undefined behaviour in C). *)
Definition CO_ODF_TPDOcom (TPDO : CO_TPDO_t) (ODF_arg : CO_ODF_arg_t)
    (m : memory) : option (CO_SDO_abortCode_t * CO_TPDO_t * memory) :=
  if subIndex ODF_arg =? 4 then Some (CO_SDO_AB_SUB_UNKNOWN, TPDO, m) else
  (* Reading Object Dictionary variable *)
  if reading ODF_arg then
    if subIndex ODF_arg =? 1 then
      let value := CO_getUint32 m (data ODF_arg) in
      let value :=
        if (Z.land value 0xFFFF =? TPDO.defaultCOB_ID TPDO)
           && nonzero (TPDO.defaultCOB_ID TPDO)
        then u32 (value + TPDO.nodeId TPDO) else value in
      let value :=
        if negb (TPDO.valid TPDO) then Z.lor value 0x80000000 else value in
      Some (CO_SDO_AB_NONE, TPDO, CO_setUint32 m (data ODF_arg) value)
    else Some (CO_SDO_AB_NONE, TPDO, m)
  else
  (* Writing Object Dictionary variable *)
  if nonzero (Z.land (TPDO.restrictionFlags TPDO) 0x04) then
    Some (CO_SDO_AB_READONLY, TPDO, m)
  else
  if is_OPERATIONAL (TPDO.operatingState TPDO)
     && nonzero (Z.land (TPDO.restrictionFlags TPDO) 0x01) then
    Some (CO_SDO_AB_DATA_DEV_STATE, TPDO, m)
  else
  if subIndex ODF_arg =? 1 then   (* COB_ID *)
    let value := CO_getUint32 m (data ODF_arg) in
    (* bits 11...29 must be zero *)
    if nonzero (Z.land value 0x3FFF8000) then
      Some (CO_SDO_AB_INVALID_VALUE, TPDO, m)
    else
    (* if default COB-ID is being written, write defaultCOB_ID without nodeId *)
    let '(value, m) :=
      if Z.land value 0xFFFF
         =? TPDO.defaultCOB_ID TPDO + TPDO.nodeId TPDO
      then
        let value :=
          u32 (Z.land value 0xC0000000 + TPDO.defaultCOB_ID TPDO) in
        (value, CO_setUint32 m (data ODF_arg) value)
      else (value, m) in
    (* if PDO is valid, bits 0..29 can not be changed *)
    if TPDO.valid TPDO
       && nonzero (Z.land (Z.lxor value
                             (COB_IDUsedByTPDO (TPDO.TPDOCommPar TPDO)))
                          0x3FFFFFFF) then
      Some (CO_SDO_AB_INVALID_VALUE, TPDO, m)
    else
    (* configure TPDO *)
    match TPDO.CANtxBuff TPDO with
    | None => None
    | Some buff =>
        let TPDO := CO_TPDOconfigCom TPDO value (syncFlag buff) in
        let TPDO :=
          if CO_CONFIG_PDO_SYNC_ENABLE CONFIG
          then TPDO.set_syncCounter 255 TPDO else TPDO in
        Some (CO_SDO_AB_NONE, TPDO, m)
    end
  else if subIndex ODF_arg =? 2 then   (* Transmission_type *)
    let value := u8 (load m (data ODF_arg)) in
    if CO_CONFIG_PDO_SYNC_ENABLE CONFIG then
      (* values from 241...253 are not valid *)
      if (241 <=? value) && (value <=? 253) then
        Some (CO_SDO_AB_INVALID_VALUE, TPDO, m)
      else
      match TPDO.CANtxBuff TPDO with
      | None => None
      | Some buff =>
          let buff :=
            mkCANtx (tx_data buff) (if value <=? 240 then 1 else 0) in
          let TPDO := TPDO.set_CANtxBuff (Some buff) TPDO in
          Some (CO_SDO_AB_NONE, TPDO.set_syncCounter 255 TPDO, m)
      end
    else
      (* values from 0...253 are not valid *)
      if value <=? 253 then Some (CO_SDO_AB_INVALID_VALUE, TPDO, m)
      else Some (CO_SDO_AB_NONE, TPDO, m)
  else if subIndex ODF_arg =? 3 then   (* Inhibit_Time *)
    (* if PDO is valid, value can not be changed *)
    if TPDO.valid TPDO then Some (CO_SDO_AB_INVALID_VALUE, TPDO, m)
    else Some (CO_SDO_AB_NONE, TPDO.set_inhibitTimer 0 TPDO, m)
  else if subIndex ODF_arg =? 5 then   (* Event_Timer *)
    let value := CO_getUint16 m (data ODF_arg) in
    Some (CO_SDO_AB_NONE, TPDO.set_eventTimer (u32 (value * 1000)) TPDO, m)
  else if subIndex ODF_arg =? 6 then   (* SYNC start value *)
    let value := u8 (load m (data ODF_arg)) in
    (* if PDO is valid, value can not be changed *)
    if TPDO.valid TPDO then Some (CO_SDO_AB_INVALID_VALUE, TPDO, m)
    (* values from 240...255 are not valid *)
    else if 240 <? value then Some (CO_SDO_AB_INVALID_VALUE, TPDO, m)
    else Some (CO_SDO_AB_NONE, TPDO, m)
  else Some (CO_SDO_AB_NONE, TPDO, m).

(** ** OD extension calls (lines 897-924 and 989-1017) *)

(** The loop [for(i=numberOfMappedObjects; i>0; i--)] that calls the OD
    extension of every mapped object that has one; [rd] is the value given to
    [ODF_arg.reading]. *)
Fixpoint ODExtensions_for (i : nat) (pMap : nat) (pSDO : CO_SDO_t)
    (MapPar : CO_PDOMapPar_t)
    (ext : Z -> option (CO_ODF_arg_t -> memory -> memory))
    (rd : bool) (m : memory) : memory :=
  match i with
  | O => m
  | S i' =>
      let map := mappedObject MapPar pMap in
      let index := u16 (Z.shiftr map 16) in
      let subIndex := u8 (Z.shiftr map 8) in
      let entryNo := u16 (CO_OD_find pSDO index) in
      let m :=
        if entryNo =? 0xFFFF then m
        else
          match ext entryNo with
          | None => m
          | Some pODFunc =>
              pODFunc
                (mkODF_arg rd index subIndex
                           (CO_OD_getAttribute pSDO entryNo subIndex)
                           (CO_OD_getFlagsPointer pSDO entryNo subIndex)
                           (ODdata, CO_OD_getDataPointer pSDO entryNo subIndex)
                           (CO_OD_getLength pSDO entryNo subIndex))
                m
          end in
      ODExtensions_for i' (S pMap) pSDO MapPar ext rd m
  end.

(** ** CO_TPDOsend (lines 892-937) *)

(** [for(; i>0; i--) *(pPDOdataByte++) = **(ppODdataByte++);] with [i]
    iterations left and [k] bytes copied.  An access outside [mapPointer] or
    outside the frame data is undefined in C: [None]. *)
Fixpoint CO_TPDOsend_for (i : nat) (k : nat) (mapPointer : list pointer)
    (m : memory) (PDOdata : list Z) : option (list Z) :=
  match i with
  | O => Some PDOdata
  | S i' =>
      match mapPointer !! k with
      | None => None
      | Some pODdataByte =>
          if bool_decide (k < length PDOdata)%nat
          then CO_TPDOsend_for i' (S k) mapPointer m
                               (<[k := load m pODdataByte]> PDOdata)
          else None
      end
  end.

(** The block under [#if (CO_CONFIG_PDO) & CO_CONFIG_TPDO_CALLS_EXTENSION]:
    the memory as the pre-send OD extensions leave it. *)
Definition TPDO_CALLS_EXTENSION (TPDO : CO_TPDO_t) (m : memory) : memory :=
  if CO_CONFIG_TPDO_CALLS_EXTENSION CONFIG then
    match ODExtensions (TPDO.SDO TPDO) with
    | Some ext =>
        ODExtensions_for
          (Z.to_nat (numberOfMappedObjects (TPDO.TPDOMapPar TPDO))) 0
          (TPDO.SDO TPDO) (TPDO.TPDOMapPar TPDO) ext true m
    | None => m
    end
  else m.

Definition CO_TPDOsend (TPDO : CO_TPDO_t) (m : memory)
    : option (CO_TPDO_t * memory * CO_ReturnError_t) :=
  let m := TPDO_CALLS_EXTENSION TPDO m in
  match TPDO.CANtxBuff TPDO with
  | None => None
  | Some buff =>
      (* Copy data from Object dictionary. *)
      match CO_TPDOsend_for (Z.to_nat (TPDO.dataLength TPDO)) 0
                            (TPDO.mapPointer TPDO) m (tx_data buff) with
      | None => None
      | Some PDOdata =>
          let buff := mkCANtx PDOdata (syncFlag buff) in
          let TPDO := TPDO.set_CANtxBuff (Some buff) TPDO in
          let TPDO := TPDO.set_sendRequest 0 TPDO in
          let '(dev, r) := CO_CANsend (TPDO.CANdevTx TPDO) buff in
          Some (TPDO.set_CANdevTx dev TPDO, m, r)
      end
  end.

(** ** CO_RPDO_process (lines 940-1019) *)

Definition CO_FLAG_READ (CANrxNew : list bool) (bufNo : nat) : bool :=
  match CANrxNew !! bufNo with
  | Some b => b
  | None => false
  end.

(** [for(; i>0; i--) **(ppODdataByte++) = *(pPDOdataByte++);] with [i]
    iterations left and [k] bytes copied; out-of-range accesses as in
    [CO_TPDOsend_for]. *)
Fixpoint CO_RPDO_process_for (i : nat) (k : nat) (mapPointer : list pointer)
    (PDOdata : list Z) (m : memory) : option memory :=
  match i with
  | O => Some m
  | S i' =>
      match mapPointer !! k, PDOdata !! k with
      | Some pODdataByte, Some b =>
          CO_RPDO_process_for i' (S k) mapPointer PDOdata (store m pODdataByte b)
      | _, _ => None
      end
  end.

(** [while(CO_FLAG_READ(RPDO->CANrxNew[bufNo])) { ... }].  The body clears
    the flag before it copies; only the receive interrupt, which is not part
    of this sequential model, can set it again, so the test fails at the
    latest on the second evaluation.  [fuel] bounds the number of
    evaluations of the test; the result also carries the local [update]. *)
Fixpoint CO_RPDO_process_while (fuel : nat) (bufNo : nat) (RPDO : CO_RPDO_t)
    (m : memory) (update : bool) : option (CO_RPDO_t * memory * bool) :=
  match fuel with
  | O => None
  | S fuel' =>
      if CO_FLAG_READ (RPDO.CANrxNew RPDO) bufNo then
        match RPDO.CANrxData RPDO !! bufNo with
        | None => None
        | Some PDOdata =>
            let RPDO' :=
              RPDO.set_CANrxNew (<[bufNo := false]> (RPDO.CANrxNew RPDO))
                                RPDO in
            match CO_RPDO_process_for (Z.to_nat (RPDO.dataLength RPDO)) 0
                                      (RPDO.mapPointer RPDO) PDOdata m with
            | None => None
            | Some m' => CO_RPDO_process_while fuel' bufNo RPDO' m' true
            end
        end
      else Some (RPDO, m, update)
  end.

Definition CO_RPDO_process (RPDO : CO_RPDO_t) (syncWas : bool) (m : memory)
    : option (CO_RPDO_t * memory) :=
  let process_rpdo :=
    if CO_CONFIG_PDO_SYNC_ENABLE CONFIG
    then negb (RPDO.synchronous RPDO && negb syncWas)
    else true in
  if negb (RPDO.valid RPDO)
     || negb (is_OPERATIONAL (RPDO.operatingState RPDO))
  then Some (RPDO_clear_CANrxNew RPDO, m)
  else if process_rpdo then
    let bufNo :=
      if CO_CONFIG_PDO_SYNC_ENABLE CONFIG then
        (* Determine, which of the two rx buffers, contains relevant message. *)
        match RPDO.SYNC RPDO with
        | Some SYNC =>
            if RPDO.synchronous RPDO && negb (CANrxToggle SYNC)
            then 1%nat else 0%nat
        | None => 0%nat
        end
      else 0%nat in
    match CO_RPDO_process_while 2 bufNo RPDO m false with
    | None => None
    | Some (RPDO, m, update) =>
        if CO_CONFIG_RPDO_CALLS_EXTENSION CONFIG then
          match ODExtensions (RPDO.SDO RPDO) with
          | Some ext =>
              if update then
                Some (RPDO,
                      ODExtensions_for
                        (Z.to_nat
                           (numberOfMappedObjects (RPDO.RPDOMapPar RPDO))) 0
                        (RPDO.SDO RPDO) (RPDO.RPDOMapPar RPDO) ext false m)
              else Some (RPDO, m)
          | None => Some (RPDO, m)
          end
        else Some (RPDO, m)
    end
  else Some (RPDO, m).

End CO_PDO.

(** ** The rest of CO_PDO.c *)

(** Modelled from the spec: a received CAN message as the accessors
    [CO_CANrxMsg_readDLC] and [CO_CANrxMsg_readData] of the absent driver
    header give it. *)
Record CO_CANrxMsg_t : Set := mkCANrxMsg {
  rx_DLC : Z;
  rx_data : list Z
}.

Definition RPDO_set_CANrxData (x : list (list Z)) (r : CO_RPDO_t)
    : CO_RPDO_t :=
  RPDO.mk (RPDO.em r) (RPDO.SDO r) (RPDO.SYNC r) (RPDO.RPDOCommPar r)
          (RPDO.RPDOMapPar r) (RPDO.operatingState r) (RPDO.nodeId r)
          (RPDO.defaultCOB_ID r) (RPDO.restrictionFlags r) (RPDO.valid r)
          (RPDO.synchronous r) (RPDO.dataLength r) (RPDO.mapPointer r)
          (RPDO.CANrxNew r) x (RPDO.CANdevRx r) (RPDO.CANdevRxIdx r).

(** The Object Dictionary access functions [CO_OD_configure] can install. *)
Inductive CO_ODF_t : Set :=
| ODF_RPDOcom | ODF_RPDOmap | ODF_TPDOcom | ODF_TPDOmap.

Section CO_PDO_rest.

Variable ODA : CO_SDO_OD_attributes_t.
Variable CONFIG : CO_CONFIG_PDO_t.

(** Two more feature bits of [CO_CONFIG_PDO]. *)
Variable CO_CONFIG_FLAG_CALLBACK_PRE : bool.
Variable CO_CONFIG_FLAG_TIMERNEXT : bool.

(** [CO_OD_configure], a function of the absent SDO server: what it makes of
    the SDO object when the access function [ODF] is installed at an index. *)
Variable CO_OD_configure : CO_SDO_t -> Z -> CO_ODF_t -> CO_SDO_t.

(** *** CO_PDO_receive (lines 40-68) *)

(** The buffer index [RPDO->SYNC && RPDO->synchronous &&
    RPDO->SYNC->CANrxToggle], 0 without SYNC support. *)
Definition CO_PDO_receive_index (RPDO : CO_RPDO_t) : nat :=
  if CO_CONFIG_PDO_SYNC_ENABLE CONFIG then
    match RPDO.SYNC RPDO with
    | Some SYNC =>
        if RPDO.synchronous RPDO && CANrxToggle SYNC then 1%nat else 0%nat
    | None => 0%nat
    end
  else 0%nat.

(** The callback members [pFunctSignalPre] / [functSignalObjectPre] of the
    object are represented by [pFunctSignalPre], true when the function
    pointer is not null; the second component of the result tells whether
    the signal function was called.  [memcpy] moves
    [sizeof(RPDO->CANrxData[index])] = 8 bytes; a message or an array too
    short for that is undefined in C: [None]. *)
Definition CO_PDO_receive (RPDO : CO_RPDO_t) (pFunctSignalPre : bool)
    (msg : CO_CANrxMsg_t) : option (CO_RPDO_t * bool) :=
  let DLC := u8 (rx_DLC msg) in
  if RPDO.valid RPDO && is_OPERATIONAL (RPDO.operatingState RPDO)
     && (RPDO.dataLength RPDO <=? DLC)
  then
    let index := CO_PDO_receive_index RPDO in
    if bool_decide (8 <= length (rx_data msg))%nat
       && bool_decide (index < length (RPDO.CANrxData RPDO))%nat
       && bool_decide (index < length (RPDO.CANrxNew RPDO))%nat
    then
      (* copy data into appropriate buffer and set 'new message' flag *)
      let RPDO :=
        RPDO_set_CANrxData
          (<[index := take 8 (rx_data msg)]> (RPDO.CANrxData RPDO)) RPDO in
      let RPDO :=
        RPDO.set_CANrxNew (<[index := true]> (RPDO.CANrxNew RPDO)) RPDO in
      Some (RPDO, CO_CONFIG_FLAG_CALLBACK_PRE && pFunctSignalPre)
    else None
  else Some (RPDO, false).

(** *** CO_ODF_RPDOmap (lines 595-653) *)

Definition CO_ODF_RPDOmap (RPDO : CO_RPDO_t) (ODF_arg : CO_ODF_arg_t)
    (m : memory) : CO_SDO_abortCode_t * CO_RPDO_t * memory :=
  (* Reading Object Dictionary variable *)
  if reading ODF_arg then
    if subIndex ODF_arg =? 0 then
      (* If there is error in mapping, dataLength is 0, so
         numberOfMappedObjects is 0. *)
      if negb (nonzero (RPDO.dataLength RPDO))
      then (CO_SDO_AB_NONE, RPDO, store m (data ODF_arg) 0)
      else (CO_SDO_AB_NONE, RPDO, m)
    else (CO_SDO_AB_NONE, RPDO, m)
  else
  (* Writing Object Dictionary variable *)
  if nonzero (Z.land (RPDO.restrictionFlags RPDO) 0x08) then
    (CO_SDO_AB_READONLY, RPDO, m)
  else
  if is_OPERATIONAL (RPDO.operatingState RPDO)
     && nonzero (Z.land (RPDO.restrictionFlags RPDO) 0x02) then
    (CO_SDO_AB_DATA_DEV_STATE, RPDO, m)
  else
  if RPDO.valid RPDO then (CO_SDO_AB_UNSUPPORTED_ACCESS, RPDO, m)
  else
  (* numberOfMappedObjects *)
  if subIndex ODF_arg =? 0 then
    let value := u8 (load m (data ODF_arg)) in
    if 8 <? value then (CO_SDO_AB_MAP_LEN, RPDO, m)
    else
      (* configure mapping *)
      let '(RPDO, ret) := CO_RPDOconfigMap ODA RPDO value in
      (ret, RPDO, m)
  (* mappedObject *)
  else
    let value := CO_getUint32 m (data ODF_arg) in
    let length := 0 in
    let dummy := 0 in
    if nonzero (RPDO.dataLength RPDO) then
      (CO_SDO_AB_UNSUPPORTED_ACCESS, RPDO, m)
    else
      (* verify if mapping is correct *)
      (fst (CO_PDOfindMap ODA (RPDO.SDO RPDO) value 0 uninitialised_pData
                          length dummy uninitialised_MBvar),
       RPDO, m).

(** *** CO_ODF_TPDOmap (lines 661-719) *)

Definition CO_ODF_TPDOmap (TPDO : CO_TPDO_t) (ODF_arg : CO_ODF_arg_t)
    (m : memory) : CO_SDO_abortCode_t * CO_TPDO_t * memory :=
  (* Reading Object Dictionary variable *)
  if reading ODF_arg then
    if subIndex ODF_arg =? 0 then
      if negb (nonzero (TPDO.dataLength TPDO))
      then (CO_SDO_AB_NONE, TPDO, store m (data ODF_arg) 0)
      else (CO_SDO_AB_NONE, TPDO, m)
    else (CO_SDO_AB_NONE, TPDO, m)
  else
  (* Writing Object Dictionary variable *)
  if nonzero (Z.land (TPDO.restrictionFlags TPDO) 0x08) then
    (CO_SDO_AB_READONLY, TPDO, m)
  else
  if is_OPERATIONAL (TPDO.operatingState TPDO)
     && nonzero (Z.land (TPDO.restrictionFlags TPDO) 0x02) then
    (CO_SDO_AB_DATA_DEV_STATE, TPDO, m)
  else
  if TPDO.valid TPDO then (CO_SDO_AB_UNSUPPORTED_ACCESS, TPDO, m)
  else
  (* numberOfMappedObjects *)
  if subIndex ODF_arg =? 0 then
    let value := u8 (load m (data ODF_arg)) in
    if 8 <? value then (CO_SDO_AB_MAP_LEN, TPDO, m)
    else
      (* configure mapping *)
      let '(TPDO, ret) := CO_TPDOconfigMap ODA TPDO value in
      (ret, TPDO, m)
  (* mappedObject *)
  else
    let value := CO_getUint32 m (data ODF_arg) in
    let length := 0 in
    let dummy := 0 in
    if nonzero (TPDO.dataLength TPDO) then
      (CO_SDO_AB_UNSUPPORTED_ACCESS, TPDO, m)
    else
      (* verify if mapping is correct *)
      (fst (CO_PDOfindMap ODA (TPDO.SDO TPDO) value 1 uninitialised_pData
                          length dummy uninitialised_MBvar),
       TPDO, m).

(** *** CO_TPDOisCOS (lines 868-889) *)

(** One [case] of the switch: the frame byte [k] is compared with the byte
    [mapPointer[k]] references; when they differ and [sendIfCOSFlags & mask]
    is set the function returns 1, else control falls through to the cases
    below.  An access outside the arrays is undefined: [None]. *)
Definition CO_TPDOisCOS_case (TPDO : CO_TPDO_t) (m : memory)
    (PDOdata : list Z) (k : nat) (mask : Z) (fallthrough : option Z)
    : option Z :=
  match PDOdata !! k, TPDO.mapPointer TPDO !! k with
  | Some PDOdataByte, Some pODdataByte =>
      if negb (PDOdataByte =? load m pODdataByte)
         && nonzero (Z.land (TPDO.sendIfCOSFlags TPDO) mask)
      then Some 1
      else fallthrough
  | _, _ => None
  end.

Definition CO_TPDOisCOS (TPDO : CO_TPDO_t) (m : memory) : option Z :=
  match TPDO.CANtxBuff TPDO with
  | None => None
  | Some buff =>
      let case := CO_TPDOisCOS_case TPDO m (tx_data buff) in
      let case1 := case 0%nat 0x01 (Some 0) in
      let case2 := case 1%nat 0x02 case1 in
      let case3 := case 2%nat 0x04 case2 in
      let case4 := case 3%nat 0x08 case3 in
      let case5 := case 4%nat 0x10 case4 in
      let case6 := case 5%nat 0x20 case5 in
      let case7 := case 6%nat 0x40 case6 in
      let case8 := case 7%nat 0x80 case7 in
      match TPDO.dataLength TPDO with
      | 8 => case8
      | 7 => case7
      | 6 => case6
      | 5 => case5
      | 4 => case4
      | 3 => case3
      | 2 => case2
      | 1 => case1
      | _ => Some 0
      end
  end.

(** *** CO_TPDO_process (lines 1023-1093) *)

(** The synchronous branch, entered with [TPDO->SYNC] not null and
    [syncWas] set.  The result of [CO_TPDOsend] is not looked at. *)
Definition CO_TPDO_process_sync (TPDO : CO_TPDO_t) (SYNC : CO_SYNC_t)
    (m : memory) : option (CO_TPDO_t * memory) :=
  let send TPDO :=
    match CO_TPDOsend CONFIG TPDO m with
    | None => None
    | Some (TPDO, m, _) => Some (TPDO, m)
    end in
  let CommPar := TPDO.TPDOCommPar TPDO in
  (* send synchronous acyclic PDO *)
  if TPDO_transmissionType CommPar =? 0 then
    if nonzero (TPDO.sendRequest TPDO) then send TPDO else Some (TPDO, m)
  (* send synchronous cyclic PDO *)
  else
    (* is the start of synchronous TPDO transmission *)
    let TPDO :=
      if TPDO.syncCounter TPDO =? 255 then
        if nonzero (counterOverflowValue SYNC)
           && nonzero (SYNCStartValue CommPar)
        then TPDO.set_syncCounter 254 TPDO   (* SYNCStartValue is in use *)
        else TPDO.set_syncCounter (TPDO_transmissionType CommPar) TPDO
      else TPDO in
    (* if the SYNCStartValue is in use, start first TPDO after SYNC with
       matched SYNCStartValue. *)
    if TPDO.syncCounter TPDO =? 254 then
      if counter SYNC =? SYNCStartValue CommPar then
        send (TPDO.set_syncCounter (TPDO_transmissionType CommPar) TPDO)
      else Some (TPDO, m)
    (* Send PDO after every N-th Sync *)
    else
      let TPDO := TPDO.set_syncCounter (u8 (TPDO.syncCounter TPDO - 1)) TPDO in
      if TPDO.syncCounter TPDO =? 0 then
        send (TPDO.set_syncCounter (TPDO_transmissionType CommPar) TPDO)
      else Some (TPDO, m).

(** [timerNext_us] is the pointer argument: [None] for the null pointer,
    else the value it points to, returned updated. *)
Definition CO_TPDO_process (TPDO : CO_TPDO_t) (syncWas : bool)
    (timeDifference_us : Z) (timerNext_us : option Z) (m : memory)
    : option (CO_TPDO_t * memory * option Z) :=
  (* update timers *)
  let TPDO :=
    TPDO.set_inhibitTimer
      (if timeDifference_us <? TPDO.inhibitTimer TPDO
       then TPDO.inhibitTimer TPDO - timeDifference_us else 0) TPDO in
  let TPDO :=
    TPDO.set_eventTimer
      (if timeDifference_us <? TPDO.eventTimer TPDO
       then TPDO.eventTimer TPDO - timeDifference_us else 0) TPDO in
  let CommPar := TPDO.TPDOCommPar TPDO in
  if TPDO.valid TPDO && is_OPERATIONAL (TPDO.operatingState TPDO) then
    (* Send PDO by application request or by Event timer *)
    if 253 <=? TPDO_transmissionType CommPar then
      let sent :=
        if (TPDO.inhibitTimer TPDO =? 0)
           && (nonzero (TPDO.sendRequest TPDO)
               || (nonzero (TPDO_eventTimer CommPar)
                   && (TPDO.eventTimer TPDO =? 0)))
        then
          match CO_TPDOsend CONFIG TPDO m with
          | None => None
          | Some (TPDO, m, r) =>
              if is_ERROR_NO r then
                (* successfully sent *)
                let TPDO :=
                  TPDO.set_inhibitTimer (u32 (inhibitTime CommPar * 100))
                                        TPDO in
                let TPDO :=
                  TPDO.set_eventTimer (u32 (TPDO_eventTimer CommPar * 1000))
                                      TPDO in
                Some (TPDO, m)
              else Some (TPDO, m)
          end
        else Some (TPDO, m) in
      match sent with
      | None => None
      | Some (TPDO, m) =>
          let timerNext_us :=
            if CO_CONFIG_FLAG_TIMERNEXT then
              match timerNext_us with
              | None => None
              | Some t =>
                  if nonzero (TPDO.sendRequest TPDO)
                     && (TPDO.inhibitTimer TPDO <? t)
                  then Some (TPDO.inhibitTimer TPDO)
                  else if nonzero (TPDO_eventTimer CommPar)
                          && (TPDO.eventTimer TPDO <? t)
                  then Some (TPDO.eventTimer TPDO)
                  else Some t
              end
            else timerNext_us in
          Some (TPDO, m, timerNext_us)
      end
    (* Synchronous PDOs *)
    else if CO_CONFIG_PDO_SYNC_ENABLE CONFIG then
      match TPDO.SYNC TPDO with
      | Some SYNC =>
          if syncWas then
            match CO_TPDO_process_sync TPDO SYNC m with
            | None => None
            | Some (TPDO, m) => Some (TPDO, m, timerNext_us)
            end
          else Some (TPDO, m, timerNext_us)
      | None => Some (TPDO, m, timerNext_us)
      end
    else Some (TPDO, m, timerNext_us)
  else
    (* Not operational or valid. Force TPDO first send after operational or
       valid. *)
    let TPDO :=
      if 254 <=? TPDO_transmissionType CommPar
      then TPDO.set_sendRequest 1 TPDO
      else TPDO.set_sendRequest 0 TPDO in
    Some (TPDO, m, timerNext_us).

(** *** CO_RPDO_init (lines 723-780) *)

(** Pointer arguments are options, [None] for the null pointer; [RPDO] is
    the object as it lies in memory before the call, whose members the
    function does not assign keep their prior contents.  The result carries
    the object after the call ([None] when there is none).  The callback
    members set under [CO_CONFIG_FLAG_CALLBACK_PRE] are not part of the
    object record. *)
Definition CO_RPDO_init (RPDO : option CO_RPDO_t) (em : option CO_EM_t)
    (SDO : option CO_SDO_t) (SYNC : option CO_SYNC_t)
    (operatingState : option CO_NMT_internalState_t)
    (nodeId defaultCOB_ID restrictionFlags : Z)
    (RPDOCommPar : option CO_RPDOCommPar_t)
    (RPDOMapPar : option CO_PDOMapPar_t)
    (idx_RPDOCommPar idx_RPDOMapPar : Z)
    (CANdevRx : option CO_CANmodule_t) (CANdevRxIdx : Z)
    : CO_ReturnError_t * option CO_RPDO_t :=
  (* verify arguments *)
  match RPDO, em, SDO, operatingState, RPDOCommPar, RPDOMapPar, CANdevRx with
  | Some RPDO0, Some em, Some SDO, Some operatingState,
    Some RPDOCommPar, Some RPDOMapPar, Some CANdevRx =>
      (* Configure Object dictionary entry at index 0x1400+ and 0x1600+ *)
      let SDO := CO_OD_configure SDO idx_RPDOCommPar ODF_RPDOcom in
      let SDO := CO_OD_configure SDO idx_RPDOMapPar ODF_RPDOmap in
      (* Configure object variables *)
      let RPDO :=
        RPDO.mk em SDO
                (if CO_CONFIG_PDO_SYNC_ENABLE CONFIG
                 then SYNC else RPDO.SYNC RPDO0)
                RPDOCommPar RPDOMapPar operatingState
                nodeId defaultCOB_ID restrictionFlags
                (RPDO.valid RPDO0) (RPDO.synchronous RPDO0)
                (RPDO.dataLength RPDO0) (RPDO.mapPointer RPDO0)
                (RPDO.CANrxNew RPDO0) (RPDO.CANrxData RPDO0)
                CANdevRx CANdevRxIdx in
      (* configure communication and mapping *)
      let RPDO := RPDO_clear_CANrxNew CONFIG RPDO in
      let '(RPDO, _) :=
        CO_RPDOconfigMap ODA RPDO (numberOfMappedObjects RPDOMapPar) in
      let RPDO :=
        CO_RPDOconfigCom CONFIG RPDO (COB_IDUsedByRPDO RPDOCommPar) in
      (CO_ERROR_NO, Some RPDO)
  | _, _, _, _, _, _, _ => (CO_ERROR_ILLEGAL_ARGUMENT, RPDO)
  end.

(** *** CO_TPDO_init (lines 799-864) *)

Definition CO_TPDO_init (TPDO : option CO_TPDO_t) (em : option CO_EM_t)
    (SDO : option CO_SDO_t) (SYNC : option CO_SYNC_t)
    (operatingState : option CO_NMT_internalState_t)
    (nodeId defaultCOB_ID restrictionFlags : Z)
    (TPDOCommPar : option CO_TPDOCommPar_t)
    (TPDOMapPar : option CO_PDOMapPar_t)
    (idx_TPDOCommPar idx_TPDOMapPar : Z)
    (CANdevTx : option CO_CANmodule_t) (CANdevTxIdx : Z)
    : CO_ReturnError_t * option CO_TPDO_t :=
  (* verify arguments *)
  match TPDO, em, SDO, operatingState, TPDOCommPar, TPDOMapPar, CANdevTx with
  | Some TPDO0, Some em, Some SDO, Some operatingState,
    Some TPDOCommPar, Some TPDOMapPar, Some CANdevTx =>
      (* Configure Object dictionary entry at index 0x1800+ and 0x1A00+ *)
      let SDO := CO_OD_configure SDO idx_TPDOCommPar ODF_TPDOcom in
      let SDO := CO_OD_configure SDO idx_TPDOMapPar ODF_TPDOmap in
      (* Configure object variables; configure communication and mapping *)
      let TPDO :=
        TPDO.mk em SDO
                (if CO_CONFIG_PDO_SYNC_ENABLE CONFIG
                 then SYNC else TPDO.SYNC TPDO0)
                TPDOCommPar TPDOMapPar operatingState
                nodeId defaultCOB_ID restrictionFlags
                (TPDO.valid TPDO0) (TPDO.dataLength TPDO0)
                (if 254 <=? TPDO_transmissionType TPDOCommPar
                 then 1 else TPDO.sendRequest TPDO0)
                (TPDO.mapPointer TPDO0) (TPDO.syncCounter TPDO0)
                0 (u32 (TPDO_eventTimer TPDOCommPar * 1000))
                (TPDO.sendIfCOSFlags TPDO0)
                CANdevTx (TPDO.CANtxBuff TPDO0) CANdevTxIdx in
      let '(TPDO, _) :=
        CO_TPDOconfigMap ODA TPDO (numberOfMappedObjects TPDOMapPar) in
      let TPDO :=
        if CO_CONFIG_PDO_SYNC_ENABLE CONFIG then
          let TPDO := TPDO.set_syncCounter 255 TPDO in
          let TPDO :=
            CO_TPDOconfigCom TPDO (COB_IDUsedByTPDO TPDOCommPar)
              (if TPDO_transmissionType TPDOCommPar <=? 240 then 1 else 0) in
          if ((240 <? TPDO_transmissionType TPDOCommPar)
              && (TPDO_transmissionType TPDOCommPar <? 254))
             || (240 <? SYNCStartValue TPDOCommPar)
          then TPDO.set_valid false TPDO
          else TPDO
        else
          let TPDO :=
            CO_TPDOconfigCom TPDO (COB_IDUsedByTPDO TPDOCommPar) 0 in
          if TPDO_transmissionType TPDOCommPar <? 254
          then TPDO.set_valid false TPDO
          else TPDO in
      (CO_ERROR_NO, Some TPDO)
  | _, _, _, _, _, _, _ => (CO_ERROR_ILLEGAL_ARGUMENT, TPDO)
  end.

End CO_PDO_rest.

(** ** Reading a mapping descriptor *)

(** The three fields [CO_PDOfindMap] decodes from a descriptor, and the
    requested length in bytes. *)
Definition descriptor_index (map : Z) : Z := u16 (Z.shiftr map 16).
Definition descriptor_subIndex (map : Z) : Z := u8 (Z.shiftr map 8).
Definition descriptor_bits (map : Z) : Z := u8 map.
Definition descriptor_bytes (map : Z) : Z := Z.shiftr (u8 map) 3.

(** The first [n] descriptors of a mapping parameter block, from word
    [pMap] on, and the sum of their byte lengths. *)
Definition descriptors (MapPar : CO_PDOMapPar_t) (pMap n : nat) : list Z :=
  List.map (mappedObject MapPar) (seq pMap n).

Definition bytes_sum (maps : list Z) : Z :=
  foldr (fun map acc => descriptor_bytes map + acc) 0 maps.

(** The return code of [CO_PDOfindMap] for an RPDO ([R_T = 0]) or TPDO
    ([R_T = 1]) descriptor when [len] bytes are mapped already. *)
Definition resolve (ODA : CO_SDO_OD_attributes_t) (SDO : CO_SDO_t) (R_T : Z)
    (len : Z) (map : Z) : CO_SDO_abortCode_t :=
  fst (CO_PDOfindMap ODA SDO map R_T uninitialised_pData len 0
                     uninitialised_MBvar).

(** ** Objects for the examples *)

(** The attribute masks of CANopenNode's CO_SDOserver.h. *)
Definition ODA_example : CO_SDO_OD_attributes_t :=
  mkODA 0x04 0x08 0x10 0x20 0x40 0x80.

(** SYNC support compiled in, no OD extension calls. *)
Definition CONFIG_example : CO_CONFIG_PDO_t := mkCONFIG true false false.

Definition CONFIG_noSYNC : CO_CONFIG_PDO_t := mkCONFIG false false false.

(** An Object Dictionary with two mappable variables: entry 0 is index
    0x6000, two bytes at OD address 100 (variable A); entry 1 is index 0x6001,
    one byte at OD address 200 (variable B). *)
Definition SDO_example : CO_SDO_t :=
  mkSDO (fun index => if index =? 0x6000 then 0
                      else if index =? 0x6001 then 1 else 0xFFFF)
        (fun _ => 0)
        (fun _ _ => 0x3C)
        (fun entryNo _ => if entryNo =? 0 then 2 else 1)
        (fun _ _ => 0)
        (fun entryNo _ => if entryNo =? 0 then 100 else 200)
        None.

(** A CAN module that accepts every registration and every frame. *)
Definition CAN_example : CO_CANmodule_t :=
  mkCANmodule []
    (fun _ _ _ _ _ => CO_ERROR_NO)
    (fun _ _ _ _ _ sync => Some (mkCANtx (repeat 0 8) sync))
    (fun _ _ => CO_ERROR_NO).

(** Mapping parameters: A (index 0x6000, 16 bits) then B (index 0x6001,
    8 bits). *)
Definition MapPar_AB : CO_PDOMapPar_t :=
  mkMapPar 2 (fun k => nth k [0x60000010; 0x60010008] 0).

(** Mapping parameters whose second descriptor is misaligned (12 bits). *)
Definition MapPar_bad : CO_PDOMapPar_t :=
  mkMapPar 3 (fun k => nth k [0x60000010; 0x6001000C; 0x60010008] 0).

Definition null_pointers : list pointer := repeat (ODdata, 0) 8.

Definition RPDO_example (MapPar : CO_PDOMapPar_t) (flags : Z) (valid : bool)
    (len : Z) (COB_ID : Z) : CO_RPDO_t :=
  RPDO.mk [] SDO_example (Some (mkSYNC false 0 0))
          (mkRPDOCommPar COB_ID 255) MapPar CO_NMT_PRE_OPERATIONAL
          1 0x200 flags valid false len null_pointers
          [false; false] [repeat 0 8; repeat 0 8] CAN_example 0.

Definition TPDO_example (MapPar : CO_PDOMapPar_t) (flags : Z) (valid : bool)
    (len : Z) (COB_ID : Z) : CO_TPDO_t :=
  TPDO.mk [] SDO_example (Some (mkSYNC false 0 0))
          (mkTPDOCommPar COB_ID 255 0 0 0) MapPar CO_NMT_PRE_OPERATIONAL
          1 0x180 flags valid len 0 null_pointers 255 0 0 0
          CAN_example (Some (mkCANtx (repeat 0 8) 0)) 0.

(** An SDO data buffer holding the 32-bit value [v] (little-endian) at
    offset 0, and the argument block of a write to sub-index [sub]. *)
Definition SDO_buffer (v : Z) : memory :=
  CO_setUint32 (fun _ _ => 0) (SDObuffer, 0) v.

Definition ODF_write (sub : Z) : CO_ODF_arg_t :=
  mkODF_arg false 0x1400 sub 0 0 (SDObuffer, 0) 4.

(** A memory in which variable A holds 0x1234 and variable B holds 0x56. *)
Definition memory_AB : memory :=
  fun b o =>
    match b with
    | ODdata => if o =? 100 then 0x34 else if o =? 101 then 0x12
                else if o =? 200 then 0x56 else 0
    | _ => 0
    end.

(** ** Notions used in the statements *)

(** The test [(COB_ID & 0xBFFFF800) == 0] of the communication configurators
    says that bit 31 and bits 11..29 are clear; bit 30 is not looked at. *)
Definition COB_ID_bits_clear (COB_ID : Z) : Prop :=
  Z.testbit COB_ID 31 = false
  /\ forall i, 11 <= i <= 29 -> Z.testbit COB_ID i = false.

(** "Is the PDO used?": the condition of both communication configurators. *)
Definition COB_ID_used (COB_ID dataLength : Z) : Prop :=
  COB_ID_bits_clear COB_ID /\ dataLength <> 0 /\ Z.land COB_ID 0x7FF <> 0.

(** The CAN identifier of a used PDO: the node ID is added (in [uint16_t])
    to an identifier equal to the default COB-ID. *)
Definition effective_ID (defaultCOB_ID nodeId COB_ID : Z) : Z :=
  if Z.land COB_ID 0x7FF =? defaultCOB_ID
  then u16 (Z.land COB_ID 0x7FF + nodeId)
  else Z.land COB_ID 0x7FF.

(** The two restriction checks every write to a communication parameter
    passes first: restriction flag 0x04 (read only) is clear, and the device
    is not operational with restriction flag 0x01 set. *)
Definition com_write_permitted (restrictionFlags : Z)
    (operatingState : CO_NMT_internalState_t) : Prop :=
  Z.land restrictionFlags 0x04 = 0
  /\ ~ (operatingState = CO_NMT_OPERATIONAL
        /\ Z.land restrictionFlags 0x01 <> 0).

(** The COB-ID the access function goes on with (and hands back to the SDO
    server for storage): a write of default + node ID is turned into the bare
    default, bits 30 and 31 kept. *)
Definition normalised_COB_ID (defaultCOB_ID nodeId value : Z) : Z :=
  if Z.land value 0xFFFF =? defaultCOB_ID + nodeId
  then u32 (Z.land value 0xC0000000 + defaultCOB_ID)
  else value.

(** ** Notions used for the runtime functions *)

(** The receive buffer [CO_RPDO_process] drains: number 1 for a synchronous
    object while the SYNC toggle is clear, else number 0. *)
Definition RPDO_process_bufNo (CONFIG : CO_CONFIG_PDO_t) (RPDO : CO_RPDO_t)
    : nat :=
  if CO_CONFIG_PDO_SYNC_ENABLE CONFIG then
    match RPDO.SYNC RPDO with
    | Some SYNC =>
        if RPDO.synchronous RPDO && negb (CANrxToggle SYNC)
        then 1%nat else 0%nat
    | None => 0%nat
    end
  else 0%nat.

(** The memory after the OD extension calls that follow a drained buffer. *)
Definition RPDO_CALLS_EXTENSION (CONFIG : CO_CONFIG_PDO_t) (RPDO : CO_RPDO_t)
    (m : memory) : memory :=
  if CO_CONFIG_RPDO_CALLS_EXTENSION CONFIG then
    match ODExtensions (RPDO.SDO RPDO) with
    | Some ext =>
        ODExtensions_for
          (Z.to_nat (numberOfMappedObjects (RPDO.RPDOMapPar RPDO))) 0
          (RPDO.SDO RPDO) (RPDO.RPDOMapPar RPDO) ext false m
    | None => m
    end
  else m.

(** The SYNC object is shared with the SYNC consumer, which flips its
    toggle: the object with another state of the SYNC object behind its
    pointer. *)
Definition RPDO_set_SYNC (x : option CO_SYNC_t) (r : CO_RPDO_t) : CO_RPDO_t :=
  RPDO.mk (RPDO.em r) (RPDO.SDO r) x (RPDO.RPDOCommPar r)
          (RPDO.RPDOMapPar r) (RPDO.operatingState r) (RPDO.nodeId r)
          (RPDO.defaultCOB_ID r) (RPDO.restrictionFlags r) (RPDO.valid r)
          (RPDO.synchronous r) (RPDO.dataLength r) (RPDO.mapPointer r)
          (RPDO.CANrxNew r) (RPDO.CANrxData r) (RPDO.CANdevRx r)
          (RPDO.CANdevRxIdx r).

(** Memory [m1] is memory [m] with the first [L] bytes of [PDOdata] written
    through the first [L] map pointers, in that order: an address none of
    them references keeps its byte, and an address referenced by entry [j]
    and by no later entry holds byte [j]. *)
Definition drained (mapPointer : list pointer) (L : nat) (PDOdata : list Z)
    (m m1 : memory) : Prop :=
  (forall p, (forall j, (j < L)%nat -> mapPointer !! j <> Some p) ->
             load m1 p = load m p)
  /\ (forall j p b,
         (j < L)%nat -> mapPointer !! j = Some p -> PDOdata !! j = Some b ->
         (forall j', (j < j' < L)%nat -> mapPointer !! j' <> Some p) ->
         load m1 p = u8 b).

(** The switch of [CO_TPDOisCOS] entered at [case n]: the cases [n], [n-1],
    .., 1 in turn, case [k+1] looking at byte [k] under mask [1 << k]. *)
Fixpoint CO_TPDOisCOS_from (TPDO : CO_TPDO_t) (m : memory) (PDOdata : list Z)
    (n : nat) : option Z :=
  match n with
  | O => Some 0
  | S k =>
      CO_TPDOisCOS_case TPDO m PDOdata k (2 ^ Z.of_nat k)
                        (CO_TPDOisCOS_from TPDO m PDOdata k)
  end.

(** Some mapped byte [k < L] whose change-of-state flag is set differs
    between the frame [PDOdata] and memory [m]. *)
Definition COS_difference (TPDO : CO_TPDO_t) (L : nat) (PDOdata : list Z)
    (m : memory) : Prop :=
  exists k p b,
    (k < L)%nat
    /\ TPDO.mapPointer TPDO !! k = Some p
    /\ PDOdata !! k = Some b
    /\ b <> load m p
    /\ Z.testbit (TPDO.sendIfCOSFlags TPDO) (Z.of_nat k) = true.

(** The NMT state is written by the NMT module behind the object's
    [operatingState] pointer. *)
Definition TPDO_set_operatingState (x : CO_NMT_internalState_t)
    (t : CO_TPDO_t) : CO_TPDO_t :=
  TPDO.mk (TPDO.em t) (TPDO.SDO t) (TPDO.SYNC t) (TPDO.TPDOCommPar t)
          (TPDO.TPDOMapPar t) x (TPDO.nodeId t) (TPDO.defaultCOB_ID t)
          (TPDO.restrictionFlags t) (TPDO.valid t) (TPDO.dataLength t)
          (TPDO.sendRequest t) (TPDO.mapPointer t) (TPDO.syncCounter t)
          (TPDO.inhibitTimer t) (TPDO.eventTimer t) (TPDO.sendIfCOSFlags t)
          (TPDO.CANdevTx t) (TPDO.CANtxBuff t) (TPDO.CANdevTxIdx t).

(** A TPDO on which [CO_TPDOsend] and [CO_TPDOisCOS] stay inside their
    arrays: transmit buffer present with its 8 data bytes, 8 map pointers,
    mapped length within 0..8. *)
Definition TPDO_wf (TPDO : CO_TPDO_t) : Prop :=
  (exists buff, TPDO.CANtxBuff TPDO = Some buff
                /\ length (tx_data buff) = 8%nat)
  /\ length (TPDO.mapPointer TPDO) = 8%nat
  /\ 0 <= TPDO.dataLength TPDO <= 8.

(** The object after the timer update that opens [CO_TPDO_process]: both
    timers count down by the elapsed time and stop at 0. *)
Definition TPDO_timers_updated (timeDifference_us : Z) (t : CO_TPDO_t)
    : CO_TPDO_t :=
  TPDO.set_eventTimer
    (if timeDifference_us <? TPDO.eventTimer t
     then TPDO.eventTimer t - timeDifference_us else 0)
    (TPDO.set_inhibitTimer
       (if timeDifference_us <? TPDO.inhibitTimer t
        then TPDO.inhibitTimer t - timeDifference_us else 0) t).

(** The condition under which an event-driven TPDO transmits at a tick: the
    inhibit time has run out, and either a send was requested or the event
    timer is in use and has run out. *)
Definition TPDO_event_due (TPDO : CO_TPDO_t) (timeDifference_us : Z) : Prop :=
  TPDO.inhibitTimer TPDO <= timeDifference_us
  /\ (TPDO.sendRequest TPDO <> 0
      \/ (TPDO_eventTimer (TPDO.TPDOCommPar TPDO) <> 0
          /\ TPDO.eventTimer TPDO <= timeDifference_us)).

(** Consecutive calls of [CO_TPDO_process] at SYNC ticks ([syncWas] set),
    one per elapsed time of the list, without a next-timer argument. *)
Fixpoint TPDO_SYNC_ticks (CONFIG : CO_CONFIG_PDO_t) (TIMERNEXT : bool)
    (dts : list Z) (TPDO : CO_TPDO_t) (m : memory)
    : option (CO_TPDO_t * memory) :=
  match dts with
  | [] => Some (TPDO, m)
  | dt :: rest =>
      match CO_TPDO_process CONFIG TIMERNEXT TPDO true dt None m with
      | None => None
      | Some (TPDO, m, _) => TPDO_SYNC_ticks CONFIG TIMERNEXT rest TPDO m
      end
  end.

(** A valid, operational, well-formed TPDO of synchronous cyclic
    transmission type [N] (1..240) attached to the SYNC object [SYNC0], with
    the SYNC start value not in use. *)
Definition TPDO_cyclic (TPDO : CO_TPDO_t) (SYNC0 : CO_SYNC_t) (N : Z) : Prop :=
  TPDO.SYNC TPDO = Some SYNC0
  /\ TPDO.valid TPDO = true
  /\ TPDO.operatingState TPDO = CO_NMT_OPERATIONAL
  /\ TPDO_transmissionType (TPDO.TPDOCommPar TPDO) = N
  /\ 1 <= N <= 240
  /\ (counterOverflowValue SYNC0 = 0
      \/ SYNCStartValue (TPDO.TPDOCommPar TPDO) = 0)
  /\ TPDO_wf TPDO.

(** The number of SYNC ticks until the next transmission that
    [syncCounter] stands for: 255 marks the start of synchronous
    transmission and counts as a full period. *)
Definition SYNC_ticks_left (TPDO : CO_TPDO_t) : Z :=
  if TPDO.syncCounter TPDO =? 255
  then TPDO_transmissionType (TPDO.TPDOCommPar TPDO)
  else TPDO.syncCounter TPDO.

(** ** Notions used for the mapping access functions *)

(** The two restriction checks every write to a mapping parameter passes
    first: restriction flag 0x08 (read only) is clear, and the device is not
    operational with restriction flag 0x02 set. *)
Definition map_write_permitted (restrictionFlags : Z)
    (operatingState : CO_NMT_internalState_t) : Prop :=
  Z.land restrictionFlags 0x08 = 0
  /\ ~ (operatingState = CO_NMT_OPERATIONAL
        /\ Z.land restrictionFlags 0x02 <> 0).

(** A list of descriptors that can be mapped: each one resolves when taken
    alone, and together they fill at most 8 bytes. *)
Definition mappable (ODA : CO_SDO_OD_attributes_t) (SDO : CO_SDO_t) (R_T : Z)
    (maps : list Z) : Prop :=
  Forall (fun map => resolve ODA SDO R_T 0 map = CO_SDO_AB_NONE) maps
  /\ bytes_sum maps <= 8.

(** The transmission types a TPDO can be initialised with: with SYNC
    support every type but the reserved 241..253, and a SYNC start value of
    at most 240; without SYNC support the event-driven types 254 and 255
    only. *)
Definition TPDO_type_supported (CONFIG : CO_CONFIG_PDO_t)
    (CommPar : CO_TPDOCommPar_t) : Prop :=
  if CO_CONFIG_PDO_SYNC_ENABLE CONFIG
  then (TPDO_transmissionType CommPar <= 240
        \/ 254 <= TPDO_transmissionType CommPar)
       /\ SYNCStartValue CommPar <= 240
  else 254 <= TPDO_transmissionType CommPar.

(** ** Notions used for the mapping tables *)

(** A descriptor that refers to one of the dummy entries (index 0..7,
    sub-index 0). *)
Definition descriptor_is_dummy (map : Z) : bool :=
  (descriptor_index map <=? 7) && (descriptor_subIndex map =? 0).

(** The address a descriptor stands for: one of the two dummy variables of
    the resolver, or the data pointer of the Object Dictionary entry. *)
Definition descriptor_pointer (SDO : CO_SDO_t) (R_T : Z) (map : Z) : pointer :=
  if descriptor_is_dummy map
  then (if R_T =? 0 then (dummyRX, 0) else (dummyTX, 0))
  else (ODdata,
        CO_OD_getDataPointer SDO (u16 (CO_OD_find SDO (descriptor_index map)))
                             (descriptor_subIndex map)).

(** [n] consecutive byte addresses from [p] on. *)
Fixpoint pointers_from (p : pointer) (n : nat) : list pointer :=
  match n with
  | O => []
  | S n' => p :: pointers_from (ptr_add p 1) n'
  end.

(** The byte addresses a list of descriptors stands for, in frame order:
    for each descriptor as many consecutive addresses as it has bytes. *)
Definition mapping_layout (SDO : CO_SDO_t) (R_T : Z) (maps : list Z)
    : list pointer :=
  flat_map (fun map => pointers_from (descriptor_pointer SDO R_T map)
                                     (Z.to_nat (descriptor_bytes map)))
           maps.

(** Whether a descriptor's object asks for change-of-state detection: it is
    no dummy entry and its attribute has [CO_ODA_TPDO_DETECT_COS]. *)
Definition descriptor_COS (ODA : CO_SDO_OD_attributes_t) (SDO : CO_SDO_t)
    (map : Z) : bool :=
  negb (descriptor_is_dummy map)
  && nonzero
       (Z.land
          (u8 (CO_OD_getAttribute SDO
                 (u16 (CO_OD_find SDO (descriptor_index map)))
                 (descriptor_subIndex map)))
          (CO_ODA_TPDO_DETECT_COS ODA)).

(** The change-of-state marks of a list of descriptors, one per frame
    byte. *)
Definition mapping_COS (ODA : CO_SDO_OD_attributes_t) (SDO : CO_SDO_t)
    (maps : list Z) : list bool :=
  flat_map (fun map => repeat (descriptor_COS ODA SDO map)
                              (Z.to_nat (descriptor_bytes map)))
           maps.

(** ** Notions used for the access functions *)

(** Memory [m'] differs from [m] at most in the [n] bytes from [p0] on. *)
Definition changed_within (p0 : pointer) (n : Z) (m m' : memory) : Prop :=
  forall p, (forall k, 0 <= k < n -> p <> ptr_add p0 k) ->
            load m' p = load m p.

(** ** Objects for the examples of the runtime functions *)

(** The map-pointer table of the mapping [A; B]: two bytes of A, one byte of
    B, five unused entries. *)
Definition pointers_AB : list pointer :=
  [(ODdata, 100); (ODdata, 101); (ODdata, 200)] ++ repeat (ODdata, 0) 5.

(** A valid, operational RPDO mapped to A then B. *)
Definition RPDO_running (synchronous : bool) (CANrxNew : list bool)
    : CO_RPDO_t :=
  RPDO.mk [] SDO_example (Some (mkSYNC false 0 0))
          (mkRPDOCommPar 0x200 (if synchronous then 1 else 255)) MapPar_AB
          CO_NMT_OPERATIONAL 1 0x200 0 true synchronous 3 pointers_AB
          CANrxNew [repeat 0 8; repeat 0 8] CAN_example 0.

(** A received frame of three data bytes. *)
Definition msg_example : CO_CANrxMsg_t :=
  mkCANrxMsg 3 [0x11; 0x22; 0x33; 0; 0; 0; 0; 0].

(** A valid TPDO mapped to A then B, in NMT state [st], of transmission type
    [type] and SYNC start value [start]. *)
Definition TPDO_running (st : CO_NMT_internalState_t)
    (type start sendRequest syncCounter flags : Z) (SYNC : CO_SYNC_t)
    : CO_TPDO_t :=
  TPDO.mk [] SDO_example (Some SYNC) (mkTPDOCommPar 0x180 type 0 0 start)
          MapPar_AB st 1 0x180 0 true 3 sendRequest pointers_AB syncCounter
          0 0 flags CAN_example (Some (mkCANtx (repeat 0 8) 0)) 0.

(** The Object Dictionary of the examples with change-of-state detection
    asked for variable A. *)
Definition SDO_example_COS : CO_SDO_t :=
  mkSDO (CO_OD_find SDO_example) (OD_maxSubIndex SDO_example)
        (fun entryNo _ => if entryNo =? 0 then 0x7C else 0x3C)
        (CO_OD_getLength SDO_example) (CO_OD_getFlagsPointer SDO_example)
        (CO_OD_getDataPointer SDO_example) None.

Definition TPDO_example_COS : CO_TPDO_t :=
  TPDO.mk [] SDO_example_COS (Some (mkSYNC false 0 0))
          (mkTPDOCommPar 0x180 255 0 0 0) MapPar_AB CO_NMT_PRE_OPERATIONAL
          1 0x180 0 false 0 0 null_pointers 255 0 0 0
          CAN_example (Some (mkCANtx (repeat 0 8) 0)) 0.

(** A [CO_OD_configure] that leaves the SDO server as it is. *)
Definition CO_OD_configure_example (SDO : CO_SDO_t) (index : Z)
    (pODFunc : CO_ODF_t) : CO_SDO_t := SDO.

(** The argument block of a read of sub-index [sub]. *)
Definition ODF_read (sub : Z) : CO_ODF_arg_t :=
  mkODF_arg true 0x1400 sub 0 0 (SDObuffer, 0) 4.

(** * Properties *)

(** ** Arithmetic of the fixed-width types *)

Lemma u8_range (x : Z) : 0 <= u8 x < 256.
Proof. unfold u8. change (2 ^ 8) with 256. apply Z.mod_pos_bound. lia. Qed.

Lemma u8_small (x : Z) : 0 <= x < 256 -> u8 x = x.
Proof. intros H. unfold u8. change (2 ^ 8) with 256. apply Z.mod_small; lia. Qed.

Lemma descriptor_bytes_range (map : Z) : 0 <= descriptor_bytes map <= 31.
Proof.
  unfold descriptor_bytes. pose proof (u8_range map) as H.
  rewrite Z.shiftr_div_pow2 by lia. change (2 ^ 3) with 8.
  split.
  - apply Z.div_pos; lia.
  - apply Z.lt_succ_r. apply Z.div_lt_upper_bound; lia.
Qed.

Lemma nonzero_false (x : Z) : nonzero x = false <-> x = 0.
Proof. unfold nonzero. destruct (Z.eqb_spec x 0); simpl; split; congruence. Qed.

Lemma nonzero_true (x : Z) : nonzero x = true <-> x <> 0.
Proof. unfold nonzero. destruct (Z.eqb_spec x 0); simpl; split; congruence. Qed.

Lemma is_NONE_true (c : CO_SDO_abortCode_t) :
  is_NONE c = true <-> c = CO_SDO_AB_NONE.
Proof. destruct c; simpl; split; congruence. Qed.

Lemma is_NONE_false (c : CO_SDO_abortCode_t) :
  is_NONE c = false <-> c <> CO_SDO_AB_NONE.
Proof. destruct c; simpl; split; congruence. Qed.

(** ** The mapping resolver *)

Ltac if_cases :=
  repeat match goal with
         | |- context [if ?c then _ else _] => destruct c eqn:?
         end.

(** The return code and the accumulated length do not depend on the prior
    contents of the pointer, flag and multibyte output parameters. *)
Lemma CO_PDOfindMap_ret_indep ODA SDO map R_T p p' len f f' mb mb' :
  fst (CO_PDOfindMap ODA SDO map R_T p len f mb)
  = fst (CO_PDOfindMap ODA SDO map R_T p' len f' mb')
  /\ pLength (snd (CO_PDOfindMap ODA SDO map R_T p len f mb))
     = pLength (snd (CO_PDOfindMap ODA SDO map R_T p' len f' mb')).
Proof. unfold CO_PDOfindMap. if_cases; simpl; auto. Qed.

Lemma CO_PDOfindMap_resolve ODA SDO map R_T p len f mb :
  fst (CO_PDOfindMap ODA SDO map R_T p len f mb) = resolve ODA SDO R_T len map.
Proof. unfold resolve. apply CO_PDOfindMap_ret_indep. Qed.

(** A successful resolution leaves at most 8 bytes accumulated, namely the
    prior length plus the descriptor's byte length (as [uint8_t]). *)
Lemma CO_PDOfindMap_NONE_length ODA SDO map R_T p len f mb :
  fst (CO_PDOfindMap ODA SDO map R_T p len f mb) = CO_SDO_AB_NONE ->
  pLength (snd (CO_PDOfindMap ODA SDO map R_T p len f mb))
  = u8 (len + descriptor_bytes map)
  /\ 0 <= pLength (snd (CO_PDOfindMap ODA SDO map R_T p len f mb)) <= 8.
Proof.
  unfold CO_PDOfindMap, descriptor_bytes.
  pose proof (u8_range (len + Z.shiftr (u8 map) 3)) as Hr.
  if_cases; simpl; intros H; try discriminate H; split; auto; lia.
Qed.

(** A descriptor that resolves on its own resolves at any accumulated length
    that leaves room for it. *)
Lemma resolve_room ODA SDO R_T len map :
  resolve ODA SDO R_T 0 map = CO_SDO_AB_NONE ->
  0 <= len -> len + descriptor_bytes map <= 8 ->
  resolve ODA SDO R_T len map = CO_SDO_AB_NONE.
Proof.
  unfold resolve, CO_PDOfindMap, descriptor_bytes.
  intros H Hlen Hroom.
  pose proof (descriptor_bytes_range map) as Hb. unfold descriptor_bytes in Hb.
  rewrite (u8_small (len + _)) by lia.
  revert H. rewrite Z.add_0_l.
  if_cases; simpl; intros H; try discriminate H; try reflexivity; lia.
Qed.

(** Outcome of the resolver on a dummy descriptor, by the order of its
    checks: alignment, total length, dummy size. *)
Lemma resolve_dummy ODA SDO R_T len map :
  descriptor_index map <= 7 -> descriptor_subIndex map = 0 ->
  resolve ODA SDO R_T len map
  = if nonzero (Z.land (descriptor_bits map) 7) then CO_SDO_AB_NO_MAP
    else if 8 <? u8 (len + descriptor_bytes map) then CO_SDO_AB_MAP_LEN
    else if dummySize_of (descriptor_index map) <? descriptor_bytes map
         then CO_SDO_AB_NO_MAP
         else CO_SDO_AB_NONE.
Proof.
  unfold resolve, CO_PDOfindMap, descriptor_index, descriptor_subIndex,
    descriptor_bits, descriptor_bytes.
  intros Hi Hs. rewrite Hs.
  destruct (Z.leb_spec (u16 (Z.shiftr map 16)) 7); [|lia].
  simpl. if_cases; reflexivity.
Qed.

(** ** The mapping configurators: the loop *)

Lemma CO_RPDOconfigMap_for_length ODA i : forall pMap len RPDO,
  0 <= len <= 8 ->
  0 <= snd (fst (CO_RPDOconfigMap_for ODA i pMap len RPDO)) <= 8.
Proof.
  induction i as [|i IH]; intros pMap len RPDO Hlen; simpl; [exact Hlen|].
  destruct (CO_PDOfindMap _ _ _ _ _ _ _ _) as [ret out] eqn:E.
  destruct (is_NONE ret) eqn:Hret; simpl; [|lia].
  apply IH. apply is_NONE_true in Hret. subst ret.
  pose proof (CO_PDOfindMap_NONE_length ODA _ _ _ _ _ _ _
                (f_equal fst E)) as [_ H].
  rewrite E in H. exact H.
Qed.

Lemma CO_TPDOconfigMap_for_length ODA i : forall pMap len TPDO,
  0 <= len <= 8 ->
  0 <= snd (fst (CO_TPDOconfigMap_for ODA i pMap len TPDO)) <= 8.
Proof.
  induction i as [|i IH]; intros pMap len TPDO Hlen; simpl; [exact Hlen|].
  destruct (CO_PDOfindMap _ _ _ _ _ _ _ _) as [ret out] eqn:E.
  destruct (is_NONE ret) eqn:Hret; simpl; [|lia].
  apply IH. apply is_NONE_true in Hret. subst ret.
  pose proof (CO_PDOfindMap_NONE_length ODA _ _ _ _ _ _ _
                (f_equal fst E)) as [_ H].
  rewrite E in H. exact H.
Qed.

Lemma CO_RPDOconfigMap_dataLength ODA RPDO N :
  RPDO.dataLength (fst (CO_RPDOconfigMap ODA RPDO N))
  = snd (fst (CO_RPDOconfigMap_for ODA (Z.to_nat N) 0 0 RPDO)).
Proof.
  unfold CO_RPDOconfigMap.
  destruct (CO_RPDOconfigMap_for _ _ _ _ _) as [[R len] ret]. reflexivity.
Qed.

Lemma CO_TPDOconfigMap_dataLength ODA TPDO N :
  TPDO.dataLength (fst (CO_TPDOconfigMap ODA TPDO N))
  = snd (fst (CO_TPDOconfigMap_for ODA (Z.to_nat N) 0 0
                (TPDO.set_sendIfCOSFlags 0 TPDO))).
Proof.
  unfold CO_TPDOconfigMap.
  destruct (CO_TPDOconfigMap_for _ _ _ _ _) as [[T len] ret]. reflexivity.
Qed.

(** C2. After any call of [CO_RPDOconfigMap] or [CO_TPDOconfigMap], whatever
    the descriptor count and the descriptor words, the object's [dataLength]
    is at most 8 (and not negative). *)
Theorem configMap_dataLength_le_8 :
  forall (ODA : CO_SDO_OD_attributes_t) (RPDO : CO_RPDO_t) (TPDO : CO_TPDO_t)
         (noOfMappedObjects : Z),
    0 <= RPDO.dataLength (fst (CO_RPDOconfigMap ODA RPDO noOfMappedObjects)) <= 8
    /\ 0 <= TPDO.dataLength
              (fst (CO_TPDOconfigMap ODA TPDO noOfMappedObjects)) <= 8.
Proof.
  intros ODA RPDO TPDO N. split.
  - rewrite CO_RPDOconfigMap_dataLength.
    apply CO_RPDOconfigMap_for_length. lia.
  - rewrite CO_TPDOconfigMap_dataLength.
    apply CO_TPDOconfigMap_for_length. lia.
Qed.

(** C8 (as amended).  For a dummy descriptor (index 0..7, sub-index 0) whose
    bit length is a multiple of 8 and whose byte length still fits into the
    8 bytes of the PDO after the [len] bytes mapped so far, resolution
    succeeds exactly when the byte length does not exceed the dummy's size
    (0 for index 0 and 1, 1 for 2 and 5, 2 for 3 and 6, 4 for 4 and 7), and
    fails with NoMap when it exceeds it.  When the total would exceed
    8 bytes the resolver has already failed with MapLength.  In particular,
    from an empty mapping, index 2 with 8 bits resolves and index 2 with
    16 bits fails with NoMap. *)
Theorem dummy_mapping_resolution :
  forall (ODA : CO_SDO_OD_attributes_t) (SDO : CO_SDO_t) (R_T len map : Z),
    descriptor_index map <= 7 ->
    descriptor_subIndex map = 0 ->
    Z.land (descriptor_bits map) 7 = 0 ->
    0 <= len <= 8 ->
    (len + descriptor_bytes map <= 8 ->
       (resolve ODA SDO R_T len map = CO_SDO_AB_NONE
        <-> descriptor_bytes map <= dummySize_of (descriptor_index map))
       /\ (dummySize_of (descriptor_index map) < descriptor_bytes map ->
           resolve ODA SDO R_T len map = CO_SDO_AB_NO_MAP))
    /\ (8 < len + descriptor_bytes map ->
        resolve ODA SDO R_T len map = CO_SDO_AB_MAP_LEN)
    /\ dummySize_of (descriptor_index map)
       = match descriptor_index map with
         | 0 | 1 => 0
         | 2 | 5 => 1
         | 3 | 6 => 2
         | _ => 4
         end
    /\ resolve ODA SDO R_T 0 0x00020008 = CO_SDO_AB_NONE
    /\ resolve ODA SDO R_T 0 0x00020010 = CO_SDO_AB_NO_MAP.
Proof.
  intros ODA SDO R_T len map Hi Hs Ha Hlen.
  pose proof (descriptor_bytes_range map) as Hb.
  assert (Hex : resolve ODA SDO R_T 0 0x00020008 = CO_SDO_AB_NONE
                /\ resolve ODA SDO R_T 0 0x00020010 = CO_SDO_AB_NO_MAP).
  { split; rewrite resolve_dummy;
      first [reflexivity | vm_compute; intros Hc; discriminate Hc]. }
  rewrite (resolve_dummy ODA SDO R_T len map Hi Hs).
  apply nonzero_false in Ha. rewrite Ha.
  rewrite (u8_small (len + descriptor_bytes map)) by lia.
  split; [intros Hroom; split; [split|] | split; [|split; [|exact Hex]]].
  - destruct (Z.ltb_spec 8 (len + descriptor_bytes map)); [lia|].
    destruct (Z.ltb_spec (dummySize_of (descriptor_index map))
                         (descriptor_bytes map)); [discriminate | lia].
  - intros Hle.
    destruct (Z.ltb_spec 8 (len + descriptor_bytes map)); [lia|].
    destruct (Z.ltb_spec (dummySize_of (descriptor_index map))
                         (descriptor_bytes map)); [lia | reflexivity].
  - intros Hlt.
    destruct (Z.ltb_spec 8 (len + descriptor_bytes map)); [lia|].
    destruct (Z.ltb_spec (dummySize_of (descriptor_index map))
                         (descriptor_bytes map)); [reflexivity | lia].
  - intros Hgt.
    destruct (Z.ltb_spec 8 (len + descriptor_bytes map)); [reflexivity | lia].
  - assert (Hr : 0 <= descriptor_index map).
    { unfold descriptor_index, u16. apply Z.mod_pos_bound. lia. }
    assert (Hc : descriptor_index map = 0 \/ descriptor_index map = 1
                 \/ descriptor_index map = 2 \/ descriptor_index map = 3
                 \/ descriptor_index map = 4 \/ descriptor_index map = 5
                 \/ descriptor_index map = 6 \/ descriptor_index map = 7)
      by lia.
    destruct Hc as [H|[H|[H|[H|[H|[H|[H|H]]]]]]]; rewrite H; reflexivity.
Qed.

(** The loop never touches the SDO object or the mapping parameters, and
    reports nothing as long as it does not fail. *)
Lemma CO_RPDOconfigMap_for_frame ODA i : forall pMap len RPDO,
  let R := fst (fst (CO_RPDOconfigMap_for ODA i pMap len RPDO)) in
  RPDO.SDO R = RPDO.SDO RPDO
  /\ RPDO.RPDOMapPar R = RPDO.RPDOMapPar RPDO
  /\ (snd (CO_RPDOconfigMap_for ODA i pMap len RPDO) = CO_SDO_AB_NONE ->
      RPDO.em R = RPDO.em RPDO).
Proof.
  induction i as [|i IH]; intros pMap len RPDO; simpl; [auto|].
  destruct (CO_PDOfindMap _ _ _ _ _ _ _ _) as [ret out] eqn:E.
  destruct (is_NONE ret) eqn:Hret; simpl.
  - exact (IH (S pMap) (pLength out)
              (RPDO.set_mapPointer
                 (mapPointer_for (Z.to_nat (pLength out - len)) len
                                 (ppData out) (RPDO.mapPointer RPDO)) RPDO)).
  - apply is_NONE_false in Hret. repeat split; intros; congruence.
Qed.

Lemma CO_TPDOconfigMap_for_frame ODA i : forall pMap len TPDO,
  let T := fst (fst (CO_TPDOconfigMap_for ODA i pMap len TPDO)) in
  TPDO.SDO T = TPDO.SDO TPDO
  /\ TPDO.TPDOMapPar T = TPDO.TPDOMapPar TPDO
  /\ (snd (CO_TPDOconfigMap_for ODA i pMap len TPDO) = CO_SDO_AB_NONE ->
      TPDO.em T = TPDO.em TPDO).
Proof.
  induction i as [|i IH]; intros pMap len TPDO; simpl; [auto|].
  destruct (CO_PDOfindMap _ _ _ _ _ _ _ _) as [ret out] eqn:E.
  destruct (is_NONE ret) eqn:Hret; simpl.
  - exact (IH (S pMap) (pLength out)
              (TPDO.set_mapPointer
                 (mapPointer_for (Z.to_nat (pLength out - len)) len
                                 (ppData out) (TPDO.mapPointer TPDO))
                 (TPDO.set_sendIfCOSFlags (pSendIfCOSFlags out) TPDO))).
  - apply is_NONE_false in Hret. repeat split; intros; congruence.
Qed.

(** Running [k + r] iterations is running [k] of them and, unless these
    failed, [r] more from where they stopped. *)
Lemma CO_RPDOconfigMap_for_split ODA k r : forall pMap len RPDO,
  CO_RPDOconfigMap_for ODA (k + r) pMap len RPDO
  = let '(R, len1, ret) := CO_RPDOconfigMap_for ODA k pMap len RPDO in
    if is_NONE ret then CO_RPDOconfigMap_for ODA r (pMap + k) len1 R
    else (R, len1, ret).
Proof.
  induction k as [|k IH]; intros pMap len RPDO; simpl.
  - rewrite Nat.add_0_r. reflexivity.
  - destruct (CO_PDOfindMap _ _ _ _ _ _ _ _) as [ret out].
    destruct (is_NONE ret) eqn:Hret.
    + rewrite IH. replace (S pMap + k)%nat with (pMap + S k)%nat by lia.
      reflexivity.
    + simpl. rewrite Hret. reflexivity.
Qed.

Lemma CO_TPDOconfigMap_for_split ODA k r : forall pMap len TPDO,
  CO_TPDOconfigMap_for ODA (k + r) pMap len TPDO
  = let '(T, len1, ret) := CO_TPDOconfigMap_for ODA k pMap len TPDO in
    if is_NONE ret then CO_TPDOconfigMap_for ODA r (pMap + k) len1 T
    else (T, len1, ret).
Proof.
  induction k as [|k IH]; intros pMap len TPDO; simpl.
  - rewrite Nat.add_0_r. reflexivity.
  - destruct (CO_PDOfindMap _ _ _ _ _ _ _ _) as [ret out].
    destruct (is_NONE ret) eqn:Hret.
    + rewrite IH. replace (S pMap + k)%nat with (pMap + S k)%nat by lia.
      reflexivity.
    + simpl. rewrite Hret. reflexivity.
Qed.

(** One iteration on a descriptor that does not resolve. *)
Lemma CO_RPDOconfigMap_for_fail ODA r pMap len RPDO :
  resolve ODA (RPDO.SDO RPDO) 0 len
          (mappedObject (RPDO.RPDOMapPar RPDO) pMap) <> CO_SDO_AB_NONE ->
  CO_RPDOconfigMap_for ODA (S r) pMap len RPDO
  = (RPDO.set_em
       (RPDO.em RPDO
        ++ [mkReport CO_EM_PDO_WRONG_MAPPING CO_EMC_PROTOCOL_ERROR
                     (mappedObject (RPDO.RPDOMapPar RPDO) pMap)]) RPDO,
     0,
     resolve ODA (RPDO.SDO RPDO) 0 len
             (mappedObject (RPDO.RPDOMapPar RPDO) pMap)).
Proof.
  intros Hc. simpl.
  rewrite <- (CO_PDOfindMap_resolve ODA _ _ _ uninitialised_pData len 0
                uninitialised_MBvar) in Hc |- *.
  destruct (CO_PDOfindMap _ _ _ _ _ _ _ _) as [ret out]. simpl in *.
  apply is_NONE_false in Hc. rewrite Hc. reflexivity.
Qed.

Lemma CO_TPDOconfigMap_for_fail ODA r pMap len TPDO :
  resolve ODA (TPDO.SDO TPDO) 1 len
          (mappedObject (TPDO.TPDOMapPar TPDO) pMap) <> CO_SDO_AB_NONE ->
  CO_TPDOconfigMap_for ODA (S r) pMap len TPDO
  = (TPDO.set_em
       (TPDO.em TPDO
        ++ [mkReport CO_EM_PDO_WRONG_MAPPING CO_EMC_PROTOCOL_ERROR
                     (mappedObject (TPDO.TPDOMapPar TPDO) pMap)])
       (TPDO.set_sendIfCOSFlags
          (pSendIfCOSFlags
             (snd (CO_PDOfindMap ODA (TPDO.SDO TPDO)
                     (mappedObject (TPDO.TPDOMapPar TPDO) pMap) 1
                     uninitialised_pData len (TPDO.sendIfCOSFlags TPDO)
                     uninitialised_MBvar))) TPDO),
     0,
     resolve ODA (TPDO.SDO TPDO) 1 len
             (mappedObject (TPDO.TPDOMapPar TPDO) pMap)).
Proof.
  intros Hc. simpl.
  rewrite <- (CO_PDOfindMap_resolve ODA _ _ _ uninitialised_pData len
                (TPDO.sendIfCOSFlags TPDO) uninitialised_MBvar) in Hc |- *.
  destruct (CO_PDOfindMap _ _ _ _ _ _ _ _) as [ret out]. simpl in *.
  apply is_NONE_false in Hc. rewrite Hc. reflexivity.
Qed.

(** A failed resolution leaves the change-of-state flags as they were. *)
Lemma CO_PDOfindMap_fail_flags ODA SDO map R_T p len f mb :
  fst (CO_PDOfindMap ODA SDO map R_T p len f mb) <> CO_SDO_AB_NONE ->
  pSendIfCOSFlags (snd (CO_PDOfindMap ODA SDO map R_T p len f mb)) = f.
Proof. unfold CO_PDOfindMap. if_cases; simpl; congruence. Qed.

(** C1.  Let the configurator be asked for [N] descriptors, of which the
    first [k < N] resolve: configuring just these [k] returns 0, leaving the
    object as [RPDOk] (resp. [TPDOk]).  If descriptor [k] then fails to
    resolve with abort code [c], the call for [N] descriptors stops there: it
    returns [c], sets [dataLength] to 0, has made exactly one report, the
    wrong-PDO-mapping one carrying descriptor [k], and has written no map
    pointer beyond those of the first [k] descriptors. *)
Theorem configMap_first_failure :
  forall (ODA : CO_SDO_OD_attributes_t) (RPDO : CO_RPDO_t) (TPDO : CO_TPDO_t)
         (N k : Z),
    0 <= k < N ->
    (forall RPDOk c,
        CO_RPDOconfigMap ODA RPDO k = (RPDOk, CO_SDO_AB_NONE) ->
        resolve ODA (RPDO.SDO RPDO) 0 (RPDO.dataLength RPDOk)
                (mappedObject (RPDO.RPDOMapPar RPDO) (Z.to_nat k)) = c ->
        c <> CO_SDO_AB_NONE ->
        exists RPDO',
          CO_RPDOconfigMap ODA RPDO N = (RPDO', c)
          /\ RPDO.dataLength RPDO' = 0
          /\ RPDO.em RPDO'
             = RPDO.em RPDO
               ++ [mkReport CO_EM_PDO_WRONG_MAPPING CO_EMC_PROTOCOL_ERROR
                            (mappedObject (RPDO.RPDOMapPar RPDO) (Z.to_nat k))]
          /\ RPDO.mapPointer RPDO' = RPDO.mapPointer RPDOk)
    /\ (forall TPDOk c,
        CO_TPDOconfigMap ODA TPDO k = (TPDOk, CO_SDO_AB_NONE) ->
        resolve ODA (TPDO.SDO TPDO) 1 (TPDO.dataLength TPDOk)
                (mappedObject (TPDO.TPDOMapPar TPDO) (Z.to_nat k)) = c ->
        c <> CO_SDO_AB_NONE ->
        exists TPDO',
          CO_TPDOconfigMap ODA TPDO N = (TPDO', c)
          /\ TPDO.dataLength TPDO' = 0
          /\ TPDO.em TPDO'
             = TPDO.em TPDO
               ++ [mkReport CO_EM_PDO_WRONG_MAPPING CO_EMC_PROTOCOL_ERROR
                            (mappedObject (TPDO.TPDOMapPar TPDO) (Z.to_nat k))]
          /\ TPDO.mapPointer TPDO' = TPDO.mapPointer TPDOk).
Proof.
  intros ODA RPDO TPDO N k Hk.
  assert (HN : Z.to_nat N = (Z.to_nat k + S (Z.to_nat N - Z.to_nat k - 1))%nat)
    by lia.
  split.
  - intros RPDOk c Hpre Hc Hne.
    unfold CO_RPDOconfigMap in Hpre |- *.
    rewrite HN, CO_RPDOconfigMap_for_split.
    change (0 + Z.to_nat k)%nat with (Z.to_nat k).
    pose proof (CO_RPDOconfigMap_for_frame ODA (Z.to_nat k) 0 0 RPDO) as HF.
    destruct (CO_RPDOconfigMap_for ODA (Z.to_nat k) 0 0 RPDO)
      as [[Rk lenk] retk] eqn:Ek.
    simpl in HF. destruct HF as (HS & HM & HE).
    injection Hpre as HRk Hret. subst retk RPDOk. simpl in Hc.
    rewrite <- HS, <- HM in Hc. simpl is_NONE. cbv iota.
    rewrite CO_RPDOconfigMap_for_fail by (rewrite Hc; exact Hne).
    rewrite Hc. eexists. split; [reflexivity|].
    simpl. rewrite HE, HM by reflexivity. auto.
  - intros TPDOk c Hpre Hc Hne.
    unfold CO_TPDOconfigMap in Hpre |- *.
    rewrite HN, CO_TPDOconfigMap_for_split.
    change (0 + Z.to_nat k)%nat with (Z.to_nat k).
    pose proof (CO_TPDOconfigMap_for_frame ODA (Z.to_nat k) 0 0
                  (TPDO.set_sendIfCOSFlags 0 TPDO)) as HF.
    destruct (CO_TPDOconfigMap_for ODA (Z.to_nat k) 0 0
                (TPDO.set_sendIfCOSFlags 0 TPDO))
      as [[Tk lenk] retk] eqn:Ek.
    simpl in HF. destruct HF as (HS & HM & HE).
    injection Hpre as HTk Hret. subst retk TPDOk. simpl in Hc.
    rewrite <- HS, <- HM in Hc. simpl is_NONE. cbv iota.
    rewrite CO_TPDOconfigMap_for_fail by (rewrite Hc; exact Hne).
    rewrite Hc. eexists. split; [reflexivity|].
    simpl. rewrite HE, HM by reflexivity. auto.
Qed.

(** When every descriptor resolves on its own and all of them fit, the loop
    runs to its end and has accumulated the sum of the byte lengths. *)
Lemma CO_RPDOconfigMap_for_success ODA i : forall pMap len RPDO,
  0 <= len ->
  Forall (fun map => resolve ODA (RPDO.SDO RPDO) 0 0 map = CO_SDO_AB_NONE)
         (descriptors (RPDO.RPDOMapPar RPDO) pMap i) ->
  len + bytes_sum (descriptors (RPDO.RPDOMapPar RPDO) pMap i) <= 8 ->
  exists R,
    CO_RPDOconfigMap_for ODA i pMap len RPDO
    = (R, len + bytes_sum (descriptors (RPDO.RPDOMapPar RPDO) pMap i),
       CO_SDO_AB_NONE).
Proof.
  induction i as [|i IH]; intros pMap len RPDO Hlen Hall Hsum.
  - exists RPDO. simpl. rewrite Z.add_0_r. reflexivity.
  - unfold descriptors in Hall, Hsum |- *. simpl in Hall, Hsum |- *.
    fold (descriptors (RPDO.RPDOMapPar RPDO) (S pMap) i) in Hall, Hsum |- *.
    set (map := mappedObject (RPDO.RPDOMapPar RPDO) pMap) in *.
    set (rest := bytes_sum (descriptors (RPDO.RPDOMapPar RPDO) (S pMap) i))
      in *.
    apply Forall_cons in Hall as [Hmap Hall].
    pose proof (descriptor_bytes_range map) as Hb.
    assert (Hrest : 0 <= rest).
    { subst rest. generalize (descriptors (RPDO.RPDOMapPar RPDO) (S pMap) i).
      intros l. induction l as [|a l IHl]; simpl; [lia|].
      pose proof (descriptor_bytes_range a). lia. }
    pose proof (resolve_room ODA _ 0 len map Hmap Hlen ltac:(lia)) as Hr.
    rewrite <- (CO_PDOfindMap_resolve ODA _ _ _ uninitialised_pData len 0
                  uninitialised_MBvar) in Hr.
    pose proof (CO_PDOfindMap_NONE_length ODA _ _ _ _ _ _ _ Hr) as [HL _].
    destruct (CO_PDOfindMap _ _ _ _ _ _ _ _) as [ret out]. simpl in Hr, HL.
    subst ret. simpl is_NONE. cbv iota.
    rewrite u8_small in HL by lia. rewrite HL.
    destruct (IH (S pMap) (len + descriptor_bytes map)
                 (RPDO.set_mapPointer
                    (mapPointer_for
                       (Z.to_nat (len + descriptor_bytes map - len)) len
                       (ppData out) (RPDO.mapPointer RPDO)) RPDO))
      as [R HR]; [lia | exact Hall | simpl; fold rest; lia |].
    exists R. rewrite HR. simpl. fold rest. f_equal. f_equal. lia.
Qed.

Lemma CO_TPDOconfigMap_for_success ODA i : forall pMap len TPDO,
  0 <= len ->
  Forall (fun map => resolve ODA (TPDO.SDO TPDO) 1 0 map = CO_SDO_AB_NONE)
         (descriptors (TPDO.TPDOMapPar TPDO) pMap i) ->
  len + bytes_sum (descriptors (TPDO.TPDOMapPar TPDO) pMap i) <= 8 ->
  exists T,
    CO_TPDOconfigMap_for ODA i pMap len TPDO
    = (T, len + bytes_sum (descriptors (TPDO.TPDOMapPar TPDO) pMap i),
       CO_SDO_AB_NONE).
Proof.
  induction i as [|i IH]; intros pMap len TPDO Hlen Hall Hsum.
  - exists TPDO. simpl. rewrite Z.add_0_r. reflexivity.
  - unfold descriptors in Hall, Hsum |- *. simpl in Hall, Hsum |- *.
    fold (descriptors (TPDO.TPDOMapPar TPDO) (S pMap) i) in Hall, Hsum |- *.
    set (map := mappedObject (TPDO.TPDOMapPar TPDO) pMap) in *.
    set (rest := bytes_sum (descriptors (TPDO.TPDOMapPar TPDO) (S pMap) i))
      in *.
    apply Forall_cons in Hall as [Hmap Hall].
    pose proof (descriptor_bytes_range map) as Hb.
    assert (Hrest : 0 <= rest).
    { subst rest. generalize (descriptors (TPDO.TPDOMapPar TPDO) (S pMap) i).
      intros l. induction l as [|a l IHl]; simpl; [lia|].
      pose proof (descriptor_bytes_range a). lia. }
    pose proof (resolve_room ODA _ 1 len map Hmap Hlen ltac:(lia)) as Hr.
    rewrite <- (CO_PDOfindMap_resolve ODA _ _ _ uninitialised_pData len
                  (TPDO.sendIfCOSFlags TPDO) uninitialised_MBvar) in Hr.
    pose proof (CO_PDOfindMap_NONE_length ODA _ _ _ _ _ _ _ Hr) as [HL _].
    destruct (CO_PDOfindMap _ _ _ _ _ _ _ _) as [ret out]. simpl in Hr, HL.
    subst ret. simpl is_NONE. cbv iota.
    rewrite u8_small in HL by lia. rewrite HL.
    destruct (IH (S pMap) (len + descriptor_bytes map)
                 (TPDO.set_mapPointer
                    (mapPointer_for
                       (Z.to_nat (len + descriptor_bytes map - len)) len
                       (ppData out) (TPDO.mapPointer TPDO))
                    (TPDO.set_sendIfCOSFlags (pSendIfCOSFlags out) TPDO)))
      as [T HT]; [lia | exact Hall | simpl; fold rest; lia |].
    exists T. rewrite HT. simpl. fold rest. f_equal. f_equal. lia.
Qed.

(** C3.  For [0 <= N <= 8] descriptors that each resolve successfully (on
    their own, as in the dry run of the mapping access function) and whose
    byte lengths sum to at most 8, the mapping configurator returns 0 and
    sets [dataLength] to exactly the sum of the descriptors' byte lengths. *)
Theorem configMap_success :
  forall (ODA : CO_SDO_OD_attributes_t) (RPDO : CO_RPDO_t) (TPDO : CO_TPDO_t)
         (N : Z),
    0 <= N <= 8 ->
    (Forall (fun map => resolve ODA (RPDO.SDO RPDO) 0 0 map = CO_SDO_AB_NONE)
            (descriptors (RPDO.RPDOMapPar RPDO) 0 (Z.to_nat N)) ->
     bytes_sum (descriptors (RPDO.RPDOMapPar RPDO) 0 (Z.to_nat N)) <= 8 ->
     snd (CO_RPDOconfigMap ODA RPDO N) = CO_SDO_AB_NONE
     /\ RPDO.dataLength (fst (CO_RPDOconfigMap ODA RPDO N))
        = bytes_sum (descriptors (RPDO.RPDOMapPar RPDO) 0 (Z.to_nat N)))
    /\ (Forall (fun map => resolve ODA (TPDO.SDO TPDO) 1 0 map
                           = CO_SDO_AB_NONE)
               (descriptors (TPDO.TPDOMapPar TPDO) 0 (Z.to_nat N)) ->
        bytes_sum (descriptors (TPDO.TPDOMapPar TPDO) 0 (Z.to_nat N)) <= 8 ->
        snd (CO_TPDOconfigMap ODA TPDO N) = CO_SDO_AB_NONE
        /\ TPDO.dataLength (fst (CO_TPDOconfigMap ODA TPDO N))
           = bytes_sum (descriptors (TPDO.TPDOMapPar TPDO) 0 (Z.to_nat N))).
Proof.
  intros ODA RPDO TPDO N HN. split; intros Hall Hsum.
  - destruct (CO_RPDOconfigMap_for_success ODA (Z.to_nat N) 0 0 RPDO
                ltac:(lia) Hall ltac:(lia)) as [R HR].
    unfold CO_RPDOconfigMap. rewrite HR. simpl. auto.
  - destruct (CO_TPDOconfigMap_for_success ODA (Z.to_nat N) 0 0
                (TPDO.set_sendIfCOSFlags 0 TPDO)
                ltac:(lia) Hall ltac:(simpl; lia)) as [T HT].
    unfold CO_TPDOconfigMap. rewrite HT. simpl. auto.
Qed.

(** ** The COB-ID masks, bit by bit *)

Lemma testbit_BFFFF800 (n : Z) :
  0 <= n ->
  Z.testbit 0xBFFFF800 n = ((11 <=? n) && (n <=? 29)) || (n =? 31).
Proof.
  intros Hn. destruct (Z_lt_le_dec n 32) as [Hlt|Hge].
  - assert (E : n = Z.of_nat (Z.to_nat n)) by lia.
    assert (Hb : (Z.to_nat n < 32)%nat) by lia.
    rewrite E. generalize dependent (Z.to_nat n). clear.
    intros m _ Hb.
    do 32 (destruct m as [|m]; [reflexivity|]). lia.
  - rewrite Z.bits_above_log2 by (try lia; change (Z.log2 0xBFFFF800) with 31; lia).
    symmetry. apply orb_false_iff. split.
    + apply andb_false_iff. right. apply Z.leb_gt. lia.
    + apply Z.eqb_neq. lia.
Qed.

Lemma land_BFFFF800_clear (COB_ID : Z) :
  Z.land COB_ID 0xBFFFF800 = 0 <-> COB_ID_bits_clear COB_ID.
Proof.
  unfold COB_ID_bits_clear. split.
  - intros H.
    assert (Hbit : forall n, 0 <= n -> Z.testbit 0xBFFFF800 n = true ->
                             Z.testbit COB_ID n = false).
    { intros n Hn Hm.
      pose proof (Z.land_spec COB_ID 0xBFFFF800 n) as Hs.
      rewrite H, Z.bits_0, Hm, andb_true_r in Hs. auto. }
    split.
    + apply Hbit; [lia | reflexivity].
    + intros i Hi. apply Hbit; [lia|].
      rewrite testbit_BFFFF800 by lia.
      apply orb_true_iff. left. apply andb_true_iff. split; apply Z.leb_le; lia.
  - intros [H31 Hmid]. apply Z.bits_inj'. intros n Hn.
    rewrite Z.land_spec, Z.bits_0, testbit_BFFFF800 by lia.
    destruct (Z.eqb_spec n 31) as [->|Hne].
    + rewrite H31. reflexivity.
    + rewrite orb_false_r.
      destruct (Z.leb_spec 11 n), (Z.leb_spec n 29); simpl;
        try apply andb_false_r.
      rewrite Hmid by lia. reflexivity.
Qed.

(** Under that test the identifier taken by [(uint16_t)COB_ID] is the 11-bit
    identifier. *)
Lemma u16_identifier (COB_ID : Z) :
  Z.land COB_ID 0xBFFFF800 = 0 -> u16 COB_ID = Z.land COB_ID 0x7FF.
Proof.
  intros H. apply land_BFFFF800_clear in H as [_ Hmid].
  unfold u16. rewrite <- Z.land_ones by lia.
  change 0x7FF with (Z.ones 11).
  apply Z.bits_inj'. intros n Hn.
  rewrite !Z.land_spec, !Z.testbit_ones_nonneg by lia.
  destruct (Z.ltb_spec n 16), (Z.ltb_spec n 11); try reflexivity; try lia.
  rewrite Hmid by lia. reflexivity.
Qed.

Lemma used_test (COB_ID dataLength : Z) :
  (Z.land COB_ID 0xBFFFF800 =? 0) && nonzero dataLength
  && nonzero (u16 COB_ID) = true
  <-> COB_ID_used COB_ID dataLength.
Proof.
  unfold COB_ID_used. rewrite !andb_true_iff, Z.eqb_eq, !nonzero_true.
  split.
  - intros [[H1 H2] H3]. rewrite (u16_identifier _ H1) in H3.
    apply land_BFFFF800_clear in H1. auto.
  - intros (H1 & H2 & H3). apply land_BFFFF800_clear in H1.
    rewrite (u16_identifier _ H1). auto.
Qed.

(** ** The communication configurators *)

Lemma CO_RPDOconfigCom_used CONFIG RPDO COB_ID :
  COB_ID_used COB_ID (RPDO.dataLength RPDO) ->
  let ID := effective_ID (RPDO.defaultCOB_ID RPDO) (RPDO.nodeId RPDO) COB_ID in
  let R' := CO_RPDOconfigCom CONFIG RPDO COB_ID in
  CANlog (RPDO.CANdevRx R')
  = CANlog (RPDO.CANdevRx RPDO)
    ++ [CANrxBufferInit_call (RPDO.CANdevRxIdx RPDO) ID 0x7FF false]
  /\ RPDO.valid R'
     = is_ERROR_NO (rxBufferInit_outcome (RPDO.CANdevRx RPDO)
                      (CANlog (RPDO.CANdevRx RPDO))
                      (RPDO.CANdevRxIdx RPDO) ID 0x7FF false).
Proof.
  intros Hused. pose proof Hused as Ht. apply used_test in Ht.
  pose proof Ht as Hm. rewrite !andb_true_iff, Z.eqb_eq in Hm.
  destruct Hm as [[Hm _] _].
  unfold CO_RPDOconfigCom, effective_ID. rewrite Ht.
  rewrite (u16_identifier _ Hm).
  unfold CO_CANrxBufferInit, RPDO_clear_CANrxNew.
  destruct (CO_CONFIG_PDO_SYNC_ENABLE CONFIG) eqn:Hsync;
    cbn [fst snd RPDO.CANdevRx RPDO.CANdevRxIdx RPDO.set_valid
         RPDO.set_synchronous];
    destruct (rxBufferInit_outcome _ _ _ _ _ _) eqn:Ho;
    split; reflexivity.
Qed.

Lemma CO_RPDOconfigCom_unused CONFIG RPDO COB_ID :
  ~ COB_ID_used COB_ID (RPDO.dataLength RPDO) ->
  let R' := CO_RPDOconfigCom CONFIG RPDO COB_ID in
  CANlog (RPDO.CANdevRx R')
  = CANlog (RPDO.CANdevRx RPDO)
    ++ [CANrxBufferInit_call (RPDO.CANdevRxIdx RPDO) 0 0x7FF false]
  /\ RPDO.valid R' = false.
Proof.
  intros Hused. rewrite <- used_test in Hused.
  apply not_true_is_false in Hused.
  unfold CO_RPDOconfigCom. rewrite Hused.
  unfold CO_CANrxBufferInit, RPDO_clear_CANrxNew.
  destruct (CO_CONFIG_PDO_SYNC_ENABLE CONFIG) eqn:Hsync;
    cbn [fst snd RPDO.CANdevRx RPDO.CANdevRxIdx RPDO.set_valid
         RPDO.set_CANrxNew];
    destruct (rxBufferInit_outcome _ _ _ _ _ _) eqn:Ho;
    split; reflexivity.
Qed.

Lemma CO_TPDOconfigCom_used TPDO COB_ID sync :
  COB_ID_used COB_ID (TPDO.dataLength TPDO) ->
  let ID := effective_ID (TPDO.defaultCOB_ID TPDO) (TPDO.nodeId TPDO) COB_ID in
  let T' := CO_TPDOconfigCom TPDO COB_ID sync in
  CANlog (TPDO.CANdevTx T')
  = CANlog (TPDO.CANdevTx TPDO)
    ++ [CANtxBufferInit_call (TPDO.CANdevTxIdx TPDO) ID false
                             (TPDO.dataLength TPDO) sync]
  /\ TPDO.valid T'
     = match txBufferInit_outcome (TPDO.CANdevTx TPDO)
               (CANlog (TPDO.CANdevTx TPDO)) (TPDO.CANdevTxIdx TPDO) ID false
               (TPDO.dataLength TPDO) sync with
       | Some _ => true
       | None => false
       end.
Proof.
  intros Hused. pose proof Hused as Ht. apply used_test in Ht.
  pose proof Ht as Hm. rewrite !andb_true_iff, Z.eqb_eq in Hm.
  destruct Hm as [[Hm _] _].
  unfold CO_TPDOconfigCom, effective_ID. rewrite Ht.
  rewrite (u16_identifier _ Hm). unfold CO_CANtxBufferInit.
  destruct (txBufferInit_outcome _ _ _ _ _ _) eqn:Ho; split; reflexivity.
Qed.

Lemma CO_TPDOconfigCom_unused TPDO COB_ID sync :
  ~ COB_ID_used COB_ID (TPDO.dataLength TPDO) ->
  let T' := CO_TPDOconfigCom TPDO COB_ID sync in
  CANlog (TPDO.CANdevTx T')
  = CANlog (TPDO.CANdevTx TPDO)
    ++ [CANtxBufferInit_call (TPDO.CANdevTxIdx TPDO) 0 false
                             (TPDO.dataLength TPDO) sync]
  /\ TPDO.valid T' = false.
Proof.
  intros Hused. rewrite <- used_test in Hused.
  apply not_true_is_false in Hused.
  unfold CO_TPDOconfigCom. rewrite Hused. unfold CO_CANtxBufferInit.
  destruct (txBufferInit_outcome _ _ _ _ _ _) eqn:Ho; split; reflexivity.
Qed.

Lemma COB_ID_used_dec (COB_ID len : Z) :
  COB_ID_used COB_ID len \/ ~ COB_ID_used COB_ID len.
Proof.
  rewrite <- used_test.
  destruct ((Z.land COB_ID 0xBFFFF800 =? 0) && nonzero len
            && nonzero (u16 COB_ID)); [left | right]; congruence.
Qed.

Lemma CO_RPDOconfigCom_valid_iff CONFIG RPDO COB_ID :
  (forall ident,
      rxBufferInit_outcome (RPDO.CANdevRx RPDO)
        (CANlog (RPDO.CANdevRx RPDO)) (RPDO.CANdevRxIdx RPDO)
        ident 0x7FF false = CO_ERROR_NO) ->
  (RPDO.valid (CO_RPDOconfigCom CONFIG RPDO COB_ID) = true
   <-> COB_ID_used COB_ID (RPDO.dataLength RPDO)).
Proof.
  intros Hok. destruct (COB_ID_used_dec COB_ID (RPDO.dataLength RPDO)) as [Hu|Hu].
  - destruct (CO_RPDOconfigCom_used CONFIG RPDO COB_ID Hu) as [_ Hv].
    rewrite Hv, Hok. simpl. tauto.
  - destruct (CO_RPDOconfigCom_unused CONFIG RPDO COB_ID Hu) as [_ Hv].
    rewrite Hv. split; [discriminate | tauto].
Qed.

Lemma CO_TPDOconfigCom_valid_iff TPDO COB_ID sync :
  (forall ident,
      txBufferInit_outcome (TPDO.CANdevTx TPDO)
        (CANlog (TPDO.CANdevTx TPDO)) (TPDO.CANdevTxIdx TPDO)
        ident false (TPDO.dataLength TPDO) sync <> None) ->
  (TPDO.valid (CO_TPDOconfigCom TPDO COB_ID sync) = true
   <-> COB_ID_used COB_ID (TPDO.dataLength TPDO)).
Proof.
  intros Hok. destruct (COB_ID_used_dec COB_ID (TPDO.dataLength TPDO)) as [Hu|Hu].
  - destruct (CO_TPDOconfigCom_used TPDO COB_ID sync Hu) as [_ Hv].
    rewrite Hv.
    destruct (txBufferInit_outcome _ _ _ _ _ _ _) eqn:Ho;
      [tauto | exfalso; exact (Hok _ Ho)].
  - destruct (CO_TPDOconfigCom_unused TPDO COB_ID sync Hu) as [_ Hv].
    rewrite Hv. split; [discriminate | tauto].
Qed.

(** C5 (as amended).  For every COB-ID value given to [CO_RPDOconfigCom] or
    [CO_TPDOconfigCom], if the buffer registration succeeds the object becomes
    valid if and only if bit 31 and bits 11..29 of the value are zero (bit 30
    is not examined), the mapped [dataLength] is non-zero and the 11-bit
    identifier is non-zero.  In that case the identifier registered with the
    CAN device is the 11-bit identifier, with the node ID added (as
    [uint16_t]) when it equals the default COB-ID; otherwise identifier 0 is
    registered. *)
Theorem configCom_validity :
  forall (CONFIG : CO_CONFIG_PDO_t) (RPDO : CO_RPDO_t) (TPDO : CO_TPDO_t)
         (COB_ID syncFlag : Z),
    let R' := CO_RPDOconfigCom CONFIG RPDO COB_ID in
    let T' := CO_TPDOconfigCom TPDO COB_ID syncFlag in
    ((forall ident,
         rxBufferInit_outcome (RPDO.CANdevRx RPDO)
           (CANlog (RPDO.CANdevRx RPDO)) (RPDO.CANdevRxIdx RPDO)
           ident 0x7FF false = CO_ERROR_NO) ->
     (RPDO.valid R' = true <-> COB_ID_used COB_ID (RPDO.dataLength RPDO)))
    /\ (COB_ID_used COB_ID (RPDO.dataLength RPDO) ->
        CANlog (RPDO.CANdevRx R')
        = CANlog (RPDO.CANdevRx RPDO)
          ++ [CANrxBufferInit_call (RPDO.CANdevRxIdx RPDO)
                (effective_ID (RPDO.defaultCOB_ID RPDO) (RPDO.nodeId RPDO)
                              COB_ID)
                0x7FF false])
    /\ (~ COB_ID_used COB_ID (RPDO.dataLength RPDO) ->
        CANlog (RPDO.CANdevRx R')
        = CANlog (RPDO.CANdevRx RPDO)
          ++ [CANrxBufferInit_call (RPDO.CANdevRxIdx RPDO) 0 0x7FF false])
    /\ ((forall ident,
            txBufferInit_outcome (TPDO.CANdevTx TPDO)
              (CANlog (TPDO.CANdevTx TPDO)) (TPDO.CANdevTxIdx TPDO)
              ident false (TPDO.dataLength TPDO) syncFlag <> None) ->
        (TPDO.valid T' = true <-> COB_ID_used COB_ID (TPDO.dataLength TPDO)))
    /\ (COB_ID_used COB_ID (TPDO.dataLength TPDO) ->
        CANlog (TPDO.CANdevTx T')
        = CANlog (TPDO.CANdevTx TPDO)
          ++ [CANtxBufferInit_call (TPDO.CANdevTxIdx TPDO)
                (effective_ID (TPDO.defaultCOB_ID TPDO) (TPDO.nodeId TPDO)
                              COB_ID)
                false (TPDO.dataLength TPDO) syncFlag])
    /\ (~ COB_ID_used COB_ID (TPDO.dataLength TPDO) ->
        CANlog (TPDO.CANdevTx T')
        = CANlog (TPDO.CANdevTx TPDO)
          ++ [CANtxBufferInit_call (TPDO.CANdevTxIdx TPDO) 0 false
                (TPDO.dataLength TPDO) syncFlag]).
Proof.
  intros CONFIG RPDO TPDO COB_ID syncFlag R' T'. subst R' T'.
  repeat apply conj.
  - apply CO_RPDOconfigCom_valid_iff.
  - intros Hu. apply (CO_RPDOconfigCom_used CONFIG RPDO COB_ID Hu).
  - intros Hu. apply (CO_RPDOconfigCom_unused CONFIG RPDO COB_ID Hu).
  - apply CO_TPDOconfigCom_valid_iff.
  - intros Hu. apply (CO_TPDOconfigCom_used TPDO COB_ID syncFlag Hu).
  - intros Hu. apply (CO_TPDOconfigCom_unused TPDO COB_ID syncFlag Hu).
Qed.

(** ** The communication parameter access functions *)

Lemma com_write_permitted_tests flags st :
  com_write_permitted flags st ->
  nonzero (Z.land flags 0x04) = false
  /\ is_OPERATIONAL st && nonzero (Z.land flags 0x01) = false.
Proof.
  intros [H4 H1]. split.
  - apply nonzero_false. exact H4.
  - destruct (nonzero (Z.land flags 1)) eqn:Hn; [|apply andb_false_r].
    apply nonzero_true in Hn.
    destruct st; try reflexivity. exfalso. apply H1. auto.
Qed.


(** What the COB-ID check of the access functions does reject: a value with
    one of bits 15..29 set (mask 0x3FFF8000). *)
Lemma COB_ID_write_bits_15_29_rejected CONFIG RPDO TPDO ODF_arg m :
  reading ODF_arg = false -> subIndex ODF_arg = 1 ->
  Z.land (CO_getUint32 m (data ODF_arg)) 0x3FFF8000 <> 0 ->
  (com_write_permitted (RPDO.restrictionFlags RPDO)
                       (RPDO.operatingState RPDO) ->
   CO_ODF_RPDOcom CONFIG RPDO ODF_arg m = (CO_SDO_AB_INVALID_VALUE, RPDO, m))
  /\ (com_write_permitted (TPDO.restrictionFlags TPDO)
                          (TPDO.operatingState TPDO) ->
      CO_ODF_TPDOcom CONFIG TPDO ODF_arg m
      = Some (CO_SDO_AB_INVALID_VALUE, TPDO, m)).
Proof.
  intros Hrd Hsub Hbits. apply nonzero_true in Hbits.
  split; intros Hp; apply com_write_permitted_tests in Hp as [H4 H1].
  - unfold CO_ODF_RPDOcom. rewrite Hrd, Hsub, H4, H1, Hbits. reflexivity.
  - unfold CO_ODF_TPDOcom. rewrite Hrd, Hsub, H4, H1, Hbits. reflexivity.
Qed.

(** What it does not reject: on an invalid object a value whose bits 15..29
    are zero goes on to the communication configurator, whatever its bits
    11..14. *)
Lemma COB_ID_write_bits_11_14_unchecked CONFIG RPDO TPDO ODF_arg m buff :
  reading ODF_arg = false -> subIndex ODF_arg = 1 ->
  Z.land (CO_getUint32 m (data ODF_arg)) 0x3FFF8000 = 0 ->
  (com_write_permitted (RPDO.restrictionFlags RPDO)
                       (RPDO.operatingState RPDO) ->
   RPDO.valid RPDO = false ->
   fst (fst (CO_ODF_RPDOcom CONFIG RPDO ODF_arg m)) = CO_SDO_AB_NONE)
  /\ (com_write_permitted (TPDO.restrictionFlags TPDO)
                          (TPDO.operatingState TPDO) ->
      TPDO.valid TPDO = false ->
      TPDO.CANtxBuff TPDO = Some buff ->
      option_map (fun r => fst (fst r)) (CO_ODF_TPDOcom CONFIG TPDO ODF_arg m)
      = Some CO_SDO_AB_NONE).
Proof.
  intros Hrd Hsub Hbits. apply nonzero_false in Hbits.
  split; intros Hp; apply com_write_permitted_tests in Hp as [H4 H1].
  - intros Hv. unfold CO_ODF_RPDOcom.
    rewrite Hrd, Hsub, H4, H1, Hbits, Hv.
    cbn [Z.eqb Pos.eqb negb].
    destruct (Z.land _ 0xFFFF =? _); reflexivity.
  - intros Hv Hb. unfold CO_ODF_TPDOcom.
    rewrite Hrd, Hsub, H4, H1, Hbits, Hv, Hb.
    cbn [Z.eqb Pos.eqb negb].
    destruct (Z.land _ 0xFFFF =? _); reflexivity.
Qed.


(** C7 (as amended).  Every write of a transmission type in 241..253
    (sub-index 2) that passes the restriction checks is rejected with
    InvalidValue, whatever the rest of the object's state and whether or not
    SYNC support is compiled in; the object and the memory stay as they
    were. *)
Theorem transmission_type_reserved_rejected :
  forall (CONFIG : CO_CONFIG_PDO_t) (RPDO : CO_RPDO_t) (TPDO : CO_TPDO_t)
         (ODF_arg : CO_ODF_arg_t) (m : memory),
    reading ODF_arg = false ->
    subIndex ODF_arg = 2 ->
    241 <= u8 (load m (data ODF_arg)) <= 253 ->
    (com_write_permitted (RPDO.restrictionFlags RPDO)
                         (RPDO.operatingState RPDO) ->
     CO_ODF_RPDOcom CONFIG RPDO ODF_arg m = (CO_SDO_AB_INVALID_VALUE, RPDO, m))
    /\ (com_write_permitted (TPDO.restrictionFlags TPDO)
                            (TPDO.operatingState TPDO) ->
        CO_ODF_TPDOcom CONFIG TPDO ODF_arg m
        = Some (CO_SDO_AB_INVALID_VALUE, TPDO, m)).
Proof.
  intros CONFIG RPDO TPDO ODF_arg m Hrd Hsub Hval.
  assert (Hlo : (241 <=? u8 (load m (data ODF_arg))) = true)
    by (apply Z.leb_le; lia).
  assert (Hhi : (u8 (load m (data ODF_arg)) <=? 253) = true)
    by (apply Z.leb_le; lia).
  split; intros Hp; apply com_write_permitted_tests in Hp as [H4 H1].
  - unfold CO_ODF_RPDOcom. rewrite Hrd, Hsub, H4, H1, Hlo, Hhi.
    destruct (CO_CONFIG_PDO_SYNC_ENABLE CONFIG); reflexivity.
  - unfold CO_ODF_TPDOcom. rewrite Hrd, Hsub, H4, H1, Hlo, Hhi.
    destruct (CO_CONFIG_PDO_SYNC_ENABLE CONFIG); reflexivity.
Qed.

(** ** CO_TPDOsend *)

Lemma CO_TPDOsend_for_spec (mapPointer : list pointer) (m : memory) i :
  forall (k : nat) (PDOdata : list Z),
    (k + i <= length mapPointer)%nat ->
    (k + i <= length PDOdata)%nat ->
    exists PDOdata',
      CO_TPDOsend_for i k mapPointer m PDOdata = Some PDOdata'
      /\ length PDOdata' = length PDOdata
      /\ (forall j p, (k <= j < k + i)%nat -> mapPointer !! j = Some p ->
                      PDOdata' !! j = Some (load m p))
      /\ (forall j, (j < k \/ k + i <= j)%nat ->
                    PDOdata' !! j = PDOdata !! j).
Proof.
  induction i as [|i IH]; intros k PDOdata Hmp Hd; simpl.
  - exists PDOdata. repeat split; auto. intros j p Hj. lia.
  - destruct (lookup_lt_is_Some_2 mapPointer k ltac:(lia)) as [p0 Hp0].
    rewrite Hp0. rewrite bool_decide_eq_true_2 by lia.
    destruct (IH (S k) (<[k := load m p0]> PDOdata))
      as (d' & Hrun & Hlen & Hcopy & Hframe);
      [lia | rewrite length_insert; lia |].
    exists d'. rewrite length_insert in Hlen.
    split; [exact Hrun|]. split; [exact Hlen|]. split.
    + intros j p Hj Hp. destruct (decide (j = k)) as [->|Hne].
      * rewrite Hframe by lia.
        rewrite list_lookup_insert_eq by lia. congruence.
      * apply Hcopy; [lia | exact Hp].
    + intros j Hj. rewrite Hframe by lia.
      apply list_lookup_insert_ne. lia.
Qed.

(** What one call of [CO_TPDOsend] does on an object whose arrays have their
    8 elements and whose transmit buffer pointer is not null. *)
Lemma CO_TPDOsend_spec CONFIG TPDO m buff :
  TPDO.CANtxBuff TPDO = Some buff ->
  length (tx_data buff) = 8%nat ->
  length (TPDO.mapPointer TPDO) = 8%nat ->
  0 <= TPDO.dataLength TPDO <= 8 ->
  let m' := TPDO_CALLS_EXTENSION CONFIG TPDO m in
  exists T' PDOdata,
    CO_TPDOsend CONFIG TPDO m
    = Some (T', m',
            snd (CO_CANsend (TPDO.CANdevTx TPDO)
                            (mkCANtx PDOdata (syncFlag buff))))
    /\ TPDO.CANtxBuff T' = Some (mkCANtx PDOdata (syncFlag buff))
    /\ TPDO.CANdevTx T'
       = fst (CO_CANsend (TPDO.CANdevTx TPDO)
                         (mkCANtx PDOdata (syncFlag buff)))
    /\ (forall i p, 0 <= i < TPDO.dataLength TPDO ->
                    TPDO.mapPointer TPDO !! Z.to_nat i = Some p ->
                    PDOdata !! Z.to_nat i = Some (load m' p))
    /\ (forall i, TPDO.dataLength TPDO <= i ->
                  PDOdata !! Z.to_nat i = tx_data buff !! Z.to_nat i)
    /\ TPDO.sendRequest T' = 0
    /\ TPDO.mapPointer T' = TPDO.mapPointer TPDO
    /\ TPDO.dataLength T' = TPDO.dataLength TPDO.
Proof.
  intros Hbuff Hd Hmp HL m'.
  destruct (CO_TPDOsend_for_spec (TPDO.mapPointer TPDO) m'
              (Z.to_nat (TPDO.dataLength TPDO)) 0 (tx_data buff))
    as (d' & Hrun & Hlen & Hcopy & Hframe); [lia | lia |].
  unfold CO_TPDOsend. fold m'. rewrite Hbuff, Hrun.
  do 2 eexists. split; [reflexivity|].
  repeat split.
  - intros i p Hi Hp. apply Hcopy; [lia | exact Hp].
  - intros i Hi. apply Hframe. lia.
Qed.

(** Configuring the two descriptors A (resolving to pointer [pA], 2 bytes)
    and B (resolving to [pB], 1 byte). *)
Lemma CO_TPDOconfigMap_AB ODA TPDO pA pB fA fB mbA mbB :
  CO_PDOfindMap ODA (TPDO.SDO TPDO)
    (mappedObject (TPDO.TPDOMapPar TPDO) 0%nat) 1
    uninitialised_pData 0 0 uninitialised_MBvar
  = (CO_SDO_AB_NONE, mkOut pA 2 fA mbA) ->
  CO_PDOfindMap ODA (TPDO.SDO TPDO)
    (mappedObject (TPDO.TPDOMapPar TPDO) 1%nat) 1
    uninitialised_pData 2 fA uninitialised_MBvar
  = (CO_SDO_AB_NONE, mkOut pB 3 fB mbB) ->
  let T2 := fst (CO_TPDOconfigMap ODA TPDO 2) in
  snd (CO_TPDOconfigMap ODA TPDO 2) = CO_SDO_AB_NONE
  /\ TPDO.dataLength T2 = 3
  /\ TPDO.mapPointer T2
     = <[2%nat := pB]>
         (<[1%nat := ptr_add pA 1]> (<[0%nat := pA]> (TPDO.mapPointer TPDO)))
  /\ TPDO.CANtxBuff T2 = TPDO.CANtxBuff TPDO
  /\ TPDO.CANdevTx T2 = TPDO.CANdevTx TPDO.
Proof.
  intros HA HB. unfold CO_TPDOconfigMap.
  change (Z.to_nat 2) with 2%nat.
  cbn [CO_TPDOconfigMap_for TPDO.SDO TPDO.TPDOMapPar TPDO.sendIfCOSFlags
       TPDO.set_sendIfCOSFlags].
  rewrite HA.
  cbn [is_NONE pLength pSendIfCOSFlags ppData TPDO.SDO TPDO.TPDOMapPar
       TPDO.sendIfCOSFlags TPDO.set_sendIfCOSFlags TPDO.set_mapPointer
       TPDO.mapPointer].
  rewrite HB.
  cbn [is_NONE pLength pSendIfCOSFlags ppData fst snd].
  repeat split.
Qed.

(** C9.  [CO_TPDOsend] on a TPDO of aggregate length [L = dataLength] (its
    arrays having their 8 elements, its transmit buffer not null) copies, for
    each [i] in [0..L-1], the byte that [mapPointer[i]] references (in the
    memory as the pre-send OD extensions, if any, left it) into byte [i] of
    the CAN frame, leaves the other frame bytes alone, clears [sendRequest],
    calls [CO_CANsend] on the CAN module with that frame (the module's call
    log gains exactly this call) and returns the outcome of that call.
    Consequently, after configuring the descriptors A (2 bytes at [pA]) then
    B (1 byte at [pB]), sending hands the driver a frame with A in bytes 0
    and 1 and B in byte 2. *)
Theorem TPDOsend_copies_mapped_bytes :
  (forall (CONFIG : CO_CONFIG_PDO_t) (TPDO : CO_TPDO_t) (m : memory)
          (buff : CO_CANtx_t),
      TPDO.CANtxBuff TPDO = Some buff ->
      length (tx_data buff) = 8%nat ->
      length (TPDO.mapPointer TPDO) = 8%nat ->
      0 <= TPDO.dataLength TPDO <= 8 ->
      let m' := TPDO_CALLS_EXTENSION CONFIG TPDO m in
      exists T' PDOdata,
        CO_TPDOsend CONFIG TPDO m
        = Some (T', m',
                snd (CO_CANsend (TPDO.CANdevTx TPDO)
                                (mkCANtx PDOdata (syncFlag buff))))
        /\ TPDO.CANdevTx T'
           = fst (CO_CANsend (TPDO.CANdevTx TPDO)
                             (mkCANtx PDOdata (syncFlag buff)))
        /\ CANlog (TPDO.CANdevTx T')
           = CANlog (TPDO.CANdevTx TPDO)
             ++ [CANsend_call (mkCANtx PDOdata (syncFlag buff))]
        /\ TPDO.CANtxBuff T' = Some (mkCANtx PDOdata (syncFlag buff))
        /\ (forall i p, 0 <= i < TPDO.dataLength TPDO ->
                        TPDO.mapPointer TPDO !! Z.to_nat i = Some p ->
                        PDOdata !! Z.to_nat i = Some (load m' p))
        /\ (forall i, TPDO.dataLength TPDO <= i ->
                      PDOdata !! Z.to_nat i = tx_data buff !! Z.to_nat i)
        /\ TPDO.sendRequest T' = 0)
  /\ (forall (ODA : CO_SDO_OD_attributes_t) (CONFIG : CO_CONFIG_PDO_t)
             (TPDO : CO_TPDO_t) (m : memory) (buff : CO_CANtx_t)
             (pA pB : pointer) (fA fB mbA mbB : Z),
         TPDO.CANtxBuff TPDO = Some buff ->
         length (tx_data buff) = 8%nat ->
         length (TPDO.mapPointer TPDO) = 8%nat ->
         CO_PDOfindMap ODA (TPDO.SDO TPDO)
           (mappedObject (TPDO.TPDOMapPar TPDO) 0%nat) 1
           uninitialised_pData 0 0 uninitialised_MBvar
         = (CO_SDO_AB_NONE, mkOut pA 2 fA mbA) ->
         CO_PDOfindMap ODA (TPDO.SDO TPDO)
           (mappedObject (TPDO.TPDOMapPar TPDO) 1%nat) 1
           uninitialised_pData 2 fA uninitialised_MBvar
         = (CO_SDO_AB_NONE, mkOut pB 3 fB mbB) ->
         let T2 := fst (CO_TPDOconfigMap ODA TPDO 2) in
         let m' := TPDO_CALLS_EXTENSION CONFIG T2 m in
         exists T' PDOdata,
           CO_TPDOsend CONFIG T2 m
           = Some (T', m',
                   snd (CO_CANsend (TPDO.CANdevTx TPDO)
                                   (mkCANtx PDOdata (syncFlag buff))))
           /\ TPDO.CANdevTx T'
              = fst (CO_CANsend (TPDO.CANdevTx TPDO)
                                (mkCANtx PDOdata (syncFlag buff)))
           /\ CANlog (TPDO.CANdevTx T')
              = CANlog (TPDO.CANdevTx TPDO)
                ++ [CANsend_call (mkCANtx PDOdata (syncFlag buff))]
           /\ TPDO.CANtxBuff T' = Some (mkCANtx PDOdata (syncFlag buff))
           /\ PDOdata !! 0%nat = Some (load m' pA)
           /\ PDOdata !! 1%nat = Some (load m' (ptr_add pA 1))
           /\ PDOdata !! 2%nat = Some (load m' pB)
           /\ TPDO.sendRequest T' = 0).
Proof.
  split.
  - intros CONFIG TPDO m buff Hbuff Hd Hmp HL m'.
    destruct (CO_TPDOsend_spec CONFIG TPDO m buff Hbuff Hd Hmp HL)
      as (T' & d & Hrun & Hb & Hdev & Hcopy & Hframe & Hreq & _).
    exists T', d. split; [exact Hrun|]. split; [exact Hdev|].
    split; [rewrite Hdev; reflexivity|]. auto.
  - intros ODA CONFIG TPDO m buff pA pB fA fB mbA mbB Hbuff Hd Hmp HA HB T2 m'.
    destruct (CO_TPDOconfigMap_AB ODA TPDO pA pB fA fB mbA mbB HA HB)
      as (_ & HL2 & Hmp2 & Hb2 & Hdev2).
    fold T2 in HL2, Hmp2, Hb2, Hdev2. rewrite Hbuff in Hb2.
    assert (Hlen2 : length (TPDO.mapPointer T2) = 8%nat)
      by (rewrite Hmp2, !length_insert; exact Hmp).
    destruct (CO_TPDOsend_spec CONFIG T2 m buff Hb2 Hd Hlen2 ltac:(lia))
      as (T' & d & Hrun & Hb & Hdev & Hcopy & _ & Hreq & _).
    fold m' in Hrun, Hcopy. rewrite Hdev2 in Hrun, Hdev.
    exists T', d. split; [exact Hrun|]. split; [exact Hdev|].
    split; [rewrite Hdev; reflexivity|]. split; [exact Hb|].
    rewrite HL2, Hmp2 in Hcopy.
    split; [|split; [|split; [|exact Hreq]]].
    + apply (Hcopy 0); [lia|].
      rewrite list_lookup_insert_ne, list_lookup_insert_ne by lia.
      apply list_lookup_insert_eq. lia.
    + apply (Hcopy 1); [lia|].
      rewrite list_lookup_insert_ne by (change (Z.to_nat 1) with 1%nat; lia).
      apply list_lookup_insert_eq. rewrite length_insert. lia.
    + apply (Hcopy 2); [lia|].
      apply list_lookup_insert_eq. rewrite !length_insert. lia.
Qed.

(** ** CO_RPDO_process *)

(** The fuel given to the drain loop is enough: as the body clears the flag
    it tests, more fuel never changes the result. *)
Lemma CO_RPDO_process_while_fuel bufNo RPDO m update (n : nat) :
  CO_RPDO_process_while (2 + n) bufNo RPDO m update
  = CO_RPDO_process_while 2 bufNo RPDO m update.
Proof.
  cbn [CO_RPDO_process_while Nat.add].
  destruct (CO_FLAG_READ (RPDO.CANrxNew RPDO) bufNo) eqn:Hflag; [|reflexivity].
  destruct (RPDO.CANrxData RPDO !! bufNo); [|reflexivity].
  destruct (CO_RPDO_process_for _ _ _ _ _); [|reflexivity].
  cbn [RPDO.CANrxNew RPDO.set_CANrxNew].
  assert (Hclr : CO_FLAG_READ (<[bufNo := false]> (RPDO.CANrxNew RPDO)) bufNo
                 = false).
  { unfold CO_FLAG_READ in *.
    destruct (RPDO.CANrxNew RPDO !! bufNo) eqn:Hl; [|discriminate].
    rewrite list_lookup_insert_eq; [reflexivity|].
    apply lookup_lt_Some in Hl. exact Hl. }
  rewrite Hclr. destruct n; reflexivity.
Qed.

(** Without SYNC support only the first receive-new flag exists for the
    code: an idle object has that one flag cleared. *)
Lemma RPDO_process_idle_without_SYNC CONFIG RPDO syncWas m :
  CO_CONFIG_PDO_SYNC_ENABLE CONFIG = false ->
  RPDO.valid RPDO = false
  \/ RPDO.operatingState RPDO <> CO_NMT_OPERATIONAL ->
  CO_RPDO_process CONFIG RPDO syncWas m
  = Some (RPDO.set_CANrxNew (<[0%nat := false]> (RPDO.CANrxNew RPDO)) RPDO, m).
Proof.
  intros Hsync Hidle.
  assert (Htest : negb (RPDO.valid RPDO)
                  || negb (is_OPERATIONAL (RPDO.operatingState RPDO))
                  = true).
  { destruct Hidle as [Hv|Hop].
    - rewrite Hv. reflexivity.
    - destruct (RPDO.operatingState RPDO); try apply orb_true_r.
      congruence. }
  unfold CO_RPDO_process, RPDO_clear_CANrxNew.
  rewrite Htest, Hsync. reflexivity.
Qed.

(** C10.  With SYNC support compiled in: if the object is invalid or the
    device is not operational, [CO_RPDO_process] clears both receive-new
    flags and changes nothing else, neither in the object nor in memory; if
    the object is valid, operational and synchronous and no SYNC occurred,
    it returns the object and the memory untouched (no copy into OD storage,
    buffers and flags as they were). *)
Theorem RPDO_process_idle :
  forall (CONFIG : CO_CONFIG_PDO_t) (RPDO : CO_RPDO_t) (syncWas : bool)
         (m : memory),
    CO_CONFIG_PDO_SYNC_ENABLE CONFIG = true ->
    (RPDO.valid RPDO = false
     \/ RPDO.operatingState RPDO <> CO_NMT_OPERATIONAL ->
     CO_RPDO_process CONFIG RPDO syncWas m
     = Some (RPDO.set_CANrxNew
               (<[1%nat := false]> (<[0%nat := false]> (RPDO.CANrxNew RPDO)))
               RPDO,
             m)
     /\ (length (RPDO.CANrxNew RPDO) = 2%nat ->
         <[1%nat := false]> (<[0%nat := false]> (RPDO.CANrxNew RPDO))
         = [false; false]))
    /\ (RPDO.valid RPDO = true ->
        RPDO.operatingState RPDO = CO_NMT_OPERATIONAL ->
        RPDO.synchronous RPDO = true ->
        syncWas = false ->
        CO_RPDO_process CONFIG RPDO syncWas m = Some (RPDO, m)).
Proof.
  intros CONFIG RPDO syncWas m Hsync. split.
  - intros Hidle.
    assert (Htest : negb (RPDO.valid RPDO)
                    || negb (is_OPERATIONAL (RPDO.operatingState RPDO))
                    = true).
    { destruct Hidle as [Hv|Hop].
      - rewrite Hv. reflexivity.
      - destruct (RPDO.operatingState RPDO); try apply orb_true_r.
        congruence. }
    split.
    + unfold CO_RPDO_process, RPDO_clear_CANrxNew.
      rewrite Htest, Hsync. destruct RPDO; reflexivity.
    + intros Hlen. destruct (RPDO.CANrxNew RPDO) as [|a [|b [|c l]]];
        try discriminate Hlen. reflexivity.
  - intros Hv Hop Hs Hw.
    unfold CO_RPDO_process. rewrite Hsync, Hv, Hop, Hs, Hw. reflexivity.
Qed.

(** * Concrete runs *)

(** C4.  The code at a COB-ID write whose value has bit 11 set (and no other
    bit): the check [value & 0x3FFF8000] under the comment "bits 11...29 must
    be zero" lets it pass, the access functions return success and the
    communication configurator is run (it registers identifier 0 and leaves
    the object invalid). *)
Theorem COB_ID_bit11_write_accepted :
  let m := SDO_buffer 0x00000800 in
  let RPDO := RPDO_example MapPar_AB 0 false 3 0x80000200 in
  let TPDO := TPDO_example MapPar_AB 0 false 3 0x80000180 in
  CO_getUint32 m (data (ODF_write 1)) = 0x00000800
  /\ Z.testbit 0x00000800 11 = true
  /\ fst (fst (CO_ODF_RPDOcom CONFIG_example RPDO (ODF_write 1) m))
     = CO_SDO_AB_NONE
  /\ CANlog (RPDO.CANdevRx
               (snd (fst (CO_ODF_RPDOcom CONFIG_example RPDO (ODF_write 1) m))))
     = [CANrxBufferInit_call 0 0 0x7FF false]
  /\ option_map (fun r => fst (fst r))
                (CO_ODF_TPDOcom CONFIG_example TPDO (ODF_write 1) m)
     = Some CO_SDO_AB_NONE
  /\ option_map (fun r => CANlog (TPDO.CANdevTx (snd (fst r))))
                (CO_ODF_TPDOcom CONFIG_example TPDO (ODF_write 1) m)
     = Some [CANtxBufferInit_call 0 0 false 3 0].
Proof. vm_compute. repeat split. Qed.

(** C5, the claim as stated fails: a COB-ID with bit 30 set (and bit 31 and
    bits 11..29 clear) makes a mapped object valid. *)
Lemma configCom_bit30_set_valid :
  Z.testbit 0x40000201 30 = true
  /\ RPDO.valid (CO_RPDOconfigCom CONFIG_example
                   (RPDO_example MapPar_AB 0 false 3 0) 0x40000201) = true
  /\ TPDO.valid (CO_TPDOconfigCom
                   (TPDO_example MapPar_AB 0 false 3 0) 0x40000201 0) = true.
Proof. vm_compute. repeat split. Qed.


(** C7, the claim as stated fails: with restriction flag 0x04 set the write
    of transmission type 245 is answered with ReadOnly, not InvalidValue. *)
Lemma transmission_type_245_read_only :
  let m := SDO_buffer 245 in
  u8 (load m (data (ODF_write 2))) = 245
  /\ fst (fst (CO_ODF_RPDOcom CONFIG_example
                 (RPDO_example MapPar_AB 4 false 3 0x200) (ODF_write 2) m))
     = CO_SDO_AB_READONLY
  /\ option_map (fun r => fst (fst r))
                (CO_ODF_TPDOcom CONFIG_example
                   (TPDO_example MapPar_AB 4 false 3 0x180) (ODF_write 2) m)
     = Some CO_SDO_AB_READONLY
  /\ CO_SDO_AB_READONLY <> CO_SDO_AB_INVALID_VALUE.
Proof. vm_compute. repeat split. discriminate. Qed.

(** C8, the claim as stated fails: the dummy descriptor index 2, sub-index
    0 with 72 bits asks for 9 bytes, more than the dummy's 1 byte, and is
    answered with MapLength, not NoMap. *)
Lemma dummy_index2_9_bytes_MAP_LEN :
  descriptor_index 0x00020048 = 2
  /\ descriptor_subIndex 0x00020048 = 0
  /\ descriptor_bytes 0x00020048 = 9
  /\ dummySize_of 2 = 1
  /\ resolve ODA_example SDO_example 0 0 0x00020048 = CO_SDO_AB_MAP_LEN
  /\ resolve ODA_example SDO_example 1 0 0x00020048 = CO_SDO_AB_MAP_LEN
  /\ CO_SDO_AB_MAP_LEN <> CO_SDO_AB_NO_MAP.
Proof. vm_compute. repeat split. discriminate. Qed.

(** * The theorems at concrete inputs *)

Lemma example_write_permitted (st : CO_NMT_internalState_t) :
  com_write_permitted 0 st.
Proof. split; [reflexivity | intros [_ H]; apply H; reflexivity]. Defined.

(** C1 at the mapping [A; misaligned; B], asked for 3 descriptors: the
    second one ([k = 1]) fails with NoMap. *)
Lemma configMap_first_failure_witness :
  snd (CO_RPDOconfigMap ODA_example (RPDO_example MapPar_bad 0 false 0 0) 3)
  = CO_SDO_AB_NO_MAP
  /\ snd (CO_TPDOconfigMap ODA_example (TPDO_example MapPar_bad 0 false 0 0) 3)
     = CO_SDO_AB_NO_MAP.
Proof.
  destruct (configMap_first_failure ODA_example
              (RPDO_example MapPar_bad 0 false 0 0)
              (TPDO_example MapPar_bad 0 false 0 0) 3 1 ltac:(lia))
    as [HR HT].
  split.
  - destruct (HR (fst (CO_RPDOconfigMap ODA_example
                         (RPDO_example MapPar_bad 0 false 0 0) 1))
                 CO_SDO_AB_NO_MAP)
      as (R' & H & _); [reflexivity | reflexivity | discriminate |].
    rewrite H. reflexivity.
  - destruct (HT (fst (CO_TPDOconfigMap ODA_example
                         (TPDO_example MapPar_bad 0 false 0 0) 1))
                 CO_SDO_AB_NO_MAP)
      as (T' & H & _); [reflexivity | reflexivity | discriminate |].
    rewrite H. reflexivity.
Defined.

(** C3 at the mapping [A; B] (2 + 1 bytes). *)
Lemma configMap_success_witness :
  RPDO.dataLength
    (fst (CO_RPDOconfigMap ODA_example (RPDO_example MapPar_AB 0 false 0 0) 2))
  = 3
  /\ TPDO.dataLength
       (fst (CO_TPDOconfigMap ODA_example
               (TPDO_example MapPar_AB 0 false 0 0) 2))
     = 3.
Proof.
  destruct (configMap_success ODA_example
              (RPDO_example MapPar_AB 0 false 0 0)
              (TPDO_example MapPar_AB 0 false 0 0) 2 ltac:(lia))
    as [HR HT].
  split.
  - destruct HR as [_ H].
    + repeat constructor.
    + vm_compute. discriminate.
    + rewrite H. reflexivity.
  - destruct HT as [_ H].
    + repeat constructor.
    + vm_compute. discriminate.
    + rewrite H. reflexivity.
Defined.

(** C5 at the default COB-ID 0x200 of a mapped RPDO with node ID 1. *)
Lemma configCom_validity_witness :
  RPDO.valid (CO_RPDOconfigCom CONFIG_example
                (RPDO_example MapPar_AB 0 false 3 0) 0x200) = true
  /\ CANlog (RPDO.CANdevRx
               (CO_RPDOconfigCom CONFIG_example
                  (RPDO_example MapPar_AB 0 false 3 0) 0x200))
     = [CANrxBufferInit_call 0 0x201 0x7FF false].
Proof.
  assert (Hused : COB_ID_used 0x200 3).
  { split; [apply land_BFFFF800_clear; reflexivity|].
    split; vm_compute; discriminate. }
  destruct (configCom_validity CONFIG_example
              (RPDO_example MapPar_AB 0 false 3 0)
              (TPDO_example MapPar_AB 0 false 3 0) 0x200 0)
    as (Hv & Hlog & _).
  split.
  - apply Hv; [intros ident; reflexivity | exact Hused].
  - rewrite (Hlog Hused). reflexivity.
Defined.


(** C7 at the write of transmission type 245. *)
Lemma transmission_type_reserved_rejected_witness :
  fst (fst (CO_ODF_RPDOcom CONFIG_example
              (RPDO_example MapPar_AB 0 true 3 0x200)
              (ODF_write 2) (SDO_buffer 245)))
  = CO_SDO_AB_INVALID_VALUE
  /\ option_map (fun r => fst (fst r))
                (CO_ODF_TPDOcom CONFIG_noSYNC
                   (TPDO_example MapPar_AB 0 false 3 0x180)
                   (ODF_write 2) (SDO_buffer 245))
     = Some CO_SDO_AB_INVALID_VALUE.
Proof.
  split.
  - destruct (transmission_type_reserved_rejected CONFIG_example
                (RPDO_example MapPar_AB 0 true 3 0x200)
                (TPDO_example MapPar_AB 0 false 3 0x180)
                (ODF_write 2) (SDO_buffer 245) eq_refl eq_refl
                ltac:(vm_compute; split; discriminate)) as [HR _].
    rewrite (HR (example_write_permitted _)). reflexivity.
  - destruct (transmission_type_reserved_rejected CONFIG_noSYNC
                (RPDO_example MapPar_AB 0 true 3 0x200)
                (TPDO_example MapPar_AB 0 false 3 0x180)
                (ODF_write 2) (SDO_buffer 245) eq_refl eq_refl
                ltac:(vm_compute; split; discriminate)) as [_ HT].
    rewrite (HT (example_write_permitted _)). reflexivity.
Defined.

(** C8 at the dummy descriptor index 5, sub-index 0, 8 bits, resolved after
    7 bytes, and at index 3 asking for 4 bytes. *)
Lemma dummy_mapping_resolution_witness :
  resolve ODA_example SDO_example 0 7 0x00050008 = CO_SDO_AB_NONE
  /\ resolve ODA_example SDO_example 1 0 0x00030020 = CO_SDO_AB_NO_MAP.
Proof.
  split.
  - destruct (dummy_mapping_resolution ODA_example SDO_example 0 7 0x00050008)
      as (H & _);
      [vm_compute; discriminate | reflexivity | reflexivity | lia |].
    destruct H as [[_ H] _]; [vm_compute; discriminate|].
    apply H. vm_compute. discriminate.
  - destruct (dummy_mapping_resolution ODA_example SDO_example 1 0 0x00030020)
      as (H & _);
      [vm_compute; discriminate | reflexivity | reflexivity | lia |].
    destruct H as [_ H]; [vm_compute; discriminate|].
    apply H. reflexivity.
Defined.

(** C9 at the TPDO mapped to A then B, with A = 0x1234 and B = 0x56 in OD
    storage: the driver is called once, with the frame 34 12 56, and its
    answer is returned. *)
Lemma TPDOsend_copies_mapped_bytes_witness :
  exists T' PDOdata,
    CO_TPDOsend CONFIG_example
      (fst (CO_TPDOconfigMap ODA_example
              (TPDO_example MapPar_AB 0 true 0 0x180) 2)) memory_AB
    = Some (T', memory_AB, CO_ERROR_NO)
    /\ CANlog (TPDO.CANdevTx T') = [CANsend_call (mkCANtx PDOdata 0)]
    /\ TPDO.CANtxBuff T' = Some (mkCANtx PDOdata 0)
    /\ PDOdata !! 0%nat = Some 0x34
    /\ PDOdata !! 1%nat = Some 0x12
    /\ PDOdata !! 2%nat = Some 0x56
    /\ TPDO.sendRequest T' = 0.
Proof.
  destruct (proj2 TPDOsend_copies_mapped_bytes ODA_example CONFIG_example
              (TPDO_example MapPar_AB 0 true 0 0x180) memory_AB
              (mkCANtx (repeat 0 8) 0) (ODdata, 100) (ODdata, 200) 0 0 0 0
              eq_refl eq_refl eq_refl eq_refl eq_refl)
    as (T' & PDOdata & Hrun & _ & Hlog & Hb & H0 & H1 & H2 & Hreq).
  exists T', PDOdata.
  split; [exact Hrun|]. split; [exact Hlog|]. split; [exact Hb|].
  split; [exact H0|]. split; [exact H1|]. split; [exact H2 | exact Hreq].
Defined.

(** C10 at an invalid RPDO with both flags set, and at a valid, operational,
    synchronous one without SYNC. *)
Lemma RPDO_process_idle_witness :
  CO_RPDO_process CONFIG_example
    (RPDO.set_CANrxNew [true; true] (RPDO_example MapPar_AB 0 false 3 0x200))
    false memory_AB
  = Some (RPDO_example MapPar_AB 0 false 3 0x200, memory_AB)
  /\ (let R := RPDO.mk [] SDO_example (Some (mkSYNC false 0 0))
                       (mkRPDOCommPar 0x200 1) MapPar_AB CO_NMT_OPERATIONAL
                       1 0x200 0 true true 3 null_pointers
                       [true; true] [repeat 7 8; repeat 9 8] CAN_example 0 in
      CO_RPDO_process CONFIG_example R false memory_AB = Some (R, memory_AB)).
Proof.
  split.
  - destruct (RPDO_process_idle CONFIG_example
                (RPDO.set_CANrxNew [true; true]
                   (RPDO_example MapPar_AB 0 false 3 0x200))
                false memory_AB eq_refl) as [H _].
    destruct H as [H _]; [left; reflexivity|].
    rewrite H. reflexivity.
  - apply (RPDO_process_idle CONFIG_example _ false memory_AB eq_refl);
      reflexivity.
Defined.

(** * The receive path *)

Lemma ptr_eqb_eq (p q : pointer) : ptr_eqb p q = true <-> p = q.
Proof.
  destruct p as [b o], q as [b' o']. unfold ptr_eqb. simpl.
  rewrite andb_true_iff, Z.eqb_eq. split.
  - intros [Hb Ho]. destruct b, b'; try discriminate Hb; congruence.
  - intros H. injection H as -> ->. destruct b'; auto.
Qed.

Lemma load_store (m : memory) (p q : pointer) (v : Z) :
  load (store m p v) q = if ptr_eqb q p then u8 v else load m q.
Proof. destruct q as [b o]. reflexivity. Qed.

Lemma load_store_eq (m : memory) (p : pointer) (v : Z) :
  load (store m p v) p = u8 v.
Proof.
  rewrite load_store. rewrite (proj2 (ptr_eqb_eq p p) eq_refl). reflexivity.
Qed.

Lemma load_store_ne (m : memory) (p q : pointer) (v : Z) :
  q <> p -> load (store m p v) q = load m q.
Proof.
  intros Hne. rewrite load_store.
  destruct (ptr_eqb q p) eqn:E; [|reflexivity].
  apply ptr_eqb_eq in E. contradiction.
Qed.

(** The copy loop of [CO_RPDO_process] from byte [k] on. *)
Lemma CO_RPDO_process_for_spec (mapPointer : list pointer) (PDOdata : list Z)
    i : forall (k : nat) (m : memory),
  (k + i <= length mapPointer)%nat ->
  (k + i <= length PDOdata)%nat ->
  exists m1,
    CO_RPDO_process_for i k mapPointer PDOdata m = Some m1
    /\ (forall p, (forall j, (k <= j < k + i)%nat -> mapPointer !! j <> Some p) ->
                  load m1 p = load m p)
    /\ (forall j p b,
           (k <= j < k + i)%nat -> mapPointer !! j = Some p ->
           PDOdata !! j = Some b ->
           (forall j', (j < j' < k + i)%nat -> mapPointer !! j' <> Some p) ->
           load m1 p = u8 b).
Proof.
  induction i as [|i IH]; intros k m Hmp Hd; simpl.
  - exists m. split; [reflexivity|]. split; [reflexivity|].
    intros j p b Hj. lia.
  - destruct (lookup_lt_is_Some_2 mapPointer k ltac:(lia)) as [p0 Hp0].
    destruct (lookup_lt_is_Some_2 PDOdata k ltac:(lia)) as [b0 Hb0].
    rewrite Hp0, Hb0.
    destruct (IH (S k) (store m p0 b0)) as (m1 & Hrun & Hkeep & Hcopy);
      [lia | lia |].
    exists m1. split; [exact Hrun|]. split.
    + intros p Hp. rewrite Hkeep by (intros j Hj; apply Hp; lia).
      apply load_store_ne. intros ->. apply (Hp k); [lia | exact Hp0].
    + intros j p b Hj Hpj Hbj Hlast.
      destruct (decide (j = k)) as [->|Hne].
      * rewrite Hkeep by (intros j' Hj'; apply Hlast; lia).
        assert (p = p0) by congruence. assert (b = b0) by congruence.
        subst. apply load_store_eq.
      * apply (Hcopy j p b); [lia | exact Hpj | exact Hbj |].
        intros j' Hj'. apply Hlast. lia.
Qed.

(** What one call of [CO_RPDO_process] does when it is due (valid,
    operational, and not a synchronous object outside a SYNC tick) and the
    buffer it looks at holds a new frame. *)
Lemma CO_RPDO_process_drain CONFIG RPDO syncWas m PDOdata :
  RPDO.valid RPDO = true ->
  RPDO.operatingState RPDO = CO_NMT_OPERATIONAL ->
  (CO_CONFIG_PDO_SYNC_ENABLE CONFIG = true ->
   RPDO.synchronous RPDO = true -> syncWas = true) ->
  RPDO.CANrxNew RPDO !! RPDO_process_bufNo CONFIG RPDO = Some true ->
  RPDO.CANrxData RPDO !! RPDO_process_bufNo CONFIG RPDO = Some PDOdata ->
  (Z.to_nat (RPDO.dataLength RPDO) <= length PDOdata)%nat ->
  (Z.to_nat (RPDO.dataLength RPDO) <= length (RPDO.mapPointer RPDO))%nat ->
  exists m1,
    CO_RPDO_process CONFIG RPDO syncWas m
    = Some (RPDO.set_CANrxNew
              (<[RPDO_process_bufNo CONFIG RPDO := false]>
                 (RPDO.CANrxNew RPDO)) RPDO,
            RPDO_CALLS_EXTENSION CONFIG RPDO m1)
    /\ drained (RPDO.mapPointer RPDO) (Z.to_nat (RPDO.dataLength RPDO))
               PDOdata m m1.
Proof.
  intros Hv Hop Hdue Hnew Hdata Hd Hmp.
  destruct (CO_RPDO_process_for_spec (RPDO.mapPointer RPDO) PDOdata
              (Z.to_nat (RPDO.dataLength RPDO)) 0 m Hmp Hd)
    as (m1 & Hrun & Hkeep & Hcopy).
  exists m1. split.
  - unfold CO_RPDO_process. rewrite Hv, Hop. cbn [negb is_OPERATIONAL orb].
    assert (Hp : (if CO_CONFIG_PDO_SYNC_ENABLE CONFIG
                  then negb (RPDO.synchronous RPDO && negb syncWas)
                  else true) = true).
    { destruct (CO_CONFIG_PDO_SYNC_ENABLE CONFIG); [|reflexivity].
      destruct (RPDO.synchronous RPDO); [|reflexivity].
      rewrite Hdue by reflexivity. reflexivity. }
    rewrite Hp.
    fold (RPDO_process_bufNo CONFIG RPDO).
    cbn [CO_RPDO_process_while]. unfold CO_FLAG_READ at 1.
    rewrite Hnew, Hdata, Hrun.
    cbn [RPDO.CANrxNew RPDO.set_CANrxNew]. unfold CO_FLAG_READ.
    rewrite list_lookup_insert_eq by (apply lookup_lt_Some in Hnew; exact Hnew).
    unfold RPDO_CALLS_EXTENSION.
    destruct (CO_CONFIG_RPDO_CALLS_EXTENSION CONFIG); [|reflexivity].
    cbn [RPDO.SDO RPDO.set_CANrxNew RPDO.RPDOMapPar].
    destruct (ODExtensions (RPDO.SDO RPDO)); reflexivity.
  - split.
    + intros p Hp. apply Hkeep. intros j Hj. apply Hp. lia.
    + intros j p b Hj Hpj Hbj Hlast.
      apply (Hcopy j p b); [lia | exact Hpj | exact Hbj |].
      intros j' Hj'. apply Hlast. lia.
Qed.

(** ... and when the buffer it looks at holds nothing new. *)
Lemma CO_RPDO_process_nothing_new CONFIG RPDO syncWas m :
  RPDO.valid RPDO = true ->
  RPDO.operatingState RPDO = CO_NMT_OPERATIONAL ->
  CO_FLAG_READ (RPDO.CANrxNew RPDO) (RPDO_process_bufNo CONFIG RPDO) = false ->
  CO_RPDO_process CONFIG RPDO syncWas m = Some (RPDO, m).
Proof.
  intros Hv Hop Hnew.
  unfold CO_RPDO_process. rewrite Hv, Hop. cbn [negb is_OPERATIONAL orb].
  fold (RPDO_process_bufNo CONFIG RPDO).
  cbn [CO_RPDO_process_while]. rewrite Hnew.
  destruct (CO_CONFIG_PDO_SYNC_ENABLE CONFIG),
    (CO_CONFIG_RPDO_CALLS_EXTENSION CONFIG),
    (ODExtensions (RPDO.SDO RPDO)),
    (RPDO.synchronous RPDO), syncWas; reflexivity.
Qed.

Lemma drained_take mapPointer L n PDOdata m m1 :
  (L <= n)%nat ->
  drained mapPointer L (take n PDOdata) m m1 ->
  drained mapPointer L PDOdata m m1.
Proof.
  intros Hn [Hkeep Hcopy]. split; [exact Hkeep|].
  intros j p b Hj Hp Hb. apply (Hcopy j p b Hj Hp).
  rewrite lookup_take_lt by lia. exact Hb.
Qed.

(** X1.  [CO_PDO_receive] drops the message, leaving the object as it was
    and signalling nothing, when the RPDO is not valid, when the device is
    not operational, or when the message is shorter than the mapped
    length. *)
Theorem PDO_receive_dropped :
  forall (CONFIG : CO_CONFIG_PDO_t) (CALLBACK_PRE : bool) (RPDO : CO_RPDO_t)
         (pFunctSignalPre : bool) (msg : CO_CANrxMsg_t),
    RPDO.valid RPDO = false
    \/ RPDO.operatingState RPDO <> CO_NMT_OPERATIONAL
    \/ u8 (rx_DLC msg) < RPDO.dataLength RPDO ->
    CO_PDO_receive CONFIG CALLBACK_PRE RPDO pFunctSignalPre msg
    = Some (RPDO, false).
Proof.
  intros CONFIG cb RPDO pf msg H. unfold CO_PDO_receive.
  destruct H as [Hv|[Hop|Hlen]].
  - rewrite Hv. reflexivity.
  - destruct (RPDO.operatingState RPDO); try congruence;
      rewrite andb_false_r; reflexivity.
  - apply Z.leb_gt in Hlen. rewrite Hlen, andb_false_r. reflexivity.
Qed.

(** What an accepted message leaves in the object. *)
Lemma CO_PDO_receive_accepted CONFIG cb RPDO pf msg :
  RPDO.valid RPDO = true ->
  RPDO.operatingState RPDO = CO_NMT_OPERATIONAL ->
  RPDO.dataLength RPDO <= u8 (rx_DLC msg) ->
  (8 <= length (rx_data msg))%nat ->
  length (RPDO.CANrxNew RPDO) = 2%nat ->
  length (RPDO.CANrxData RPDO) = 2%nat ->
  CO_PDO_receive CONFIG cb RPDO pf msg
  = Some (RPDO.set_CANrxNew
            (<[CO_PDO_receive_index CONFIG RPDO := true]> (RPDO.CANrxNew RPDO))
            (RPDO_set_CANrxData
               (<[CO_PDO_receive_index CONFIG RPDO := take 8 (rx_data msg)]>
                  (RPDO.CANrxData RPDO)) RPDO),
          cb && pf).
Proof.
  intros Hv Hop Hlen Hd Hn Hb. unfold CO_PDO_receive.
  rewrite Hv, Hop. apply Z.leb_le in Hlen. rewrite Hlen.
  cbn [is_OPERATIONAL andb].
  assert (Hi : (CO_PDO_receive_index CONFIG RPDO < 2)%nat).
  { unfold CO_PDO_receive_index.
    destruct (CO_CONFIG_PDO_SYNC_ENABLE CONFIG); [|lia].
    destruct (RPDO.SYNC RPDO); [|lia].
    destruct (RPDO.synchronous RPDO && CANrxToggle _); lia. }
  rewrite !bool_decide_eq_true_2 by lia. reflexivity.
Qed.

(** X2.  An RPDO that is not synchronous (or a build without SYNC support):
    a message of at least [dataLength] bytes handed to [CO_PDO_receive],
    followed by one call of [CO_RPDO_process], ends with the message bytes
    written through the first [dataLength] map pointers (an address
    referenced twice holds the byte of the later entry), every other address
    untouched before the OD extension calls, and the receive flag clear. *)
Theorem RPDO_receive_then_process :
  forall (CONFIG : CO_CONFIG_PDO_t) (CALLBACK_PRE : bool) (RPDO : CO_RPDO_t)
         (pFunctSignalPre : bool) (msg : CO_CANrxMsg_t) (syncWas : bool)
         (m : memory),
    RPDO.valid RPDO = true ->
    RPDO.operatingState RPDO = CO_NMT_OPERATIONAL ->
    0 <= RPDO.dataLength RPDO <= 8 ->
    RPDO.dataLength RPDO <= u8 (rx_DLC msg) ->
    (8 <= length (rx_data msg))%nat ->
    length (RPDO.CANrxNew RPDO) = 2%nat ->
    length (RPDO.CANrxData RPDO) = 2%nat ->
    length (RPDO.mapPointer RPDO) = 8%nat ->
    CO_CONFIG_PDO_SYNC_ENABLE CONFIG = false
    \/ RPDO.synchronous RPDO = false ->
    exists R1 R2 m1,
      CO_PDO_receive CONFIG CALLBACK_PRE RPDO pFunctSignalPre msg
      = Some (R1, CALLBACK_PRE && pFunctSignalPre)
      /\ CO_RPDO_process CONFIG R1 syncWas m
         = Some (R2, RPDO_CALLS_EXTENSION CONFIG RPDO m1)
      /\ drained (RPDO.mapPointer RPDO) (Z.to_nat (RPDO.dataLength RPDO))
                 (rx_data msg) m m1
      /\ RPDO.CANrxNew R2 !! 0%nat = Some false
      /\ RPDO.CANrxNew R2 !! 1%nat = RPDO.CANrxNew RPDO !! 1%nat.
Proof.
  intros CONFIG cb RPDO pf msg syncWas m Hv Hop HL Hlen Hd Hn Hb Hmp Hasync.
  rewrite (CO_PDO_receive_accepted CONFIG cb RPDO pf msg Hv Hop Hlen Hd Hn Hb).
  assert (Hi : CO_PDO_receive_index CONFIG RPDO = 0%nat).
  { unfold CO_PDO_receive_index. destruct Hasync as [-> | ->]; [reflexivity|].
    destruct (CO_CONFIG_PDO_SYNC_ENABLE CONFIG), (RPDO.SYNC RPDO); reflexivity. }
  rewrite Hi.
  set (R1 := RPDO.set_CANrxNew _ _).
  assert (Hbuf : RPDO_process_bufNo CONFIG R1 = 0%nat).
  { unfold RPDO_process_bufNo. destruct Hasync as [-> | Hs]; [reflexivity|].
    subst R1. cbn [RPDO.SYNC RPDO.synchronous RPDO.set_CANrxNew
                   RPDO_set_CANrxData]. rewrite Hs.
    destruct (CO_CONFIG_PDO_SYNC_ENABLE CONFIG), (RPDO.SYNC RPDO); reflexivity. }
  destruct (CO_RPDO_process_drain CONFIG R1 syncWas m (take 8 (rx_data msg)))
    as (m1 & Hrun & Hdr).
  - exact Hv.
  - exact Hop.
  - intros Hsync Hs. destruct Hasync as [H|H]; [congruence|].
    subst R1. cbn in Hs. congruence.
  - rewrite Hbuf. subst R1. cbn [RPDO.CANrxNew RPDO.set_CANrxNew].
    apply list_lookup_insert_eq. lia.
  - rewrite Hbuf. subst R1.
    cbn [RPDO.CANrxData RPDO.set_CANrxNew RPDO_set_CANrxData].
    apply list_lookup_insert_eq. lia.
  - rewrite length_take_le by lia. subst R1. cbn. lia.
  - subst R1. cbn. lia.
  - rewrite Hbuf in Hrun.
    eexists R1, _, m1. split; [reflexivity|]. split; [exact Hrun|].
    split; [|split].
    + apply (drained_take _ _ 8); [lia | exact Hdr].
    + subst R1. cbn [RPDO.CANrxNew RPDO.set_CANrxNew].
      apply list_lookup_insert_eq. rewrite length_insert. lia.
    + subst R1. cbn [RPDO.CANrxNew RPDO.set_CANrxNew].
      rewrite !list_lookup_insert_ne by lia. reflexivity.
Qed.

Lemma CO_FLAG_READ_cleared (CANrxNew : list bool) (bufNo : nat) :
  CO_FLAG_READ (<[bufNo := false]> CANrxNew) bufNo = false.
Proof.
  unfold CO_FLAG_READ.
  destruct (decide (bufNo < length CANrxNew)%nat) as [Hlt|Hge].
  - rewrite list_lookup_insert_eq by exact Hlt. reflexivity.
  - rewrite list_insert_ge by lia.
    rewrite (proj2 (lookup_ge_None CANrxNew bufNo)) by lia. reflexivity.
Qed.

(** The three ways a call of [CO_RPDO_process] can end. *)
Lemma CO_RPDO_process_cases CONFIG RPDO syncWas m R2 m2 :
  CO_RPDO_process CONFIG RPDO syncWas m = Some (R2, m2) ->
  ((RPDO.valid RPDO = false
    \/ RPDO.operatingState RPDO <> CO_NMT_OPERATIONAL)
   /\ R2 = RPDO_clear_CANrxNew CONFIG RPDO /\ m2 = m)
  \/ (RPDO.valid RPDO = true
      /\ RPDO.operatingState RPDO = CO_NMT_OPERATIONAL
      /\ R2 = RPDO /\ m2 = m)
  \/ (RPDO.valid RPDO = true
      /\ RPDO.operatingState RPDO = CO_NMT_OPERATIONAL
      /\ exists PDOdata m1,
          RPDO.CANrxData RPDO !! RPDO_process_bufNo CONFIG RPDO = Some PDOdata
          /\ CO_RPDO_process_for (Z.to_nat (RPDO.dataLength RPDO)) 0
               (RPDO.mapPointer RPDO) PDOdata m = Some m1
          /\ R2 = RPDO.set_CANrxNew
                    (<[RPDO_process_bufNo CONFIG RPDO := false]>
                       (RPDO.CANrxNew RPDO)) RPDO
          /\ m2 = RPDO_CALLS_EXTENSION CONFIG RPDO m1).
Proof.
  unfold CO_RPDO_process. fold (RPDO_process_bufNo CONFIG RPDO).
  destruct (RPDO.valid RPDO) eqn:Hv; cbn [negb orb].
  2:{ intros H. injection H as <- <-. left. auto. }
  destruct (is_OPERATIONAL (RPDO.operatingState RPDO)) eqn:Hop; cbn [negb].
  2:{ intros H. injection H as <- <-. left. split; [|auto].
      right. intros E. rewrite E in Hop. discriminate. }
  assert (Hop' : RPDO.operatingState RPDO = CO_NMT_OPERATIONAL)
    by (destruct (RPDO.operatingState RPDO); try discriminate; reflexivity).
  destruct (if CO_CONFIG_PDO_SYNC_ENABLE CONFIG
            then negb (RPDO.synchronous RPDO && negb syncWas) else true).
  2:{ intros H. injection H as <- <-. right. left. auto. }
  cbn [CO_RPDO_process_while].
  destruct (CO_FLAG_READ (RPDO.CANrxNew RPDO) (RPDO_process_bufNo CONFIG RPDO))
    eqn:Hflag.
  2:{ intros H. right. left.
      destruct (CO_CONFIG_RPDO_CALLS_EXTENSION CONFIG),
        (ODExtensions (RPDO.SDO RPDO)); injection H as <- <-; auto. }
  destruct (RPDO.CANrxData RPDO !! RPDO_process_bufNo CONFIG RPDO)
    as [PDOdata|] eqn:Hdata; [|discriminate].
  destruct (CO_RPDO_process_for _ _ _ _ _) as [m1|] eqn:Hrun; [|discriminate].
  cbn [RPDO.CANrxNew RPDO.set_CANrxNew]. rewrite CO_FLAG_READ_cleared.
  intros H. right. right. split; [reflexivity|]. split; [exact Hop'|].
  exists PDOdata, m1. split; [reflexivity|]. split; [exact Hrun|].
  unfold RPDO_CALLS_EXTENSION.
  destruct (CO_CONFIG_RPDO_CALLS_EXTENSION CONFIG);
    [destruct (ODExtensions (RPDO.SDO RPDO)) eqn:Hext|];
    cbn [RPDO.SDO RPDO.set_CANrxNew RPDO.RPDOMapPar] in H;
    rewrite ?Hext in H; injection H as <- <-; auto.
Qed.

Lemma CO_RPDO_process_for_keep (mapPointer : list pointer) (PDOdata : list Z)
    i : forall (k : nat) (m m1 : memory),
  CO_RPDO_process_for i k mapPointer PDOdata m = Some m1 ->
  forall p, (forall j, (k <= j < k + i)%nat -> mapPointer !! j <> Some p) ->
            load m1 p = load m p.
Proof.
  induction i as [|i IH]; intros k m m1; simpl.
  - intros H. injection H as <-. reflexivity.
  - destruct (mapPointer !! k) as [p0|] eqn:Hp0; [|discriminate].
    destruct (PDOdata !! k) as [b0|]; [|discriminate].
    intros Hrun p Hp.
    rewrite (IH _ _ _ Hrun) by (intros j Hj; apply Hp; lia).
    apply load_store_ne. intros ->. apply (Hp k); [lia | exact Hp0].
Qed.

Lemma RPDO_clear_CANrxNew_as_set CONFIG RPDO :
  RPDO_clear_CANrxNew CONFIG RPDO
  = RPDO.set_CANrxNew (RPDO.CANrxNew (RPDO_clear_CANrxNew CONFIG RPDO)) RPDO.
Proof.
  unfold RPDO_clear_CANrxNew.
  destruct (CO_CONFIG_PDO_SYNC_ENABLE CONFIG); destruct RPDO; reflexivity.
Qed.

(** X3.  Whatever its state, [CO_RPDO_process] changes nothing of the RPDO
    object but its receive flags; and, OD extension calls apart, it leaves
    every memory address that none of the first [dataLength] map pointers
    references as it was. *)
Theorem RPDO_process_writes_only_mapped :
  forall (CONFIG : CO_CONFIG_PDO_t) (RPDO R2 : CO_RPDO_t) (syncWas : bool)
         (m m2 : memory),
    CO_RPDO_process CONFIG RPDO syncWas m = Some (R2, m2) ->
    R2 = RPDO.set_CANrxNew (RPDO.CANrxNew R2) RPDO
    /\ exists m1,
        (m2 = m1 \/ m2 = RPDO_CALLS_EXTENSION CONFIG RPDO m1)
        /\ forall p,
            (forall j, (j < Z.to_nat (RPDO.dataLength RPDO))%nat ->
                       RPDO.mapPointer RPDO !! j <> Some p) ->
            load m1 p = load m p.
Proof.
  intros CONFIG RPDO R2 syncWas m m2 H.
  apply CO_RPDO_process_cases in H
    as [(_ & -> & ->) | [(_ & _ & -> & ->) | (_ & _ & d & m1 & _ & Hrun & -> & ->)]].
  - split; [apply RPDO_clear_CANrxNew_as_set|]. exists m. auto.
  - split; [destruct RPDO; reflexivity|]. exists m. auto.
  - split; [reflexivity|]. exists m1. split; [auto|].
    intros p Hp. apply (CO_RPDO_process_for_keep _ _ _ _ _ _ Hrun).
    intros j Hj. apply Hp. lia.
Qed.

Lemma RPDO_clear_CANrxNew_twice CONFIG RPDO :
  RPDO_clear_CANrxNew CONFIG (RPDO_clear_CANrxNew CONFIG RPDO)
  = RPDO_clear_CANrxNew CONFIG RPDO.
Proof.
  unfold RPDO_clear_CANrxNew, RPDO.set_CANrxNew. destruct RPDO as
    [em SDO SYNC CommPar MapPar st nodeId dflt flags valid sync len mp
     new rxdata dev idx].
  destruct (CO_CONFIG_PDO_SYNC_ENABLE CONFIG);
    cbn [RPDO.em RPDO.SDO RPDO.SYNC RPDO.RPDOCommPar RPDO.RPDOMapPar
         RPDO.operatingState RPDO.nodeId RPDO.defaultCOB_ID
         RPDO.restrictionFlags RPDO.valid RPDO.synchronous RPDO.dataLength
         RPDO.mapPointer RPDO.CANrxNew RPDO.CANrxData RPDO.CANdevRx
         RPDO.CANdevRxIdx]; f_equal.
  - rewrite (list_insert_id' (<[1%nat := false]> _) 0 false).
    + apply list_insert_insert_eq.
    + intros Hlen. rewrite !length_insert in Hlen.
      rewrite list_lookup_insert_ne by lia.
      apply list_lookup_insert_eq. exact Hlen.
  - apply list_insert_insert_eq.
Qed.

(** X4.  A frame is delivered once: calling [CO_RPDO_process] again on the
    object and memory a call has just returned (same SYNC state, no new
    message in between) changes nothing. *)
Theorem RPDO_process_idempotent :
  forall (CONFIG : CO_CONFIG_PDO_t) (RPDO R2 : CO_RPDO_t) (syncWas : bool)
         (m m2 : memory),
    CO_RPDO_process CONFIG RPDO syncWas m = Some (R2, m2) ->
    CO_RPDO_process CONFIG R2 syncWas m2 = Some (R2, m2).
Proof.
  intros CONFIG RPDO R2 syncWas m m2 H. pose proof H as Hcases.
  apply CO_RPDO_process_cases in Hcases
    as [(Hidle & -> & ->) | [(_ & _ & -> & ->) | (Hv & Hop & d & m1 & _ & _ & -> & ->)]].
  - unfold CO_RPDO_process in H |- *.
    assert (Hsame : RPDO.valid (RPDO_clear_CANrxNew CONFIG RPDO)
                    = RPDO.valid RPDO
                    /\ RPDO.operatingState (RPDO_clear_CANrxNew CONFIG RPDO)
                       = RPDO.operatingState RPDO).
    { unfold RPDO_clear_CANrxNew.
      destruct (CO_CONFIG_PDO_SYNC_ENABLE CONFIG); split; reflexivity. }
    destruct Hsame as [-> ->].
    destruct (negb (RPDO.valid RPDO)
              || negb (is_OPERATIONAL (RPDO.operatingState RPDO))) eqn:Ht.
    + rewrite RPDO_clear_CANrxNew_twice. reflexivity.
    + exfalso. apply orb_false_iff in Ht as [Hv Hop].
      apply negb_false_iff in Hv, Hop.
      destruct Hidle as [Hi|Hi]; [congruence|].
      apply Hi. destruct (RPDO.operatingState RPDO); try discriminate.
      reflexivity.
  - exact H.
  - apply CO_RPDO_process_nothing_new; [exact Hv | exact Hop |].
    assert (Hb : RPDO_process_bufNo CONFIG
                   (RPDO.set_CANrxNew
                      (<[RPDO_process_bufNo CONFIG RPDO := false]>
                         (RPDO.CANrxNew RPDO)) RPDO)
                 = RPDO_process_bufNo CONFIG RPDO) by reflexivity.
    rewrite Hb. cbn [RPDO.CANrxNew RPDO.set_CANrxNew].
    apply CO_FLAG_READ_cleared.
Qed.

(** X5.  Double buffering of a synchronous RPDO (SYNC support compiled in,
    SYNC object present).  A message accepted while the SYNC toggle is [t]
    goes into buffer [t]; as long as the toggle stays [t],
    [CO_RPDO_process] leaves that buffer and its flag alone; once the toggle
    has flipped, a call at a SYNC tick writes the message through the map
    pointers and clears the flag. *)
Theorem RPDO_double_buffer :
  forall (CONFIG : CO_CONFIG_PDO_t) (CALLBACK_PRE : bool) (RPDO : CO_RPDO_t)
         (pFunctSignalPre : bool) (msg : CO_CANrxMsg_t) (m : memory)
         (SYNC0 : CO_SYNC_t),
    CO_CONFIG_PDO_SYNC_ENABLE CONFIG = true ->
    RPDO.SYNC RPDO = Some SYNC0 ->
    RPDO.synchronous RPDO = true ->
    RPDO.valid RPDO = true ->
    RPDO.operatingState RPDO = CO_NMT_OPERATIONAL ->
    0 <= RPDO.dataLength RPDO <= 8 ->
    RPDO.dataLength RPDO <= u8 (rx_DLC msg) ->
    (8 <= length (rx_data msg))%nat ->
    length (RPDO.CANrxNew RPDO) = 2%nat ->
    length (RPDO.CANrxData RPDO) = 2%nat ->
    length (RPDO.mapPointer RPDO) = 8%nat ->
    let idx := if CANrxToggle SYNC0 then 1%nat else 0%nat in
    exists R1,
      CO_PDO_receive CONFIG CALLBACK_PRE RPDO pFunctSignalPre msg
      = Some (R1, CALLBACK_PRE && pFunctSignalPre)
      /\ RPDO.CANrxNew R1 !! idx = Some true
      /\ RPDO.CANrxData R1 !! idx = Some (take 8 (rx_data msg))
      /\ (forall syncWas R2 m2,
             CO_RPDO_process CONFIG R1 syncWas m = Some (R2, m2) ->
             RPDO.CANrxNew R2 !! idx = Some true
             /\ RPDO.CANrxData R2 !! idx = Some (take 8 (rx_data msg)))
      /\ (let R1' :=
            RPDO_set_SYNC
              (Some (mkSYNC (negb (CANrxToggle SYNC0))
                            (counterOverflowValue SYNC0) (counter SYNC0)))
              R1 in
          exists R2 m1,
            CO_RPDO_process CONFIG R1' true m
            = Some (R2, RPDO_CALLS_EXTENSION CONFIG RPDO m1)
            /\ RPDO.CANrxNew R2 !! idx = Some false
            /\ drained (RPDO.mapPointer RPDO)
                       (Z.to_nat (RPDO.dataLength RPDO)) (rx_data msg) m m1).
Proof.
  intros CONFIG cb RPDO pf msg m SYNC0 Hsync HS Hs Hv Hop HL Hlen Hd Hn Hb Hmp
         idx.
  rewrite (CO_PDO_receive_accepted CONFIG cb RPDO pf msg Hv Hop Hlen Hd Hn Hb).
  assert (Hi : CO_PDO_receive_index CONFIG RPDO = idx).
  { unfold CO_PDO_receive_index. rewrite Hsync, HS, Hs. reflexivity. }
  rewrite Hi. assert (Hidx : (idx < 2)%nat) by (subst idx; destruct (CANrxToggle SYNC0); lia).
  set (R1 := RPDO.set_CANrxNew _ _).
  assert (Hnew1 : RPDO.CANrxNew R1 !! idx = Some true)
    by (subst R1; cbn [RPDO.CANrxNew RPDO.set_CANrxNew];
        apply list_lookup_insert_eq; lia).
  assert (Hdata1 : RPDO.CANrxData R1 !! idx = Some (take 8 (rx_data msg)))
    by (subst R1; cbn [RPDO.CANrxData RPDO.set_CANrxNew RPDO_set_CANrxData];
        apply list_lookup_insert_eq; lia).
  exists R1. split; [reflexivity|]. split; [exact Hnew1|].
  split; [exact Hdata1|]. split.
  - intros syncWas R2 m2 Hrun.
    assert (Hbuf : RPDO_process_bufNo CONFIG R1 <> idx).
    { unfold RPDO_process_bufNo. subst R1 idx.
      cbn [RPDO.SYNC RPDO.synchronous RPDO.set_CANrxNew RPDO_set_CANrxData].
      rewrite Hsync, HS, Hs. destruct (CANrxToggle SYNC0); simpl; lia. }
    apply CO_RPDO_process_cases in Hrun
      as [([Hc|Hc] & _) | [(_ & _ & -> & _) | (_ & _ & d & m1 & _ & _ & -> & _)]].
    + subst R1. cbn in Hc. congruence.
    + subst R1. cbn in Hc. congruence.
    + auto.
    + cbn [RPDO.CANrxNew RPDO.CANrxData RPDO.set_CANrxNew].
      rewrite list_lookup_insert_ne by exact Hbuf. auto.
  - cbv zeta.
    set (R1' := RPDO_set_SYNC _ R1).
    assert (Hbuf : RPDO_process_bufNo CONFIG R1' = idx).
    { unfold RPDO_process_bufNo. subst R1' R1 idx.
      cbn [RPDO.SYNC RPDO.synchronous RPDO.set_CANrxNew RPDO_set_CANrxData
           RPDO_set_SYNC CANrxToggle].
      rewrite Hsync, Hs. destruct (CANrxToggle SYNC0); reflexivity. }
    destruct (CO_RPDO_process_drain CONFIG R1' true m (take 8 (rx_data msg)))
      as (m1 & Hrun & Hdr).
    + exact Hv.
    + exact Hop.
    + reflexivity.
    + rewrite Hbuf. exact Hnew1.
    + rewrite Hbuf. exact Hdata1.
    + rewrite length_take_le by lia. subst R1' R1. cbn. lia.
    + subst R1' R1. cbn. lia.
    + rewrite Hbuf in Hrun. eexists _, m1. split; [exact Hrun|]. split.
      * cbn [RPDO.CANrxNew RPDO.set_CANrxNew].
        apply list_lookup_insert_eq.
        apply lookup_lt_Some in Hnew1. exact Hnew1.
      * apply (drained_take _ _ 8); [lia | exact Hdr].
Qed.

(** * The transmit path *)

Lemma land_pow2_testbit (a : Z) (k : nat) :
  nonzero (Z.land a (2 ^ Z.of_nat k)) = Z.testbit a (Z.of_nat k).
Proof.
  destruct (Z.testbit a (Z.of_nat k)) eqn:Hb.
  - apply nonzero_true. intros H0.
    pose proof (Z.land_spec a (2 ^ Z.of_nat k) (Z.of_nat k)) as Hs.
    rewrite H0, Z.bits_0, Hb, Z.pow2_bits_true in Hs by lia. discriminate.
  - apply nonzero_false. apply Z.bits_inj'. intros n Hn.
    rewrite Z.land_spec, Z.bits_0, Z.pow2_bits_eqb by lia.
    destruct (Z.eqb_spec (Z.of_nat k) n) as [<-|Hne].
    + rewrite Hb. reflexivity.
    + apply andb_false_r.
Qed.

Lemma CO_TPDOisCOS_unfold TPDO m buff :
  TPDO.CANtxBuff TPDO = Some buff ->
  0 <= TPDO.dataLength TPDO <= 8 ->
  CO_TPDOisCOS TPDO m
  = CO_TPDOisCOS_from TPDO m (tx_data buff) (Z.to_nat (TPDO.dataLength TPDO)).
Proof.
  intros Hb HL. unfold CO_TPDOisCOS. rewrite Hb.
  assert (Hc : TPDO.dataLength TPDO = 0 \/ TPDO.dataLength TPDO = 1
               \/ TPDO.dataLength TPDO = 2 \/ TPDO.dataLength TPDO = 3
               \/ TPDO.dataLength TPDO = 4 \/ TPDO.dataLength TPDO = 5
               \/ TPDO.dataLength TPDO = 6 \/ TPDO.dataLength TPDO = 7
               \/ TPDO.dataLength TPDO = 8) by lia.
  destruct Hc as [H|[H|[H|[H|[H|[H|[H|[H|H]]]]]]]]; rewrite H; reflexivity.
Qed.

Lemma CO_TPDOisCOS_from_spec TPDO m PDOdata n :
  (n <= length PDOdata)%nat ->
  (n <= length (TPDO.mapPointer TPDO))%nat ->
  exists r,
    CO_TPDOisCOS_from TPDO m PDOdata n = Some r
    /\ (r = 0 \/ r = 1)
    /\ (r = 1 <-> COS_difference TPDO n PDOdata m).
Proof.
  induction n as [|n IH]; intros Hd Hmp.
  - exists 0. split; [reflexivity|]. split; [auto|]. split; [discriminate|].
    intros (k & _ & _ & Hk & _). lia.
  - destruct IH as (r & Hr & Hbool & Hiff); [lia | lia |].
    destruct (lookup_lt_is_Some_2 PDOdata n ltac:(lia)) as [b Hb].
    destruct (lookup_lt_is_Some_2 (TPDO.mapPointer TPDO) n ltac:(lia))
      as [p Hp].
    cbn [CO_TPDOisCOS_from]. unfold CO_TPDOisCOS_case.
    rewrite Hb, Hp, land_pow2_testbit.
    destruct (negb (b =? load m p)
              && Z.testbit (TPDO.sendIfCOSFlags TPDO) (Z.of_nat n)) eqn:Hc.
    + exists 1. split; [reflexivity|]. split; [auto|]. split; [|reflexivity].
      intros _. apply andb_true_iff in Hc as [Hne Hbit].
      apply negb_true_iff, Z.eqb_neq in Hne.
      exists n, p, b. repeat split; auto.
    + exists r. split; [exact Hr|]. split; [exact Hbool|].
      rewrite Hiff. split.
      * intros (k & p' & b' & Hk & H). exists k, p', b'. split; [lia | exact H].
      * intros (k & p' & b' & Hk & Hp' & Hb' & Hne & Hbit).
        destruct (decide (k = n)) as [->|Hkn].
        -- exfalso. assert (p' = p) by congruence.
           assert (b' = b) by congruence. subst.
           rewrite Hbit, andb_true_r in Hc.
           apply negb_false_iff, Z.eqb_eq in Hc. contradiction.
        -- exists k, p', b'. repeat split; auto. lia.
Qed.

(** X6.  On a well-formed TPDO, [CO_TPDOisCOS] returns 1 exactly when some
    mapped byte [k < dataLength] with bit [k] of [sendIfCOSFlags] set differs
    between the CAN frame buffer and the byte its map pointer references,
    and returns 0 otherwise (in particular for an unmapped TPDO). *)
Theorem TPDOisCOS_detects_flagged_changes :
  forall (TPDO : CO_TPDO_t) (m : memory) (buff : CO_CANtx_t),
    TPDO.CANtxBuff TPDO = Some buff ->
    length (tx_data buff) = 8%nat ->
    length (TPDO.mapPointer TPDO) = 8%nat ->
    0 <= TPDO.dataLength TPDO <= 8 ->
    exists r,
      CO_TPDOisCOS TPDO m = Some r
      /\ (r = 0 \/ r = 1)
      /\ (r = 1 <-> COS_difference TPDO (Z.to_nat (TPDO.dataLength TPDO))
                                   (tx_data buff) m).
Proof.
  intros TPDO m buff Hb Hd Hmp HL.
  rewrite (CO_TPDOisCOS_unfold TPDO m buff Hb HL).
  apply CO_TPDOisCOS_from_spec; lia.
Qed.

(** What [CO_TPDOsend] leaves alone in the object. *)
Lemma CO_TPDOsend_frame CONFIG TPDO m T' m' r :
  CO_TPDOsend CONFIG TPDO m = Some (T', m', r) ->
  exists buff PDOdata,
    TPDO.CANtxBuff TPDO = Some buff
    /\ m' = TPDO_CALLS_EXTENSION CONFIG TPDO m
    /\ T' = TPDO.set_CANdevTx
              (fst (CO_CANsend (TPDO.CANdevTx TPDO)
                               (mkCANtx PDOdata (syncFlag buff))))
              (TPDO.set_sendRequest 0
                 (TPDO.set_CANtxBuff (Some (mkCANtx PDOdata (syncFlag buff)))
                                     TPDO))
    /\ r = snd (CO_CANsend (TPDO.CANdevTx TPDO)
                           (mkCANtx PDOdata (syncFlag buff)))
    /\ CO_TPDOsend_for (Z.to_nat (TPDO.dataLength TPDO)) 0
         (TPDO.mapPointer TPDO) m' (tx_data buff) = Some PDOdata.
Proof.
  unfold CO_TPDOsend.
  destruct (TPDO.CANtxBuff TPDO) as [buff|]; [|discriminate].
  destruct (CO_TPDOsend_for _ _ _ _ _) as [d|] eqn:Hrun; [|discriminate].
  intros H. injection H as <- <- <-.
  exists buff, d. repeat split. exact Hrun.
Qed.

(** X7.  After [CO_TPDOsend] on a well-formed TPDO, [CO_TPDOisCOS] compares
    against what was just sent: it returns 0 on the memory the send left, and
    on any later memory it returns 1 exactly when a mapped byte with its
    change-of-state flag set has changed since the send. *)
Theorem TPDOsend_then_isCOS :
  forall (CONFIG : CO_CONFIG_PDO_t) (TPDO : CO_TPDO_t) (m : memory)
         (buff : CO_CANtx_t),
    TPDO.CANtxBuff TPDO = Some buff ->
    length (tx_data buff) = 8%nat ->
    length (TPDO.mapPointer TPDO) = 8%nat ->
    0 <= TPDO.dataLength TPDO <= 8 ->
    exists T' m' r,
      CO_TPDOsend CONFIG TPDO m = Some (T', m', r)
      /\ CO_TPDOisCOS T' m' = Some 0
      /\ forall m'',
          exists c,
            CO_TPDOisCOS T' m'' = Some c
            /\ (c = 0 \/ c = 1)
            /\ (c = 1 <->
                exists k p,
                  (k < Z.to_nat (TPDO.dataLength TPDO))%nat
                  /\ TPDO.mapPointer TPDO !! k = Some p
                  /\ load m'' p <> load m' p
                  /\ Z.testbit (TPDO.sendIfCOSFlags TPDO) (Z.of_nat k) = true).
Proof.
  intros CONFIG TPDO m buff Hb Hd Hmp HL.
  set (m' := TPDO_CALLS_EXTENSION CONFIG TPDO m).
  destruct (CO_TPDOsend_for_spec (TPDO.mapPointer TPDO) m'
              (Z.to_nat (TPDO.dataLength TPDO)) 0 (tx_data buff))
    as (d' & Hrun & Hlen & Hcopy & _); [lia | lia |].
  assert (Hsend : CO_TPDOsend CONFIG TPDO m
                  = Some (TPDO.set_CANdevTx
                            (fst (CO_CANsend (TPDO.CANdevTx TPDO)
                                             (mkCANtx d' (syncFlag buff))))
                            (TPDO.set_sendRequest 0
                               (TPDO.set_CANtxBuff
                                  (Some (mkCANtx d' (syncFlag buff))) TPDO)),
                          m',
                          snd (CO_CANsend (TPDO.CANdevTx TPDO)
                                          (mkCANtx d' (syncFlag buff))))).
  { unfold CO_TPDOsend. fold m'. rewrite Hb, Hrun. reflexivity. }
  set (T' := TPDO.set_CANdevTx _ _) in Hsend.
  assert (Hany : forall m'',
             exists c,
               CO_TPDOisCOS T' m'' = Some c
               /\ (c = 0 \/ c = 1)
               /\ (c = 1 <->
                   exists k p,
                     (k < Z.to_nat (TPDO.dataLength TPDO))%nat
                     /\ TPDO.mapPointer TPDO !! k = Some p
                     /\ load m'' p <> load m' p
                     /\ Z.testbit (TPDO.sendIfCOSFlags TPDO) (Z.of_nat k)
                        = true)).
  { intros m''.
    rewrite (CO_TPDOisCOS_unfold T' m'' (mkCANtx d' (syncFlag buff)))
      by (subst T'; first [reflexivity | cbn; lia]).
    destruct (CO_TPDOisCOS_from_spec T' m'' d'
                (Z.to_nat (TPDO.dataLength T')))
      as (c & Hc & Hbool & Hiff);
      [subst T'; cbn; lia | subst T'; cbn; lia |].
    exists c. split; [exact Hc|]. split; [exact Hbool|].
    rewrite Hiff. unfold COS_difference.
    change (TPDO.dataLength T') with (TPDO.dataLength TPDO).
    change (TPDO.mapPointer T') with (TPDO.mapPointer TPDO).
    change (TPDO.sendIfCOSFlags T') with (TPDO.sendIfCOSFlags TPDO).
    split.
    - intros (k & p & b & Hk & Hp & Hbk & Hne & Hbit).
      exists k, p. repeat split; auto.
      rewrite (Hcopy k p ltac:(lia) Hp) in Hbk. injection Hbk as <-.
      congruence.
    - intros (k & p & Hk & Hp & Hne & Hbit).
      exists k, p, (load m' p). repeat split; auto.
      apply Hcopy; [lia | exact Hp]. }
  eexists T', m', _. split; [exact Hsend|]. split; [|exact Hany].
  destruct (Hany m') as (c & Hc & [->| ->] & Hiff); [exact Hc|].
  exfalso. destruct (proj1 Hiff eq_refl) as (k & p & _ & _ & Hne & _).
  apply Hne. reflexivity.
Qed.

Ltac TPDO_fields :=
  cbn [TPDO.em TPDO.SDO TPDO.SYNC TPDO.TPDOCommPar TPDO.TPDOMapPar
       TPDO.operatingState TPDO.nodeId TPDO.defaultCOB_ID
       TPDO.restrictionFlags TPDO.valid TPDO.dataLength TPDO.sendRequest
       TPDO.mapPointer TPDO.syncCounter TPDO.inhibitTimer TPDO.eventTimer
       TPDO.sendIfCOSFlags TPDO.CANdevTx TPDO.CANtxBuff TPDO.CANdevTxIdx
       TPDO.set_em TPDO.set_valid TPDO.set_dataLength TPDO.set_sendRequest
       TPDO.set_mapPointer TPDO.set_syncCounter TPDO.set_inhibitTimer
       TPDO.set_eventTimer TPDO.set_sendIfCOSFlags TPDO.set_CANdevTx
       TPDO.set_CANtxBuff].

Tactic Notation "TPDO_fields" "in" hyp(H) :=
  cbn [TPDO.em TPDO.SDO TPDO.SYNC TPDO.TPDOCommPar TPDO.TPDOMapPar
       TPDO.operatingState TPDO.nodeId TPDO.defaultCOB_ID
       TPDO.restrictionFlags TPDO.valid TPDO.dataLength TPDO.sendRequest
       TPDO.mapPointer TPDO.syncCounter TPDO.inhibitTimer TPDO.eventTimer
       TPDO.sendIfCOSFlags TPDO.CANdevTx TPDO.CANtxBuff TPDO.CANdevTxIdx
       TPDO.set_em TPDO.set_valid TPDO.set_dataLength TPDO.set_sendRequest
       TPDO.set_mapPointer TPDO.set_syncCounter TPDO.set_inhibitTimer
       TPDO.set_eventTimer TPDO.set_sendIfCOSFlags TPDO.set_CANdevTx
       TPDO.set_CANtxBuff] in H.

Lemma TPDO_event_due_test TPDO dt :
  let T0 := TPDO_timers_updated dt TPDO in
  (TPDO.inhibitTimer T0 =? 0)
  && (nonzero (TPDO.sendRequest T0)
      || (nonzero (TPDO_eventTimer (TPDO.TPDOCommPar T0))
          && (TPDO.eventTimer T0 =? 0))) = true
  <-> TPDO_event_due TPDO dt.
Proof.
  unfold TPDO_event_due, TPDO_timers_updated.
  cbn [TPDO.inhibitTimer TPDO.eventTimer TPDO.sendRequest TPDO.TPDOCommPar
       TPDO.set_eventTimer TPDO.set_inhibitTimer].
  rewrite andb_true_iff, orb_true_iff, andb_true_iff, !nonzero_true,
    !Z.eqb_eq.
  destruct (Z.ltb_spec dt (TPDO.inhibitTimer TPDO)),
    (Z.ltb_spec dt (TPDO.eventTimer TPDO)); lia.
Qed.

Lemma TPDO_event_due_dec TPDO dt :
  TPDO_event_due TPDO dt \/ ~ TPDO_event_due TPDO dt.
Proof.
  rewrite <- TPDO_event_due_test.
  destruct (_ && _); [left | right]; congruence.
Qed.

(** The event-driven branch of [CO_TPDO_process]. *)
Lemma CO_TPDO_process_event_spec :
  forall (CONFIG : CO_CONFIG_PDO_t) (TIMERNEXT : bool) (TPDO : CO_TPDO_t)
         (syncWas : bool) (timeDifference_us : Z) (timerNext_us : option Z)
         (m : memory),
    TPDO.valid TPDO = true ->
    TPDO.operatingState TPDO = CO_NMT_OPERATIONAL ->
    253 <= TPDO_transmissionType (TPDO.TPDOCommPar TPDO) ->
    TPDO_wf TPDO ->
    let T0 := TPDO_timers_updated timeDifference_us TPDO in
    (TPDO_event_due TPDO timeDifference_us ->
     exists T' buff' tn',
       CO_TPDO_process CONFIG TIMERNEXT TPDO syncWas timeDifference_us
                       timerNext_us m
       = Some (T', TPDO_CALLS_EXTENSION CONFIG TPDO m, tn')
       /\ TPDO.CANtxBuff T' = Some buff'
       /\ CANlog (TPDO.CANdevTx T')
          = CANlog (TPDO.CANdevTx TPDO) ++ [CANsend_call buff']
       /\ (forall i p, 0 <= i < TPDO.dataLength TPDO ->
                       TPDO.mapPointer TPDO !! Z.to_nat i = Some p ->
                       tx_data buff' !! Z.to_nat i
                       = Some (load (TPDO_CALLS_EXTENSION CONFIG TPDO m) p))
       /\ TPDO.sendRequest T' = 0
       /\ (send_outcome (TPDO.CANdevTx TPDO) (CANlog (TPDO.CANdevTx TPDO))
                        buff' = CO_ERROR_NO ->
           TPDO.inhibitTimer T'
           = u32 (inhibitTime (TPDO.TPDOCommPar TPDO) * 100)
           /\ TPDO.eventTimer T'
              = u32 (TPDO_eventTimer (TPDO.TPDOCommPar TPDO) * 1000))
       /\ (send_outcome (TPDO.CANdevTx TPDO) (CANlog (TPDO.CANdevTx TPDO))
                        buff' <> CO_ERROR_NO ->
           TPDO.inhibitTimer T' = TPDO.inhibitTimer T0
           /\ TPDO.eventTimer T' = TPDO.eventTimer T0))
    /\ (~ TPDO_event_due TPDO timeDifference_us ->
        exists tn',
          CO_TPDO_process CONFIG TIMERNEXT TPDO syncWas timeDifference_us
                          timerNext_us m
          = Some (T0, m, tn')).
Proof.
  intros CONFIG TN TPDO syncWas dt tn m Hv Hop Htype Hwf T0.
  apply Z.leb_le in Htype.
  pose proof (TPDO_event_due_test TPDO dt) as Htest. fold T0 in Htest.
  cbv zeta in Htest.
  assert (Hunf : CO_TPDO_process CONFIG TN TPDO syncWas dt tn m
                 = match
                     (if (TPDO.inhibitTimer T0 =? 0)
                         && (nonzero (TPDO.sendRequest T0)
                             || (nonzero (TPDO_eventTimer (TPDO.TPDOCommPar T0))
                                 && (TPDO.eventTimer T0 =? 0)))
                      then
                        match CO_TPDOsend CONFIG T0 m with
                        | None => None
                        | Some (T, m1, r) =>
                            if is_ERROR_NO r then
                              Some (TPDO.set_eventTimer
                                      (u32 (TPDO_eventTimer
                                              (TPDO.TPDOCommPar T0) * 1000))
                                      (TPDO.set_inhibitTimer
                                         (u32 (inhibitTime
                                                 (TPDO.TPDOCommPar T0) * 100))
                                         T), m1)
                            else Some (T, m1)
                        end
                      else Some (T0, m))
                   with
                   | None => None
                   | Some (T, m1) =>
                       Some (T, m1,
                             if TN then
                               match tn with
                               | None => None
                               | Some t =>
                                   if nonzero (TPDO.sendRequest T)
                                      && (TPDO.inhibitTimer T <? t)
                                   then Some (TPDO.inhibitTimer T)
                                   else if nonzero (TPDO_eventTimer
                                                      (TPDO.TPDOCommPar T0))
                                           && (TPDO.eventTimer T <? t)
                                   then Some (TPDO.eventTimer T)
                                   else Some t
                               end
                             else tn)
                   end).
  { clear Htest Hwf. subst T0.
    unfold CO_TPDO_process, TPDO_timers_updated.
    destruct TPDO. TPDO_fields. TPDO_fields in Hv. TPDO_fields in Hop.
    TPDO_fields in Htype.
    rewrite Hv, Hop, Htype. cbn [is_OPERATIONAL andb].
    destruct (_ && _); [|reflexivity].
    destruct (CO_TPDOsend CONFIG _ m) as [[[T m1] r]|]; [|reflexivity].
    destruct (is_ERROR_NO r); reflexivity. }
  rewrite Hunf. clear Hunf.
  split.
  - intros Hdue. rewrite (proj2 Htest Hdue).
    destruct Hwf as ((buff & Hb & Hd) & Hmp & HL).
    destruct (CO_TPDOsend_spec CONFIG T0 m buff Hb Hd Hmp HL)
      as (T' & d & Hrun & Hb' & Hdev & Hcopy & _ & Hreq & _).
    pose proof (CO_TPDOsend_frame CONFIG T0 m _ _ _ Hrun)
      as (buff0 & d0 & Hb0 & _ & HT' & _).
    change (TPDO_CALLS_EXTENSION CONFIG T0 m)
      with (TPDO_CALLS_EXTENSION CONFIG TPDO m) in *.
    rewrite Hrun.
    set (buff' := mkCANtx d (syncFlag buff)) in *.
    assert (Hlog : CANlog (TPDO.CANdevTx T')
                   = CANlog (TPDO.CANdevTx TPDO) ++ [CANsend_call buff'])
      by (rewrite Hdev; reflexivity).
    assert (Htimers : TPDO.inhibitTimer T' = TPDO.inhibitTimer T0
                      /\ TPDO.eventTimer T' = TPDO.eventTimer T0)
      by (rewrite HT'; split; reflexivity).
    unfold CO_CANsend. cbn [snd].
    change (TPDO.CANdevTx T0) with (TPDO.CANdevTx TPDO).
    destruct (send_outcome _ _ _) eqn:Hout; cbn [is_ERROR_NO];
      eexists _, buff', _; (split; [reflexivity|]);
      (split; [exact Hb'|]); (split; [exact Hlog|]);
      (split; [exact Hcopy|]); (split; [exact Hreq|]);
      (split; [intros E; first [congruence | split; reflexivity]
              |intros E; first [congruence | exact Htimers]]).
  - intros Hdue. rewrite <- Htest in Hdue. apply not_true_is_false in Hdue.
    rewrite Hdue. eexists. reflexivity.
Qed.

(** X8.  An event-driven TPDO (transmission type 253 or more), valid and
    operational: at a tick [CO_TPDO_process] hands one frame to [CO_CANsend]
    exactly when the inhibit time has run out and a send was requested or
    the event timer (if in use) has run out.  The frame carries the mapped
    bytes; [sendRequest] is cleared; when the CAN layer accepts the frame
    both timers are reloaded from the communication parameters, else they
    keep their counted-down values.  When the condition fails nothing is
    sent and only the timers have counted down. *)
Theorem TPDO_process_event_driven :
  forall (CONFIG : CO_CONFIG_PDO_t) (TIMERNEXT : bool) (TPDO : CO_TPDO_t)
         (syncWas : bool) (timeDifference_us : Z) (timerNext_us : option Z)
         (m : memory),
    TPDO.valid TPDO = true ->
    TPDO.operatingState TPDO = CO_NMT_OPERATIONAL ->
    253 <= TPDO_transmissionType (TPDO.TPDOCommPar TPDO) ->
    TPDO_wf TPDO ->
    let T0 := TPDO_timers_updated timeDifference_us TPDO in
    (TPDO_event_due TPDO timeDifference_us ->
     exists T' buff' tn',
       CO_TPDO_process CONFIG TIMERNEXT TPDO syncWas timeDifference_us
                       timerNext_us m
       = Some (T', TPDO_CALLS_EXTENSION CONFIG TPDO m, tn')
       /\ TPDO.CANtxBuff T' = Some buff'
       /\ CANlog (TPDO.CANdevTx T')
          = CANlog (TPDO.CANdevTx TPDO) ++ [CANsend_call buff']
       /\ (forall i p, 0 <= i < TPDO.dataLength TPDO ->
                       TPDO.mapPointer TPDO !! Z.to_nat i = Some p ->
                       tx_data buff' !! Z.to_nat i
                       = Some (load (TPDO_CALLS_EXTENSION CONFIG TPDO m) p))
       /\ TPDO.sendRequest T' = 0
       /\ (send_outcome (TPDO.CANdevTx TPDO) (CANlog (TPDO.CANdevTx TPDO))
                        buff' = CO_ERROR_NO ->
           TPDO.inhibitTimer T'
           = u32 (inhibitTime (TPDO.TPDOCommPar TPDO) * 100)
           /\ TPDO.eventTimer T'
              = u32 (TPDO_eventTimer (TPDO.TPDOCommPar TPDO) * 1000))
       /\ (send_outcome (TPDO.CANdevTx TPDO) (CANlog (TPDO.CANdevTx TPDO))
                        buff' <> CO_ERROR_NO ->
           TPDO.inhibitTimer T' = TPDO.inhibitTimer T0
           /\ TPDO.eventTimer T' = TPDO.eventTimer T0))
    /\ (~ TPDO_event_due TPDO timeDifference_us ->
        exists tn',
          CO_TPDO_process CONFIG TIMERNEXT TPDO syncWas timeDifference_us
                          timerNext_us m
          = Some (T0, m, tn')).
Proof. exact CO_TPDO_process_event_spec. Qed.

(** X9.  A valid event-driven TPDO (transmission type 254 or 255) on a
    device that is not operational: a tick sends nothing and leaves
    [sendRequest] set; when the device has then become operational, the next
    tick at which the inhibit time has run out hands a frame with the mapped
    bytes to [CO_CANsend]. *)
Theorem TPDO_first_tick_after_operational :
  forall (CONFIG : CO_CONFIG_PDO_t) (TIMERNEXT : bool) (TPDO : CO_TPDO_t)
         (syncWas1 syncWas2 : bool) (dt1 dt2 : Z) (tn1 tn2 : option Z)
         (m m' : memory),
    TPDO.valid TPDO = true ->
    TPDO.operatingState TPDO <> CO_NMT_OPERATIONAL ->
    254 <= TPDO_transmissionType (TPDO.TPDOCommPar TPDO) ->
    TPDO_wf TPDO ->
    0 <= dt1 -> 0 <= dt2 ->
    TPDO.inhibitTimer TPDO <= dt1 + dt2 ->
    exists T1,
      CO_TPDO_process CONFIG TIMERNEXT TPDO syncWas1 dt1 tn1 m
      = Some (T1, m, tn1)
      /\ TPDO.CANdevTx T1 = TPDO.CANdevTx TPDO
      /\ TPDO.CANtxBuff T1 = TPDO.CANtxBuff TPDO
      /\ TPDO.sendRequest T1 = 1
      /\ exists T2 buff' tn2',
          CO_TPDO_process CONFIG TIMERNEXT
            (TPDO_set_operatingState CO_NMT_OPERATIONAL T1)
            syncWas2 dt2 tn2 m'
          = Some (T2, TPDO_CALLS_EXTENSION CONFIG TPDO m', tn2')
          /\ TPDO.CANtxBuff T2 = Some buff'
          /\ CANlog (TPDO.CANdevTx T2)
             = CANlog (TPDO.CANdevTx TPDO) ++ [CANsend_call buff']
          /\ (forall i p, 0 <= i < TPDO.dataLength TPDO ->
                          TPDO.mapPointer TPDO !! Z.to_nat i = Some p ->
                          tx_data buff' !! Z.to_nat i
                          = Some (load (TPDO_CALLS_EXTENSION CONFIG TPDO m')
                                       p)).
Proof.
  intros CONFIG TN TPDO sw1 sw2 dt1 dt2 tn1 tn2 m m' Hv Hop Htype Hwf
         Hdt1 Hdt2 Hinh.
  set (T1 := TPDO.set_sendRequest 1 (TPDO_timers_updated dt1 TPDO)).
  assert (Hrun1 : CO_TPDO_process CONFIG TN TPDO sw1 dt1 tn1 m
                  = Some (T1, m, tn1)).
  { subst T1. unfold CO_TPDO_process, TPDO_timers_updated.
    destruct TPDO. TPDO_fields. TPDO_fields in Hv. TPDO_fields in Hop.
    TPDO_fields in Htype. rewrite Hv. apply Z.leb_le in Htype. rewrite Htype.
    destruct operatingState; try reflexivity. congruence. }
  exists T1. split; [exact Hrun1|]. repeat (split; [reflexivity|]).
  set (T1' := TPDO_set_operatingState CO_NMT_OPERATIONAL T1).
  destruct (CO_TPDO_process_event_spec CONFIG TN T1' sw2 dt2 tn2 m')
    as [Hsend _].
  - exact Hv.
  - reflexivity.
  - change (TPDO.TPDOCommPar T1') with (TPDO.TPDOCommPar TPDO). lia.
  - exact Hwf.
  - destruct (Hsend) as (T2 & buff' & tn2' & Hrun & Hb & Hlog & Hcopy & _).
    + unfold TPDO_event_due. subst T1' T1. unfold TPDO_timers_updated.
      cbn [TPDO.inhibitTimer TPDO.sendRequest TPDO_set_operatingState
           TPDO.set_sendRequest TPDO.set_eventTimer TPDO.set_inhibitTimer].
      split; [|left; discriminate].
      destruct (Z.ltb_spec dt1 (TPDO.inhibitTimer TPDO)); lia.
    + exists T2, buff', tn2'. auto.
Qed.

(** The synchronous acyclic branch. *)
Lemma CO_TPDO_process_unfold_sync CONFIG TN TPDO SYNC0 syncWas dt tn m :
  CO_CONFIG_PDO_SYNC_ENABLE CONFIG = true ->
  TPDO.SYNC TPDO = Some SYNC0 ->
  TPDO.valid TPDO = true ->
  TPDO.operatingState TPDO = CO_NMT_OPERATIONAL ->
  TPDO_transmissionType (TPDO.TPDOCommPar TPDO) < 253 ->
  CO_TPDO_process CONFIG TN TPDO syncWas dt tn m
  = if syncWas then
      match CO_TPDO_process_sync CONFIG (TPDO_timers_updated dt TPDO)
                                 SYNC0 m with
      | None => None
      | Some (T, m1) => Some (T, m1, tn)
      end
    else Some (TPDO_timers_updated dt TPDO, m, tn).
Proof.
  intros Hsync HS Hv Hop Htype.
  unfold CO_TPDO_process, TPDO_timers_updated.
  destruct TPDO. TPDO_fields. TPDO_fields in Hv. TPDO_fields in Hop.
  TPDO_fields in Htype. TPDO_fields in HS.
  rewrite Hv, Hop, Hsync, HS. cbn [is_OPERATIONAL andb].
  destruct (Z.leb_spec 253 (TPDO_transmissionType TPDOCommPar)); [lia|].
  reflexivity.
Qed.

(** Without SYNC support, or without a SYNC object, a valid operational
    TPDO of a synchronous type only counts its timers down. *)
Lemma CO_TPDO_process_no_SYNC CONFIG TN TPDO syncWas dt tn m :
  TPDO.valid TPDO = true ->
  TPDO.operatingState TPDO = CO_NMT_OPERATIONAL ->
  TPDO_transmissionType (TPDO.TPDOCommPar TPDO) < 253 ->
  CO_CONFIG_PDO_SYNC_ENABLE CONFIG = false \/ TPDO.SYNC TPDO = None ->
  CO_TPDO_process CONFIG TN TPDO syncWas dt tn m
  = Some (TPDO_timers_updated dt TPDO, m, tn).
Proof.
  intros Hv Hop Htype Hno.
  unfold CO_TPDO_process, TPDO_timers_updated.
  destruct TPDO. TPDO_fields. TPDO_fields in Hv. TPDO_fields in Hop.
  TPDO_fields in Htype. TPDO_fields in Hno.
  rewrite Hv, Hop. cbn [is_OPERATIONAL andb].
  destruct (Z.leb_spec 253 (TPDO_transmissionType TPDOCommPar)); [lia|].
  destruct Hno as [-> | ->]; [reflexivity|].
  destruct (CO_CONFIG_PDO_SYNC_ENABLE CONFIG); reflexivity.
Qed.

(** X10.  A TPDO of transmission type 0 (synchronous acyclic), valid and
    operational: a call of [CO_TPDO_process] sends a frame with the mapped
    bytes exactly when SYNC support is compiled in, a SYNC object is
    attached to the TPDO, the call is a SYNC tick and a send was requested;
    the request is then cleared.  At any other call - in particular at
    every call of a build without SYNC support or of a TPDO whose SYNC
    pointer is null - only the timers count down. *)
Theorem TPDO_process_sync_acyclic :
  forall (CONFIG : CO_CONFIG_PDO_t) (TIMERNEXT : bool) (TPDO : CO_TPDO_t)
         (syncWas : bool) (dt : Z) (tn : option Z) (m : memory),
    TPDO.valid TPDO = true ->
    TPDO.operatingState TPDO = CO_NMT_OPERATIONAL ->
    TPDO_transmissionType (TPDO.TPDOCommPar TPDO) = 0 ->
    TPDO_wf TPDO ->
    let due :=
      CO_CONFIG_PDO_SYNC_ENABLE CONFIG = true
      /\ TPDO.SYNC TPDO <> None
      /\ syncWas = true
      /\ TPDO.sendRequest TPDO <> 0 in
    (due ->
     exists T' buff',
       CO_TPDO_process CONFIG TIMERNEXT TPDO syncWas dt tn m
       = Some (T', TPDO_CALLS_EXTENSION CONFIG TPDO m, tn)
       /\ TPDO.CANtxBuff T' = Some buff'
       /\ CANlog (TPDO.CANdevTx T')
          = CANlog (TPDO.CANdevTx TPDO) ++ [CANsend_call buff']
       /\ (forall i p, 0 <= i < TPDO.dataLength TPDO ->
                       TPDO.mapPointer TPDO !! Z.to_nat i = Some p ->
                       tx_data buff' !! Z.to_nat i
                       = Some (load (TPDO_CALLS_EXTENSION CONFIG TPDO m) p))
       /\ TPDO.sendRequest T' = 0)
    /\ (~ due ->
        CO_TPDO_process CONFIG TIMERNEXT TPDO syncWas dt tn m
        = Some (TPDO_timers_updated dt TPDO, m, tn)).
Proof.
  intros CONFIG TN TPDO syncWas dt tn m Hv Hop Htype Hwf due.
  destruct (CO_CONFIG_PDO_SYNC_ENABLE CONFIG) eqn:Hsync.
  2:{ split; [intros (H & _); discriminate H|]. intros _.
      apply CO_TPDO_process_no_SYNC; auto. lia. }
  destruct (TPDO.SYNC TPDO) as [SYNC0|] eqn:HS.
  2:{ split; [intros (_ & H & _); exfalso; apply H; reflexivity|]. intros _.
      apply CO_TPDO_process_no_SYNC; auto. lia. }
  rewrite (CO_TPDO_process_unfold_sync CONFIG TN TPDO SYNC0 syncWas dt tn m
             Hsync HS Hv Hop ltac:(lia)).
  unfold CO_TPDO_process_sync.
  change (TPDO.TPDOCommPar (TPDO_timers_updated dt TPDO))
    with (TPDO.TPDOCommPar TPDO).
  change (TPDO.sendRequest (TPDO_timers_updated dt TPDO))
    with (TPDO.sendRequest TPDO).
  rewrite Htype. cbn [Z.eqb].
  split.
  - intros (_ & _ & -> & Hreq). apply nonzero_true in Hreq. rewrite Hreq.
    destruct Hwf as ((buff & Hb & Hd) & Hmp & HL).
    destruct (CO_TPDOsend_spec CONFIG (TPDO_timers_updated dt TPDO) m buff
                Hb Hd Hmp HL)
      as (T' & d & Hrun & Hb' & Hdev & Hcopy & _ & Hreq' & _).
    rewrite Hrun. eexists T', _. split; [reflexivity|].
    split; [exact Hb'|]. split; [rewrite Hdev; reflexivity|].
    split; [exact Hcopy | exact Hreq'].
  - intros Hno. destruct syncWas; [|reflexivity].
    destruct (nonzero (TPDO.sendRequest TPDO)) eqn:Hreq; [|reflexivity].
    exfalso. apply Hno. split; [reflexivity|]. split; [discriminate|].
    split; [reflexivity|]. apply nonzero_true. exact Hreq.
Qed.

(** A SYNC tick of a cyclic TPDO that is not yet due: the counter goes down
    by one and nothing is sent. *)
Lemma CO_TPDO_process_cyclic_wait CONFIG TN TPDO SYNC0 N dt tn m :
  CO_CONFIG_PDO_SYNC_ENABLE CONFIG = true ->
  TPDO_cyclic TPDO SYNC0 N ->
  2 <= SYNC_ticks_left TPDO <= 240 ->
  CO_TPDO_process CONFIG TN TPDO true dt tn m
  = Some (TPDO.set_syncCounter (SYNC_ticks_left TPDO - 1)
                               (TPDO_timers_updated dt TPDO), m, tn).
Proof.
  intros Hsync (HS & Hv & Hop & Htype & HN & Hstart & Hwf) He.
  rewrite (CO_TPDO_process_unfold_sync CONFIG TN TPDO SYNC0 true dt tn m
             Hsync HS Hv Hop ltac:(lia)).
  unfold CO_TPDO_process_sync, SYNC_ticks_left, TPDO_timers_updated in *.
  destruct TPDO. TPDO_fields. TPDO_fields in Htype. TPDO_fields in He.
  TPDO_fields in Hstart.
  rewrite Htype in *.
  destruct (Z.eqb_spec N 0); [lia|].
  assert (Hns : nonzero (counterOverflowValue SYNC0)
                && nonzero (SYNCStartValue TPDOCommPar) = false).
  { destruct Hstart as [-> | ->];
      [reflexivity | apply andb_false_r]. }
  rewrite Hns.
  destruct (Z.eqb_spec syncCounter 255) as [->|Hc]; TPDO_fields.
  - destruct (Z.eqb_spec N 254); [lia|]. TPDO_fields.
    rewrite (u8_small (N - 1)) by lia.
    destruct (Z.eqb_spec (N - 1) 0); [lia|]. reflexivity.
  - destruct (Z.eqb_spec syncCounter 254); [lia|]. TPDO_fields.
    rewrite (u8_small (syncCounter - 1)) by lia.
    destruct (Z.eqb_spec (syncCounter - 1) 0); [lia|]. reflexivity.
Qed.

(** The SYNC tick at which it is due: the counter is reloaded with the
    transmission type and the frame is handed to [CO_CANsend]. *)
Lemma CO_TPDO_process_cyclic_send CONFIG TN TPDO SYNC0 N dt tn m :
  CO_CONFIG_PDO_SYNC_ENABLE CONFIG = true ->
  TPDO_cyclic TPDO SYNC0 N ->
  SYNC_ticks_left TPDO = 1 ->
  exists T' buff',
    CO_TPDO_process CONFIG TN TPDO true dt tn m
    = Some (T', TPDO_CALLS_EXTENSION CONFIG TPDO m, tn)
    /\ TPDO.CANtxBuff T' = Some buff'
    /\ CANlog (TPDO.CANdevTx T')
       = CANlog (TPDO.CANdevTx TPDO) ++ [CANsend_call buff']
    /\ TPDO.syncCounter T' = N
    /\ TPDO_cyclic T' SYNC0 N.
Proof.
  intros Hsync (HS & Hv & Hop & Htype & HN & Hstart & Hwf) He.
  rewrite (CO_TPDO_process_unfold_sync CONFIG TN TPDO SYNC0 true dt tn m
             Hsync HS Hv Hop ltac:(lia)).
  destruct Hwf as ((buff & Hb & Hd) & Hmp & HL).
  set (Tc := TPDO.set_syncCounter N (TPDO_timers_updated dt TPDO)).
  set (m' := TPDO_CALLS_EXTENSION CONFIG TPDO m).
  destruct (CO_TPDOsend_for_spec (TPDO.mapPointer TPDO) m'
              (Z.to_nat (TPDO.dataLength TPDO)) 0 (tx_data buff))
    as (d' & Hrun & Hlen & _); [lia | lia |].
  assert (Hsend : CO_TPDOsend CONFIG Tc m
                  = Some (TPDO.set_CANdevTx
                            (fst (CO_CANsend (TPDO.CANdevTx TPDO)
                                             (mkCANtx d' (syncFlag buff))))
                            (TPDO.set_sendRequest 0
                               (TPDO.set_CANtxBuff
                                  (Some (mkCANtx d' (syncFlag buff))) Tc)),
                          m',
                          snd (CO_CANsend (TPDO.CANdevTx TPDO)
                                          (mkCANtx d' (syncFlag buff))))).
  { unfold CO_TPDOsend.
    change (TPDO_CALLS_EXTENSION CONFIG Tc m) with m'.
    change (TPDO.CANtxBuff Tc) with (TPDO.CANtxBuff TPDO).
    change (TPDO.dataLength Tc) with (TPDO.dataLength TPDO).
    change (TPDO.mapPointer Tc) with (TPDO.mapPointer TPDO).
    rewrite Hb, Hrun. reflexivity. }
  set (T' := TPDO.set_CANdevTx _ _) in Hsend.
  assert (Hproc : CO_TPDO_process_sync CONFIG (TPDO_timers_updated dt TPDO)
                                       SYNC0 m
                  = match CO_TPDOsend CONFIG Tc m with
                    | None => None
                    | Some (T, m1, _) => Some (T, m1)
                    end).
  { subst Tc. clear Hsend T' Hrun.
    unfold CO_TPDO_process_sync, SYNC_ticks_left, TPDO_timers_updated in *.
    destruct TPDO. TPDO_fields. TPDO_fields in Htype. TPDO_fields in He.
    TPDO_fields in Hstart.
    rewrite Htype in *.
    destruct (Z.eqb_spec N 0); [lia|].
    assert (Hns : nonzero (counterOverflowValue SYNC0)
                  && nonzero (SYNCStartValue TPDOCommPar) = false).
    { destruct Hstart as [-> | ->];
        [reflexivity | apply andb_false_r]. }
    rewrite Hns.
    destruct (Z.eqb_spec syncCounter 255) as [->|Hc]; TPDO_fields.
    - rewrite He. reflexivity.
    - rewrite He. reflexivity. }
  rewrite Hproc, Hsend.
  exists T', (mkCANtx d' (syncFlag buff)).
  split; [reflexivity|]. split; [reflexivity|]. split; [reflexivity|].
  split; [reflexivity|].
  assert (Hd' : length (tx_data (mkCANtx d' (syncFlag buff))) = 8%nat)
    by (cbn [tx_data]; lia).
  exact (conj HS (conj Hv (conj Hop (conj Htype (conj HN (conj Hstart
           (conj (ex_intro _ (mkCANtx d' (syncFlag buff)) (conj eq_refl Hd'))
                 (conj Hmp HL)))))))).
Qed.

Lemma TPDO_cyclic_wait_state CONFIG TPDO SYNC0 N dt :
  TPDO_cyclic TPDO SYNC0 N ->
  2 <= SYNC_ticks_left TPDO <= 240 ->
  let T1 := TPDO.set_syncCounter (SYNC_ticks_left TPDO - 1)
                                 (TPDO_timers_updated dt TPDO) in
  TPDO_cyclic T1 SYNC0 N
  /\ SYNC_ticks_left T1 = SYNC_ticks_left TPDO - 1
  /\ TPDO.CANdevTx T1 = TPDO.CANdevTx TPDO
  /\ forall m, TPDO_CALLS_EXTENSION CONFIG T1 m
               = TPDO_CALLS_EXTENSION CONFIG TPDO m.
Proof.
  intros Hcyc He T1. split; [exact Hcyc|]. split; [|split; reflexivity].
  subst T1. unfold SYNC_ticks_left at 1. TPDO_fields.
  destruct (Z.eqb_spec (SYNC_ticks_left TPDO - 1) 255); [lia | reflexivity].
Qed.

(** Over the SYNC ticks left on the counter of a cyclic TPDO: no tick but
    the last touches the CAN module or the memory, the last one sends. *)
Lemma TPDO_SYNC_ticks_cyclic CONFIG TN SYNC0 N dts : forall TPDO m,
  CO_CONFIG_PDO_SYNC_ENABLE CONFIG = true ->
  TPDO_cyclic TPDO SYNC0 N ->
  1 <= SYNC_ticks_left TPDO <= 240 ->
  Z.of_nat (length dts) = SYNC_ticks_left TPDO ->
  (forall k, (k < length dts)%nat ->
     exists Tk,
       TPDO_SYNC_ticks CONFIG TN (take k dts) TPDO m = Some (Tk, m)
       /\ TPDO.CANdevTx Tk = TPDO.CANdevTx TPDO)
  /\ exists T' buff',
      TPDO_SYNC_ticks CONFIG TN dts TPDO m
      = Some (T', TPDO_CALLS_EXTENSION CONFIG TPDO m)
      /\ TPDO.CANtxBuff T' = Some buff'
      /\ CANlog (TPDO.CANdevTx T')
         = CANlog (TPDO.CANdevTx TPDO) ++ [CANsend_call buff']
      /\ TPDO.syncCounter T' = N
      /\ SYNC_ticks_left T' = N
      /\ TPDO_cyclic T' SYNC0 N.
Proof.
  induction dts as [|dt rest IH]; intros TPDO m Hsync Hcyc He Hlen.
  - simpl in Hlen. lia.
  - destruct (decide (SYNC_ticks_left TPDO = 1)) as [H1|Hmore].
    + destruct rest; [|simpl in Hlen; lia]. split.
      * intros k Hk. simpl in Hk. assert (k = 0%nat) as -> by lia.
        exists TPDO. split; reflexivity.
      * cbn [TPDO_SYNC_ticks].
        destruct (CO_TPDO_process_cyclic_send CONFIG TN TPDO SYNC0 N dt None
                    m Hsync Hcyc H1)
          as (T' & buff' & Hrun & Hb & Hlog & Hc & Hcyc').
        rewrite Hrun. cbn [TPDO_SYNC_ticks].
        exists T', buff'.
        split; [reflexivity|]. split; [exact Hb|]. split; [exact Hlog|].
        split; [exact Hc|]. split; [|exact Hcyc'].
        unfold SYNC_ticks_left. rewrite Hc.
        destruct Hcyc' as (_ & _ & _ & Ht & HN & _).
        destruct (Z.eqb_spec N 255); [lia | reflexivity].
    + pose proof (CO_TPDO_process_cyclic_wait CONFIG TN TPDO SYNC0 N dt None
                    m Hsync Hcyc ltac:(lia)) as Hwait.
      destruct (TPDO_cyclic_wait_state CONFIG TPDO SYNC0 N dt Hcyc ltac:(lia))
        as (Hcyc1 & He1 & Hdev1 & Hext1).
      destruct (IH _ m Hsync Hcyc1 ltac:(lia)
                   ltac:(rewrite He1; simpl in Hlen; lia))
        as (Hpre & T' & buff' & Hrun & Hb & Hlog & Hc & He' & Hcyc').
      split.
      * intros k Hk. destruct k as [|k].
        -- exists TPDO. split; reflexivity.
        -- cbn [take TPDO_SYNC_ticks]. rewrite Hwait.
           destruct (Hpre k ltac:(simpl in Hk; lia)) as (Tk & Hk1 & Hk2).
           exists Tk. split; [exact Hk1|]. rewrite Hk2. exact Hdev1.
      * cbn [TPDO_SYNC_ticks]. rewrite Hwait, Hrun, Hext1.
        exists T', buff'.
        split; [reflexivity|]. split; [exact Hb|].
        split; [rewrite Hlog, Hdev1; reflexivity|].
        split; [exact Hc|]. split; [exact He' | exact Hcyc'].
Qed.

(** Without SYNC support, or without a SYNC object, no number of ticks
    makes a synchronous TPDO send. *)
Lemma TPDO_SYNC_ticks_no_SYNC CONFIG TN dts : forall TPDO m,
  TPDO.valid TPDO = true ->
  TPDO.operatingState TPDO = CO_NMT_OPERATIONAL ->
  TPDO_transmissionType (TPDO.TPDOCommPar TPDO) < 253 ->
  CO_CONFIG_PDO_SYNC_ENABLE CONFIG = false \/ TPDO.SYNC TPDO = None ->
  exists T',
    TPDO_SYNC_ticks CONFIG TN dts TPDO m = Some (T', m)
    /\ TPDO.CANdevTx T' = TPDO.CANdevTx TPDO
    /\ TPDO.CANtxBuff T' = TPDO.CANtxBuff TPDO
    /\ TPDO.syncCounter T' = TPDO.syncCounter TPDO.
Proof.
  induction dts as [|dt rest IH]; intros TPDO m Hv Hop Htype Hno.
  - exists TPDO. repeat split.
  - cbn [TPDO_SYNC_ticks].
    rewrite (CO_TPDO_process_no_SYNC CONFIG TN TPDO true dt None m
               Hv Hop Htype Hno).
    exact (IH (TPDO_timers_updated dt TPDO) m Hv Hop Htype Hno).
Qed.

(** X11.  A valid, operational TPDO of cyclic transmission type [N]
    (1..240).  With SYNC support compiled in, a SYNC object attached and
    the SYNC start value not in use: if [e] SYNC ticks are left on its
    counter (a full period [N] when the counter is at its start mark 255),
    then none of the first [e - 1] SYNC ticks touches the CAN module or the
    memory, the [e]-th hands exactly one frame to [CO_CANsend], and the
    counter is then back at [N] - so from then on it transmits at every
    [N]-th SYNC.  Without SYNC support, or with a null SYNC pointer, no
    number of ticks sends anything, and the counter stays as it was. *)
Theorem TPDO_cyclic_every_Nth_SYNC :
  forall (CONFIG : CO_CONFIG_PDO_t) (TIMERNEXT : bool) (SYNC0 : CO_SYNC_t)
         (N : Z) (dts : list Z) (TPDO : CO_TPDO_t) (m : memory),
    (CO_CONFIG_PDO_SYNC_ENABLE CONFIG = true ->
     TPDO_cyclic TPDO SYNC0 N ->
     1 <= SYNC_ticks_left TPDO <= 240 ->
     Z.of_nat (length dts) = SYNC_ticks_left TPDO ->
     (forall k, (k < length dts)%nat ->
        exists Tk,
          TPDO_SYNC_ticks CONFIG TIMERNEXT (take k dts) TPDO m = Some (Tk, m)
          /\ TPDO.CANdevTx Tk = TPDO.CANdevTx TPDO)
     /\ exists T' buff',
         TPDO_SYNC_ticks CONFIG TIMERNEXT dts TPDO m
         = Some (T', TPDO_CALLS_EXTENSION CONFIG TPDO m)
         /\ TPDO.CANtxBuff T' = Some buff'
         /\ CANlog (TPDO.CANdevTx T')
            = CANlog (TPDO.CANdevTx TPDO) ++ [CANsend_call buff']
         /\ TPDO.syncCounter T' = N
         /\ SYNC_ticks_left T' = N
         /\ TPDO_cyclic T' SYNC0 N)
    /\ (TPDO.valid TPDO = true ->
        TPDO.operatingState TPDO = CO_NMT_OPERATIONAL ->
        TPDO_transmissionType (TPDO.TPDOCommPar TPDO) = N ->
        1 <= N <= 240 ->
        CO_CONFIG_PDO_SYNC_ENABLE CONFIG = false \/ TPDO.SYNC TPDO = None ->
        exists T',
          TPDO_SYNC_ticks CONFIG TIMERNEXT dts TPDO m = Some (T', m)
          /\ TPDO.CANdevTx T' = TPDO.CANdevTx TPDO
          /\ TPDO.CANtxBuff T' = TPDO.CANtxBuff TPDO
          /\ TPDO.syncCounter T' = TPDO.syncCounter TPDO).
Proof.
  intros CONFIG TN SYNC0 N dts TPDO m. split.
  - apply TPDO_SYNC_ticks_cyclic.
  - intros Hv Hop Htype HN Hno.
    apply TPDO_SYNC_ticks_no_SYNC; auto. lia.
Qed.

(** * The mapping parameter access functions *)

(** The restriction checks of the mapping access functions: flag 0x08 (read
    only) clear, and not operational with flag 0x02 set. *)
Lemma map_write_permitted_tests flags st :
  map_write_permitted flags st ->
  nonzero (Z.land flags 0x08) = false
  /\ is_OPERATIONAL st && nonzero (Z.land flags 0x02) = false.
Proof.
  intros [H8 H2]. split.
  - apply nonzero_false. exact H8.
  - destruct (nonzero (Z.land flags 2)) eqn:Hn; [|apply andb_false_r].
    apply nonzero_true in Hn.
    destruct st; try reflexivity. exfalso. apply H2. auto.
Qed.

(** X12.  The mapping of a PDO cannot be touched while the PDO is valid, and
    single descriptors are only ever checked.  Every write to the mapping
    access function of a valid PDO is refused (read-only, device state or
    unsupported access) and changes nothing.  A write to a mapped-object
    sub-index (1..8) never changes the object or the memory, whatever the
    state: it is refused with UnsupportedAccess once it has passed the
    restriction and validity checks and the PDO has a non-zero mapped
    length, and otherwise answered with the resolver's verdict on the
    written descriptor taken alone. *)
Theorem ODF_map_write_guards :
  forall (ODA : CO_SDO_OD_attributes_t) (RPDO : CO_RPDO_t) (TPDO : CO_TPDO_t)
         (ODF_arg : CO_ODF_arg_t) (m : memory),
    reading ODF_arg = false ->
    (RPDO.valid RPDO = true ->
     exists c, CO_ODF_RPDOmap ODA RPDO ODF_arg m = (c, RPDO, m)
               /\ (c = CO_SDO_AB_READONLY \/ c = CO_SDO_AB_DATA_DEV_STATE
                   \/ c = CO_SDO_AB_UNSUPPORTED_ACCESS))
    /\ (TPDO.valid TPDO = true ->
        exists c, CO_ODF_TPDOmap ODA TPDO ODF_arg m = (c, TPDO, m)
                  /\ (c = CO_SDO_AB_READONLY \/ c = CO_SDO_AB_DATA_DEV_STATE
                      \/ c = CO_SDO_AB_UNSUPPORTED_ACCESS))
    /\ (subIndex ODF_arg <> 0 ->
        (exists c, CO_ODF_RPDOmap ODA RPDO ODF_arg m = (c, RPDO, m))
        /\ (exists c, CO_ODF_TPDOmap ODA TPDO ODF_arg m = (c, TPDO, m))
        /\ (map_write_permitted (RPDO.restrictionFlags RPDO)
                                (RPDO.operatingState RPDO) ->
            RPDO.valid RPDO = false ->
            fst (fst (CO_ODF_RPDOmap ODA RPDO ODF_arg m))
            = if nonzero (RPDO.dataLength RPDO)
              then CO_SDO_AB_UNSUPPORTED_ACCESS
              else resolve ODA (RPDO.SDO RPDO) 0 0
                           (CO_getUint32 m (data ODF_arg)))
        /\ (map_write_permitted (TPDO.restrictionFlags TPDO)
                                (TPDO.operatingState TPDO) ->
            TPDO.valid TPDO = false ->
            fst (fst (CO_ODF_TPDOmap ODA TPDO ODF_arg m))
            = if nonzero (TPDO.dataLength TPDO)
              then CO_SDO_AB_UNSUPPORTED_ACCESS
              else resolve ODA (TPDO.SDO TPDO) 1 0
                           (CO_getUint32 m (data ODF_arg)))).
Proof.
  intros ODA RPDO TPDO ODF_arg m Hrd.
  split; [|split].
  - intros Hv. unfold CO_ODF_RPDOmap. rewrite Hrd, Hv.
    destruct (nonzero _); [eexists; split; [reflexivity | auto]|].
    destruct (_ && _); eexists; (split; [reflexivity | auto]).
  - intros Hv. unfold CO_ODF_TPDOmap. rewrite Hrd, Hv.
    destruct (nonzero _); [eexists; split; [reflexivity | auto]|].
    destruct (_ && _); eexists; (split; [reflexivity | auto]).
  - intros Hsub. apply Z.eqb_neq in Hsub.
    split; [|split; [|split]].
    + unfold CO_ODF_RPDOmap. rewrite Hrd, Hsub. if_cases; eexists; reflexivity.
    + unfold CO_ODF_TPDOmap. rewrite Hrd, Hsub. if_cases; eexists; reflexivity.
    + intros Hp Hv.
      destruct (map_write_permitted_tests _ _ Hp) as [E8 E2].
      unfold CO_ODF_RPDOmap, resolve. rewrite Hrd, Hsub, E8, E2, Hv.
      destruct (nonzero (RPDO.dataLength RPDO)); reflexivity.
    + intros Hp Hv.
      destruct (map_write_permitted_tests _ _ Hp) as [E8 E2].
      unfold CO_ODF_TPDOmap, resolve. rewrite Hrd, Hsub, E8, E2, Hv.
      destruct (nonzero (TPDO.dataLength TPDO)); reflexivity.
Qed.

(** A descriptor that resolves after [len] bytes resolves on its own, and
    fits. *)
Lemma resolve_alone ODA SDO R_T len map :
  0 <= len <= 8 ->
  resolve ODA SDO R_T len map = CO_SDO_AB_NONE ->
  resolve ODA SDO R_T 0 map = CO_SDO_AB_NONE
  /\ len + descriptor_bytes map <= 8.
Proof.
  unfold resolve, CO_PDOfindMap, descriptor_bytes.
  intros Hlen.
  pose proof (descriptor_bytes_range map) as Hb. unfold descriptor_bytes in Hb.
  rewrite (u8_small (len + _)) by lia.
  rewrite Z.add_0_l, (u8_small (Z.shiftr (u8 map) 3)) by lia.
  if_cases; simpl; intros H; try discriminate H; split;
    try reflexivity; lia.
Qed.

(** The loop ends without failure only over descriptors that all resolve on
    their own and fit together. *)
Lemma CO_RPDOconfigMap_for_NONE ODA i : forall pMap len RPDO,
  0 <= len <= 8 ->
  snd (CO_RPDOconfigMap_for ODA i pMap len RPDO) = CO_SDO_AB_NONE ->
  Forall (fun map => resolve ODA (RPDO.SDO RPDO) 0 0 map = CO_SDO_AB_NONE)
         (descriptors (RPDO.RPDOMapPar RPDO) pMap i)
  /\ len + bytes_sum (descriptors (RPDO.RPDOMapPar RPDO) pMap i) <= 8.
Proof.
  induction i as [|i IH]; intros pMap len RPDO Hlen.
  - intros _. split; [constructor | simpl; lia].
  - unfold descriptors. cbn [CO_RPDOconfigMap_for seq List.map bytes_sum foldr].
    fold (descriptors (RPDO.RPDOMapPar RPDO) (S pMap) i).
    set (map := mappedObject (RPDO.RPDOMapPar RPDO) pMap).
    pose proof (CO_PDOfindMap_resolve ODA (RPDO.SDO RPDO) map 0
                  uninitialised_pData len 0 uninitialised_MBvar) as Hres.
    pose proof (CO_PDOfindMap_NONE_length ODA (RPDO.SDO RPDO) map 0
                  uninitialised_pData len 0 uninitialised_MBvar) as HL.
    destruct (CO_PDOfindMap _ _ _ _ _ _ _ _) as [ret out].
    cbn [fst snd] in Hres, HL.
    destruct (is_NONE ret) eqn:Hret.
    + apply is_NONE_true in Hret. rewrite Hret in Hres, HL.
      symmetry in Hres.
      destruct (resolve_alone ODA _ 0 len map Hlen Hres) as [Halone Hfit].
      destruct (HL eq_refl) as [Hout Hrange].
      pose proof (descriptor_bytes_range map) as Hb.
      rewrite u8_small in Hout by lia.
      intros Hrun.
      destruct (IH (S pMap) (pLength out)
                   (RPDO.set_mapPointer
                      (mapPointer_for (Z.to_nat (pLength out - len)) len
                                      (ppData out) (RPDO.mapPointer RPDO))
                      RPDO) Hrange Hrun) as [Hall Hsum].
      split; [constructor; [exact Halone | exact Hall]|].
      cbn [RPDO.RPDOMapPar RPDO.set_mapPointer] in Hsum.
      fold (bytes_sum (descriptors (RPDO.RPDOMapPar RPDO) (S pMap) i)).
      lia.
    + cbn [snd]. intros ->. discriminate Hret.
Qed.

Lemma CO_TPDOconfigMap_for_NONE ODA i : forall pMap len TPDO,
  0 <= len <= 8 ->
  snd (CO_TPDOconfigMap_for ODA i pMap len TPDO) = CO_SDO_AB_NONE ->
  Forall (fun map => resolve ODA (TPDO.SDO TPDO) 1 0 map = CO_SDO_AB_NONE)
         (descriptors (TPDO.TPDOMapPar TPDO) pMap i)
  /\ len + bytes_sum (descriptors (TPDO.TPDOMapPar TPDO) pMap i) <= 8.
Proof.
  induction i as [|i IH]; intros pMap len TPDO Hlen.
  - intros _. split; [constructor | simpl; lia].
  - unfold descriptors. cbn [CO_TPDOconfigMap_for seq List.map bytes_sum foldr].
    fold (descriptors (TPDO.TPDOMapPar TPDO) (S pMap) i).
    set (map := mappedObject (TPDO.TPDOMapPar TPDO) pMap).
    pose proof (CO_PDOfindMap_resolve ODA (TPDO.SDO TPDO) map 1
                  uninitialised_pData len (TPDO.sendIfCOSFlags TPDO)
                  uninitialised_MBvar) as Hres.
    pose proof (CO_PDOfindMap_NONE_length ODA (TPDO.SDO TPDO) map 1
                  uninitialised_pData len (TPDO.sendIfCOSFlags TPDO)
                  uninitialised_MBvar) as HL.
    destruct (CO_PDOfindMap _ _ _ _ _ _ _ _) as [ret out].
    cbn [fst snd] in Hres, HL.
    destruct (is_NONE ret) eqn:Hret.
    + apply is_NONE_true in Hret. rewrite Hret in Hres, HL.
      symmetry in Hres.
      destruct (resolve_alone ODA _ 1 len map Hlen Hres) as [Halone Hfit].
      destruct (HL eq_refl) as [Hout Hrange].
      pose proof (descriptor_bytes_range map) as Hb.
      rewrite u8_small in Hout by lia.
      intros Hrun.
      destruct (IH (S pMap) (pLength out)
                   (TPDO.set_mapPointer
                      (mapPointer_for (Z.to_nat (pLength out - len)) len
                                      (ppData out) (TPDO.mapPointer TPDO))
                      (TPDO.set_sendIfCOSFlags (pSendIfCOSFlags out) TPDO))
                   Hrange Hrun) as [Hall Hsum].
      split; [constructor; [exact Halone | exact Hall]|].
      cbn [TPDO.TPDOMapPar TPDO.set_mapPointer TPDO.set_sendIfCOSFlags]
        in Hsum.
      fold (bytes_sum (descriptors (TPDO.TPDOMapPar TPDO) (S pMap) i)).
      lia.
    + cbn [snd]. intros ->. discriminate Hret.
Qed.

(** A failing loop leaves 0 in the local [length]. *)
Lemma CO_RPDOconfigMap_for_abort ODA i : forall pMap len RPDO,
  snd (CO_RPDOconfigMap_for ODA i pMap len RPDO) <> CO_SDO_AB_NONE ->
  snd (fst (CO_RPDOconfigMap_for ODA i pMap len RPDO)) = 0.
Proof.
  induction i as [|i IH]; intros pMap len RPDO; simpl; [congruence|].
  destruct (CO_PDOfindMap _ _ _ _ _ _ _ _) as [ret out].
  destruct (is_NONE ret); [apply IH | reflexivity].
Qed.

Lemma CO_TPDOconfigMap_for_abort ODA i : forall pMap len TPDO,
  snd (CO_TPDOconfigMap_for ODA i pMap len TPDO) <> CO_SDO_AB_NONE ->
  snd (fst (CO_TPDOconfigMap_for ODA i pMap len TPDO)) = 0.
Proof.
  induction i as [|i IH]; intros pMap len TPDO; simpl; [congruence|].
  destruct (CO_PDOfindMap _ _ _ _ _ _ _ _) as [ret out].
  destruct (is_NONE ret); [apply IH | reflexivity].
Qed.

(** The mapping configurators succeed exactly on mappable descriptor lists;
    the mapped length is then the byte sum, and 0 after a failure. *)
Lemma CO_RPDOconfigMap_cases ODA RPDO N :
  let maps := descriptors (RPDO.RPDOMapPar RPDO) 0 (Z.to_nat N) in
  (mappable ODA (RPDO.SDO RPDO) 0 maps
   /\ snd (CO_RPDOconfigMap ODA RPDO N) = CO_SDO_AB_NONE
   /\ RPDO.dataLength (fst (CO_RPDOconfigMap ODA RPDO N)) = bytes_sum maps)
  \/ (~ mappable ODA (RPDO.SDO RPDO) 0 maps
      /\ snd (CO_RPDOconfigMap ODA RPDO N) <> CO_SDO_AB_NONE
      /\ RPDO.dataLength (fst (CO_RPDOconfigMap ODA RPDO N)) = 0).
Proof.
  intros maps.
  pose proof (CO_RPDOconfigMap_for_NONE ODA (Z.to_nat N) 0 0 RPDO
                ltac:(lia)) as Hnone.
  pose proof (CO_RPDOconfigMap_for_abort ODA (Z.to_nat N) 0 0 RPDO) as Habort.
  pose proof (CO_RPDOconfigMap_for_success ODA (Z.to_nat N) 0 0 RPDO
                ltac:(lia)) as Hsucc.
  fold maps in Hnone, Hsucc. rewrite Z.add_0_l in Hnone, Hsucc.
  unfold CO_RPDOconfigMap.
  destruct (CO_RPDOconfigMap_for ODA (Z.to_nat N) 0 0 RPDO)
    as [[R len] ret] eqn:E.
  cbn [fst snd RPDO.dataLength RPDO.set_dataLength] in *.
  destruct (is_NONE ret) eqn:Hret.
  - apply is_NONE_true in Hret. left.
    destruct (Hnone Hret) as [Hall Hsum].
    split; [split; assumption|]. split; [exact Hret|].
    destruct (Hsucc Hall Hsum) as [R0 HR0]. congruence.
  - apply is_NONE_false in Hret. right.
    split; [|split; [exact Hret | exact (Habort Hret)]].
    intros [Hall Hsum]. destruct (Hsucc Hall Hsum) as [R0 HR0]. congruence.
Qed.

Lemma CO_TPDOconfigMap_cases ODA TPDO N :
  let maps := descriptors (TPDO.TPDOMapPar TPDO) 0 (Z.to_nat N) in
  (mappable ODA (TPDO.SDO TPDO) 1 maps
   /\ snd (CO_TPDOconfigMap ODA TPDO N) = CO_SDO_AB_NONE
   /\ TPDO.dataLength (fst (CO_TPDOconfigMap ODA TPDO N)) = bytes_sum maps)
  \/ (~ mappable ODA (TPDO.SDO TPDO) 1 maps
      /\ snd (CO_TPDOconfigMap ODA TPDO N) <> CO_SDO_AB_NONE
      /\ TPDO.dataLength (fst (CO_TPDOconfigMap ODA TPDO N)) = 0).
Proof.
  intros maps.
  pose proof (CO_TPDOconfigMap_for_NONE ODA (Z.to_nat N) 0 0
                (TPDO.set_sendIfCOSFlags 0 TPDO) ltac:(lia)) as Hnone.
  pose proof (CO_TPDOconfigMap_for_abort ODA (Z.to_nat N) 0 0
                (TPDO.set_sendIfCOSFlags 0 TPDO)) as Habort.
  pose proof (CO_TPDOconfigMap_for_success ODA (Z.to_nat N) 0 0
                (TPDO.set_sendIfCOSFlags 0 TPDO) ltac:(lia)) as Hsucc.
  cbn [TPDO.TPDOMapPar TPDO.SDO TPDO.set_sendIfCOSFlags] in Hnone, Hsucc.
  fold maps in Hnone, Hsucc. rewrite Z.add_0_l in Hnone, Hsucc.
  unfold CO_TPDOconfigMap.
  destruct (CO_TPDOconfigMap_for ODA (Z.to_nat N) 0 0
              (TPDO.set_sendIfCOSFlags 0 TPDO)) as [[T len] ret] eqn:E.
  cbn [fst snd TPDO.dataLength TPDO.set_dataLength] in *.
  destruct (is_NONE ret) eqn:Hret.
  - apply is_NONE_true in Hret. left.
    destruct (Hnone Hret) as [Hall Hsum].
    split; [split; assumption|]. split; [exact Hret|].
    destruct (Hsucc Hall Hsum) as [T0 HT0]. congruence.
  - apply is_NONE_false in Hret. right.
    split; [|split; [exact Hret | exact (Habort Hret)]].
    intros [Hall Hsum]. destruct (Hsucc Hall Hsum) as [T0 HT0]. congruence.
Qed.

(** X13.  Writing the number of mapped objects (sub-index 0) of an invalid
    PDO whose mapping may be written.  The memory is never changed.  A count
    above 8 is refused with MapLength and changes nothing.  A count [N] of
    at most 8 is accepted exactly when the first [N] stored descriptors are
    mappable (each resolves when taken alone, and together they fill at most
    8 bytes); the mapped length is then their byte sum.  After a count of
    at most 8 that was refused the mapped length is 0, and every later read
    of sub-index 0 through the access function puts 0 into the SDO buffer
    (a refused count above 8 leaves the mapped length as it was). *)
Theorem ODF_map_count_write :
  forall (ODA : CO_SDO_OD_attributes_t) (RPDO : CO_RPDO_t) (TPDO : CO_TPDO_t)
         (ODF_arg : CO_ODF_arg_t) (m : memory),
    reading ODF_arg = false -> subIndex ODF_arg = 0 ->
    let N := u8 (load m (data ODF_arg)) in
    (map_write_permitted (RPDO.restrictionFlags RPDO)
                         (RPDO.operatingState RPDO) ->
     RPDO.valid RPDO = false ->
     let maps := descriptors (RPDO.RPDOMapPar RPDO) 0 (Z.to_nat N) in
     exists c R',
       CO_ODF_RPDOmap ODA RPDO ODF_arg m = (c, R', m)
       /\ (8 < N -> c = CO_SDO_AB_MAP_LEN /\ R' = RPDO)
       /\ (N <= 8 ->
           (c = CO_SDO_AB_NONE <-> mappable ODA (RPDO.SDO RPDO) 0 maps)
           /\ RPDO.dataLength R' = (if is_NONE c then bytes_sum maps else 0)
           /\ (c <> CO_SDO_AB_NONE ->
               forall (arg' : CO_ODF_arg_t) (m' : memory),
                 reading arg' = true -> subIndex arg' = 0 ->
                 CO_ODF_RPDOmap ODA R' arg' m'
                 = (CO_SDO_AB_NONE, R', store m' (data arg') 0))))
    /\ (map_write_permitted (TPDO.restrictionFlags TPDO)
                            (TPDO.operatingState TPDO) ->
        TPDO.valid TPDO = false ->
        let maps := descriptors (TPDO.TPDOMapPar TPDO) 0 (Z.to_nat N) in
        exists c T',
          CO_ODF_TPDOmap ODA TPDO ODF_arg m = (c, T', m)
          /\ (8 < N -> c = CO_SDO_AB_MAP_LEN /\ T' = TPDO)
          /\ (N <= 8 ->
              (c = CO_SDO_AB_NONE <-> mappable ODA (TPDO.SDO TPDO) 1 maps)
              /\ TPDO.dataLength T' = (if is_NONE c then bytes_sum maps else 0)
              /\ (c <> CO_SDO_AB_NONE ->
                  forall (arg' : CO_ODF_arg_t) (m' : memory),
                    reading arg' = true -> subIndex arg' = 0 ->
                    CO_ODF_TPDOmap ODA T' arg' m'
                    = (CO_SDO_AB_NONE, T', store m' (data arg') 0)))).
Proof.
  intros ODA RPDO TPDO ODF_arg m Hrd Hsub N. split.
  - intros Hp Hv maps.
    destruct (map_write_permitted_tests _ _ Hp) as [E8 E2].
    unfold CO_ODF_RPDOmap. rewrite Hrd, Hsub, E8, E2, Hv. cbn [Z.eqb].
    fold N. destruct (Z.ltb_spec 8 N) as [HN|HN].
    + exists CO_SDO_AB_MAP_LEN, RPDO. split; [reflexivity|].
      split; [auto | lia].
    + pose proof (CO_RPDOconfigMap_cases ODA RPDO N) as Hcases.
      cbv zeta in Hcases. fold maps in Hcases.
      destruct (CO_RPDOconfigMap ODA RPDO N) as [R' c].
      cbn [fst snd] in Hcases.
      exists c, R'. split; [reflexivity|]. split; [lia|]. intros _.
      destruct Hcases as [(Hmap & Hc & Hlen) | (Hmap & Hc & Hlen)].
      * subst c. split; [tauto|]. split; [exact Hlen | congruence].
      * apply is_NONE_false in Hc as Hc'. rewrite Hc'.
        split; [tauto|]. split; [exact Hlen|].
        intros _ arg' m' Hrd' Hsub'.
        unfold CO_ODF_RPDOmap. rewrite Hrd', Hsub', Hlen. reflexivity.
  - intros Hp Hv maps.
    destruct (map_write_permitted_tests _ _ Hp) as [E8 E2].
    unfold CO_ODF_TPDOmap. rewrite Hrd, Hsub, E8, E2, Hv. cbn [Z.eqb].
    fold N. destruct (Z.ltb_spec 8 N) as [HN|HN].
    + exists CO_SDO_AB_MAP_LEN, TPDO. split; [reflexivity|].
      split; [auto | lia].
    + pose proof (CO_TPDOconfigMap_cases ODA TPDO N) as Hcases.
      cbv zeta in Hcases. fold maps in Hcases.
      destruct (CO_TPDOconfigMap ODA TPDO N) as [T' c].
      cbn [fst snd] in Hcases.
      exists c, T'. split; [reflexivity|]. split; [lia|]. intros _.
      destruct Hcases as [(Hmap & Hc & Hlen) | (Hmap & Hc & Hlen)].
      * subst c. split; [tauto|]. split; [exact Hlen | congruence].
      * apply is_NONE_false in Hc as Hc'. rewrite Hc'.
        split; [tauto|]. split; [exact Hlen|].
        intros _ arg' m' Hrd' Hsub'.
        unfold CO_ODF_TPDOmap. rewrite Hrd', Hsub', Hlen. reflexivity.
Qed.

(** * Initialisation *)

(** The mapping configurator assigns [em], [mapPointer] and [dataLength]
    only. *)
Lemma CO_RPDOconfigMap_for_keep ODA i : forall pMap len RPDO,
  let R := fst (fst (CO_RPDOconfigMap_for ODA i pMap len RPDO)) in
  RPDO.valid R = RPDO.valid RPDO
  /\ RPDO.synchronous R = RPDO.synchronous RPDO
  /\ RPDO.CANrxNew R = RPDO.CANrxNew RPDO
  /\ RPDO.CANdevRx R = RPDO.CANdevRx RPDO
  /\ RPDO.CANdevRxIdx R = RPDO.CANdevRxIdx RPDO.
Proof.
  induction i as [|i IH]; intros pMap len RPDO; simpl; [auto 6|].
  destruct (CO_PDOfindMap _ _ _ _ _ _ _ _) as [ret out] eqn:E.
  destruct (is_NONE ret) eqn:Hret; simpl.
  - exact (IH (S pMap) (pLength out)
              (RPDO.set_mapPointer
                 (mapPointer_for (Z.to_nat (pLength out - len)) len
                                 (ppData out) (RPDO.mapPointer RPDO)) RPDO)).
  - auto 6.
Qed.

Lemma CO_RPDOconfigMap_keep ODA RPDO N :
  let R := fst (CO_RPDOconfigMap ODA RPDO N) in
  RPDO.valid R = RPDO.valid RPDO
  /\ RPDO.synchronous R = RPDO.synchronous RPDO
  /\ RPDO.CANrxNew R = RPDO.CANrxNew RPDO
  /\ RPDO.CANdevRx R = RPDO.CANdevRx RPDO
  /\ RPDO.CANdevRxIdx R = RPDO.CANdevRxIdx RPDO.
Proof.
  pose proof (CO_RPDOconfigMap_for_keep ODA (Z.to_nat N) 0 0 RPDO) as H.
  unfold CO_RPDOconfigMap.
  destruct (CO_RPDOconfigMap_for _ _ _ _ _) as [[R len] ret]. exact H.
Qed.

(** Clearing a flag never leaves it, or another one, set where it was
    not. *)
Lemma lookup_insert_false (l : list bool) (i k : nat) :
  <[i := false]> l !! k = Some true -> l !! k = Some true.
Proof.
  destruct (decide (i = k)) as [->|Hne].
  - destruct (decide (k < length l)%nat) as [Hlt|Hge].
    + rewrite list_lookup_insert_eq by exact Hlt. discriminate.
    + rewrite list_insert_ge by lia. auto.
  - rewrite list_lookup_insert_ne by exact Hne. auto.
Qed.

Lemma lookup_insert_false_eq (l : list bool) (i : nat) :
  <[i := false]> l !! i <> Some true.
Proof.
  destruct (decide (i < length l)%nat) as [Hlt|Hge].
  - rewrite list_lookup_insert_eq by exact Hlt. discriminate.
  - rewrite list_insert_ge by lia. rewrite lookup_ge_None_2 by lia.
    discriminate.
Qed.

Lemma RPDO_clear_CANrxNew_flags CONFIG RPDO :
  (forall k, RPDO.CANrxNew (RPDO_clear_CANrxNew CONFIG RPDO) !! k = Some true
             -> RPDO.CANrxNew RPDO !! k = Some true)
  /\ RPDO.CANrxNew (RPDO_clear_CANrxNew CONFIG RPDO) !! 0%nat <> Some true
  /\ (CO_CONFIG_PDO_SYNC_ENABLE CONFIG = true ->
      RPDO.CANrxNew (RPDO_clear_CANrxNew CONFIG RPDO) !! 1%nat <> Some true).
Proof.
  unfold RPDO_clear_CANrxNew.
  destruct (CO_CONFIG_PDO_SYNC_ENABLE CONFIG);
    cbn [RPDO.CANrxNew RPDO.set_CANrxNew].
  - split; [|split].
    + intros k H. apply lookup_insert_false in H.
      apply lookup_insert_false in H. exact H.
    + intros H. apply lookup_insert_false in H.
      exact (lookup_insert_false_eq _ _ H).
    + intros _. apply lookup_insert_false_eq.
  - split; [|split].
    + intros k H. apply lookup_insert_false in H. exact H.
    + apply lookup_insert_false_eq.
    + discriminate.
Qed.

(** The communication configurator never sets a new-message flag. *)
Lemma CO_RPDOconfigCom_flags CONFIG RPDO COB_ID (k : nat) :
  RPDO.CANrxNew (CO_RPDOconfigCom CONFIG RPDO COB_ID) !! k = Some true ->
  RPDO.CANrxNew RPDO !! k = Some true.
Proof.
  unfold CO_RPDOconfigCom, CO_CANrxBufferInit, RPDO_clear_CANrxNew.
  destruct (CO_CONFIG_PDO_SYNC_ENABLE CONFIG);
    destruct (_ && _);
    cbn [fst snd RPDO.CANdevRx RPDO.CANdevRxIdx RPDO.set_valid
         RPDO.set_synchronous RPDO.set_CANrxNew];
    destruct (is_ERROR_NO _);
    cbn [RPDO.CANrxNew RPDO.set_CANrxNew RPDO.set_CANdevRx RPDO.set_valid
         RPDO.set_synchronous];
    intros H; repeat apply lookup_insert_false in H; exact H.
Qed.

Lemma CO_RPDOconfigCom_dataLength CONFIG RPDO COB_ID :
  RPDO.dataLength (CO_RPDOconfigCom CONFIG RPDO COB_ID)
  = RPDO.dataLength RPDO.
Proof.
  unfold CO_RPDOconfigCom, CO_CANrxBufferInit, RPDO_clear_CANrxNew.
  destruct (CO_CONFIG_PDO_SYNC_ENABLE CONFIG);
    destruct (_ && _);
    cbn [fst snd RPDO.CANdevRx RPDO.CANdevRxIdx RPDO.set_valid
         RPDO.set_synchronous RPDO.set_CANrxNew];
    destruct (is_ERROR_NO _); reflexivity.
Qed.

Lemma CO_RPDOconfigCom_valid_used CONFIG RPDO COB_ID :
  RPDO.valid (CO_RPDOconfigCom CONFIG RPDO COB_ID) = true ->
  COB_ID_used COB_ID (RPDO.dataLength RPDO).
Proof.
  intros Hv.
  destruct (COB_ID_used_dec COB_ID (RPDO.dataLength RPDO)) as [Hu|Hu];
    [exact Hu|].
  destruct (CO_RPDOconfigCom_unused CONFIG RPDO COB_ID Hu) as [_ Hf].
  congruence.
Qed.

(** X14.  [CO_RPDO_init].  A null pointer among the object, the emergency
    object, the SDO server, the operating state, the two parameter blocks
    and the CAN module (a null SYNC object is let through) gives
    IllegalArgument and leaves the object as it was.  Otherwise the call
    returns without error, whatever the parameters hold, and afterwards no
    received message is pending.  The object is valid only if the
    descriptors of the mapping block are mappable, their byte sum is the
    mapped length, and the COB-ID is in use for that length; and it is valid
    in that case when the CAN driver accepts the registration. *)
Theorem RPDO_init_outcome :
  forall (ODA : CO_SDO_OD_attributes_t) (CONFIG : CO_CONFIG_PDO_t)
         (CO_OD_configure : CO_SDO_t -> Z -> CO_ODF_t -> CO_SDO_t)
         (SYNC : option CO_SYNC_t)
         (nodeId defaultCOB_ID restrictionFlags : Z)
         (idx_RPDOCommPar idx_RPDOMapPar CANdevRxIdx : Z),
    (forall RPDO em SDO operatingState RPDOCommPar RPDOMapPar CANdevRx,
        RPDO = None \/ em = None \/ SDO = None \/ operatingState = None
        \/ RPDOCommPar = None \/ RPDOMapPar = None \/ CANdevRx = None ->
        CO_RPDO_init ODA CONFIG CO_OD_configure RPDO em SDO SYNC
          operatingState nodeId defaultCOB_ID restrictionFlags
          RPDOCommPar RPDOMapPar idx_RPDOCommPar idx_RPDOMapPar
          CANdevRx CANdevRxIdx
        = (CO_ERROR_ILLEGAL_ARGUMENT, RPDO))
    /\ (forall RPDO em SDO operatingState RPDOCommPar RPDOMapPar CANdevRx,
          let SDO' :=
            CO_OD_configure (CO_OD_configure SDO idx_RPDOCommPar ODF_RPDOcom)
                            idx_RPDOMapPar ODF_RPDOmap in
          let maps :=
            descriptors RPDOMapPar 0
              (Z.to_nat (numberOfMappedObjects RPDOMapPar)) in
          let COB_ID := COB_IDUsedByRPDO RPDOCommPar in
          exists R,
            CO_RPDO_init ODA CONFIG CO_OD_configure (Some RPDO) (Some em)
              (Some SDO) SYNC (Some operatingState) nodeId defaultCOB_ID
              restrictionFlags (Some RPDOCommPar) (Some RPDOMapPar)
              idx_RPDOCommPar idx_RPDOMapPar (Some CANdevRx) CANdevRxIdx
            = (CO_ERROR_NO, Some R)
            /\ RPDO.CANrxNew R !! 0%nat <> Some true
            /\ (CO_CONFIG_PDO_SYNC_ENABLE CONFIG = true ->
                RPDO.CANrxNew R !! 1%nat <> Some true)
            /\ (RPDO.valid R = true ->
                mappable ODA SDO' 0 maps
                /\ RPDO.dataLength R = bytes_sum maps
                /\ COB_ID_used COB_ID (bytes_sum maps))
            /\ ((forall ident,
                    rxBufferInit_outcome CANdevRx (CANlog CANdevRx)
                      CANdevRxIdx ident 0x7FF false = CO_ERROR_NO) ->
                mappable ODA SDO' 0 maps ->
                COB_ID_used COB_ID (bytes_sum maps) ->
                RPDO.valid R = true)).
Proof.
  intros ODA CONFIG conf SYNC nodeId dflt flags i1 i2 idx. split.
  - intros RPDO em SDO st C M dev H. unfold CO_RPDO_init.
    destruct RPDO, em, SDO, st, C, M, dev; try reflexivity.
    repeat (destruct H as [H|H]; [discriminate H|]). discriminate H.
  - intros RPDO em SDO st C M dev SDO' maps COB_ID.
    unfold CO_RPDO_init. fold SDO'.
    set (R0 := RPDO.mk _ _ _ _ _ _ _ _ _ _ _ _ _ _ _ _ _).
    pose proof (RPDO_clear_CANrxNew_flags CONFIG R0) as (_ & Hf0 & Hf1).
    assert (HR1 : RPDO.RPDOMapPar (RPDO_clear_CANrxNew CONFIG R0) = M
                  /\ RPDO.SDO (RPDO_clear_CANrxNew CONFIG R0) = SDO'
                  /\ RPDO.CANdevRx (RPDO_clear_CANrxNew CONFIG R0) = dev
                  /\ RPDO.CANdevRxIdx (RPDO_clear_CANrxNew CONFIG R0) = idx).
    { rewrite RPDO_clear_CANrxNew_as_set. repeat split; reflexivity. }
    destruct HR1 as (HM & HS & Hdev & Hidx).
    set (R1 := RPDO_clear_CANrxNew CONFIG R0) in *.
    pose proof (CO_RPDOconfigMap_cases ODA R1 (numberOfMappedObjects M))
      as Hcases.
    pose proof (CO_RPDOconfigMap_keep ODA R1 (numberOfMappedObjects M))
      as (_ & _ & Hnew & Hdev2 & Hidx2).
    cbv zeta in Hcases. rewrite HM, HS in Hcases. fold maps in Hcases.
    destruct (CO_RPDOconfigMap ODA R1 (numberOfMappedObjects M)) as [R2 c].
    cbn [fst snd] in *.
    exists (CO_RPDOconfigCom CONFIG R2 (COB_IDUsedByRPDO C)).
    fold COB_ID.
    split; [reflexivity|]. split; [|split; [|split]].
    + intros H. apply CO_RPDOconfigCom_flags in H. rewrite Hnew in H.
      exact (Hf0 H).
    + intros Hs H. apply CO_RPDOconfigCom_flags in H. rewrite Hnew in H.
      exact (Hf1 Hs H).
    + intros Hv. rewrite CO_RPDOconfigCom_dataLength.
      apply CO_RPDOconfigCom_valid_used in Hv.
      destruct Hcases as [(Hmap & _ & Hlen) | (_ & _ & Hlen)];
        rewrite Hlen in Hv |- *.
      * auto.
      * destruct Hv as (_ & Hnz & _). congruence.
    + intros Hok Hmap Hu.
      apply CO_RPDOconfigCom_valid_iff.
      * rewrite Hdev2, Hidx2, Hdev, Hidx. exact Hok.
      * destruct Hcases as [(_ & _ & Hlen) | (Hn & _)]; [|tauto].
        rewrite Hlen. exact Hu.
Qed.

Lemma CO_TPDOconfigMap_for_keep ODA i : forall pMap len TPDO,
  let T := fst (fst (CO_TPDOconfigMap_for ODA i pMap len TPDO)) in
  TPDO.valid T = TPDO.valid TPDO
  /\ TPDO.sendRequest T = TPDO.sendRequest TPDO
  /\ TPDO.syncCounter T = TPDO.syncCounter TPDO
  /\ TPDO.inhibitTimer T = TPDO.inhibitTimer TPDO
  /\ TPDO.eventTimer T = TPDO.eventTimer TPDO
  /\ TPDO.CANdevTx T = TPDO.CANdevTx TPDO
  /\ TPDO.CANdevTxIdx T = TPDO.CANdevTxIdx TPDO.
Proof.
  induction i as [|i IH]; intros pMap len TPDO; simpl; [auto 8|].
  destruct (CO_PDOfindMap _ _ _ _ _ _ _ _) as [ret out] eqn:E.
  destruct (is_NONE ret) eqn:Hret; simpl.
  - exact (IH (S pMap) (pLength out)
              (TPDO.set_mapPointer
                 (mapPointer_for (Z.to_nat (pLength out - len)) len
                                 (ppData out) (TPDO.mapPointer TPDO))
                 (TPDO.set_sendIfCOSFlags (pSendIfCOSFlags out) TPDO))).
  - auto 8.
Qed.

Lemma CO_TPDOconfigMap_keep ODA TPDO N :
  let T := fst (CO_TPDOconfigMap ODA TPDO N) in
  TPDO.valid T = TPDO.valid TPDO
  /\ TPDO.sendRequest T = TPDO.sendRequest TPDO
  /\ TPDO.syncCounter T = TPDO.syncCounter TPDO
  /\ TPDO.inhibitTimer T = TPDO.inhibitTimer TPDO
  /\ TPDO.eventTimer T = TPDO.eventTimer TPDO
  /\ TPDO.CANdevTx T = TPDO.CANdevTx TPDO
  /\ TPDO.CANdevTxIdx T = TPDO.CANdevTxIdx TPDO.
Proof.
  pose proof (CO_TPDOconfigMap_for_keep ODA (Z.to_nat N) 0 0
                (TPDO.set_sendIfCOSFlags 0 TPDO)) as H.
  unfold CO_TPDOconfigMap.
  destruct (CO_TPDOconfigMap_for _ _ _ _ _) as [[T len] ret]. exact H.
Qed.

(** The communication configurator assigns [valid], [CANdevTx] and
    [CANtxBuff] only. *)
Lemma CO_TPDOconfigCom_keep TPDO COB_ID sync :
  let T := CO_TPDOconfigCom TPDO COB_ID sync in
  TPDO.dataLength T = TPDO.dataLength TPDO
  /\ TPDO.sendRequest T = TPDO.sendRequest TPDO
  /\ TPDO.syncCounter T = TPDO.syncCounter TPDO
  /\ TPDO.inhibitTimer T = TPDO.inhibitTimer TPDO
  /\ TPDO.eventTimer T = TPDO.eventTimer TPDO.
Proof.
  unfold CO_TPDOconfigCom, CO_CANtxBufferInit.
  destruct (_ && _);
    cbn [fst snd TPDO.CANdevTx TPDO.CANdevTxIdx TPDO.dataLength
         TPDO.set_valid];
    destruct (txBufferInit_outcome _ _ _ _ _ _ _); auto 6.
Qed.

Lemma CO_TPDOconfigCom_valid_used TPDO COB_ID sync :
  TPDO.valid (CO_TPDOconfigCom TPDO COB_ID sync) = true ->
  COB_ID_used COB_ID (TPDO.dataLength TPDO).
Proof.
  intros Hv.
  destruct (COB_ID_used_dec COB_ID (TPDO.dataLength TPDO)) as [Hu|Hu];
    [exact Hu|].
  destruct (CO_TPDOconfigCom_unused TPDO COB_ID sync Hu) as [_ Hf].
  congruence.
Qed.

Lemma TPDO_type_supported_test CONFIG CommPar :
  TPDO_type_supported CONFIG CommPar
  <-> (if CO_CONFIG_PDO_SYNC_ENABLE CONFIG
       then ((240 <? TPDO_transmissionType CommPar)
             && (TPDO_transmissionType CommPar <? 254))
            || (240 <? SYNCStartValue CommPar)
       else TPDO_transmissionType CommPar <? 254) = false.
Proof.
  unfold TPDO_type_supported.
  destruct (CO_CONFIG_PDO_SYNC_ENABLE CONFIG).
  - rewrite orb_false_iff, andb_false_iff, !Z.ltb_ge. lia.
  - rewrite Z.ltb_ge. lia.
Qed.

(** X15.  [CO_TPDO_init].  A null pointer among the object, the emergency
    object, the SDO server, the operating state, the two parameter blocks
    and the CAN module gives IllegalArgument and leaves the object as it
    was.  Otherwise the call returns without error with the inhibit timer at
    0, the event timer at the configured milliseconds times 1000 (as
    [uint32_t]), a send requested for the event-driven types 254 and 255
    (for other types the request member keeps its prior contents) and, with
    SYNC support, the SYNC counter at 255.  The object is valid only if the
    descriptors are mappable, their byte sum is the mapped length, the
    COB-ID is in use for that length and the transmission type is a
    supported one; and it is valid in that case when the CAN driver hands
    out the transmit buffer. *)
Theorem TPDO_init_outcome :
  forall (ODA : CO_SDO_OD_attributes_t) (CONFIG : CO_CONFIG_PDO_t)
         (CO_OD_configure : CO_SDO_t -> Z -> CO_ODF_t -> CO_SDO_t)
         (SYNC : option CO_SYNC_t)
         (nodeId defaultCOB_ID restrictionFlags : Z)
         (idx_TPDOCommPar idx_TPDOMapPar CANdevTxIdx : Z),
    (forall TPDO em SDO operatingState TPDOCommPar TPDOMapPar CANdevTx,
        TPDO = None \/ em = None \/ SDO = None \/ operatingState = None
        \/ TPDOCommPar = None \/ TPDOMapPar = None \/ CANdevTx = None ->
        CO_TPDO_init ODA CONFIG CO_OD_configure TPDO em SDO SYNC
          operatingState nodeId defaultCOB_ID restrictionFlags
          TPDOCommPar TPDOMapPar idx_TPDOCommPar idx_TPDOMapPar
          CANdevTx CANdevTxIdx
        = (CO_ERROR_ILLEGAL_ARGUMENT, TPDO))
    /\ (forall TPDO em SDO operatingState TPDOCommPar TPDOMapPar CANdevTx,
          let SDO' :=
            CO_OD_configure (CO_OD_configure SDO idx_TPDOCommPar ODF_TPDOcom)
                            idx_TPDOMapPar ODF_TPDOmap in
          let maps :=
            descriptors TPDOMapPar 0
              (Z.to_nat (numberOfMappedObjects TPDOMapPar)) in
          let COB_ID := COB_IDUsedByTPDO TPDOCommPar in
          exists T,
            CO_TPDO_init ODA CONFIG CO_OD_configure (Some TPDO) (Some em)
              (Some SDO) SYNC (Some operatingState) nodeId defaultCOB_ID
              restrictionFlags (Some TPDOCommPar) (Some TPDOMapPar)
              idx_TPDOCommPar idx_TPDOMapPar (Some CANdevTx) CANdevTxIdx
            = (CO_ERROR_NO, Some T)
            /\ TPDO.inhibitTimer T = 0
            /\ TPDO.eventTimer T = u32 (TPDO_eventTimer TPDOCommPar * 1000)
            /\ TPDO.sendRequest T
               = (if 254 <=? TPDO_transmissionType TPDOCommPar
                  then 1 else TPDO.sendRequest TPDO)
            /\ (CO_CONFIG_PDO_SYNC_ENABLE CONFIG = true ->
                TPDO.syncCounter T = 255)
            /\ (TPDO.valid T = true ->
                mappable ODA SDO' 1 maps
                /\ TPDO.dataLength T = bytes_sum maps
                /\ COB_ID_used COB_ID (bytes_sum maps)
                /\ TPDO_type_supported CONFIG TPDOCommPar)
            /\ ((forall ident noOfBytes sync,
                    txBufferInit_outcome CANdevTx (CANlog CANdevTx)
                      CANdevTxIdx ident false noOfBytes sync <> None) ->
                mappable ODA SDO' 1 maps ->
                COB_ID_used COB_ID (bytes_sum maps) ->
                TPDO_type_supported CONFIG TPDOCommPar ->
                TPDO.valid T = true)).
Proof.
  intros ODA CONFIG conf SYNC nodeId dflt flags i1 i2 idx. split.
  - intros TPDO em SDO st C M dev H. unfold CO_TPDO_init.
    destruct TPDO, em, SDO, st, C, M, dev; try reflexivity.
    repeat (destruct H as [H|H]; [discriminate H|]). discriminate H.
  - intros TPDO em SDO st C M dev SDO' maps COB_ID.
    unfold CO_TPDO_init. fold SDO'.
    set (T0 := TPDO.mk _ _ _ _ _ _ _ _ _ _ _ _ _ _ _ _ _ _ _ _).
    pose proof (CO_TPDOconfigMap_cases ODA T0 (numberOfMappedObjects M))
      as Hcases.
    pose proof (CO_TPDOconfigMap_keep ODA T0 (numberOfMappedObjects M))
      as (_ & Hreq & _ & Hinh & Hev & Hdev & Hidx).
    cbv zeta in Hcases.
    change (TPDO.TPDOMapPar T0) with M in Hcases.
    change (TPDO.SDO T0) with SDO' in Hcases.
    fold maps in Hcases.
    change (TPDO.sendRequest T0)
      with (if 254 <=? TPDO_transmissionType C
            then 1 else TPDO.sendRequest TPDO) in Hreq.
    change (TPDO.inhibitTimer T0) with 0 in Hinh.
    change (TPDO.eventTimer T0) with (u32 (TPDO_eventTimer C * 1000)) in Hev.
    change (TPDO.CANdevTx T0) with dev in Hdev.
    change (TPDO.CANdevTxIdx T0) with idx in Hidx.
    destruct (CO_TPDOconfigMap ODA T0 (numberOfMappedObjects M)) as [T2 c].
    cbn [fst snd] in *.
    pose proof (TPDO_type_supported_test CONFIG C) as Htype.
    destruct (CO_CONFIG_PDO_SYNC_ENABLE CONFIG) eqn:Hs.
    + set (sf := if TPDO_transmissionType C <=? 240 then 1 else 0).
      pose proof (CO_TPDOconfigCom_keep (TPDO.set_syncCounter 255 T2)
                    (COB_IDUsedByTPDO C) sf)
        as (Klen & Kreq & Kcnt & Kinh & Kev).
      pose proof (CO_TPDOconfigCom_valid_used (TPDO.set_syncCounter 255 T2)
                    (COB_IDUsedByTPDO C) sf) as Kused.
      pose proof (CO_TPDOconfigCom_valid_iff (TPDO.set_syncCounter 255 T2)
                    (COB_IDUsedByTPDO C) sf) as Kiff.
      cbn [TPDO.dataLength TPDO.sendRequest TPDO.syncCounter
           TPDO.inhibitTimer TPDO.eventTimer TPDO.CANdevTx TPDO.CANdevTxIdx
           TPDO.set_syncCounter] in Klen, Kreq, Kcnt, Kinh, Kev, Kused, Kiff.
      fold COB_ID in Klen, Kreq, Kcnt, Kinh, Kev, Kused, Kiff |- *.
      rewrite Hdev, Hidx in Kiff.
      set (T3 := CO_TPDOconfigCom (TPDO.set_syncCounter 255 T2) COB_ID sf)
        in *.
      destruct (_ || _) eqn:Hbad.
      * exists (TPDO.set_valid false T3).
        cbn [TPDO.set_valid TPDO.inhibitTimer TPDO.eventTimer
             TPDO.sendRequest TPDO.syncCounter TPDO.valid TPDO.dataLength].
        split; [reflexivity|]. split; [congruence|]. split; [congruence|].
        split; [congruence|]. split; [auto|].
        split; [discriminate|].
        intros _ _ _ Hsup. apply Htype in Hsup. discriminate Hsup.
      * exists T3.
        split; [reflexivity|]. split; [congruence|]. split; [congruence|].
        split; [congruence|]. split; [auto|]. split.
        -- intros Hv. apply Kused in Hv. rewrite Klen.
           destruct Hcases as [(Hmap & _ & Hlen) | (_ & _ & Hlen)];
             rewrite Hlen in Hv |- *.
           ++ split; [exact Hmap|]. split; [reflexivity|].
              split; [exact Hv | apply Htype; reflexivity].
           ++ destruct Hv as (_ & Hnz & _). congruence.
        -- intros Hok Hmap Hu _. apply Kiff.
           ++ intros ident. apply Hok.
           ++ destruct Hcases as [(_ & _ & Hlen) | (Hn & _)]; [|tauto].
              rewrite Hlen. exact Hu.
    + pose proof (CO_TPDOconfigCom_keep T2 (COB_IDUsedByTPDO C) 0)
        as (Klen & Kreq & Kcnt & Kinh & Kev).
      pose proof (CO_TPDOconfigCom_valid_used T2 (COB_IDUsedByTPDO C) 0)
        as Kused.
      pose proof (CO_TPDOconfigCom_valid_iff T2 (COB_IDUsedByTPDO C) 0)
        as Kiff.
      fold COB_ID in Klen, Kreq, Kcnt, Kinh, Kev, Kused, Kiff |- *.
      rewrite Hdev, Hidx in Kiff.
      set (T3 := CO_TPDOconfigCom T2 COB_ID 0) in *.
      destruct (_ <? 254) eqn:Hbad.
      * exists (TPDO.set_valid false T3).
        cbn [TPDO.set_valid TPDO.inhibitTimer TPDO.eventTimer
             TPDO.sendRequest TPDO.syncCounter TPDO.valid TPDO.dataLength].
        split; [reflexivity|]. split; [congruence|]. split; [congruence|].
        split; [congruence|]. split; [discriminate|].
        split; [discriminate|].
        intros _ _ _ Hsup. apply Htype in Hsup. discriminate Hsup.
      * exists T3.
        split; [reflexivity|]. split; [congruence|]. split; [congruence|].
        split; [congruence|]. split; [discriminate|]. split.
        -- intros Hv. apply Kused in Hv. rewrite Klen.
           destruct Hcases as [(Hmap & _ & Hlen) | (_ & _ & Hlen)];
             rewrite Hlen in Hv |- *.
           ++ split; [exact Hmap|]. split; [reflexivity|].
              split; [exact Hv | apply Htype; reflexivity].
           ++ destruct Hv as (_ & Hnz & _). congruence.
        -- intros Hok Hmap Hu _. apply Kiff.
           ++ intros ident. apply Hok.
           ++ destruct Hcases as [(_ & _ & Hlen) | (Hn & _)]; [|tauto].
              rewrite Hlen. exact Hu.
Qed.

(** * Reading the COB-ID back *)

Lemma CO_getUint32_range (m : memory) (p : pointer) :
  0 <= CO_getUint32 m p < 2 ^ 32.
Proof.
  unfold CO_getUint32.
  pose proof (u8_range (load m p)).
  pose proof (u8_range (load m (ptr_add p 1))).
  pose proof (u8_range (load m (ptr_add p 2))).
  pose proof (u8_range (load m (ptr_add p 3))).
  lia.
Qed.

Lemma u8_u8 (x : Z) : u8 (u8 x) = u8 x.
Proof. apply u8_small, u8_range. Qed.

Lemma CO_getUint32_setUint32 (m : memory) (p : pointer) (v : Z) :
  CO_getUint32 (CO_setUint32 m p v) p = u32 v.
Proof.
  destruct p as [b o].
  unfold CO_getUint32, CO_setUint32, load, store, ptr_add, ptr_eqb.
  cbn [fst snd].
  assert (Hb : block_eqb b b = true) by (destruct b; reflexivity).
  rewrite Hb. cbn [andb].
  rewrite !Z.eqb_refl.
  repeat match goal with
         | |- context [?x =? ?y] =>
             destruct (Z.eqb_spec x y); [lia|]
         end.
  rewrite !u8_u8. unfold u8, u32.
  rewrite !Z.shiftr_div_pow2 by lia.
  change (2 ^ 8) with 256. change (2 ^ 16) with 65536.
  change (2 ^ 24) with 16777216. change (2 ^ 32) with 4294967296.
  Z.div_mod_to_equations. lia.
Qed.

(** The field of [k] bits from bit [s] on, as arithmetic. *)
Lemma land_field (v s k : Z) :
  0 <= s -> 0 <= k ->
  Z.land v (Z.shiftl (Z.ones k) s) = 2 ^ s * ((v / 2 ^ s) mod 2 ^ k).
Proof.
  intros Hs Hk.
  rewrite <- Z.shiftr_div_pow2, <- Z.land_ones, Z.mul_comm,
    <- Z.shiftl_mul_pow2 by lia.
  apply Z.bits_inj'. intros n Hn.
  rewrite Z.land_spec, !Z.shiftl_spec, Z.land_spec by lia.
  destruct (Z.ltb_spec n s).
  - rewrite !(Z.testbit_neg_r _ (n - s)) by lia. apply andb_false_r.
  - rewrite Z.shiftr_spec by lia.
    replace (n - s + s) with n by lia. reflexivity.
Qed.

(** A 32-bit COB-ID that passes the check of the access functions (bits
    15..29 clear) is its two top bits plus an identifier below 2^15. *)
Lemma COB_ID_split (v : Z) :
  0 <= v < 2 ^ 32 -> Z.land v 0x3FFF8000 = 0 ->
  v = Z.land v 0xC0000000 + Z.land v 0xFFFF
  /\ 0 <= Z.land v 0xFFFF < 2 ^ 15
  /\ 0 <= Z.land v 0xC0000000 <= 3 * 2 ^ 30
  /\ (forall d, 0 <= d < 2 ^ 16 ->
                Z.land (Z.land v 0xC0000000 + d) 0xFFFF = d).
Proof.
  intros Hv H.
  change 0x3FFF8000 with (Z.shiftl (Z.ones 15) 15) in H.
  change 0xC0000000 with (Z.shiftl (Z.ones 2) 30).
  change 0xFFFF with (Z.ones 16).
  rewrite land_field in * by lia. rewrite !Z.land_ones by lia.
  change (2 ^ 15) with 32768 in *. change (2 ^ 16) with 65536.
  change (2 ^ 30) with 1073741824. change (2 ^ 2) with 4.
  change (2 ^ 32) with 4294967296 in Hv.
  repeat split; try (intros d0 Hd0; rewrite Z.land_ones by lia;
                     change (2 ^ 16) with 65536);
    Z.div_mod_to_equations; lia.
Qed.

Lemma lor_bit31_range (x : Z) :
  0 <= x < 2 ^ 32 -> 0 <= Z.lor x 0x80000000 < 2 ^ 32.
Proof.
  intros Hx. split; [apply Z.lor_nonneg; lia|].
  assert (Hpos : 0 < Z.lor x 0x80000000).
  { assert (Z.lor x 0x80000000 <> 0).
    { intros H. apply Z.lor_eq_0_iff in H. lia. }
    assert (0 <= Z.lor x 0x80000000) by (apply Z.lor_nonneg; lia). lia. }
  apply Z.log2_lt_pow2; [exact Hpos|].
  rewrite Z.log2_lor by lia.
  change (Z.log2 0x80000000) with 31.
  destruct (Z.eq_dec x 0) as [->|Hx0]; [simpl; lia|].
  assert (Z.log2 x < 32) by (apply Z.log2_lt_pow2; lia). lia.
Qed.

(** What a read of the COB-ID shows after a write of [v] that was stored in
    its normalised form: [v] itself, except that the node ID is added to a
    bare default identifier. *)
Lemma COB_ID_shown (v d n : Z) :
  0 <= v < 2 ^ 32 -> Z.land v 0x3FFF8000 = 0 -> 0 < d -> 0 <= n ->
  let stored := normalised_COB_ID d n v in
  (if (Z.land stored 0xFFFF =? d) && nonzero d
   then u32 (stored + n) else stored)
  = (if Z.land v 0xFFFF =? d then u32 (v + n) else v).
Proof.
  intros Hv Hbits Hd Hn stored. subst stored. unfold normalised_COB_ID.
  assert (Hnz : nonzero d = true) by (apply nonzero_true; lia).
  rewrite Hnz, andb_true_r.
  destruct (COB_ID_split v Hv Hbits) as (Hsplit & Hlo & Hhi & Hland).
  destruct (Z.eqb_spec (Z.land v 0xFFFF) (d + n)) as [E|E];
    [|reflexivity].
  assert (Hd16 : 0 <= d < 2 ^ 16) by lia.
  assert (Hs : u32 (Z.land v 0xC0000000 + d) = Z.land v 0xC0000000 + d)
    by (unfold u32; apply Z.mod_small; lia).
  rewrite Hs, (Hland d Hd16), Z.eqb_refl.
  replace (Z.land v 0xC0000000 + d + n) with v by lia.
  destruct (Z.eqb_spec (Z.land v 0xFFFF) d) as [E2|E2].
  - replace (v + n) with v by lia. reflexivity.
  - unfold u32. apply Z.mod_small. exact Hv.
Qed.

Lemma u32_u32 (x : Z) : u32 (u32 x) = u32 x.
Proof. unfold u32. apply Z.mod_mod. lia. Qed.

Lemma CO_RPDOconfigCom_ids CONFIG RPDO COB_ID :
  RPDO.defaultCOB_ID (CO_RPDOconfigCom CONFIG RPDO COB_ID)
  = RPDO.defaultCOB_ID RPDO
  /\ RPDO.nodeId (CO_RPDOconfigCom CONFIG RPDO COB_ID) = RPDO.nodeId RPDO.
Proof.
  unfold CO_RPDOconfigCom, CO_CANrxBufferInit, RPDO_clear_CANrxNew.
  destruct (CO_CONFIG_PDO_SYNC_ENABLE CONFIG);
    destruct (_ && _);
    cbn [fst snd RPDO.CANdevRx RPDO.CANdevRxIdx RPDO.set_valid
         RPDO.set_synchronous RPDO.set_CANrxNew];
    destruct (is_ERROR_NO _); split; reflexivity.
Qed.

Lemma CO_TPDOconfigCom_ids TPDO COB_ID sync :
  TPDO.defaultCOB_ID (CO_TPDOconfigCom TPDO COB_ID sync)
  = TPDO.defaultCOB_ID TPDO
  /\ TPDO.nodeId (CO_TPDOconfigCom TPDO COB_ID sync) = TPDO.nodeId TPDO.
Proof.
  unfold CO_TPDOconfigCom, CO_CANtxBufferInit.
  destruct (_ && _);
    cbn [fst snd TPDO.CANdevTx TPDO.CANdevTxIdx TPDO.dataLength
         TPDO.set_valid];
    destruct (txBufferInit_outcome _ _ _ _ _ _ _); split; reflexivity.
Qed.

(** An accepted COB-ID write passed the bit check, leaves the normalised
    value in the SDO buffer and keeps the default COB-ID and the node ID. *)
Lemma CO_ODF_RPDOcom_COB_ID_accepted CONFIG RPDO ODF_arg m R' m1 :
  reading ODF_arg = false -> subIndex ODF_arg = 1 ->
  CO_ODF_RPDOcom CONFIG RPDO ODF_arg m = (CO_SDO_AB_NONE, R', m1) ->
  let v := CO_getUint32 m (data ODF_arg) in
  Z.land v 0x3FFF8000 = 0
  /\ CO_getUint32 m1 (data ODF_arg)
     = normalised_COB_ID (RPDO.defaultCOB_ID RPDO) (RPDO.nodeId RPDO) v
  /\ RPDO.defaultCOB_ID R' = RPDO.defaultCOB_ID RPDO
  /\ RPDO.nodeId R' = RPDO.nodeId RPDO.
Proof.
  intros Hrd Hsub H v. unfold CO_ODF_RPDOcom in H.
  rewrite Hrd, Hsub in H. cbn [Z.eqb Pos.eqb] in H. fold v in H.
  destruct (nonzero (Z.land (RPDO.restrictionFlags RPDO) 4));
    [discriminate H|].
  destruct (_ && _); [discriminate H|].
  destruct (nonzero (Z.land v 0x3FFF8000)) eqn:Hbits; [discriminate H|].
  apply nonzero_false in Hbits. split; [exact Hbits|].
  unfold normalised_COB_ID.
  destruct (Z.land v 0xFFFF =? _);
    (destruct (_ && _); [discriminate H|]);
    inversion H; subst R' m1; clear H;
    (split; [|apply CO_RPDOconfigCom_ids]).
  - rewrite CO_getUint32_setUint32. apply u32_u32.
  - reflexivity.
Qed.

Lemma CO_ODF_TPDOcom_COB_ID_accepted CONFIG TPDO ODF_arg m T' m1 :
  reading ODF_arg = false -> subIndex ODF_arg = 1 ->
  CO_ODF_TPDOcom CONFIG TPDO ODF_arg m = Some (CO_SDO_AB_NONE, T', m1) ->
  let v := CO_getUint32 m (data ODF_arg) in
  Z.land v 0x3FFF8000 = 0
  /\ CO_getUint32 m1 (data ODF_arg)
     = normalised_COB_ID (TPDO.defaultCOB_ID TPDO) (TPDO.nodeId TPDO) v
  /\ TPDO.defaultCOB_ID T' = TPDO.defaultCOB_ID TPDO
  /\ TPDO.nodeId T' = TPDO.nodeId TPDO.
Proof.
  intros Hrd Hsub H v. unfold CO_ODF_TPDOcom in H.
  rewrite Hrd, Hsub in H. cbn [Z.eqb Pos.eqb] in H. fold v in H.
  destruct (nonzero (Z.land (TPDO.restrictionFlags TPDO) 4));
    [discriminate H|].
  destruct (_ && _); [discriminate H|].
  destruct (nonzero (Z.land v 0x3FFF8000)) eqn:Hbits; [discriminate H|].
  apply nonzero_false in Hbits. split; [exact Hbits|].
  unfold normalised_COB_ID.
  destruct (Z.land v 0xFFFF =? _);
    (destruct (_ && _); [discriminate H|]);
    (destruct (TPDO.CANtxBuff TPDO) as [buff|]; [|discriminate H]);
    inversion H; subst T' m1; clear H;
    (split;
     [|destruct (CO_CONFIG_PDO_SYNC_ENABLE CONFIG);
       cbn [TPDO.defaultCOB_ID TPDO.nodeId TPDO.set_syncCounter];
       apply CO_TPDOconfigCom_ids]).
  - rewrite CO_getUint32_setUint32. apply u32_u32.
  - reflexivity.
Qed.

(** X16.  Reading the COB-ID back.  Take a COB-ID write (sub-index 1) of a
    value [v] that the access function accepted, on a PDO with a non-zero
    default COB-ID, and a later read of sub-index 1 whose buffer holds what
    the write left in its own buffer (the normalised value).  The read
    changes nothing in the object and answers with [v] itself, except that
    a bare default identifier comes back with the node ID added, and that
    bit 31 is set while the PDO is invalid. *)
Theorem COB_ID_write_then_read :
  forall (CONFIG : CO_CONFIG_PDO_t) (RPDO R' : CO_RPDO_t)
         (TPDO T' : CO_TPDO_t) (argW argR : CO_ODF_arg_t)
         (m m1 m2 : memory),
    reading argW = false -> subIndex argW = 1 ->
    reading argR = true -> subIndex argR = 1 ->
    CO_getUint32 m2 (data argR) = CO_getUint32 m1 (data argW) ->
    let v := CO_getUint32 m (data argW) in
    let shown (defaultCOB_ID nodeId : Z) (valid : bool) :=
      let s := if Z.land v 0xFFFF =? defaultCOB_ID
               then u32 (v + nodeId) else v in
      if valid then s else Z.lor s 0x80000000 in
    (0 < RPDO.defaultCOB_ID RPDO -> 0 <= RPDO.nodeId RPDO ->
     CO_ODF_RPDOcom CONFIG RPDO argW m = (CO_SDO_AB_NONE, R', m1) ->
     exists m3,
       CO_ODF_RPDOcom CONFIG R' argR m2 = (CO_SDO_AB_NONE, R', m3)
       /\ CO_getUint32 m3 (data argR)
          = shown (RPDO.defaultCOB_ID RPDO) (RPDO.nodeId RPDO)
                  (RPDO.valid R'))
    /\ (0 < TPDO.defaultCOB_ID TPDO -> 0 <= TPDO.nodeId TPDO ->
        CO_ODF_TPDOcom CONFIG TPDO argW m = Some (CO_SDO_AB_NONE, T', m1) ->
        exists m3,
          CO_ODF_TPDOcom CONFIG T' argR m2 = Some (CO_SDO_AB_NONE, T', m3)
          /\ CO_getUint32 m3 (data argR)
             = shown (TPDO.defaultCOB_ID TPDO) (TPDO.nodeId TPDO)
                     (TPDO.valid T')).
Proof.
  intros CONFIG RPDO R' TPDO T' argW argR m m1 m2 HrdW HsubW HrdR HsubR Hbuf
         v shown.
  pose proof (CO_getUint32_range m (data argW)) as Hv. fold v in Hv.
  assert (Hshown : forall d n valid, 0 <= shown d n valid < 2 ^ 32).
  { intros d n valid. unfold shown.
    assert (Hs : 0 <= (if Z.land v 0xFFFF =? d then u32 (v + n) else v)
                 < 2 ^ 32).
    { destruct (_ =? _); [apply Z.mod_pos_bound; lia | exact Hv]. }
    destruct valid; [exact Hs | apply lor_bit31_range; exact Hs]. }
  split.
  - intros Hd Hn Hw.
    destruct (CO_ODF_RPDOcom_COB_ID_accepted CONFIG RPDO argW m R' m1
                HrdW HsubW Hw) as (Hbits & Hst & Hd' & Hn').
    fold v in Hbits, Hst.
    pose proof (COB_ID_shown v _ _ Hv Hbits Hd Hn) as Hsh.
    cbv zeta in Hsh. rewrite <- Hst, <- Hbuf in Hsh.
    unfold CO_ODF_RPDOcom. rewrite HrdR, HsubR. cbn [Z.eqb Pos.eqb].
    rewrite Hd', Hn', Hsh.
    eexists. split; [reflexivity|].
    rewrite CO_getUint32_setUint32.
    specialize (Hshown (RPDO.defaultCOB_ID RPDO) (RPDO.nodeId RPDO)
                       (RPDO.valid R')).
    unfold shown in Hshown |- *.
    destruct (RPDO.valid R'); cbn [negb] in *;
      unfold u32 at 1; apply Z.mod_small; exact Hshown.
  - intros Hd Hn Hw.
    destruct (CO_ODF_TPDOcom_COB_ID_accepted CONFIG TPDO argW m T' m1
                HrdW HsubW Hw) as (Hbits & Hst & Hd' & Hn').
    fold v in Hbits, Hst.
    pose proof (COB_ID_shown v _ _ Hv Hbits Hd Hn) as Hsh.
    cbv zeta in Hsh. rewrite <- Hst, <- Hbuf in Hsh.
    unfold CO_ODF_TPDOcom. rewrite HrdR, HsubR. cbn [Z.eqb Pos.eqb].
    rewrite Hd', Hn', Hsh.
    eexists. split; [reflexivity|].
    rewrite CO_getUint32_setUint32.
    specialize (Hshown (TPDO.defaultCOB_ID TPDO) (TPDO.nodeId TPDO)
                       (TPDO.valid T')).
    unfold shown in Hshown |- *.
    destruct (TPDO.valid T'); cbn [negb] in *;
      unfold u32 at 1; apply Z.mod_small; exact Hshown.
Qed.

(** * The mapping tables *)

Lemma length_pointers_from n : forall p, length (pointers_from p n) = n.
Proof. induction n as [|n IH]; intros p; simpl; [reflexivity|]. rewrite IH. reflexivity. Qed.

Lemma length_mapPointer_for n : forall j p mp,
  length (mapPointer_for n j p mp) = length mp.
Proof.
  induction n as [|n IH]; intros j p mp; simpl; [reflexivity|].
  rewrite IH, length_insert. reflexivity.
Qed.

Lemma mapPointer_for_spec n : forall j p mp,
  0 <= j -> (Z.to_nat j + n <= length mp)%nat ->
  mapPointer_for n j p mp
  = take (Z.to_nat j) mp ++ pointers_from p n ++ drop (Z.to_nat j + n) mp.
Proof.
  induction n as [|n IH]; intros j p mp Hj Hlen; simpl.
  - rewrite Nat.add_0_r, take_drop. reflexivity.
  - rewrite IH by (rewrite ?length_insert; lia).
    replace (Z.to_nat (j + 1)) with (S (Z.to_nat j)) by lia.
    rewrite insert_take_drop by lia.
    set (J := Z.to_nat j) in *.
    assert (HJ : length (take J mp) = J) by (apply length_take_le; lia).
    rewrite (take_S_r (take J mp ++ p :: drop (S J) mp) J p).
    2:{ rewrite lookup_app_r by lia. rewrite HJ, Nat.sub_diag. reflexivity. }
    rewrite take_app_length' by lia.
    rewrite <- app_assoc. simpl. f_equal. f_equal. f_equal.
    rewrite cons_middle, app_assoc.
    rewrite drop_app_ge by (rewrite length_app, HJ; simpl; lia).
    rewrite length_app, HJ. simpl length.
    rewrite drop_drop. f_equal. lia.
Qed.

Lemma CO_PDOfindMap_NONE_pointer ODA SDO map R_T p len f mb :
  fst (CO_PDOfindMap ODA SDO map R_T p len f mb) = CO_SDO_AB_NONE ->
  ppData (snd (CO_PDOfindMap ODA SDO map R_T p len f mb))
  = descriptor_pointer SDO R_T map.
Proof.
  unfold CO_PDOfindMap, descriptor_pointer, descriptor_is_dummy,
    descriptor_index, descriptor_subIndex.
  if_cases; simpl; intros H; try discriminate H; reflexivity.
Qed.

Lemma splice_take_drop {A : Type} (a b c : list A) (n k : nat) :
  length a = n ->
  take (n + length b) (a ++ b ++ c) = a ++ b
  /\ drop (n + length b + k) (a ++ b ++ c) = drop k c.
Proof.
  intros Ha. split.
  - rewrite app_assoc. apply take_app_length'. rewrite length_app. lia.
  - rewrite app_assoc.
    rewrite drop_app_ge by (rewrite length_app; lia).
    rewrite length_app. f_equal. lia.
Qed.

Lemma bytes_sum_nonneg maps : 0 <= bytes_sum maps.
Proof.
  induction maps as [|a l IH]; simpl; [lia|].
  pose proof (descriptor_bytes_range a). lia.
Qed.

Lemma CO_RPDOconfigMap_for_layout ODA i : forall pMap len RPDO,
  0 <= len ->
  Forall (fun map => resolve ODA (RPDO.SDO RPDO) 0 0 map = CO_SDO_AB_NONE)
         (descriptors (RPDO.RPDOMapPar RPDO) pMap i) ->
  len + bytes_sum (descriptors (RPDO.RPDOMapPar RPDO) pMap i) <= 8 ->
  length (RPDO.mapPointer RPDO) = 8%nat ->
  RPDO.mapPointer (fst (fst (CO_RPDOconfigMap_for ODA i pMap len RPDO)))
  = take (Z.to_nat len) (RPDO.mapPointer RPDO)
    ++ mapping_layout (RPDO.SDO RPDO) 0
         (descriptors (RPDO.RPDOMapPar RPDO) pMap i)
    ++ drop (Z.to_nat
               (len + bytes_sum (descriptors (RPDO.RPDOMapPar RPDO) pMap i)))
            (RPDO.mapPointer RPDO).
Proof.
  induction i as [|i IH]; intros pMap len RPDO Hlen Hall Hsum Hmp.
  - simpl. rewrite Z.add_0_r, take_drop. reflexivity.
  - unfold descriptors in Hall, Hsum |- *.
    cbn [CO_RPDOconfigMap_for seq List.map bytes_sum foldr mapping_layout
         flat_map] in Hall, Hsum |- *.
    fold (descriptors (RPDO.RPDOMapPar RPDO) (S pMap) i) in Hall, Hsum |- *.
    fold (bytes_sum (descriptors (RPDO.RPDOMapPar RPDO) (S pMap) i))
      in Hsum |- *.
    fold (mapping_layout (RPDO.SDO RPDO) 0
            (descriptors (RPDO.RPDOMapPar RPDO) (S pMap) i)).
    set (map := mappedObject (RPDO.RPDOMapPar RPDO) pMap) in *.
    set (rest := descriptors (RPDO.RPDOMapPar RPDO) (S pMap) i) in *.
    apply Forall_cons in Hall as [Hmap Hall].
    pose proof (descriptor_bytes_range map) as Hb.
    pose proof (bytes_sum_nonneg rest) as Hrest.
    pose proof (resolve_room ODA _ 0 len map Hmap Hlen ltac:(lia)) as Hr.
    rewrite <- (CO_PDOfindMap_resolve ODA _ _ _ uninitialised_pData len 0
                  uninitialised_MBvar) in Hr.
    pose proof (CO_PDOfindMap_NONE_length ODA _ _ _ _ _ _ _ Hr) as [HL _].
    pose proof (CO_PDOfindMap_NONE_pointer ODA _ _ _ _ _ _ _ Hr) as HP.
    destruct (CO_PDOfindMap _ _ _ _ _ _ _ _) as [ret out].
    cbn [fst snd] in Hr, HL, HP.
    rewrite Hr. cbn [is_NONE].
    rewrite u8_small in HL by lia. rewrite HL, HP.
    replace (len + descriptor_bytes map - len) with (descriptor_bytes map)
      by lia.
    set (b := Z.to_nat (descriptor_bytes map)).
    set (mp1 := mapPointer_for b len _ _).
    assert (Hmp1 : mp1 = take (Z.to_nat len) (RPDO.mapPointer RPDO)
                     ++ pointers_from (descriptor_pointer (RPDO.SDO RPDO) 0 map) b
                     ++ drop (Z.to_nat len + b) (RPDO.mapPointer RPDO)).
    { subst mp1. apply mapPointer_for_spec; lia. }
    rewrite (IH (S pMap) (len + descriptor_bytes map)
                (RPDO.set_mapPointer mp1 RPDO));
      cbn [RPDO.SDO RPDO.RPDOMapPar RPDO.mapPointer RPDO.set_mapPointer];
      fold rest; try lia; try exact Hall.
    2:{ subst mp1. rewrite length_mapPointer_for. exact Hmp. }
    assert (Htk : length (take (Z.to_nat len) (RPDO.mapPointer RPDO))
                  = Z.to_nat len) by (apply length_take_le; lia).
    destruct (splice_take_drop
                (take (Z.to_nat len) (RPDO.mapPointer RPDO))
                (pointers_from (descriptor_pointer (RPDO.SDO RPDO) 0 map) b)
                (drop (Z.to_nat len + b) (RPDO.mapPointer RPDO))
                (Z.to_nat len) (Z.to_nat (bytes_sum rest)) Htk)
      as [Htake Hdrop].
    rewrite length_pointers_from in Htake, Hdrop. rewrite <- Hmp1 in Htake, Hdrop.
    replace (Z.to_nat (len + descriptor_bytes map))
      with (Z.to_nat len + b)%nat by lia.
    replace (Z.to_nat (len + descriptor_bytes map + bytes_sum rest))
      with (Z.to_nat len + b + Z.to_nat (bytes_sum rest))%nat by lia.
    rewrite Htake, Hdrop, drop_drop, <- !app_assoc.
    do 4 f_equal. subst b. lia.
Qed.

Lemma testbit_u8_high (f k : Z) : 0 <= f < 256 -> 8 <= k -> Z.testbit f k = false.
Proof.
  intros Hf Hk. rewrite <- (Z.mod_small f (2 ^ 8)) by lia.
  apply Z.mod_pow2_bits_high. lia.
Qed.

Lemma sendIfCOSFlags_for_spec n : forall i f,
  0 <= i -> i + Z.of_nat n <= 8 -> 0 <= f < 256 ->
  0 <= sendIfCOSFlags_for n i f < 256
  /\ forall k, 0 <= k ->
       Z.testbit (sendIfCOSFlags_for n i f) k
       = Z.testbit f k || ((i <=? k) && (k <? i + Z.of_nat n)).
Proof.
  induction n as [|n IH]; intros i f Hi Hn Hf; simpl sendIfCOSFlags_for.
  - split; [exact Hf|]. intros k Hk.
    replace (k <? i + Z.of_nat 0) with (k <? i) by (f_equal; lia).
    destruct (Z.leb_spec i k), (Z.ltb_spec k i); try lia;
      simpl; rewrite orb_false_r; reflexivity.
  - assert (Hbit : forall k, 0 <= k ->
               Z.testbit (u8 (Z.lor f (Z.shiftl 1 i))) k
               = Z.testbit f k || (k =? i)).
    { intros k Hk. unfold u8.
      destruct (Z.ltb_spec k 8).
      - rewrite Z.mod_pow2_bits_low by lia.
        rewrite Z.lor_spec, Z.shiftl_1_l, Z.pow2_bits_eqb by lia.
        rewrite (Z.eqb_sym i k). reflexivity.
      - rewrite Z.mod_pow2_bits_high by lia.
        rewrite testbit_u8_high by lia.
        destruct (Z.eqb_spec k i); [lia | reflexivity]. }
    destruct (IH (i + 1) (u8 (Z.lor f (Z.shiftl 1 i)))
                 ltac:(lia) ltac:(lia) (u8_range _)) as [Hr Hk].
    split; [exact Hr|]. intros k Hk0.
    rewrite Hk, Hbit by lia.
    destruct (Z.eqb_spec k i), (Z.leb_spec (i + 1) k), (Z.leb_spec i k),
      (Z.ltb_spec k (i + 1 + Z.of_nat n)), (Z.ltb_spec k (i + Z.of_nat (S n)));
      try lia; simpl; rewrite ?orb_false_r, ?orb_true_r; reflexivity.
Qed.

Lemma CO_PDOfindMap_NONE_flags ODA SDO map R_T p len f mb :
  0 <= len <= 8 ->
  fst (CO_PDOfindMap ODA SDO map R_T p len f mb) = CO_SDO_AB_NONE ->
  pSendIfCOSFlags (snd (CO_PDOfindMap ODA SDO map R_T p len f mb))
  = if descriptor_COS ODA SDO map
    then sendIfCOSFlags_for (Z.to_nat (descriptor_bytes map)) len f
    else f.
Proof.
  unfold CO_PDOfindMap, descriptor_COS, descriptor_is_dummy,
    descriptor_index, descriptor_subIndex, descriptor_bytes.
  intros Hlen.
  pose proof (descriptor_bytes_range map) as Hb. unfold descriptor_bytes in Hb.
  rewrite (u8_small (len + _)) by lia.
  replace (len + Z.shiftr (u8 map) 3 - Z.shiftr (u8 map) 3) with len by lia.
  destruct ((_ <=? 7) && _) eqn:Hd; cbn [negb andb];
    if_cases; simpl; intros H; try discriminate H; reflexivity.
Qed.

Lemma nth_mapping_COS_cons (c : bool) (b : nat) (rest : list bool) (j : nat) :
  nth j (repeat c b ++ rest) false
  = if (j <? b)%nat then c else nth (j - b) rest false.
Proof.
  destruct (Nat.ltb_spec j b).
  - rewrite app_nth1 by (rewrite repeat_length; lia).
    apply nth_repeat_lt. lia.
  - rewrite app_nth2 by (rewrite repeat_length; lia).
    rewrite repeat_length. reflexivity.
Qed.

Lemma CO_TPDOconfigMap_for_layout ODA i : forall pMap len TPDO,
  0 <= len ->
  Forall (fun map => resolve ODA (TPDO.SDO TPDO) 1 0 map = CO_SDO_AB_NONE)
         (descriptors (TPDO.TPDOMapPar TPDO) pMap i) ->
  len + bytes_sum (descriptors (TPDO.TPDOMapPar TPDO) pMap i) <= 8 ->
  length (TPDO.mapPointer TPDO) = 8%nat ->
  0 <= TPDO.sendIfCOSFlags TPDO < 256 ->
  let T := fst (fst (CO_TPDOconfigMap_for ODA i pMap len TPDO)) in
  let maps := descriptors (TPDO.TPDOMapPar TPDO) pMap i in
  TPDO.mapPointer T
  = take (Z.to_nat len) (TPDO.mapPointer TPDO)
    ++ mapping_layout (TPDO.SDO TPDO) 1 maps
    ++ drop (Z.to_nat (len + bytes_sum maps)) (TPDO.mapPointer TPDO)
  /\ 0 <= TPDO.sendIfCOSFlags T < 256
  /\ forall k, 0 <= k ->
        Z.testbit (TPDO.sendIfCOSFlags T) k
        = Z.testbit (TPDO.sendIfCOSFlags TPDO) k
          || ((len <=? k)
              && nth (Z.to_nat (k - len))
                     (mapping_COS ODA (TPDO.SDO TPDO) maps) false).
Proof.
  induction i as [|i IH]; intros pMap len TPDO Hlen Hall Hsum Hmp Hf.
  - simpl. rewrite Z.add_0_r, take_drop.
    split; [reflexivity|]. split; [exact Hf|].
    intros k Hk. destruct (Z.to_nat (k - len)); rewrite andb_false_r, orb_false_r; reflexivity.
  - unfold descriptors in Hall, Hsum |- *.
    cbn [CO_TPDOconfigMap_for seq List.map bytes_sum foldr mapping_layout
         mapping_COS flat_map] in Hall, Hsum |- *.
    fold (descriptors (TPDO.TPDOMapPar TPDO) (S pMap) i) in Hall, Hsum |- *.
    fold (bytes_sum (descriptors (TPDO.TPDOMapPar TPDO) (S pMap) i))
      in Hsum |- *.
    fold (mapping_layout (TPDO.SDO TPDO) 1
            (descriptors (TPDO.TPDOMapPar TPDO) (S pMap) i)).
    fold (mapping_COS ODA (TPDO.SDO TPDO)
            (descriptors (TPDO.TPDOMapPar TPDO) (S pMap) i)).
    set (map := mappedObject (TPDO.TPDOMapPar TPDO) pMap) in *.
    set (rest := descriptors (TPDO.TPDOMapPar TPDO) (S pMap) i) in *.
    apply Forall_cons in Hall as [Hmap Hall].
    pose proof (descriptor_bytes_range map) as Hb.
    pose proof (bytes_sum_nonneg rest) as Hrest.
    pose proof (resolve_room ODA _ 1 len map Hmap Hlen ltac:(lia)) as Hr.
    rewrite <- (CO_PDOfindMap_resolve ODA _ _ _ uninitialised_pData len
                  (TPDO.sendIfCOSFlags TPDO) uninitialised_MBvar) in Hr.
    pose proof (CO_PDOfindMap_NONE_length ODA _ _ _ _ _ _ _ Hr) as [HL _].
    pose proof (CO_PDOfindMap_NONE_pointer ODA _ _ _ _ _ _ _ Hr) as HP.
    assert (Hlen8 : 0 <= len <= 8) by lia.
    pose proof (CO_PDOfindMap_NONE_flags ODA _ _ _ _ _ _ _ Hlen8 Hr) as HF.
    destruct (CO_PDOfindMap _ _ _ _ _ _ _ _) as [ret out].
    cbn [fst snd] in Hr, HL, HP, HF.
    rewrite Hr. cbn [is_NONE].
    rewrite u8_small in HL by lia. rewrite HL, HP.
    replace (len + descriptor_bytes map - len) with (descriptor_bytes map)
      by lia.
    set (b := Z.to_nat (descriptor_bytes map)) in *.
    set (mp1 := mapPointer_for b len _ _).
    assert (Hmp1 : mp1 = take (Z.to_nat len) (TPDO.mapPointer TPDO)
                     ++ pointers_from (descriptor_pointer (TPDO.SDO TPDO) 1 map) b
                     ++ drop (Z.to_nat len + b) (TPDO.mapPointer TPDO)).
    { subst mp1. apply mapPointer_for_spec; subst b; lia. }
    cbn [TPDO.mapPointer TPDO.set_sendIfCOSFlags] in Hmp1.
    assert (Hf1 : 0 <= pSendIfCOSFlags out < 256
                  /\ forall k, 0 <= k ->
                       Z.testbit (pSendIfCOSFlags out) k
                       = Z.testbit (TPDO.sendIfCOSFlags TPDO) k
                         || (descriptor_COS ODA (TPDO.SDO TPDO) map
                             && ((len <=? k)
                                 && (k <? len + descriptor_bytes map)))).
    { rewrite HF. destruct (descriptor_COS ODA (TPDO.SDO TPDO) map).
      - destruct (sendIfCOSFlags_for_spec b len (TPDO.sendIfCOSFlags TPDO)
                    ltac:(lia) ltac:(subst b; lia) Hf) as [Hr1 Hk1].
        split; [exact Hr1|]. intros k Hk. rewrite Hk1 by lia.
        subst b. rewrite Z2Nat.id by lia. reflexivity.
      - split; [exact Hf|]. intros k Hk. rewrite orb_false_r. reflexivity. }
    destruct Hf1 as [Hf1 Hbits1].
    destruct (IH (S pMap) (len + descriptor_bytes map)
                (TPDO.set_mapPointer mp1
                   (TPDO.set_sendIfCOSFlags (pSendIfCOSFlags out) TPDO)))
      as (IHmp & IHr & IHbits);
      cbn [TPDO.SDO TPDO.TPDOMapPar TPDO.mapPointer TPDO.set_mapPointer
           TPDO.sendIfCOSFlags TPDO.set_sendIfCOSFlags];
      fold rest; try lia; try exact Hall; try exact Hf1.
    { subst mp1. rewrite length_mapPointer_for. exact Hmp. }
    cbn [TPDO.SDO TPDO.TPDOMapPar TPDO.mapPointer TPDO.set_mapPointer
         TPDO.sendIfCOSFlags TPDO.set_sendIfCOSFlags] in IHmp, IHr, IHbits.
    fold rest in IHmp, IHr, IHbits.
    split; [|split; [exact IHr|]].
    + rewrite IHmp.
      assert (Htk : length (take (Z.to_nat len) (TPDO.mapPointer TPDO))
                    = Z.to_nat len) by (apply length_take_le; lia).
      destruct (splice_take_drop
                  (take (Z.to_nat len) (TPDO.mapPointer TPDO))
                  (pointers_from (descriptor_pointer (TPDO.SDO TPDO) 1 map) b)
                  (drop (Z.to_nat len + b) (TPDO.mapPointer TPDO))
                  (Z.to_nat len) (Z.to_nat (bytes_sum rest)) Htk)
        as [Htake Hdrop].
      rewrite length_pointers_from in Htake, Hdrop.
      rewrite <- Hmp1 in Htake, Hdrop.
      replace (Z.to_nat (len + descriptor_bytes map))
        with (Z.to_nat len + b)%nat by (subst b; lia).
      replace (Z.to_nat (len + descriptor_bytes map + bytes_sum rest))
        with (Z.to_nat len + b + Z.to_nat (bytes_sum rest))%nat
        by (subst b; lia).
      rewrite Htake, Hdrop, drop_drop, <- !app_assoc.
      do 4 f_equal. subst b. lia.
    + intros k Hk. rewrite IHbits, Hbits1 by lia.
      rewrite nth_mapping_COS_cons.
      rewrite <- orb_assoc. f_equal.
      destruct (descriptor_COS ODA (TPDO.SDO TPDO) map),
        (Z.leb_spec len k), (Z.ltb_spec k (len + descriptor_bytes map)),
        (Z.leb_spec (len + descriptor_bytes map) k),
        (Nat.ltb_spec (Z.to_nat (k - len)) b);
        try (subst b; lia); cbn [andb orb]; try reflexivity;
        f_equal; subst b; lia.
Qed.

Lemma length_mapping_layout SDO R_T maps :
  length (mapping_layout SDO R_T maps) = Z.to_nat (bytes_sum maps).
Proof.
  induction maps as [|a l IH]; simpl; [reflexivity|].
  rewrite length_app, length_pointers_from.
  fold (mapping_layout SDO R_T l). rewrite IH.
  fold (bytes_sum l).
  pose proof (descriptor_bytes_range a). pose proof (bytes_sum_nonneg l). lia.
Qed.

Lemma CO_RPDOconfigMap_mapPointer ODA RPDO N :
  RPDO.mapPointer (fst (CO_RPDOconfigMap ODA RPDO N))
  = RPDO.mapPointer (fst (fst (CO_RPDOconfigMap_for ODA (Z.to_nat N) 0 0 RPDO))).
Proof.
  unfold CO_RPDOconfigMap.
  destruct (CO_RPDOconfigMap_for _ _ _ _ _) as [[R len] ret]. reflexivity.
Qed.

Lemma CO_TPDOconfigMap_mapPointer ODA TPDO N :
  TPDO.mapPointer (fst (CO_TPDOconfigMap ODA TPDO N))
  = TPDO.mapPointer
      (fst (fst (CO_TPDOconfigMap_for ODA (Z.to_nat N) 0 0
                   (TPDO.set_sendIfCOSFlags 0 TPDO))))
  /\ TPDO.sendIfCOSFlags (fst (CO_TPDOconfigMap ODA TPDO N))
     = TPDO.sendIfCOSFlags
         (fst (fst (CO_TPDOconfigMap_for ODA (Z.to_nat N) 0 0
                      (TPDO.set_sendIfCOSFlags 0 TPDO)))).
Proof.
  unfold CO_TPDOconfigMap.
  destruct (CO_TPDOconfigMap_for _ _ _ _ _) as [[T len] ret].
  split; reflexivity.
Qed.

Lemma CO_RPDOconfigMap_layout ODA RPDO N :
  let maps := descriptors (RPDO.RPDOMapPar RPDO) 0 (Z.to_nat N) in
  let R' := fst (CO_RPDOconfigMap ODA RPDO N) in
  let L := Z.to_nat (RPDO.dataLength R') in
  mappable ODA (RPDO.SDO RPDO) 0 maps ->
  length (RPDO.mapPointer RPDO) = 8%nat ->
  length (RPDO.mapPointer R') = 8%nat
  /\ take L (RPDO.mapPointer R') = mapping_layout (RPDO.SDO RPDO) 0 maps
  /\ drop L (RPDO.mapPointer R') = drop L (RPDO.mapPointer RPDO).
Proof.
  intros maps R' L [Hall Hsum] Hmp.
  pose proof (CO_RPDOconfigMap_cases ODA RPDO N) as Hcases.
  cbv zeta in Hcases. fold maps R' in Hcases.
  destruct Hcases as [(_ & _ & Hlen) | (Hn & _)];
    [|exfalso; apply Hn; split; assumption].
  pose proof (CO_RPDOconfigMap_for_layout ODA (Z.to_nat N) 0 0 RPDO
                ltac:(lia) Hall ltac:(fold maps; lia) Hmp) as Hlay.
  rewrite <- CO_RPDOconfigMap_mapPointer in Hlay. fold maps R' in Hlay.
  rewrite Z.add_0_l in Hlay.
  change (take (Z.to_nat 0) _) with (@nil pointer) in Hlay.
  cbn [app] in Hlay.
  subst L. rewrite Hlen, Hlay.
  pose proof (length_mapping_layout (RPDO.SDO RPDO) 0 maps) as HL.
  pose proof (bytes_sum_nonneg maps) as Hnn.
  split; [|split].
  - rewrite length_app, HL, length_drop, Hmp. lia.
  - apply take_app_length'. symmetry. exact HL.
  - rewrite drop_app_length' by (symmetry; exact HL). reflexivity.
Qed.

Lemma CO_TPDOconfigMap_layout ODA TPDO N :
  let maps := descriptors (TPDO.TPDOMapPar TPDO) 0 (Z.to_nat N) in
  let T' := fst (CO_TPDOconfigMap ODA TPDO N) in
  let L := Z.to_nat (TPDO.dataLength T') in
  mappable ODA (TPDO.SDO TPDO) 1 maps ->
  length (TPDO.mapPointer TPDO) = 8%nat ->
  length (TPDO.mapPointer T') = 8%nat
  /\ take L (TPDO.mapPointer T') = mapping_layout (TPDO.SDO TPDO) 1 maps
  /\ drop L (TPDO.mapPointer T') = drop L (TPDO.mapPointer TPDO).
Proof.
  intros maps T' L [Hall Hsum] Hmp.
  pose proof (CO_TPDOconfigMap_cases ODA TPDO N) as Hcases.
  cbv zeta in Hcases. fold maps T' in Hcases.
  destruct Hcases as [(_ & _ & Hlen) | (Hn & _)];
    [|exfalso; apply Hn; split; assumption].
  pose proof (CO_TPDOconfigMap_for_layout ODA (Z.to_nat N) 0 0
                (TPDO.set_sendIfCOSFlags 0 TPDO)
                ltac:(lia) Hall ltac:(cbn; fold maps; lia) Hmp
                ltac:(cbn; lia)) as (Hlay & _).
  rewrite <- (proj1 (CO_TPDOconfigMap_mapPointer ODA TPDO N)) in Hlay.
  cbn [TPDO.SDO TPDO.TPDOMapPar TPDO.mapPointer TPDO.set_sendIfCOSFlags]
    in Hlay.
  fold maps T' in Hlay.
  rewrite Z.add_0_l in Hlay.
  change (take (Z.to_nat 0) _) with (@nil pointer) in Hlay.
  cbn [app] in Hlay.
  subst L. rewrite Hlen, Hlay.
  pose proof (length_mapping_layout (TPDO.SDO TPDO) 1 maps) as HL.
  pose proof (bytes_sum_nonneg maps) as Hnn.
  split; [|split].
  - rewrite length_app, HL, length_drop, Hmp. lia.
  - apply take_app_length'. symmetry. exact HL.
  - rewrite drop_app_length' by (symmetry; exact HL). reflexivity.
Qed.

(** X17.  The map-pointer table after a successful mapping.  When the
    first [N] descriptors are mappable and the table has its 8 elements,
    the mapping configurator leaves a table of 8 elements whose first
    [dataLength] entries are the byte addresses of the mapped objects in
    descriptor order (for each descriptor its object's data pointer, or the
    dummy variable, and the addresses that follow it), and whose other
    entries are as before. *)
Theorem configMap_layout :
  forall (ODA : CO_SDO_OD_attributes_t) (RPDO : CO_RPDO_t) (TPDO : CO_TPDO_t)
         (N : Z),
    (let maps := descriptors (RPDO.RPDOMapPar RPDO) 0 (Z.to_nat N) in
     let R' := fst (CO_RPDOconfigMap ODA RPDO N) in
     let L := Z.to_nat (RPDO.dataLength R') in
     mappable ODA (RPDO.SDO RPDO) 0 maps ->
     length (RPDO.mapPointer RPDO) = 8%nat ->
     length (RPDO.mapPointer R') = 8%nat
     /\ take L (RPDO.mapPointer R') = mapping_layout (RPDO.SDO RPDO) 0 maps
     /\ drop L (RPDO.mapPointer R') = drop L (RPDO.mapPointer RPDO))
    /\ (let maps := descriptors (TPDO.TPDOMapPar TPDO) 0 (Z.to_nat N) in
        let T' := fst (CO_TPDOconfigMap ODA TPDO N) in
        let L := Z.to_nat (TPDO.dataLength T') in
        mappable ODA (TPDO.SDO TPDO) 1 maps ->
        length (TPDO.mapPointer TPDO) = 8%nat ->
        length (TPDO.mapPointer T') = 8%nat
        /\ take L (TPDO.mapPointer T') = mapping_layout (TPDO.SDO TPDO) 1 maps
        /\ drop L (TPDO.mapPointer T') = drop L (TPDO.mapPointer TPDO)).
Proof.
  intros ODA RPDO TPDO N. split.
  - apply CO_RPDOconfigMap_layout.
  - apply CO_TPDOconfigMap_layout.
Qed.

(** X18.  The change-of-state flags after a successful TPDO mapping: bit
    [k] of [sendIfCOSFlags] is set exactly when frame byte [k] belongs to a
    mapped object whose attribute asks for change-of-state detection (dummy
    entries never do); the flags fit the [uint8_t]. *)
Theorem TPDOconfigMap_COS_flags :
  forall (ODA : CO_SDO_OD_attributes_t) (TPDO : CO_TPDO_t) (N : Z),
    let maps := descriptors (TPDO.TPDOMapPar TPDO) 0 (Z.to_nat N) in
    let T' := fst (CO_TPDOconfigMap ODA TPDO N) in
    mappable ODA (TPDO.SDO TPDO) 1 maps ->
    length (TPDO.mapPointer TPDO) = 8%nat ->
    0 <= TPDO.sendIfCOSFlags T' < 256
    /\ forall k : nat,
         Z.testbit (TPDO.sendIfCOSFlags T') (Z.of_nat k)
         = nth k (mapping_COS ODA (TPDO.SDO TPDO) maps) false.
Proof.
  intros ODA TPDO N maps T' [Hall Hsum] Hmp.
  pose proof (CO_TPDOconfigMap_for_layout ODA (Z.to_nat N) 0 0
                (TPDO.set_sendIfCOSFlags 0 TPDO)
                ltac:(lia) Hall ltac:(cbn; fold maps; lia) Hmp
                ltac:(cbn; lia)) as (_ & Hr & Hbits).
  rewrite <- (proj2 (CO_TPDOconfigMap_mapPointer ODA TPDO N)) in Hr, Hbits.
  cbn [TPDO.SDO TPDO.TPDOMapPar TPDO.sendIfCOSFlags TPDO.set_sendIfCOSFlags]
    in Hr, Hbits.
  fold maps T' in Hr, Hbits.
  split; [exact Hr|]. intros k.
  rewrite Hbits by lia. rewrite Z.testbit_0_l. cbn [orb].
  replace (0 <=? Z.of_nat k) with true by (symmetry; apply Z.leb_le; lia).
  cbn [andb]. f_equal. lia.
Qed.

Lemma CO_TPDOconfigMap_for_CANtxBuff ODA i : forall pMap len TPDO,
  TPDO.CANtxBuff (fst (fst (CO_TPDOconfigMap_for ODA i pMap len TPDO)))
  = TPDO.CANtxBuff TPDO.
Proof.
  induction i as [|i IH]; intros pMap len TPDO; simpl; [reflexivity|].
  destruct (CO_PDOfindMap _ _ _ _ _ _ _ _) as [ret out].
  destruct (is_NONE ret); simpl; [|reflexivity].
  exact (IH (S pMap) (pLength out)
            (TPDO.set_mapPointer
               (mapPointer_for (Z.to_nat (pLength out - len)) len
                               (ppData out) (TPDO.mapPointer TPDO))
               (TPDO.set_sendIfCOSFlags (pSendIfCOSFlags out) TPDO))).
Qed.

Lemma CO_TPDOconfigMap_CANtxBuff ODA TPDO N :
  TPDO.CANtxBuff (fst (CO_TPDOconfigMap ODA TPDO N)) = TPDO.CANtxBuff TPDO.
Proof.
  pose proof (CO_TPDOconfigMap_for_CANtxBuff ODA (Z.to_nat N) 0 0
                (TPDO.set_sendIfCOSFlags 0 TPDO)) as H.
  unfold CO_TPDOconfigMap.
  destruct (CO_TPDOconfigMap_for _ _ _ _ _) as [[T len] ret]. exact H.
Qed.

(** X19.  Mapping, then sending.  After a successful TPDO mapping,
    [CO_TPDOsend] calls [CO_CANsend] on the CAN module (whose call log gains
    exactly this call) with a frame whose byte [j] is the byte that memory
    holds (after the OD extension calls) at the [j]-th address of the mapped
    objects, and returns the outcome of that call; the frame bytes behind
    the mapped length are those the transmit buffer held before. *)
Theorem TPDO_mapped_frame :
  forall (ODA : CO_SDO_OD_attributes_t) (CONFIG : CO_CONFIG_PDO_t)
         (TPDO : CO_TPDO_t) (N : Z) (m : memory) (buff : CO_CANtx_t),
    TPDO.CANtxBuff TPDO = Some buff ->
    length (tx_data buff) = 8%nat ->
    length (TPDO.mapPointer TPDO) = 8%nat ->
    let maps := descriptors (TPDO.TPDOMapPar TPDO) 0 (Z.to_nat N) in
    mappable ODA (TPDO.SDO TPDO) 1 maps ->
    let T2 := fst (CO_TPDOconfigMap ODA TPDO N) in
    let m' := TPDO_CALLS_EXTENSION CONFIG T2 m in
    let layout := mapping_layout (TPDO.SDO TPDO) 1 maps in
    exists T' PDOdata,
      CO_TPDOsend CONFIG T2 m
      = Some (T', m',
              snd (CO_CANsend (TPDO.CANdevTx TPDO)
                              (mkCANtx PDOdata (syncFlag buff))))
      /\ TPDO.CANdevTx T'
         = fst (CO_CANsend (TPDO.CANdevTx TPDO)
                           (mkCANtx PDOdata (syncFlag buff)))
      /\ CANlog (TPDO.CANdevTx T')
         = CANlog (TPDO.CANdevTx TPDO)
           ++ [CANsend_call (mkCANtx PDOdata (syncFlag buff))]
      /\ TPDO.CANtxBuff T' = Some (mkCANtx PDOdata (syncFlag buff))
      /\ (forall j p, layout !! j = Some p ->
                      PDOdata !! j = Some (load m' p))
      /\ (forall j, (length layout <= j)%nat ->
                    PDOdata !! j = tx_data buff !! j).
Proof.
  intros ODA CONFIG TPDO N m buff Hb Hd Hmp maps Hmap T2 m' layout.
  pose proof (CO_TPDOconfigMap_cases ODA TPDO N) as Hcases.
  cbv zeta in Hcases. fold maps T2 in Hcases.
  destruct Hcases as [(_ & _ & Hlen) | (Hn & _)]; [|tauto].
  destruct (CO_TPDOconfigMap_layout ODA TPDO N Hmap Hmp)
    as (Hmp2 & Htake & _).
  fold maps T2 layout in Hmp2, Htake.
  pose proof (length_mapping_layout (TPDO.SDO TPDO) 1 maps) as HL.
  fold layout in HL.
  pose proof (bytes_sum_nonneg maps) as Hnn.
  destruct Hmap as [_ Hsum].
  pose proof (CO_TPDOconfigMap_CANtxBuff ODA TPDO N) as Hb2.
  fold T2 in Hb2. rewrite Hb in Hb2.
  pose proof (CO_TPDOconfigMap_keep ODA TPDO N)
    as (_ & _ & _ & _ & _ & Hdev2 & _).
  fold T2 in Hdev2.
  destruct (CO_TPDOsend_spec CONFIG T2 m buff Hb2 Hd Hmp2 ltac:(lia))
    as (T' & PDOdata & Hrun & Hbuf & Hdev & Hcopy & Hkeep & _).
  rewrite Hdev2 in Hrun, Hdev.
  exists T', PDOdata. split; [exact Hrun|]. split; [exact Hdev|].
  split; [rewrite Hdev; reflexivity|]. split; [exact Hbuf|]. split.
  - intros j p Hj. pose proof (lookup_lt_Some _ _ _ Hj) as Hlt.
    rewrite <- (Nat2Z.id j). apply Hcopy; [lia|].
    rewrite Nat2Z.id. rewrite <- Hj, <- Htake.
    symmetry. apply lookup_take_lt. lia.
  - intros j Hj. rewrite <- (Nat2Z.id j). apply Hkeep. lia.
Qed.

(** * Further behaviour of the process and access functions *)

Lemma is_OPERATIONAL_true st : is_OPERATIONAL st = true <-> st = CO_NMT_OPERATIONAL.
Proof. destruct st; simpl; split; congruence. Qed.

(** X20.  The next-timer hint of [CO_TPDO_process].  A null pointer stays
    null, and the value behind a non-null pointer is never increased.  It
    is lowered only with the hint compiled in, on a valid, operational TPDO
    of an event-driven type (253 or more); there, after the call, the hint
    is no later than the remaining inhibit time while a send is still
    requested, and otherwise no later than the remaining event time when an
    event timer is configured. *)
Theorem TPDO_process_timerNext :
  forall (CONFIG : CO_CONFIG_PDO_t) (TIMERNEXT : bool) (TPDO T' : CO_TPDO_t)
         (syncWas : bool) (timeDifference_us : Z) (timerNext_us tn' : option Z)
         (m m' : memory),
    CO_TPDO_process CONFIG TIMERNEXT TPDO syncWas timeDifference_us
                    timerNext_us m = Some (T', m', tn') ->
    match timerNext_us with
    | None => tn' = None
    | Some t =>
        exists t',
          tn' = Some t' /\ t' <= t
          /\ (t' < t ->
              TIMERNEXT = true /\ TPDO.valid TPDO = true
              /\ TPDO.operatingState TPDO = CO_NMT_OPERATIONAL
              /\ 253 <= TPDO_transmissionType (TPDO.TPDOCommPar TPDO))
          /\ (TIMERNEXT = true -> TPDO.valid TPDO = true ->
              TPDO.operatingState TPDO = CO_NMT_OPERATIONAL ->
              253 <= TPDO_transmissionType (TPDO.TPDOCommPar TPDO) ->
              (TPDO.sendRequest T' <> 0 -> t' <= TPDO.inhibitTimer T')
              /\ (TPDO.sendRequest T' = 0 ->
                  TPDO_eventTimer (TPDO.TPDOCommPar TPDO) <> 0 ->
                  t' <= TPDO.eventTimer T'))
    end.
Proof.
  intros CONFIG TN TPDO T' syncWas dt tn tn' m m' H.
  unfold CO_TPDO_process in H.
  set (T0 := TPDO.set_eventTimer _ (TPDO.set_inhibitTimer _ TPDO)) in H.
  change (TPDO.valid T0) with (TPDO.valid TPDO) in H.
  change (TPDO.operatingState T0) with (TPDO.operatingState TPDO) in H.
  change (TPDO.TPDOCommPar T0) with (TPDO.TPDOCommPar TPDO) in H.
  destruct (TPDO.valid TPDO) eqn:Hv; cbn [andb] in H.
  2:{ assert (Hsame : tn' = tn) by (destruct (254 <=? _) in H; congruence).
      subst tn'. destruct tn as [t|]; [|reflexivity].
      exists t. split; [reflexivity|]. split; [lia|].
      split; [lia | intros; discriminate]. }
  destruct (is_OPERATIONAL (TPDO.operatingState TPDO)) eqn:Hop.
  2:{ assert (Hsame : tn' = tn) by (destruct (254 <=? _) in H; congruence).
      subst tn'. destruct tn as [t|]; [|reflexivity].
      exists t. split; [reflexivity|]. split; [lia|].
      split; [lia|]. intros _ _ Ho. rewrite Ho in Hop. discriminate Hop. }
  apply is_OPERATIONAL_true in Hop.
  destruct (Z.leb_spec 253 (TPDO_transmissionType (TPDO.TPDOCommPar TPDO)))
    as [Htt|Htt].
  2:{ assert (Hsame : tn' = tn).
      { destruct (CO_CONFIG_PDO_SYNC_ENABLE CONFIG); [|congruence].
        destruct (TPDO.SYNC T0); [|congruence].
        destruct syncWas; [|congruence].
        destruct (CO_TPDO_process_sync _ _ _ _) as [[? ?]|]; congruence. }
      subst tn'. destruct tn as [t|]; [|reflexivity].
      exists t. split; [reflexivity|]. split; [lia|].
      split; intros; lia. }
  match type of H with
  | match ?s with _ => _ end = _ => destruct s as [[Ts ms]|] eqn:Hsent
  end; [|discriminate H].
  destruct TN.
  2:{ assert (Hsame : tn' = tn) by congruence.
      subst tn'. destruct tn as [t|]; [|reflexivity].
      exists t. split; [reflexivity|]. split; [lia|].
      split; [lia | intros; discriminate]. }
  destruct tn as [t|]; [|congruence].
  destruct (nonzero (TPDO.sendRequest Ts)) eqn:Hreq.
  - destruct (Z.ltb_spec (TPDO.inhibitTimer Ts) t) as [Hlt|Hge];
      cbn [andb] in H.
    + injection H as <- <- <-. eexists. split; [reflexivity|].
      split; [lia|]. split; [auto|]. intros _ _ _ _.
      apply nonzero_true in Hreq. split; [lia | tauto].
    + apply nonzero_true in Hreq.
      destruct (nonzero (TPDO_eventTimer (TPDO.TPDOCommPar TPDO))) eqn:Hev;
        cbn [andb] in H.
      * destruct (Z.ltb_spec (TPDO.eventTimer Ts) t) as [Hlt2|Hge2];
          injection H as <- <- <-; eexists; (split; [reflexivity|]);
          (split; [lia|]); (split; [auto; lia|]); intros _ _ _ _;
          (split; [lia | tauto]).
      * injection H as <- <- <-. eexists. split; [reflexivity|].
        split; [lia|]. split; [lia|]. intros _ _ _ _. split; [lia | tauto].
  - cbn [andb] in H. apply nonzero_false in Hreq.
    destruct (nonzero (TPDO_eventTimer (TPDO.TPDOCommPar TPDO))) eqn:Hev;
      cbn [andb] in H.
    + destruct (Z.ltb_spec (TPDO.eventTimer Ts) t) as [Hlt2|Hge2];
        injection H as <- <- <-; eexists; (split; [reflexivity|]);
        (split; [lia|]); (split; [auto; lia|]); intros _ _ _ _;
        (split; [tauto | intros; lia]).
    + apply nonzero_false in Hev.
      injection H as <- <- <-. eexists. split; [reflexivity|].
      split; [lia|]. split; [lia|]. intros _ _ _ _. split; [tauto | tauto].
Qed.

(** X21.  The SYNC start value.  A valid, operational cyclic TPDO (type
    1..240) at the start of synchronous transmission ([syncCounter] 255, or
    254 once the start value was found in use), with the SYNC counter and a
    non-zero start value in use: a SYNC tick whose counter differs from the
    start value sends nothing and leaves [syncCounter] at 254; the tick
    whose counter equals the start value sends one frame with the mapped
    bytes and reloads [syncCounter] with the transmission type. *)
Theorem TPDO_sync_start_value :
  forall (CONFIG : CO_CONFIG_PDO_t) (TIMERNEXT : bool) (TPDO : CO_TPDO_t)
         (SYNC0 : CO_SYNC_t) (N timeDifference_us : Z)
         (timerNext_us : option Z) (m : memory),
    CO_CONFIG_PDO_SYNC_ENABLE CONFIG = true ->
    TPDO.SYNC TPDO = Some SYNC0 ->
    TPDO.valid TPDO = true ->
    TPDO.operatingState TPDO = CO_NMT_OPERATIONAL ->
    TPDO_transmissionType (TPDO.TPDOCommPar TPDO) = N ->
    1 <= N <= 240 ->
    TPDO_wf TPDO ->
    counterOverflowValue SYNC0 <> 0 ->
    SYNCStartValue (TPDO.TPDOCommPar TPDO) <> 0 ->
    TPDO.syncCounter TPDO = 255 \/ TPDO.syncCounter TPDO = 254 ->
    let T0 := TPDO_timers_updated timeDifference_us TPDO in
    (counter SYNC0 <> SYNCStartValue (TPDO.TPDOCommPar TPDO) ->
     CO_TPDO_process CONFIG TIMERNEXT TPDO true timeDifference_us
                     timerNext_us m
     = Some (TPDO.set_syncCounter 254 T0, m, timerNext_us))
    /\ (counter SYNC0 = SYNCStartValue (TPDO.TPDOCommPar TPDO) ->
        exists T' buff',
          CO_TPDO_process CONFIG TIMERNEXT TPDO true timeDifference_us
                          timerNext_us m
          = Some (T', TPDO_CALLS_EXTENSION CONFIG TPDO m, timerNext_us)
          /\ TPDO.CANtxBuff T' = Some buff'
          /\ CANlog (TPDO.CANdevTx T')
             = CANlog (TPDO.CANdevTx TPDO) ++ [CANsend_call buff']
          /\ (forall i p, 0 <= i < TPDO.dataLength TPDO ->
                          TPDO.mapPointer TPDO !! Z.to_nat i = Some p ->
                          tx_data buff' !! Z.to_nat i
                          = Some (load (TPDO_CALLS_EXTENSION CONFIG TPDO m) p))
          /\ TPDO.syncCounter T' = N).
Proof.
  intros CONFIG TN TPDO SYNC0 N dt tn m Hsync HS Hv Hop Htype HN Hwf
         Hovf Hstart Hcnt T0.
  rewrite (CO_TPDO_process_unfold_sync CONFIG TN TPDO SYNC0 true dt tn m
             Hsync HS Hv Hop ltac:(lia)).
  fold T0.
  apply nonzero_true in Hovf. apply nonzero_true in Hstart.
  split.
  - intros Hne. apply Z.eqb_neq in Hne.
    subst T0.
    unfold CO_TPDO_process_sync, TPDO_timers_updated in *.
    destruct TPDO. TPDO_fields. TPDO_fields in Htype. TPDO_fields in Hcnt.
    TPDO_fields in Hstart. TPDO_fields in Hne.
    rewrite Htype.
    destruct (Z.eqb_spec N 0); [lia|].
    rewrite Hovf, Hstart. cbn [andb].
    destruct Hcnt as [-> | ->]; cbn [Z.eqb Pos.eqb]; TPDO_fields;
      cbn [Z.eqb Pos.eqb]; rewrite Hne; reflexivity.
  - intros He. apply Z.eqb_eq in He.
    destruct Hwf as ((buff & Hb & Hd) & Hmp & HL).
    set (Tc := TPDO.set_syncCounter N T0).
    set (m' := TPDO_CALLS_EXTENSION CONFIG TPDO m).
    destruct (CO_TPDOsend_for_spec (TPDO.mapPointer TPDO) m'
                (Z.to_nat (TPDO.dataLength TPDO)) 0 (tx_data buff))
      as (d' & Hrun & Hlen & Hcopy & _); [lia | lia |].
    assert (Hsend : CO_TPDOsend CONFIG Tc m
                    = Some (TPDO.set_CANdevTx
                              (fst (CO_CANsend (TPDO.CANdevTx TPDO)
                                               (mkCANtx d' (syncFlag buff))))
                              (TPDO.set_sendRequest 0
                                 (TPDO.set_CANtxBuff
                                    (Some (mkCANtx d' (syncFlag buff))) Tc)),
                            m',
                            snd (CO_CANsend (TPDO.CANdevTx TPDO)
                                            (mkCANtx d' (syncFlag buff))))).
    { unfold CO_TPDOsend.
      change (TPDO_CALLS_EXTENSION CONFIG Tc m) with m'.
      change (TPDO.CANtxBuff Tc) with (TPDO.CANtxBuff TPDO).
      change (TPDO.dataLength Tc) with (TPDO.dataLength TPDO).
      change (TPDO.mapPointer Tc) with (TPDO.mapPointer TPDO).
      rewrite Hb, Hrun. reflexivity. }
    set (T' := TPDO.set_CANdevTx _ _) in Hsend.
    assert (Hproc : CO_TPDO_process_sync CONFIG T0 SYNC0 m
                    = match CO_TPDOsend CONFIG Tc m with
                      | None => None
                      | Some (T, m1, _) => Some (T, m1)
                      end).
    { subst Tc T0. clear Hsend T' Hrun Hcopy.
      unfold CO_TPDO_process_sync, TPDO_timers_updated in *.
      destruct TPDO. TPDO_fields. TPDO_fields in Htype. TPDO_fields in Hcnt.
      TPDO_fields in Hstart. TPDO_fields in He.
      rewrite Htype.
      destruct (Z.eqb_spec N 0); [lia|].
      rewrite Hovf, Hstart. cbn [andb].
      destruct Hcnt as [-> | ->]; cbn [Z.eqb Pos.eqb]; TPDO_fields;
        cbn [Z.eqb Pos.eqb]; rewrite He; reflexivity. }
    rewrite Hproc, Hsend.
    exists T', (mkCANtx d' (syncFlag buff)).
    split; [reflexivity|]. split; [reflexivity|]. split; [reflexivity|].
    split; [|reflexivity].
    intros i p Hi Hp. cbn [tx_data]. apply Hcopy; [lia | exact Hp].
Qed.

Lemma ptr_add_0 (p : pointer) : ptr_add p 0 = p.
Proof. destruct p as [b o]. unfold ptr_add. cbn [fst snd]. f_equal. lia. Qed.

Lemma changed_within_refl p0 n m : changed_within p0 n m m.
Proof. intros p _. reflexivity. Qed.

Lemma CO_setUint32_changed_within m q v :
  changed_within q 4 m (CO_setUint32 m q v).
Proof.
  intros p Hp. unfold CO_setUint32.
  rewrite !load_store_ne; try reflexivity.
  - rewrite <- (ptr_add_0 q). apply Hp. lia.
  - apply Hp. lia.
  - apply Hp. lia.
  - apply Hp. lia.
Qed.

Lemma store_changed_within m q v : changed_within q 1 m (store m q v).
Proof.
  intros p Hp. apply load_store_ne.
  rewrite <- (ptr_add_0 q). apply Hp. lia.
Qed.

(** X22.  Reads through the four access functions never change the PDO
    object.  They succeed (for a TPDO communication parameter sub-index 4
    is answered with SubUnknown), and they change memory at most in the SDO
    buffer: the four bytes of a COB-ID read (sub-index 1), or the one byte
    of a mapped-objects count read (sub-index 0) while the mapped length is
    0; every other read leaves the memory as it was. *)
Theorem ODF_read_keeps_object :
  forall (ODA : CO_SDO_OD_attributes_t) (CONFIG : CO_CONFIG_PDO_t)
         (RPDO : CO_RPDO_t) (TPDO : CO_TPDO_t) (ODF_arg : CO_ODF_arg_t)
         (m : memory),
    reading ODF_arg = true ->
    (exists m',
        CO_ODF_RPDOcom CONFIG RPDO ODF_arg m = (CO_SDO_AB_NONE, RPDO, m')
        /\ changed_within (data ODF_arg) 4 m m'
        /\ (subIndex ODF_arg <> 1 -> m' = m))
    /\ (exists m',
           CO_ODF_TPDOcom CONFIG TPDO ODF_arg m
           = Some (if subIndex ODF_arg =? 4 then CO_SDO_AB_SUB_UNKNOWN
                   else CO_SDO_AB_NONE, TPDO, m')
           /\ changed_within (data ODF_arg) 4 m m'
           /\ (subIndex ODF_arg <> 1 -> m' = m))
    /\ (exists m',
           CO_ODF_RPDOmap ODA RPDO ODF_arg m = (CO_SDO_AB_NONE, RPDO, m')
           /\ changed_within (data ODF_arg) 1 m m'
           /\ (subIndex ODF_arg <> 0 \/ RPDO.dataLength RPDO <> 0 -> m' = m))
    /\ (exists m',
           CO_ODF_TPDOmap ODA TPDO ODF_arg m = (CO_SDO_AB_NONE, TPDO, m')
           /\ changed_within (data ODF_arg) 1 m m'
           /\ (subIndex ODF_arg <> 0 \/ TPDO.dataLength TPDO <> 0 -> m' = m)).
Proof.
  intros ODA CONFIG RPDO TPDO arg m Hrd.
  split; [|split; [|split]].
  - unfold CO_ODF_RPDOcom. rewrite Hrd.
    destruct (Z.eqb_spec (subIndex arg) 1) as [E|E];
      eexists; (split; [reflexivity|]); split;
      try apply CO_setUint32_changed_within;
      try apply changed_within_refl; tauto.
  - unfold CO_ODF_TPDOcom. rewrite Hrd.
    destruct (Z.eqb_spec (subIndex arg) 4) as [E4|E4];
      [eexists; split; [reflexivity|]; split;
       [apply changed_within_refl | reflexivity]|].
    destruct (Z.eqb_spec (subIndex arg) 1) as [E|E];
      eexists; (split; [reflexivity|]); split;
      try apply CO_setUint32_changed_within;
      try apply changed_within_refl; tauto.
  - unfold CO_ODF_RPDOmap. rewrite Hrd.
    destruct (Z.eqb_spec (subIndex arg) 0) as [E|E];
      [destruct (nonzero (RPDO.dataLength RPDO)) eqn:Hn; cbn [negb]|];
      eexists; (split; [reflexivity|]); split;
      try apply store_changed_within;
      try apply changed_within_refl; try tauto.
    apply nonzero_false in Hn. tauto.
  - unfold CO_ODF_TPDOmap. rewrite Hrd.
    destruct (Z.eqb_spec (subIndex arg) 0) as [E|E];
      [destruct (nonzero (TPDO.dataLength TPDO)) eqn:Hn; cbn [negb]|];
      eexists; (split; [reflexivity|]); split;
      try apply store_changed_within;
      try apply changed_within_refl; try tauto.
    apply nonzero_false in Hn. tauto.
Qed.

(** X23.  Accepted writes of the transmission type (sub-index 2) that pass
    the restriction checks.  With SYNC support a value outside 241..253 is
    accepted: an RPDO becomes synchronous exactly for values up to 240, and
    the new-message flag of the second buffer is cleared when that changes
    the mode; a TPDO (with a transmit buffer) gets the buffer's SYNC flag
    set exactly for values up to 240 and restarts its SYNC count at 255.
    Validity, mapping and the CAN registration are not touched.  Without
    SYNC support every value up to 253 is refused with InvalidValue, and
    254 and 255 are accepted without any change. *)
Theorem transmission_type_write :
  forall (CONFIG : CO_CONFIG_PDO_t) (RPDO : CO_RPDO_t) (TPDO : CO_TPDO_t)
         (ODF_arg : CO_ODF_arg_t) (m : memory) (buff : CO_CANtx_t),
    reading ODF_arg = false ->
    subIndex ODF_arg = 2 ->
    let value := u8 (load m (data ODF_arg)) in
    (com_write_permitted (RPDO.restrictionFlags RPDO)
                         (RPDO.operatingState RPDO) ->
     (CO_CONFIG_PDO_SYNC_ENABLE CONFIG = true ->
      value <= 240 \/ 254 <= value ->
      exists R',
        CO_ODF_RPDOcom CONFIG RPDO ODF_arg m = (CO_SDO_AB_NONE, R', m)
        /\ RPDO.synchronous R' = (value <=? 240)
        /\ RPDO.CANrxNew R'
           = (if Bool.eqb (value <=? 240) (RPDO.synchronous RPDO)
              then RPDO.CANrxNew RPDO
              else <[1%nat := false]> (RPDO.CANrxNew RPDO))
        /\ RPDO.valid R' = RPDO.valid RPDO
        /\ RPDO.dataLength R' = RPDO.dataLength RPDO
        /\ RPDO.mapPointer R' = RPDO.mapPointer RPDO
        /\ RPDO.CANdevRx R' = RPDO.CANdevRx RPDO)
     /\ (CO_CONFIG_PDO_SYNC_ENABLE CONFIG = false ->
         CO_ODF_RPDOcom CONFIG RPDO ODF_arg m
         = (if value <=? 253 then CO_SDO_AB_INVALID_VALUE
            else CO_SDO_AB_NONE, RPDO, m)))
    /\ (com_write_permitted (TPDO.restrictionFlags TPDO)
                            (TPDO.operatingState TPDO) ->
        (CO_CONFIG_PDO_SYNC_ENABLE CONFIG = true ->
         value <= 240 \/ 254 <= value ->
         TPDO.CANtxBuff TPDO = Some buff ->
         exists T',
           CO_ODF_TPDOcom CONFIG TPDO ODF_arg m = Some (CO_SDO_AB_NONE, T', m)
           /\ TPDO.CANtxBuff T'
              = Some (mkCANtx (tx_data buff) (if value <=? 240 then 1 else 0))
           /\ TPDO.syncCounter T' = 255
           /\ TPDO.valid T' = TPDO.valid TPDO
           /\ TPDO.dataLength T' = TPDO.dataLength TPDO
           /\ TPDO.mapPointer T' = TPDO.mapPointer TPDO
           /\ TPDO.sendRequest T' = TPDO.sendRequest TPDO
           /\ TPDO.CANdevTx T' = TPDO.CANdevTx TPDO)
        /\ (CO_CONFIG_PDO_SYNC_ENABLE CONFIG = false ->
            CO_ODF_TPDOcom CONFIG TPDO ODF_arg m
            = Some (if value <=? 253 then CO_SDO_AB_INVALID_VALUE
                    else CO_SDO_AB_NONE, TPDO, m))).
Proof.
  intros CONFIG RPDO TPDO arg m buff Hrd Hsub value.
  split; intros Hp; apply com_write_permitted_tests in Hp as [H4 H1].
  - split.
    + intros Hs Hv.
      assert (Hres : (241 <=? value) && (value <=? 253) = false).
      { apply andb_false_iff. rewrite Z.leb_gt, Z.leb_gt. lia. }
      unfold CO_ODF_RPDOcom. rewrite Hrd, Hsub, H4, H1, Hs.
      cbn [Z.eqb Pos.eqb]. fold value. rewrite Hres.
      cbn [RPDO.synchronous RPDO.set_synchronous].
      destruct (Bool.eqb (value <=? 240) (RPDO.synchronous RPDO));
        cbn [negb]; eexists; (split; [reflexivity|]);
        repeat split.
    + intros Hs. unfold CO_ODF_RPDOcom. rewrite Hrd, Hsub, H4, H1, Hs.
      cbn [Z.eqb Pos.eqb]. fold value.
      destruct (value <=? 253); reflexivity.
  - split.
    + intros Hs Hv Hb.
      assert (Hres : (241 <=? value) && (value <=? 253) = false).
      { apply andb_false_iff. rewrite Z.leb_gt, Z.leb_gt. lia. }
      unfold CO_ODF_TPDOcom. rewrite Hrd, Hsub, H4, H1, Hs.
      cbn [Z.eqb Pos.eqb]. fold value. rewrite Hres, Hb.
      eexists. split; [reflexivity|]. repeat split.
    + intros Hs. unfold CO_ODF_TPDOcom. rewrite Hrd, Hsub, H4, H1, Hs.
      cbn [Z.eqb Pos.eqb]. fold value.
      destruct (value <=? 253); reflexivity.
Qed.

(** X24.  Validity changes through a COB-ID write only.  Through the
    communication access functions every read, and every write to a
    sub-index other than 1, leaves [valid], the mapped length and the CAN
    module (no driver call) as they were; through the mapping access
    functions no call at all, the accepted count write included, changes
    [valid] or the CAN module.  So a PDO made invalid for remapping stays
    invalid until the COB-ID is written again. *)
Theorem validity_changes_only_by_COB_ID_write :
  forall (ODA : CO_SDO_OD_attributes_t) (CONFIG : CO_CONFIG_PDO_t)
         (RPDO : CO_RPDO_t) (TPDO : CO_TPDO_t) (ODF_arg : CO_ODF_arg_t)
         (m : memory),
    (reading ODF_arg = true \/ subIndex ODF_arg <> 1 ->
     let R' := snd (fst (CO_ODF_RPDOcom CONFIG RPDO ODF_arg m)) in
     RPDO.valid R' = RPDO.valid RPDO
     /\ RPDO.CANdevRx R' = RPDO.CANdevRx RPDO
     /\ RPDO.dataLength R' = RPDO.dataLength RPDO)
    /\ (reading ODF_arg = true \/ subIndex ODF_arg <> 1 ->
        forall c T' m',
          CO_ODF_TPDOcom CONFIG TPDO ODF_arg m = Some (c, T', m') ->
          TPDO.valid T' = TPDO.valid TPDO
          /\ TPDO.CANdevTx T' = TPDO.CANdevTx TPDO
          /\ TPDO.dataLength T' = TPDO.dataLength TPDO)
    /\ (let R' := snd (fst (CO_ODF_RPDOmap ODA RPDO ODF_arg m)) in
        RPDO.valid R' = RPDO.valid RPDO
        /\ RPDO.CANdevRx R' = RPDO.CANdevRx RPDO)
    /\ (let T' := snd (fst (CO_ODF_TPDOmap ODA TPDO ODF_arg m)) in
        TPDO.valid T' = TPDO.valid TPDO
        /\ TPDO.CANdevTx T' = TPDO.CANdevTx TPDO).
Proof.
  intros ODA CONFIG RPDO TPDO arg m.
  split; [|split; [|split]].
  - intros H R'. subst R'. unfold CO_ODF_RPDOcom.
    destruct (reading arg) eqn:Hrd.
    + destruct (subIndex arg =? 1); cbn [fst snd]; auto.
    + destruct H as [H|H]; [discriminate H|].
      apply Z.eqb_neq in H. rewrite H.
      repeat match goal with
             | |- context [if ?b then _ else _] => destruct b
             end; cbn [fst snd RPDO.valid RPDO.CANdevRx RPDO.dataLength
                       RPDO.set_synchronous RPDO.set_CANrxNew
                       RPDO.synchronous RPDO.CANrxNew]; auto.
  - intros H c T' m' Hrun. unfold CO_ODF_TPDOcom in Hrun.
    destruct (subIndex arg =? 4); [injection Hrun as <- <- <-; auto|].
    destruct (reading arg) eqn:Hrd.
    + destruct (subIndex arg =? 1); injection Hrun as <- <- <-; auto.
    + destruct H as [H|H]; [discriminate H|].
      apply Z.eqb_neq in H. rewrite H in Hrun.
      repeat match type of Hrun with
             | context [if ?b then _ else _] => destruct b eqn:?
             | context [match TPDO.CANtxBuff TPDO with _ => _ end] =>
                 destruct (TPDO.CANtxBuff TPDO)
             end;
        try discriminate Hrun; injection Hrun as <- <- <-;
        repeat split; try reflexivity; assumption.
  - intros R'. subst R'. unfold CO_ODF_RPDOmap.
    pose proof (CO_RPDOconfigMap_keep ODA RPDO
                  (u8 (load m (data arg)))) as (Hv & _ & _ & Hdev & _).
    destruct (CO_RPDOconfigMap ODA RPDO (u8 (load m (data arg))))
      as [R2 c2]. cbn [fst] in Hv, Hdev.
    repeat match goal with
           | |- context [if ?b then _ else _] => destruct b eqn:?
           end; cbn [fst snd]; repeat split; congruence.
  - intros T'. subst T'. unfold CO_ODF_TPDOmap.
    pose proof (CO_TPDOconfigMap_keep ODA TPDO
                  (u8 (load m (data arg))))
      as (Hv & _ & _ & _ & _ & Hdev & _).
    destruct (CO_TPDOconfigMap ODA TPDO (u8 (load m (data arg))))
      as [T2 c2]. cbn [fst] in Hv, Hdev.
    repeat match goal with
           | |- context [if ?b then _ else _] => destruct b eqn:?
           end; cbn [fst snd]; repeat split; congruence.
Qed.

(** * The further theorems at concrete inputs *)

Lemma example_map_write_permitted (st : CO_NMT_internalState_t) :
  map_write_permitted 0 st.
Proof. split; [reflexivity | intros [_ H]; apply H; reflexivity]. Defined.

Lemma TPDO_running_wf st type start sendRequest syncCounter flags SYNC :
  TPDO_wf (TPDO_running st type start sendRequest syncCounter flags SYNC).
Proof.
  split; [exists (mkCANtx (repeat 0 8) 0); split; reflexivity|].
  split; [reflexivity | simpl; lia].
Defined.

(** X1 at an invalid RPDO. *)
Lemma PDO_receive_dropped_witness :
  CO_PDO_receive CONFIG_example false (RPDO_example MapPar_AB 0 false 3 0x200)
                 false msg_example
  = Some (RPDO_example MapPar_AB 0 false 3 0x200, false).
Proof.
  apply (PDO_receive_dropped CONFIG_example false
           (RPDO_example MapPar_AB 0 false 3 0x200) false msg_example).
  left. reflexivity.
Defined.

(** X2 at a non-synchronous RPDO mapped to A then B and a frame of three
    bytes: the first byte arrives in A. *)
Lemma RPDO_receive_then_process_witness :
  exists R1 R2 m1,
    CO_PDO_receive CONFIG_example false (RPDO_running false [false; false])
                   false msg_example
    = Some (R1, false)
    /\ CO_RPDO_process CONFIG_example R1 false memory_AB = Some (R2, m1)
    /\ load m1 (ODdata, 100) = 0x11
    /\ RPDO.CANrxNew R2 !! 0%nat = Some false.
Proof.
  destruct (RPDO_receive_then_process CONFIG_example false
              (RPDO_running false [false; false]) false msg_example false
              memory_AB eq_refl eq_refl ltac:(simpl; lia)
              ltac:(vm_compute; discriminate) ltac:(simpl; lia)
              eq_refl eq_refl eq_refl ltac:(right; reflexivity))
    as (R1 & R2 & m1 & Hrx & Hproc & [_ Hdr] & Hflag & _).
  exists R1, R2, m1. split; [exact Hrx|]. split; [exact Hproc|].
  split; [|exact Hflag].
  apply (Hdr 0%nat (ODdata, 100) 0x11); [simpl; lia | reflexivity |
                                          reflexivity |].
  intros j' Hj'. simpl in Hj'.
  destruct j' as [|[|[|j']]]; try lia; vm_compute; discriminate.
Defined.

(** X3 at an RPDO with a frame waiting: an address outside the mapping keeps
    its byte. *)
Lemma RPDO_process_writes_only_mapped_witness :
  match CO_RPDO_process CONFIG_example (RPDO_running false [true; false])
                        false memory_AB with
  | Some (R2, m2) => load m2 (ODdata, 300) = load memory_AB (ODdata, 300)
  | None => False
  end.
Proof.
  destruct (CO_RPDO_process CONFIG_example (RPDO_running false [true; false])
                            false memory_AB) as [[R2 m2]|] eqn:E;
    [|vm_compute in E; discriminate E].
  destruct (RPDO_process_writes_only_mapped CONFIG_example
              (RPDO_running false [true; false]) R2 false memory_AB m2 E)
    as (_ & m1 & Hm & Hframe).
  assert (Hm2 : m2 = m1) by (destruct Hm as [H|H]; exact H).
  rewrite Hm2. apply Hframe.
  intros j Hj. simpl in Hj.
  destruct j as [|[|[|j]]]; try lia; vm_compute; discriminate.
Defined.

(** X4 at the same RPDO. *)
Lemma RPDO_process_idempotent_witness :
  match CO_RPDO_process CONFIG_example (RPDO_running false [true; false])
                        false memory_AB with
  | Some (R2, m2) =>
      CO_RPDO_process CONFIG_example R2 false m2 = Some (R2, m2)
  | None => False
  end.
Proof.
  destruct (CO_RPDO_process CONFIG_example (RPDO_running false [true; false])
                            false memory_AB) as [[R2 m2]|] eqn:E;
    [|vm_compute in E; discriminate E].
  exact (RPDO_process_idempotent CONFIG_example
           (RPDO_running false [true; false]) R2 false memory_AB m2 E).
Defined.

(** X5 at a synchronous RPDO with the SYNC toggle clear. *)
Lemma RPDO_double_buffer_witness :
  exists R1,
    CO_PDO_receive CONFIG_example false (RPDO_running true [false; false])
                   false msg_example
    = Some (R1, false)
    /\ RPDO.CANrxNew R1 !! 0%nat = Some true
    /\ forall R2 m2,
         CO_RPDO_process CONFIG_example R1 true memory_AB = Some (R2, m2) ->
         RPDO.CANrxNew R2 !! 0%nat = Some true.
Proof.
  destruct (RPDO_double_buffer CONFIG_example false
              (RPDO_running true [false; false]) false msg_example memory_AB
              (mkSYNC false 0 0) eq_refl eq_refl eq_refl eq_refl eq_refl
              ltac:(simpl; lia) ltac:(vm_compute; discriminate)
              ltac:(simpl; lia) eq_refl eq_refl eq_refl)
    as (R1 & Hrx & Hflag & _ & Hheld & _).
  exists R1. split; [exact Hrx|]. split; [exact Hflag|].
  intros R2 m2 H. exact (proj1 (Hheld true R2 m2 H)).
Defined.

(** X6 at a TPDO whose transmit buffer holds zeros while A holds 0x1234,
    the first three bytes flagged. *)
Lemma TPDOisCOS_detects_flagged_changes_witness :
  CO_TPDOisCOS (TPDO_running CO_NMT_OPERATIONAL 255 0 0 255 0x07
                             (mkSYNC false 0 0)) memory_AB
  = Some 1.
Proof.
  destruct (TPDOisCOS_detects_flagged_changes
              (TPDO_running CO_NMT_OPERATIONAL 255 0 0 255 0x07
                            (mkSYNC false 0 0))
              memory_AB (mkCANtx (repeat 0 8) 0) eq_refl eq_refl eq_refl
              ltac:(simpl; lia)) as (r & Hr & _ & Hiff).
  rewrite Hr. f_equal. apply Hiff.
  exists 0%nat, (ODdata, 100), 0.
  split; [simpl; lia|]. split; [reflexivity|]. split; [reflexivity|].
  split; [vm_compute; discriminate | reflexivity].
Defined.

(** X7 at the same TPDO. *)
Lemma TPDOsend_then_isCOS_witness :
  exists T' m' r,
    CO_TPDOsend CONFIG_example
      (TPDO_running CO_NMT_OPERATIONAL 255 0 0 255 0x07 (mkSYNC false 0 0))
      memory_AB
    = Some (T', m', r)
    /\ CO_TPDOisCOS T' m' = Some 0.
Proof.
  destruct (TPDOsend_then_isCOS CONFIG_example
              (TPDO_running CO_NMT_OPERATIONAL 255 0 0 255 0x07
                            (mkSYNC false 0 0))
              memory_AB (mkCANtx (repeat 0 8) 0) eq_refl eq_refl eq_refl
              ltac:(simpl; lia)) as (T' & m' & r & Hsend & Hcos & _).
  exists T', m', r. split; [exact Hsend | exact Hcos].
Defined.

(** X8 at an event-driven TPDO (type 255) with a send requested. *)
Lemma TPDO_process_event_driven_witness :
  exists T' buff' tn',
    CO_TPDO_process CONFIG_example true
      (TPDO_running CO_NMT_OPERATIONAL 255 0 1 255 0 (mkSYNC false 0 0))
      false 1000 None memory_AB
    = Some (T', memory_AB, tn')
    /\ TPDO.CANtxBuff T' = Some buff'
    /\ tx_data buff' !! 0%nat = Some 0x34
    /\ TPDO.sendRequest T' = 0.
Proof.
  destruct (TPDO_process_event_driven CONFIG_example true
              (TPDO_running CO_NMT_OPERATIONAL 255 0 1 255 0
                            (mkSYNC false 0 0))
              false 1000 None memory_AB eq_refl eq_refl ltac:(simpl; lia)
              (TPDO_running_wf _ _ _ _ _ _ _)) as [Hdue _].
  destruct Hdue as (T' & buff' & tn' & Hrun & Hb & _ & Hcopy & Hreq & _).
  { split; [simpl; lia | left; simpl; discriminate]. }
  exists T', buff', tn'. split; [exact Hrun|]. split; [exact Hb|].
  split; [|exact Hreq].
  exact (Hcopy 0 (ODdata, 100) ltac:(simpl; lia) eq_refl).
Defined.

(** X9 at a pre-operational TPDO of type 255. *)
Lemma TPDO_first_tick_after_operational_witness :
  exists T1,
    CO_TPDO_process CONFIG_example true
      (TPDO_running CO_NMT_PRE_OPERATIONAL 255 0 0 255 0 (mkSYNC false 0 0))
      false 1000 None memory_AB
    = Some (T1, memory_AB, None)
    /\ TPDO.sendRequest T1 = 1
    /\ exists T2 buff' tn2',
         CO_TPDO_process CONFIG_example true
           (TPDO_set_operatingState CO_NMT_OPERATIONAL T1)
           false 1000 None memory_AB
         = Some (T2, memory_AB, tn2')
         /\ TPDO.CANtxBuff T2 = Some buff'.
Proof.
  destruct (TPDO_first_tick_after_operational CONFIG_example true
              (TPDO_running CO_NMT_PRE_OPERATIONAL 255 0 0 255 0
                            (mkSYNC false 0 0))
              false false 1000 1000 None None memory_AB memory_AB
              eq_refl ltac:(discriminate) ltac:(simpl; lia)
              (TPDO_running_wf _ _ _ _ _ _ _)
              ltac:(lia) ltac:(lia) ltac:(simpl; lia))
    as (T1 & H1 & _ & _ & Hreq & T2 & buff' & tn2' & H2 & Hb & _).
  exists T1. split; [exact H1|]. split; [exact Hreq|].
  exists T2, buff', tn2'. split; [exact H2 | exact Hb].
Defined.

(** X10 at a TPDO of type 0 with a send requested, at a SYNC tick, with
    and without SYNC support. *)
Lemma TPDO_process_sync_acyclic_witness :
  (exists T' buff',
      CO_TPDO_process CONFIG_example false
        (TPDO_running CO_NMT_OPERATIONAL 0 0 1 255 0 (mkSYNC false 0 0))
        true 1000 None memory_AB
      = Some (T', memory_AB, None)
      /\ CANlog (TPDO.CANdevTx T') = [CANsend_call buff']
      /\ tx_data buff' !! 0%nat = Some 0x34
      /\ TPDO.sendRequest T' = 0)
  /\ CO_TPDO_process CONFIG_noSYNC false
       (TPDO_running CO_NMT_OPERATIONAL 0 0 1 255 0 (mkSYNC false 0 0))
       true 1000 None memory_AB
     = Some (TPDO_running CO_NMT_OPERATIONAL 0 0 1 255 0 (mkSYNC false 0 0),
             memory_AB, None).
Proof.
  split.
  - destruct (TPDO_process_sync_acyclic CONFIG_example false
                (TPDO_running CO_NMT_OPERATIONAL 0 0 1 255 0
                              (mkSYNC false 0 0))
                true 1000 None memory_AB
                eq_refl eq_refl eq_refl (TPDO_running_wf _ _ _ _ _ _ _))
      as [Hsend _].
    destruct Hsend as (T' & buff' & Hrun & _ & Hlog & Hcopy & Hreq).
    { split; [reflexivity|]. split; [discriminate|].
      split; [reflexivity | simpl; discriminate]. }
    exists T', buff'. split; [exact Hrun|]. split; [exact Hlog|].
    split; [|exact Hreq].
    exact (Hcopy 0 (ODdata, 100) ltac:(simpl; lia) eq_refl).
  - destruct (TPDO_process_sync_acyclic CONFIG_noSYNC false
                (TPDO_running CO_NMT_OPERATIONAL 0 0 1 255 0
                              (mkSYNC false 0 0))
                true 1000 None memory_AB
                eq_refl eq_refl eq_refl (TPDO_running_wf _ _ _ _ _ _ _))
      as [_ Hidle].
    rewrite Hidle; [reflexivity|].
    intros (H & _). discriminate H.
Defined.

(** X11 at a TPDO of type 2 that starts synchronous transmission: nothing
    at the first SYNC tick, one frame at the second; nothing at all
    without SYNC support. *)
Lemma TPDO_cyclic_every_Nth_SYNC_witness :
  (exists T1,
      TPDO_SYNC_ticks CONFIG_example false [1000]
        (TPDO_running CO_NMT_OPERATIONAL 2 0 0 255 0 (mkSYNC false 0 0))
        memory_AB
      = Some (T1, memory_AB)
      /\ CANlog (TPDO.CANdevTx T1) = [])
  /\ (exists T' buff',
        TPDO_SYNC_ticks CONFIG_example false [1000; 1000]
          (TPDO_running CO_NMT_OPERATIONAL 2 0 0 255 0 (mkSYNC false 0 0))
          memory_AB
        = Some (T', memory_AB)
        /\ CANlog (TPDO.CANdevTx T') = [CANsend_call buff']
        /\ TPDO.syncCounter T' = 2)
  /\ (exists T',
        TPDO_SYNC_ticks CONFIG_noSYNC false [1000; 1000]
          (TPDO_running CO_NMT_OPERATIONAL 2 0 0 255 0 (mkSYNC false 0 0))
          memory_AB
        = Some (T', memory_AB)
        /\ CANlog (TPDO.CANdevTx T') = []).
Proof.
  assert (Hcyc : TPDO_cyclic
                   (TPDO_running CO_NMT_OPERATIONAL 2 0 0 255 0
                                 (mkSYNC false 0 0))
                   (mkSYNC false 0 0) 2).
  { split; [reflexivity|]. split; [reflexivity|]. split; [reflexivity|].
    split; [reflexivity|]. split; [lia|]. split; [left; reflexivity|].
    apply TPDO_running_wf. }
  destruct (TPDO_cyclic_every_Nth_SYNC CONFIG_example false
              (mkSYNC false 0 0) 2 [1000; 1000]
              (TPDO_running CO_NMT_OPERATIONAL 2 0 0 255 0
                            (mkSYNC false 0 0))
              memory_AB) as [Hsync _].
  destruct (Hsync eq_refl Hcyc ltac:(vm_compute; split; discriminate) eq_refl)
    as (Hpre & T' & buff' & Hrun & _ & Hlog & Hc & _).
  destruct (TPDO_cyclic_every_Nth_SYNC CONFIG_noSYNC false
              (mkSYNC false 0 0) 2 [1000; 1000]
              (TPDO_running CO_NMT_OPERATIONAL 2 0 0 255 0
                            (mkSYNC false 0 0))
              memory_AB) as [_ Hnone].
  destruct (Hnone eq_refl eq_refl eq_refl ltac:(lia)
                  ltac:(left; reflexivity))
    as (T0 & Hrun0 & Hdev0 & _).
  split; [|split].
  - destruct (Hpre 1%nat ltac:(simpl; lia)) as (T1 & H1 & Hdev1).
    exists T1. split; [exact H1|]. rewrite Hdev1. reflexivity.
  - exists T', buff'. split; [exact Hrun|]. split; [exact Hlog | exact Hc].
  - exists T0. split; [exact Hrun0|]. rewrite Hdev0. reflexivity.
Defined.

(** X12 at a count write to a valid RPDO, and at the write of a misaligned
    descriptor to an unmapped one. *)
Lemma ODF_map_write_guards_witness :
  (exists c,
      CO_ODF_RPDOmap ODA_example (RPDO_example MapPar_AB 0 true 3 0x200)
                     (ODF_write 0) (SDO_buffer 2)
      = (c, RPDO_example MapPar_AB 0 true 3 0x200, SDO_buffer 2))
  /\ fst (fst (CO_ODF_RPDOmap ODA_example
                 (RPDO_example MapPar_AB 0 false 0 0x200)
                 (ODF_write 1) (SDO_buffer 0x6001000C)))
     = CO_SDO_AB_NO_MAP.
Proof.
  split.
  - destruct (ODF_map_write_guards ODA_example
                (RPDO_example MapPar_AB 0 true 3 0x200)
                (TPDO_example MapPar_AB 0 true 3 0x180)
                (ODF_write 0) (SDO_buffer 2) eq_refl) as (HR & _).
    destruct (HR eq_refl) as (c & Hc & _). exists c. exact Hc.
  - destruct (ODF_map_write_guards ODA_example
                (RPDO_example MapPar_AB 0 false 0 0x200)
                (TPDO_example MapPar_AB 0 false 0 0x180)
                (ODF_write 1) (SDO_buffer 0x6001000C) eq_refl)
      as (_ & _ & Hsub).
    destruct (Hsub ltac:(discriminate)) as (_ & _ & HR & _).
    rewrite (HR (example_map_write_permitted _) eq_refl). reflexivity.
Defined.

(** X13 at the count 2 written over the mapping [A; B]. *)
Lemma ODF_map_count_write_witness :
  exists R',
    CO_ODF_RPDOmap ODA_example (RPDO_example MapPar_AB 0 false 0 0x200)
                   (ODF_write 0) (SDO_buffer 2)
    = (CO_SDO_AB_NONE, R', SDO_buffer 2)
    /\ RPDO.dataLength R' = 3.
Proof.
  destruct (ODF_map_count_write ODA_example
              (RPDO_example MapPar_AB 0 false 0 0x200)
              (TPDO_example MapPar_AB 0 false 0 0x180)
              (ODF_write 0) (SDO_buffer 2) eq_refl eq_refl) as [HR _].
  destruct (HR (example_map_write_permitted _) eq_refl)
    as (c & R' & Hrun & _ & Hle).
  destruct (Hle ltac:(vm_compute; discriminate)) as (Hiff & Hlen & _).
  assert (Hc : c = CO_SDO_AB_NONE).
  { apply Hiff. split; [repeat constructor | vm_compute; discriminate]. }
  subst c. exists R'. split; [exact Hrun | exact Hlen].
Defined.

(** X14 at a null object pointer, and at the mapping [A; B] with COB-ID
    0x200. *)
Lemma RPDO_init_outcome_witness :
  CO_RPDO_init ODA_example CONFIG_example CO_OD_configure_example
    None (Some []) (Some SDO_example) None (Some CO_NMT_INITIALIZING)
    1 0x200 0 (Some (mkRPDOCommPar 0x200 255)) (Some MapPar_AB)
    0x1400 0x1600 (Some CAN_example) 0
  = (CO_ERROR_ILLEGAL_ARGUMENT, None)
  /\ exists R,
      CO_RPDO_init ODA_example CONFIG_example CO_OD_configure_example
        (Some (RPDO_example MapPar_AB 0 false 0 0)) (Some [])
        (Some SDO_example) None (Some CO_NMT_INITIALIZING)
        1 0x200 0 (Some (mkRPDOCommPar 0x200 255)) (Some MapPar_AB)
        0x1400 0x1600 (Some CAN_example) 0
      = (CO_ERROR_NO, Some R)
      /\ RPDO.valid R = true.
Proof.
  destruct (RPDO_init_outcome ODA_example CONFIG_example
              CO_OD_configure_example None 1 0x200 0 0x1400 0x1600 0)
    as [Hnull Hok].
  split.
  - apply Hnull. left. reflexivity.
  - destruct (Hok (RPDO_example MapPar_AB 0 false 0 0) [] SDO_example
                  CO_NMT_INITIALIZING (mkRPDOCommPar 0x200 255) MapPar_AB
                  CAN_example) as (R & Hrun & _ & _ & _ & Hvalid).
    exists R. split; [exact Hrun|].
    apply Hvalid.
    + intros ident. reflexivity.
    + split; [repeat constructor | vm_compute; discriminate].
    + split; [apply land_BFFFF800_clear; reflexivity|].
      split; vm_compute; discriminate.
Defined.

(** X15 at a null SDO server pointer, and at the mapping [A; B] with COB-ID
    0x180, type 255 and an event timer of 100 ms. *)
Lemma TPDO_init_outcome_witness :
  CO_TPDO_init ODA_example CONFIG_example CO_OD_configure_example
    (Some (TPDO_example MapPar_AB 0 false 0 0)) (Some []) None None
    (Some CO_NMT_INITIALIZING) 1 0x180 0
    (Some (mkTPDOCommPar 0x180 255 0 100 0)) (Some MapPar_AB)
    0x1800 0x1A00 (Some CAN_example) 0
  = (CO_ERROR_ILLEGAL_ARGUMENT, Some (TPDO_example MapPar_AB 0 false 0 0))
  /\ exists T,
      CO_TPDO_init ODA_example CONFIG_example CO_OD_configure_example
        (Some (TPDO_example MapPar_AB 0 false 0 0)) (Some [])
        (Some SDO_example) None (Some CO_NMT_INITIALIZING) 1 0x180 0
        (Some (mkTPDOCommPar 0x180 255 0 100 0)) (Some MapPar_AB)
        0x1800 0x1A00 (Some CAN_example) 0
      = (CO_ERROR_NO, Some T)
      /\ TPDO.valid T = true
      /\ TPDO.eventTimer T = 100000
      /\ TPDO.sendRequest T = 1.
Proof.
  destruct (TPDO_init_outcome ODA_example CONFIG_example
              CO_OD_configure_example None 1 0x180 0 0x1800 0x1A00 0)
    as [Hnull Hok].
  split.
  - apply Hnull. right. right. left. reflexivity.
  - destruct (Hok (TPDO_example MapPar_AB 0 false 0 0) [] SDO_example
                  CO_NMT_INITIALIZING (mkTPDOCommPar 0x180 255 0 100 0)
                  MapPar_AB CAN_example)
      as (T & Hrun & _ & Hev & Hreq & _ & _ & Hvalid).
    exists T. split; [exact Hrun|]. split; [|split; [exact Hev | exact Hreq]].
    apply Hvalid.
    + intros ident n sync. discriminate.
    + split; [repeat constructor | vm_compute; discriminate].
    + split; [apply land_BFFFF800_clear; reflexivity|].
      split; vm_compute; discriminate.
    + split; [right; simpl; lia | simpl; lia].
Defined.

(** X16 at the write of 0x201 (default COB-ID 0x200 plus node ID 1): 0x200
    is left for storage, 0x201 is read back. *)
Lemma COB_ID_write_then_read_witness :
  exists R' m1 m3,
    CO_ODF_RPDOcom CONFIG_example (RPDO_example MapPar_AB 0 false 3 0x200)
                   (ODF_write 1) (SDO_buffer 0x201)
    = (CO_SDO_AB_NONE, R', m1)
    /\ CO_getUint32 m1 (SDObuffer, 0) = 0x200
    /\ CO_ODF_RPDOcom CONFIG_example R' (ODF_read 1) m1
       = (CO_SDO_AB_NONE, R', m3)
    /\ CO_getUint32 m3 (SDObuffer, 0) = 0x201.
Proof.
  destruct (CO_ODF_RPDOcom CONFIG_example
              (RPDO_example MapPar_AB 0 false 3 0x200)
              (ODF_write 1) (SDO_buffer 0x201)) as [[c R'] m1] eqn:E.
  assert (Hc : c = CO_SDO_AB_NONE).
  { apply (f_equal (fun x => fst (fst x))) in E. vm_compute in E.
    symmetry. exact E. }
  subst c.
  assert (Hv : RPDO.valid R' = true).
  { apply (f_equal (fun x => RPDO.valid (snd (fst x)))) in E.
    vm_compute in E. symmetry. exact E. }
  assert (Hm1 : CO_getUint32 m1 (SDObuffer, 0) = 0x200).
  { apply (f_equal (fun x => CO_getUint32 (snd x) (SDObuffer, 0))) in E.
    vm_compute in E. symmetry. exact E. }
  destruct (COB_ID_write_then_read CONFIG_example
              (RPDO_example MapPar_AB 0 false 3 0x200) R'
              (TPDO_example MapPar_AB 0 false 3 0x180)
              (TPDO_example MapPar_AB 0 false 3 0x180)
              (ODF_write 1) (ODF_read 1) (SDO_buffer 0x201) m1 m1
              eq_refl eq_refl eq_refl eq_refl eq_refl) as [HR _].
  destruct (HR ltac:(simpl; lia) ltac:(simpl; lia) E) as (m3 & Hrd & Hval).
  exists R', m1, m3. split; [reflexivity|]. split; [exact Hm1|].
  split; [exact Hrd|].
  change (SDObuffer, 0) with (data (ODF_read 1)).
  rewrite Hval, Hv. reflexivity.
Defined.

(** X17 at the mapping [A; B]. *)
Lemma configMap_layout_witness :
  take 3 (RPDO.mapPointer
            (fst (CO_RPDOconfigMap ODA_example
                    (RPDO_example MapPar_AB 0 false 0 0) 2)))
  = [(ODdata, 100); (ODdata, 101); (ODdata, 200)]
  /\ take 3 (TPDO.mapPointer
               (fst (CO_TPDOconfigMap ODA_example
                       (TPDO_example MapPar_AB 0 false 0 0) 2)))
     = [(ODdata, 100); (ODdata, 101); (ODdata, 200)].
Proof.
  destruct (configMap_layout ODA_example
              (RPDO_example MapPar_AB 0 false 0 0)
              (TPDO_example MapPar_AB 0 false 0 0) 2) as [HR HT].
  split.
  - destruct HR as (_ & H & _);
      [split; [repeat constructor | vm_compute; discriminate]
      | reflexivity |].
    exact H.
  - destruct HT as (_ & H & _);
      [split; [repeat constructor | vm_compute; discriminate]
      | reflexivity |].
    exact H.
Defined.

(** X18 at the mapping [A; B] with change-of-state detection on A: bits 0
    and 1 are set, bit 2 is clear. *)
Lemma TPDOconfigMap_COS_flags_witness :
  TPDO.sendIfCOSFlags (fst (CO_TPDOconfigMap ODA_example TPDO_example_COS 2))
  = 3
  /\ Z.testbit
       (TPDO.sendIfCOSFlags
          (fst (CO_TPDOconfigMap ODA_example TPDO_example_COS 2))) 2
     = false.
Proof.
  destruct (TPDOconfigMap_COS_flags ODA_example TPDO_example_COS 2)
    as [_ Hbits];
    [split; [repeat constructor | vm_compute; discriminate] | reflexivity |].
  split; [reflexivity|].
  exact (Hbits 2%nat).
Defined.

(** X19 at the mapping [A; B] with A = 0x1234 and B = 0x56. *)
Lemma TPDO_mapped_frame_witness :
  exists T' PDOdata,
    CO_TPDOsend CONFIG_example
      (fst (CO_TPDOconfigMap ODA_example
              (TPDO_example MapPar_AB 0 true 0 0x180) 2)) memory_AB
    = Some (T', memory_AB, CO_ERROR_NO)
    /\ CANlog (TPDO.CANdevTx T') = [CANsend_call (mkCANtx PDOdata 0)]
    /\ PDOdata !! 0%nat = Some 0x34
    /\ PDOdata !! 2%nat = Some 0x56
    /\ PDOdata !! 3%nat = Some 0.
Proof.
  destruct (TPDO_mapped_frame ODA_example CONFIG_example
              (TPDO_example MapPar_AB 0 true 0 0x180) 2 memory_AB
              (mkCANtx (repeat 0 8) 0) eq_refl eq_refl eq_refl)
    as (T' & PDOdata & Hrun & _ & Hlog & _ & Hcopy & Hkeep).
  { split; [repeat constructor | vm_compute; discriminate]. }
  exists T', PDOdata. split; [exact Hrun|]. split; [exact Hlog|].
  split; [exact (Hcopy 0%nat (ODdata, 100) eq_refl)|].
  split; [exact (Hcopy 2%nat (ODdata, 200) eq_refl)|].
  exact (Hkeep 3%nat ltac:(simpl; lia)).
Defined.

(** X20 at an event-driven TPDO and a hint of 5000 us. *)
Lemma TPDO_process_timerNext_witness :
  match CO_TPDO_process CONFIG_example true
          (TPDO_running CO_NMT_OPERATIONAL 255 0 1 255 0 (mkSYNC false 0 0))
          false 1000 (Some 5000) memory_AB with
  | Some (_, _, Some t') => t' <= 5000
  | _ => False
  end.
Proof.
  destruct (CO_TPDO_process CONFIG_example true
              (TPDO_running CO_NMT_OPERATIONAL 255 0 1 255 0
                            (mkSYNC false 0 0))
              false 1000 (Some 5000) memory_AB)
    as [[[T' m'] tn']|] eqn:E; [|vm_compute in E; discriminate E].
  pose proof (TPDO_process_timerNext CONFIG_example true
                (TPDO_running CO_NMT_OPERATIONAL 255 0 1 255 0
                              (mkSYNC false 0 0))
                T' false 1000 (Some 5000) tn' memory_AB m' E) as H.
  cbv beta iota in H. destruct H as (t' & -> & Hle & _). exact Hle.
Defined.

(** X21 at a cyclic TPDO with SYNC start value 3: SYNC counter 1 is waited
    out, SYNC counter 3 starts the transmission. *)
Lemma TPDO_sync_start_value_witness :
  CO_TPDO_process CONFIG_example false
    (TPDO_running CO_NMT_OPERATIONAL 2 3 0 255 0 (mkSYNC false 10 1))
    true 1000 None memory_AB
  = Some (TPDO_running CO_NMT_OPERATIONAL 2 3 0 254 0 (mkSYNC false 10 1),
          memory_AB, None)
  /\ exists T' buff',
      CO_TPDO_process CONFIG_example false
        (TPDO_running CO_NMT_OPERATIONAL 2 3 0 254 0 (mkSYNC false 10 3))
        true 1000 None memory_AB
      = Some (T', memory_AB, None)
      /\ TPDO.CANtxBuff T' = Some buff'
      /\ TPDO.syncCounter T' = 2.
Proof.
  split.
  - destruct (TPDO_sync_start_value CONFIG_example false
                (TPDO_running CO_NMT_OPERATIONAL 2 3 0 255 0
                              (mkSYNC false 10 1))
                (mkSYNC false 10 1) 2 1000 None memory_AB
                eq_refl eq_refl eq_refl eq_refl eq_refl
                ltac:(lia) (TPDO_running_wf _ _ _ _ _ _ _)
                ltac:(simpl; discriminate) ltac:(simpl; discriminate)
                ltac:(left; reflexivity)) as [Hwait _].
    rewrite (Hwait ltac:(simpl; discriminate)). reflexivity.
  - destruct (TPDO_sync_start_value CONFIG_example false
                (TPDO_running CO_NMT_OPERATIONAL 2 3 0 254 0
                              (mkSYNC false 10 3))
                (mkSYNC false 10 3) 2 1000 None memory_AB
                eq_refl eq_refl eq_refl eq_refl eq_refl
                ltac:(lia) (TPDO_running_wf _ _ _ _ _ _ _)
                ltac:(simpl; discriminate) ltac:(simpl; discriminate)
                ltac:(right; reflexivity)) as [_ Hsend].
    destruct (Hsend eq_refl) as (T' & buff' & Hrun & Hb & _ & _ & Hc).
    exists T', buff'. split; [exact Hrun|]. split; [exact Hb | exact Hc].
Defined.

(** X22 at a COB-ID read of an RPDO and a read of sub-index 4 of a TPDO. *)
Lemma ODF_read_keeps_object_witness :
  (exists m',
      CO_ODF_RPDOcom CONFIG_example (RPDO_example MapPar_AB 0 false 3 0x200)
                     (ODF_read 1) (SDO_buffer 0x200)
      = (CO_SDO_AB_NONE, RPDO_example MapPar_AB 0 false 3 0x200, m')
      /\ load m' (ODdata, 100) = 0)
  /\ option_map (fun r => fst (fst r))
       (CO_ODF_TPDOcom CONFIG_example (TPDO_example MapPar_AB 0 false 3 0x180)
                       (ODF_read 4) (SDO_buffer 0))
     = Some CO_SDO_AB_SUB_UNKNOWN.
Proof.
  destruct (ODF_read_keeps_object ODA_example CONFIG_example
              (RPDO_example MapPar_AB 0 false 3 0x200)
              (TPDO_example MapPar_AB 0 false 3 0x180)
              (ODF_read 1) (SDO_buffer 0x200) eq_refl)
    as ((m' & Hrun & Hin & _) & _).
  destruct (ODF_read_keeps_object ODA_example CONFIG_example
              (RPDO_example MapPar_AB 0 false 3 0x200)
              (TPDO_example MapPar_AB 0 false 3 0x180)
              (ODF_read 4) (SDO_buffer 0) eq_refl)
    as (_ & (m4 & Hrun4 & _) & _).
  split.
  - exists m'. split; [exact Hrun|].
    rewrite (Hin (ODdata, 100)); [reflexivity|].
    intros k _. discriminate.
  - rewrite Hrun4. reflexivity.
Defined.

(** X23 at the write of type 1 to a non-synchronous RPDO with a frame in
    the second buffer, and to a TPDO without SYNC support. *)
Lemma transmission_type_write_witness :
  (exists R',
      CO_ODF_RPDOcom CONFIG_example
        (RPDO.set_CANrxNew [false; true]
           (RPDO_example MapPar_AB 0 true 3 0x200))
        (ODF_write 2) (SDO_buffer 1)
      = (CO_SDO_AB_NONE, R', SDO_buffer 1)
      /\ RPDO.synchronous R' = true
      /\ RPDO.CANrxNew R' = [false; false])
  /\ CO_ODF_TPDOcom CONFIG_noSYNC (TPDO_example MapPar_AB 0 true 3 0x180)
                    (ODF_write 2) (SDO_buffer 1)
     = Some (CO_SDO_AB_INVALID_VALUE, TPDO_example MapPar_AB 0 true 3 0x180,
             SDO_buffer 1).
Proof.
  split.
  - destruct (transmission_type_write CONFIG_example
                (RPDO.set_CANrxNew [false; true]
                   (RPDO_example MapPar_AB 0 true 3 0x200))
                (TPDO_example MapPar_AB 0 true 3 0x180)
                (ODF_write 2) (SDO_buffer 1) (mkCANtx (repeat 0 8) 0)
                eq_refl eq_refl) as [HR _].
    destruct (HR (example_write_permitted _)) as [Hsync _].
    destruct (Hsync eq_refl ltac:(left; vm_compute; discriminate))
      as (R' & Hrun & Hs & Hnew & _).
    exists R'. split; [exact Hrun|]. split; [exact Hs | exact Hnew].
  - destruct (transmission_type_write CONFIG_noSYNC
                (RPDO_example MapPar_AB 0 true 3 0x200)
                (TPDO_example MapPar_AB 0 true 3 0x180)
                (ODF_write 2) (SDO_buffer 1) (mkCANtx (repeat 0 8) 0)
                eq_refl eq_refl) as [_ HT].
    destruct (HT (example_write_permitted _)) as [_ Hno].
    rewrite (Hno eq_refl). reflexivity.
Defined.

(** X24 at a transmission-type write to a valid RPDO, and at a count write
    to an invalid one. *)
Lemma validity_changes_only_by_COB_ID_write_witness :
  RPDO.valid
    (snd (fst (CO_ODF_RPDOcom CONFIG_example
                 (RPDO_example MapPar_AB 0 true 3 0x200)
                 (ODF_write 2) (SDO_buffer 1))))
  = true
  /\ RPDO.valid
       (snd (fst (CO_ODF_RPDOmap ODA_example
                    (RPDO_example MapPar_AB 0 false 0 0x200)
                    (ODF_write 0) (SDO_buffer 2))))
     = false.
Proof.
  split.
  - destruct (validity_changes_only_by_COB_ID_write ODA_example
                CONFIG_example (RPDO_example MapPar_AB 0 true 3 0x200)
                (TPDO_example MapPar_AB 0 true 3 0x180)
                (ODF_write 2) (SDO_buffer 1)) as [HR _].
    destruct (HR ltac:(right; discriminate)) as [Hv _].
    rewrite Hv. reflexivity.
  - destruct (validity_changes_only_by_COB_ID_write ODA_example
                CONFIG_example (RPDO_example MapPar_AB 0 false 0 0x200)
                (TPDO_example MapPar_AB 0 false 0 0x180)
                (ODF_write 0) (SDO_buffer 2)) as (_ & _ & [Hv _] & _).
    rewrite Hv. reflexivity.
Defined.
